(** * Pairwise aligner ([Bio/Align/_pairwisealigner.c]): a shallow embedding

    The development follows the C source: the scoring model ([Aligner]) with
    its accessors, the forward passes that are written as macros in the
    source, the trace cells and the path counter / path generator, and the
    two entry points [Aligner_score] and [Aligner_align].

    C [double] is IEEE binary64; it is modelled by Rocq's primitive floats,
    so that [x + y], [x * y], [x > y] and [x == y] are the machine
    operations.  C [int] and [Py_ssize_t] values are modelled by [Z] (with
    the conversion written out where the source narrows), loop counters
    and array indices by [nat], heap arrays by lists updated in place. *)

From Stdlib Require Import ZArith Floats Lia Bool String Ascii.
From stdpp Require Import base list.

Local Open Scope Z_scope.

(** ** Machine numbers *)

Definition double : Type := float.
Bind Scope float_scope with double.

#[global] Instance double_inhabited : Inhabited double := populate 0%float.

(** The C comparisons on doubles. [fgt a b] is [a > b], [flt a b] is
    [a < b], [fge a b] is [a >= b], [feqb a b] is [a == b] and [fneb a b]
    is [a != b]; all are false on NaN except [!=]. *)
Definition fgt (a b : double) : bool := (b <? a)%float.
Definition flt (a b : double) : bool := (a <? b)%float.
Definition fge (a b : double) : bool := (b <=? a)%float.
Definition feqb (a b : double) : bool := (a =? b)%float.
Definition fneb (a b : double) : bool := negb (feqb a b).

(** Conversion of a C [int] to [double] (exact for every 32-bit value). *)
Definition double_of_int (z : Z) : double :=
  if (z <? 0)%Z then (- PrimFloat.of_uint63 (Uint63.of_Z (- z)))%float
  else PrimFloat.of_uint63 (Uint63.of_Z z).

Definition double_of_nat (n : nat) : double := double_of_int (Z.of_nat n).

(** [DBL_MAX] of <float.h>. *)
Definition DBL_MAX : double := 0x1.fffffffffffffp+1023%float.

Definition INT_MAX : Z := 2147483647.
Definition INT_MIN : Z := -2147483648.

(** The narrowing conversion [(int) x] of a [Py_ssize_t] (two's complement
    wrap-around, as on every platform CPython supports). *)
Definition int_of_ssize_t (x : Z) : Z :=
  (x + 2147483648) mod 4294967296 - 2147483648.

(** [Py_ssize_t] is the signed machine word; the model takes the 64-bit one. *)
Definition PY_SSIZE_T_MAX : Z := 9223372036854775807.
Definition PY_SSIZE_T_MIN : Z := -9223372036854775808.

Definition sizeof_int : Z := 4.
Definition sizeof_double : Z := 8.

(** ** Constants of the source *)

Definition STARTPOINT : Z := 0x8.
Definition ENDPOINT : Z := 0x10.
Definition M_MATRIX : Z := 0x1.
Definition Ix_MATRIX : Z := 0x2.
Definition Iy_MATRIX : Z := 0x4.
Definition DONE : Z := 0x3.
Definition NONE : Z := 0x7.

Definition OVERFLOW_ERROR : Z := -1.
Definition MEMORY_ERROR : Z := -2.
Definition OTHER_ERROR : Z := -3.

(** Modelled from the spec: the header [_pairwisealigner.h], which declares
    the three direction bits, the enumerations [Mode] and [Algorithm] and
    the [Aligner] structure, is not among the sources.  The spec lists
    DIAGONAL, HORIZONTAL and VERTICAL as members of the 5-bit trace set
    beside STARTPOINT (0x8) and ENDPOINT (0x10) and as the values of the
    3-bit path field; the source adds that
    [DIAGONAL + HORIZONTAL + VERTICAL = 7] and tests [type <= 4] for "one
    of the three directions", so the three are the bits 1, 2 and 4. *)
Definition HORIZONTAL : Z := 0x1.
Definition VERTICAL : Z := 0x2.
Definition DIAGONAL : Z := 0x4.

(** Modelled from the spec: declared in [_pairwisealigner.h] (see above);
    the spec's data model names the three modes. *)
Inductive Mode : Type := Global | Local | FOGSAA_Mode.

(** Modelled from the spec: declared in [_pairwisealigner.h] (see above);
    the four algorithms of the selection rule, and [Unknown] for a memo
    that has not been derived. *)
Inductive Algorithm : Type :=
| NeedlemanWunschSmithWaterman
| Gotoh
| WatermanSmithBeyer
| FOGSAA
| Unknown.

Definition Algorithm_eqb (a b : Algorithm) : bool :=
  match a, b with
  | NeedlemanWunschSmithWaterman, NeedlemanWunschSmithWaterman
  | Gotoh, Gotoh
  | WatermanSmithBeyer, WatermanSmithBeyer
  | FOGSAA, FOGSAA
  | Unknown, Unknown => true
  | _, _ => false
  end.

Definition Mode_eqb (a b : Mode) : bool :=
  match a, b with
  | Global, Global | Local, Local | FOGSAA_Mode, FOGSAA_Mode => true
  | _, _ => false
  end.

(** ** Python values seen by the module *)

(** A buffer view ([Py_buffer]). [buf] is an untyped pointer in C: [ibuf k]
    is [((int* )buf)[k]] and [dbuf k] is [((double* )buf)[k]]; [len] is the
    size in bytes. *)
Record Py_buffer : Type := Build_Py_buffer {
  ibuf : Z -> Z;
  dbuf : Z -> double;
  len : Z;
  itemsize : Z;
  ndim : Z;
  format : string;
  shape : list Z
}.

(** The Python objects that reach the module, by what the C API calls used
    in the source can observe of them.
    - [PyFloat d]: an object [PyFloat_AsDouble] converts to [d];
    - [PyUnicode s]: a string, by its code points;
    - [PyCallable id f]: a callable ([id] stands for the pointer); [f i j]
      is what calling it with two ints returns, [None] when it raises;
    - [PyBufferObject v m]: an object exporting the buffer [v]; [m] is the
      letter mapping when the object is an [Array] of
      [substitution_matrices/_arraycore.h] whose mapping buffer is set;
    - [PyOther]: anything else. *)
#[warnings="-register-all"] Inductive PyObject : Type :=
| Py_None
| PyFloat (d : double)
| PyUnicode (s : list Z)
| PyCallable (id : positive) (f : Z -> Z -> option PyObject)
| PyBufferObject (view : Py_buffer) (mapping : option Py_buffer)
| PyOther.

(** Exceptions set by the source (the formatted messages keep their
    arguments). [Propagated] is an exception raised inside a C API call or
    user code and passed on unchanged. *)
Inductive PyErr : Type :=
| ValueError (msg : string)
| TypeError (msg : string)
| RuntimeError (msg : string)
| OverflowError (msg : string)
| MemoryError
| ItemNegative (i index : Z)
| ItemOutOfBound (i index m : Z)
| IncorrectRank (ndim : Z)
| IncorrectDataType (fmt : string)
| UnexpectedItemSize (size : Z)
| NotSquare (rows cols : Z)
| Propagated.

Inductive PyResult (T : Type) : Type :=
| Ok (v : T)
| Err (e : PyErr).
Arguments Ok {T}.
Arguments Err {T}.

Definition PyFloat_AsDouble (value : PyObject) : option double :=
  match value with
  | PyFloat d => Some d
  | _ => None
  end.

Definition PyCallable_Check (value : PyObject) : bool :=
  match value with
  | PyCallable _ _ => true
  | _ => false
  end.

Definition PyObject_CallFunction (function : PyObject) (i j : Z) : option PyObject :=
  match function with
  | PyCallable _ f => f i j
  | _ => None
  end.

(** [p != NULL] for an object slot. *)
Definition non_null {A : Type} (p : option A) : bool :=
  match p with
  | Some _ => true
  | None => false
  end.

(** Pointer comparison of two object slots ([NULL] is [None]). *)
Definition same_object (a b : option PyObject) : bool :=
  match a, b with
  | None, None => true
  | Some (PyCallable i _), Some (PyCallable j _) => Pos.eqb i j
  | Some Py_None, Some Py_None => true
  | _, _ => false
  end.

Definition codes (s : string) : list Z :=
  List.map (fun c => Z.of_nat (nat_of_ascii c)) (list_ascii_of_string s).

Definition PyUnicode_CompareWithASCIIString (s : list Z) (t : string) : bool :=
  bool_decide (s = codes t).

(** The view and the letter mapping of an installed substitution matrix. *)
Record Matrix : Type := Build_Matrix {
  view : Py_buffer;
  mapping : option Py_buffer
}.

(** ** The scoring model *)

(** Modelled from the spec: the structure is declared in
    [_pairwisealigner.h] (see above); the fields are those that
    [Aligner_init] initialises, under the names the source uses
    ([match] is written [match_]). *)
Record Aligner : Type := Build_Aligner {
  mode : Mode;
  match_ : double;
  mismatch : double;
  epsilon : double;
  open_internal_insertion_score : double;
  extend_internal_insertion_score : double;
  open_internal_deletion_score : double;
  extend_internal_deletion_score : double;
  open_left_insertion_score : double;
  extend_left_insertion_score : double;
  open_right_insertion_score : double;
  extend_right_insertion_score : double;
  open_left_deletion_score : double;
  extend_left_deletion_score : double;
  open_right_deletion_score : double;
  extend_right_deletion_score : double;
  insertion_score_function : option PyObject;
  deletion_score_function : option PyObject;
  substitution_matrix : option Matrix;
  algorithm : Algorithm;
  alphabet : option PyObject;
  wildcard : Z
}.

(** Assignment to one field, [self->field = v]. *)
Definition set_mode (v : Mode) (self : Aligner) : Aligner :=
  let 'Build_Aligner f0 f1 f2 f3 f4 f5 f6 f7 f8 f9 f10 f11 f12 f13 f14 f15 f16 f17 f18 f19 f20 f21 := self in
  Build_Aligner v f1 f2 f3 f4 f5 f6 f7 f8 f9 f10 f11 f12 f13 f14 f15 f16 f17 f18 f19 f20 f21.
Definition set_match_ (v : double) (self : Aligner) : Aligner :=
  let 'Build_Aligner f0 f1 f2 f3 f4 f5 f6 f7 f8 f9 f10 f11 f12 f13 f14 f15 f16 f17 f18 f19 f20 f21 := self in
  Build_Aligner f0 v f2 f3 f4 f5 f6 f7 f8 f9 f10 f11 f12 f13 f14 f15 f16 f17 f18 f19 f20 f21.
Definition set_mismatch (v : double) (self : Aligner) : Aligner :=
  let 'Build_Aligner f0 f1 f2 f3 f4 f5 f6 f7 f8 f9 f10 f11 f12 f13 f14 f15 f16 f17 f18 f19 f20 f21 := self in
  Build_Aligner f0 f1 v f3 f4 f5 f6 f7 f8 f9 f10 f11 f12 f13 f14 f15 f16 f17 f18 f19 f20 f21.
Definition set_epsilon (v : double) (self : Aligner) : Aligner :=
  let 'Build_Aligner f0 f1 f2 f3 f4 f5 f6 f7 f8 f9 f10 f11 f12 f13 f14 f15 f16 f17 f18 f19 f20 f21 := self in
  Build_Aligner f0 f1 f2 v f4 f5 f6 f7 f8 f9 f10 f11 f12 f13 f14 f15 f16 f17 f18 f19 f20 f21.
Definition set_open_internal_insertion_score (v : double) (self : Aligner) : Aligner :=
  let 'Build_Aligner f0 f1 f2 f3 f4 f5 f6 f7 f8 f9 f10 f11 f12 f13 f14 f15 f16 f17 f18 f19 f20 f21 := self in
  Build_Aligner f0 f1 f2 f3 v f5 f6 f7 f8 f9 f10 f11 f12 f13 f14 f15 f16 f17 f18 f19 f20 f21.
Definition set_extend_internal_insertion_score (v : double) (self : Aligner) : Aligner :=
  let 'Build_Aligner f0 f1 f2 f3 f4 f5 f6 f7 f8 f9 f10 f11 f12 f13 f14 f15 f16 f17 f18 f19 f20 f21 := self in
  Build_Aligner f0 f1 f2 f3 f4 v f6 f7 f8 f9 f10 f11 f12 f13 f14 f15 f16 f17 f18 f19 f20 f21.
Definition set_open_internal_deletion_score (v : double) (self : Aligner) : Aligner :=
  let 'Build_Aligner f0 f1 f2 f3 f4 f5 f6 f7 f8 f9 f10 f11 f12 f13 f14 f15 f16 f17 f18 f19 f20 f21 := self in
  Build_Aligner f0 f1 f2 f3 f4 f5 v f7 f8 f9 f10 f11 f12 f13 f14 f15 f16 f17 f18 f19 f20 f21.
Definition set_extend_internal_deletion_score (v : double) (self : Aligner) : Aligner :=
  let 'Build_Aligner f0 f1 f2 f3 f4 f5 f6 f7 f8 f9 f10 f11 f12 f13 f14 f15 f16 f17 f18 f19 f20 f21 := self in
  Build_Aligner f0 f1 f2 f3 f4 f5 f6 v f8 f9 f10 f11 f12 f13 f14 f15 f16 f17 f18 f19 f20 f21.
Definition set_open_left_insertion_score (v : double) (self : Aligner) : Aligner :=
  let 'Build_Aligner f0 f1 f2 f3 f4 f5 f6 f7 f8 f9 f10 f11 f12 f13 f14 f15 f16 f17 f18 f19 f20 f21 := self in
  Build_Aligner f0 f1 f2 f3 f4 f5 f6 f7 v f9 f10 f11 f12 f13 f14 f15 f16 f17 f18 f19 f20 f21.
Definition set_extend_left_insertion_score (v : double) (self : Aligner) : Aligner :=
  let 'Build_Aligner f0 f1 f2 f3 f4 f5 f6 f7 f8 f9 f10 f11 f12 f13 f14 f15 f16 f17 f18 f19 f20 f21 := self in
  Build_Aligner f0 f1 f2 f3 f4 f5 f6 f7 f8 v f10 f11 f12 f13 f14 f15 f16 f17 f18 f19 f20 f21.
Definition set_open_right_insertion_score (v : double) (self : Aligner) : Aligner :=
  let 'Build_Aligner f0 f1 f2 f3 f4 f5 f6 f7 f8 f9 f10 f11 f12 f13 f14 f15 f16 f17 f18 f19 f20 f21 := self in
  Build_Aligner f0 f1 f2 f3 f4 f5 f6 f7 f8 f9 v f11 f12 f13 f14 f15 f16 f17 f18 f19 f20 f21.
Definition set_extend_right_insertion_score (v : double) (self : Aligner) : Aligner :=
  let 'Build_Aligner f0 f1 f2 f3 f4 f5 f6 f7 f8 f9 f10 f11 f12 f13 f14 f15 f16 f17 f18 f19 f20 f21 := self in
  Build_Aligner f0 f1 f2 f3 f4 f5 f6 f7 f8 f9 f10 v f12 f13 f14 f15 f16 f17 f18 f19 f20 f21.
Definition set_open_left_deletion_score (v : double) (self : Aligner) : Aligner :=
  let 'Build_Aligner f0 f1 f2 f3 f4 f5 f6 f7 f8 f9 f10 f11 f12 f13 f14 f15 f16 f17 f18 f19 f20 f21 := self in
  Build_Aligner f0 f1 f2 f3 f4 f5 f6 f7 f8 f9 f10 f11 v f13 f14 f15 f16 f17 f18 f19 f20 f21.
Definition set_extend_left_deletion_score (v : double) (self : Aligner) : Aligner :=
  let 'Build_Aligner f0 f1 f2 f3 f4 f5 f6 f7 f8 f9 f10 f11 f12 f13 f14 f15 f16 f17 f18 f19 f20 f21 := self in
  Build_Aligner f0 f1 f2 f3 f4 f5 f6 f7 f8 f9 f10 f11 f12 v f14 f15 f16 f17 f18 f19 f20 f21.
Definition set_open_right_deletion_score (v : double) (self : Aligner) : Aligner :=
  let 'Build_Aligner f0 f1 f2 f3 f4 f5 f6 f7 f8 f9 f10 f11 f12 f13 f14 f15 f16 f17 f18 f19 f20 f21 := self in
  Build_Aligner f0 f1 f2 f3 f4 f5 f6 f7 f8 f9 f10 f11 f12 f13 v f15 f16 f17 f18 f19 f20 f21.
Definition set_extend_right_deletion_score (v : double) (self : Aligner) : Aligner :=
  let 'Build_Aligner f0 f1 f2 f3 f4 f5 f6 f7 f8 f9 f10 f11 f12 f13 f14 f15 f16 f17 f18 f19 f20 f21 := self in
  Build_Aligner f0 f1 f2 f3 f4 f5 f6 f7 f8 f9 f10 f11 f12 f13 f14 v f16 f17 f18 f19 f20 f21.
Definition set_insertion_score_function (v : option PyObject) (self : Aligner) : Aligner :=
  let 'Build_Aligner f0 f1 f2 f3 f4 f5 f6 f7 f8 f9 f10 f11 f12 f13 f14 f15 f16 f17 f18 f19 f20 f21 := self in
  Build_Aligner f0 f1 f2 f3 f4 f5 f6 f7 f8 f9 f10 f11 f12 f13 f14 f15 v f17 f18 f19 f20 f21.
Definition set_deletion_score_function (v : option PyObject) (self : Aligner) : Aligner :=
  let 'Build_Aligner f0 f1 f2 f3 f4 f5 f6 f7 f8 f9 f10 f11 f12 f13 f14 f15 f16 f17 f18 f19 f20 f21 := self in
  Build_Aligner f0 f1 f2 f3 f4 f5 f6 f7 f8 f9 f10 f11 f12 f13 f14 f15 f16 v f18 f19 f20 f21.
Definition set_substitution_matrix (v : option Matrix) (self : Aligner) : Aligner :=
  let 'Build_Aligner f0 f1 f2 f3 f4 f5 f6 f7 f8 f9 f10 f11 f12 f13 f14 f15 f16 f17 f18 f19 f20 f21 := self in
  Build_Aligner f0 f1 f2 f3 f4 f5 f6 f7 f8 f9 f10 f11 f12 f13 f14 f15 f16 f17 v f19 f20 f21.
Definition set_algorithm (v : Algorithm) (self : Aligner) : Aligner :=
  let 'Build_Aligner f0 f1 f2 f3 f4 f5 f6 f7 f8 f9 f10 f11 f12 f13 f14 f15 f16 f17 f18 f19 f20 f21 := self in
  Build_Aligner f0 f1 f2 f3 f4 f5 f6 f7 f8 f9 f10 f11 f12 f13 f14 f15 f16 f17 f18 v f20 f21.
Definition set_alphabet (v : option PyObject) (self : Aligner) : Aligner :=
  let 'Build_Aligner f0 f1 f2 f3 f4 f5 f6 f7 f8 f9 f10 f11 f12 f13 f14 f15 f16 f17 f18 f19 f20 f21 := self in
  Build_Aligner f0 f1 f2 f3 f4 f5 f6 f7 f8 f9 f10 f11 f12 f13 f14 f15 f16 f17 f18 f19 v f21.
Definition set_wildcard (v : Z) (self : Aligner) : Aligner :=
  let 'Build_Aligner f0 f1 f2 f3 f4 f5 f6 f7 f8 f9 f10 f11 f12 f13 f14 f15 f16 f17 f18 f19 f20 f21 := self in
  Build_Aligner f0 f1 f2 f3 f4 f5 f6 f7 f8 f9 f10 f11 f12 f13 f14 f15 f16 f17 f18 f19 f20 v.

(** [if (self->f) { Py_DECREF(self->f); self->f = NULL; }] *)
Definition clear_insertion_score_function (self : Aligner) : Aligner :=
  match insertion_score_function self with
  | Some _ => set_insertion_score_function None self
  | None => self
  end.

Definition clear_deletion_score_function (self : Aligner) : Aligner :=
  match deletion_score_function self with
  | Some _ => set_deletion_score_function None self
  | None => self
  end.

(** The epsilon of [Aligner_init] is the double nearest to [1.e-6]. *)
Definition default_epsilon : double := 0x1.0c6f7a0b5ed8dp-20%float.

Definition Aligner_init : Aligner :=
  {| mode := Global;
     match_ := 1%float;
     mismatch := 0%float;
     epsilon := default_epsilon;
     open_internal_insertion_score := 0%float;
     extend_internal_insertion_score := 0%float;
     open_internal_deletion_score := 0%float;
     extend_internal_deletion_score := 0%float;
     open_left_insertion_score := 0%float;
     extend_left_insertion_score := 0%float;
     open_right_insertion_score := 0%float;
     extend_right_insertion_score := 0%float;
     open_left_deletion_score := 0%float;
     extend_left_deletion_score := 0%float;
     open_right_deletion_score := 0%float;
     extend_right_deletion_score := 0%float;
     insertion_score_function := None;
     deletion_score_function := None;
     substitution_matrix := None;
     algorithm := Unknown;
     alphabet := None;
     wildcard := -1 |}.

(** [_get_algorithm]: the memoized selector; the second component is the
    aligner after the call (the memo is written back). *)
Definition _get_algorithm (self : Aligner) : Algorithm * Aligner :=
  let algorithm := algorithm self in
  match algorithm with
  | Unknown =>
    let open_internal_insertion_score := open_internal_insertion_score self in
    let open_internal_deletion_score := open_internal_deletion_score self in
    let extend_internal_insertion_score := extend_internal_insertion_score self in
    let extend_internal_deletion_score := extend_internal_deletion_score self in
    let open_left_insertion_score := open_left_insertion_score self in
    let extend_left_insertion_score := extend_left_insertion_score self in
    let open_left_deletion_score := open_left_deletion_score self in
    let open_right_insertion_score := open_right_insertion_score self in
    let open_right_deletion_score := open_right_deletion_score self in
    let extend_right_insertion_score := extend_right_insertion_score self in
    let extend_left_deletion_score := extend_left_deletion_score self in
    let extend_right_deletion_score := extend_right_deletion_score self in
    let algorithm :=
      if Mode_eqb (mode self) FOGSAA_Mode then FOGSAA
      else if non_null (insertion_score_function self)
              || non_null (deletion_score_function self)
      then WatermanSmithBeyer
      else if feqb open_internal_insertion_score extend_internal_insertion_score
              && feqb open_internal_deletion_score extend_internal_deletion_score
              && feqb open_left_insertion_score extend_left_insertion_score
              && feqb open_right_insertion_score extend_right_insertion_score
              && feqb open_left_deletion_score extend_left_deletion_score
              && feqb open_right_deletion_score extend_right_deletion_score
      then NeedlemanWunschSmithWaterman
      else Gotoh in
    (algorithm, set_algorithm algorithm self)
  | _ => (algorithm, self)
  end.

(** ** Accessors *)

(** Setters return the C return value (0, or -1 with an exception set) and
    the aligner after the call. *)

Definition Aligner_set_mode (self : Aligner) (value : PyObject) : Z * Aligner :=
  let self := set_algorithm Unknown self in
  match value with
  | PyUnicode s =>
    if PyUnicode_CompareWithASCIIString s "global" then (0, set_mode Global self)
    else if PyUnicode_CompareWithASCIIString s "local" then (0, set_mode Local self)
    else if PyUnicode_CompareWithASCIIString s "fogsaa" then (0, set_mode FOGSAA_Mode self)
    else (-1, self)
  | _ => (-1, self)
  end.

(** [PyBuffer_Release(&self->substitution_matrix)] *)
Definition release_substitution_matrix (self : Aligner) : Aligner :=
  set_substitution_matrix None self.

Definition Aligner_set_match_score (self : Aligner) (value : PyObject) : Z * Aligner :=
  match PyFloat_AsDouble value with
  | None => (-1, self)
  | Some match_ =>
    let self := release_substitution_matrix self in
    let self := set_match_ match_ self in
    (0, self)
  end.

Definition Aligner_set_mismatch_score (self : Aligner) (value : PyObject) : Z * Aligner :=
  match PyFloat_AsDouble value with
  | None => (-1, self)
  | Some mismatch =>
    let self := release_substitution_matrix self in
    let self := set_mismatch mismatch self in
    (0, self)
  end.

Definition substitution_matrix_converter (argument : PyObject) : PyResult Matrix :=
  match argument with
  | PyBufferObject view mapping =>
    if negb (ndim view =? 2) then Err (IncorrectRank (ndim view))
    else if len view =? 0 then Err (ValueError "substitution matrix has zero size")
    else if negb (String.eqb (format view) "d")
    then Err (ValueError "substitution matrix should contain float values")
    else if negb (itemsize view =? sizeof_double)
    then Err (UnexpectedItemSize (itemsize view))
    else if negb (nth 0 (shape view) 0 =? nth 1 (shape view) 0)
    then Err (NotSquare (nth 0 (shape view) 0) (nth 1 (shape view) 0))
    else Ok {| view := view; mapping := mapping |}
  | _ => Err (ValueError "expected a matrix")
  end.

Definition Aligner_set_substitution_matrix (self : Aligner) (values : PyObject)
  : Z * Aligner :=
  match values with
  | Py_None => (0, release_substitution_matrix self)
  | _ =>
    match substitution_matrix_converter values with
    | Err _ => (-1, self)
    | Ok view =>
      let self := release_substitution_matrix self in
      let self := set_substitution_matrix (Some view) self in
      (0, self)
    end
  end.

Definition Aligner_get_gap_score (self : Aligner) : PyResult PyObject :=
  if non_null (insertion_score_function self)
     || non_null (deletion_score_function self)
  then
    if negb (same_object (insertion_score_function self)
                         (deletion_score_function self))
    then Err (ValueError "gap scores are different")
    else match insertion_score_function self with
         | Some function => Ok function
         | None => Err Propagated
         end
  else
    let score := open_internal_insertion_score self in
    if fneb score (extend_internal_insertion_score self)
       || fneb score (open_left_insertion_score self)
       || fneb score (extend_left_insertion_score self)
       || fneb score (open_right_insertion_score self)
       || fneb score (extend_right_insertion_score self)
       || fneb score (open_internal_deletion_score self)
       || fneb score (extend_internal_deletion_score self)
       || fneb score (open_left_deletion_score self)
       || fneb score (extend_left_deletion_score self)
       || fneb score (open_right_deletion_score self)
       || fneb score (extend_right_deletion_score self)
    then Err (ValueError "gap scores are different")
    else Ok (PyFloat score).

Definition Aligner_set_gap_score (self : Aligner) (value : PyObject) : Z * Aligner :=
  if PyCallable_Check value then
    let self := set_insertion_score_function (Some value) self in
    let self := set_deletion_score_function (Some value) self in
    let self := set_algorithm Unknown self in
    (0, self)
  else
    match PyFloat_AsDouble value with
    | None => (-1, self)
    | Some score =>
      let self := clear_insertion_score_function self in
      let self := clear_deletion_score_function self in
      let self := set_open_internal_insertion_score score self in
      let self := set_extend_internal_insertion_score score self in
      let self := set_open_left_insertion_score score self in
      let self := set_extend_left_insertion_score score self in
      let self := set_open_right_insertion_score score self in
      let self := set_extend_right_insertion_score score self in
      let self := set_open_internal_deletion_score score self in
      let self := set_extend_internal_deletion_score score self in
      let self := set_open_left_deletion_score score self in
      let self := set_extend_left_deletion_score score self in
      let self := set_open_right_deletion_score score self in
      let self := set_extend_right_deletion_score score self in
      let self := set_algorithm Unknown self in
      (0, self)
    end.

Definition Aligner_set_insertion_score (self : Aligner) (value : PyObject) : Z * Aligner :=
  if PyCallable_Check value then
    let self := set_insertion_score_function (Some value) self in
    let self := set_algorithm Unknown self in
    (0, self)
  else
    match PyFloat_AsDouble value with
    | None => (-1, self)
    | Some score =>
      let self := set_open_internal_insertion_score score self in
      let self := set_extend_internal_insertion_score score self in
      let self := set_open_left_insertion_score score self in
      let self := set_extend_left_insertion_score score self in
      let self := set_open_right_insertion_score score self in
      let self := set_extend_right_insertion_score score self in
      let self := clear_insertion_score_function self in
      let self := set_algorithm Unknown self in
      (0, self)
    end.

Definition Aligner_set_deletion_score (self : Aligner) (value : PyObject) : Z * Aligner :=
  if PyCallable_Check value then
    let self := set_deletion_score_function (Some value) self in
    let self := set_algorithm Unknown self in
    (0, self)
  else
    match PyFloat_AsDouble value with
    | None => (-1, self)
    | Some score =>
      let self := set_open_internal_deletion_score score self in
      let self := set_extend_internal_deletion_score score self in
      let self := set_open_left_deletion_score score self in
      let self := set_extend_left_deletion_score score self in
      let self := set_open_right_deletion_score score self in
      let self := set_extend_right_deletion_score score self in
      let self := clear_deletion_score_function self in
      let self := set_algorithm Unknown self in
      (0, self)
    end.

Definition Aligner_set_epsilon (self : Aligner) (value : PyObject) : Z * Aligner :=
  match PyFloat_AsDouble value with
  | None => (-1, self)
  | Some epsilon =>
    let self := set_epsilon epsilon self in
    let self := set_algorithm Unknown self in
    (0, self)
  end.

Definition Aligner_set_wildcard (self : Aligner) (value : PyObject) : Z * Aligner :=
  match value with
  | Py_None => (0, set_wildcard (-1) self)
  | PyUnicode s =>
    match s with
    | [c] => (0, set_wildcard c self)
    | _ => (-1, self)
    end
  | _ => (-1, self)
  end.

Definition Aligner_set_open_gap_score (self : Aligner) (value : PyObject) : Z * Aligner :=
  match PyFloat_AsDouble value with
  | None => (-1, self)
  | Some score =>
    let self := clear_insertion_score_function self in
    let self := clear_deletion_score_function self in
    let self := set_open_internal_insertion_score score self in
    let self := set_open_left_insertion_score score self in
    let self := set_open_right_insertion_score score self in
    let self := set_open_internal_deletion_score score self in
    let self := set_open_left_deletion_score score self in
    let self := set_open_right_deletion_score score self in
    let self := set_algorithm Unknown self in
    (0, self)
  end.

Definition Aligner_set_extend_gap_score (self : Aligner) (value : PyObject) : Z * Aligner :=
  match PyFloat_AsDouble value with
  | None => (-1, self)
  | Some score =>
    let self := clear_insertion_score_function self in
    let self := clear_deletion_score_function self in
    let self := set_extend_internal_insertion_score score self in
    let self := set_extend_left_insertion_score score self in
    let self := set_extend_right_insertion_score score self in
    let self := set_extend_internal_deletion_score score self in
    let self := set_extend_left_deletion_score score self in
    let self := set_extend_right_deletion_score score self in
    let self := set_algorithm Unknown self in
    (0, self)
  end.

Definition Aligner_set_internal_gap_score (self : Aligner) (value : PyObject) : Z * Aligner :=
  match PyFloat_AsDouble value with
  | None => (-1, self)
  | Some score =>
    let self := clear_insertion_score_function self in
    let self := clear_deletion_score_function self in
    let self := set_open_internal_insertion_score score self in
    let self := set_extend_internal_insertion_score score self in
    let self := set_open_internal_deletion_score score self in
    let self := set_extend_internal_deletion_score score self in
    let self := set_algorithm Unknown self in
    (0, self)
  end.

Definition Aligner_set_open_internal_gap_score (self : Aligner) (value : PyObject) : Z * Aligner :=
  match PyFloat_AsDouble value with
  | None => (-1, self)
  | Some score =>
    let self := clear_insertion_score_function self in
    let self := clear_deletion_score_function self in
    let self := set_open_internal_insertion_score score self in
    let self := set_open_internal_deletion_score score self in
    let self := set_algorithm Unknown self in
    (0, self)
  end.

Definition Aligner_set_extend_internal_gap_score (self : Aligner) (value : PyObject) : Z * Aligner :=
  match PyFloat_AsDouble value with
  | None => (-1, self)
  | Some score =>
    let self := clear_insertion_score_function self in
    let self := clear_deletion_score_function self in
    let self := set_extend_internal_insertion_score score self in
    let self := set_extend_internal_deletion_score score self in
    let self := set_algorithm Unknown self in
    (0, self)
  end.

Definition Aligner_set_end_gap_score (self : Aligner) (value : PyObject) : Z * Aligner :=
  match PyFloat_AsDouble value with
  | None => (-1, self)
  | Some score =>
    let self := clear_insertion_score_function self in
    let self := clear_deletion_score_function self in
    let self := set_open_left_insertion_score score self in
    let self := set_extend_left_insertion_score score self in
    let self := set_open_right_insertion_score score self in
    let self := set_extend_right_insertion_score score self in
    let self := set_open_left_deletion_score score self in
    let self := set_extend_left_deletion_score score self in
    let self := set_open_right_deletion_score score self in
    let self := set_extend_right_deletion_score score self in
    let self := set_algorithm Unknown self in
    (0, self)
  end.

Definition Aligner_set_open_end_gap_score (self : Aligner) (value : PyObject) : Z * Aligner :=
  match PyFloat_AsDouble value with
  | None => (-1, self)
  | Some score =>
    let self := clear_insertion_score_function self in
    let self := clear_deletion_score_function self in
    let self := set_open_left_insertion_score score self in
    let self := set_open_right_insertion_score score self in
    let self := set_open_left_deletion_score score self in
    let self := set_open_right_deletion_score score self in
    let self := set_algorithm Unknown self in
    (0, self)
  end.

Definition Aligner_set_extend_end_gap_score (self : Aligner) (value : PyObject) : Z * Aligner :=
  match PyFloat_AsDouble value with
  | None => (-1, self)
  | Some score =>
    let self := clear_insertion_score_function self in
    let self := clear_deletion_score_function self in
    let self := set_extend_left_insertion_score score self in
    let self := set_extend_right_insertion_score score self in
    let self := set_extend_left_deletion_score score self in
    let self := set_extend_right_deletion_score score self in
    let self := set_algorithm Unknown self in
    (0, self)
  end.

Definition Aligner_set_left_gap_score (self : Aligner) (value : PyObject) : Z * Aligner :=
  match PyFloat_AsDouble value with
  | None => (-1, self)
  | Some score =>
    let self := clear_insertion_score_function self in
    let self := clear_deletion_score_function self in
    let self := set_open_left_insertion_score score self in
    let self := set_extend_left_insertion_score score self in
    let self := set_open_left_deletion_score score self in
    let self := set_extend_left_deletion_score score self in
    let self := set_algorithm Unknown self in
    (0, self)
  end.

Definition Aligner_set_right_gap_score (self : Aligner) (value : PyObject) : Z * Aligner :=
  match PyFloat_AsDouble value with
  | None => (-1, self)
  | Some score =>
    let self := clear_insertion_score_function self in
    let self := clear_deletion_score_function self in
    let self := set_open_right_insertion_score score self in
    let self := set_extend_right_insertion_score score self in
    let self := set_open_right_deletion_score score self in
    let self := set_extend_right_deletion_score score self in
    let self := set_algorithm Unknown self in
    (0, self)
  end.

Definition Aligner_set_open_left_gap_score (self : Aligner) (value : PyObject) : Z * Aligner :=
  match PyFloat_AsDouble value with
  | None => (-1, self)
  | Some score =>
    let self := clear_insertion_score_function self in
    let self := clear_deletion_score_function self in
    let self := set_open_left_insertion_score score self in
    let self := set_open_left_deletion_score score self in
    let self := set_algorithm Unknown self in
    (0, self)
  end.

Definition Aligner_set_extend_left_gap_score (self : Aligner) (value : PyObject) : Z * Aligner :=
  match PyFloat_AsDouble value with
  | None => (-1, self)
  | Some score =>
    let self := clear_insertion_score_function self in
    let self := clear_deletion_score_function self in
    let self := set_extend_left_insertion_score score self in
    let self := set_extend_left_deletion_score score self in
    let self := set_algorithm Unknown self in
    (0, self)
  end.

Definition Aligner_set_open_right_gap_score (self : Aligner) (value : PyObject) : Z * Aligner :=
  match PyFloat_AsDouble value with
  | None => (-1, self)
  | Some score =>
    let self := clear_insertion_score_function self in
    let self := clear_deletion_score_function self in
    let self := set_open_right_insertion_score score self in
    let self := set_open_right_deletion_score score self in
    let self := set_algorithm Unknown self in
    (0, self)
  end.

Definition Aligner_set_extend_right_gap_score (self : Aligner) (value : PyObject) : Z * Aligner :=
  match PyFloat_AsDouble value with
  | None => (-1, self)
  | Some score =>
    let self := clear_insertion_score_function self in
    let self := clear_deletion_score_function self in
    let self := set_extend_right_insertion_score score self in
    let self := set_extend_right_deletion_score score self in
    let self := set_algorithm Unknown self in
    (0, self)
  end.

Definition Aligner_set_open_insertion_score (self : Aligner) (value : PyObject) : Z * Aligner :=
  match PyFloat_AsDouble value with
  | None => (-1, self)
  | Some score =>
    let self := set_open_internal_insertion_score score self in
    let self := set_open_left_insertion_score score self in
    let self := set_open_right_insertion_score score self in
    let self := clear_insertion_score_function self in
    let self := set_algorithm Unknown self in
    (0, self)
  end.

Definition Aligner_set_extend_insertion_score (self : Aligner) (value : PyObject) : Z * Aligner :=
  match PyFloat_AsDouble value with
  | None => (-1, self)
  | Some score =>
    let self := set_extend_internal_insertion_score score self in
    let self := set_extend_left_insertion_score score self in
    let self := set_extend_right_insertion_score score self in
    let self := clear_insertion_score_function self in
    let self := set_algorithm Unknown self in
    (0, self)
  end.

Definition Aligner_set_open_deletion_score (self : Aligner) (value : PyObject) : Z * Aligner :=
  match PyFloat_AsDouble value with
  | None => (-1, self)
  | Some score =>
    let self := set_open_internal_deletion_score score self in
    let self := set_open_left_deletion_score score self in
    let self := set_open_right_deletion_score score self in
    let self := clear_deletion_score_function self in
    let self := set_algorithm Unknown self in
    (0, self)
  end.

Definition Aligner_set_extend_deletion_score (self : Aligner) (value : PyObject) : Z * Aligner :=
  match PyFloat_AsDouble value with
  | None => (-1, self)
  | Some score =>
    let self := set_extend_internal_deletion_score score self in
    let self := set_extend_left_deletion_score score self in
    let self := set_extend_right_deletion_score score self in
    let self := clear_deletion_score_function self in
    let self := set_algorithm Unknown self in
    (0, self)
  end.

Definition Aligner_set_open_internal_insertion_score (self : Aligner) (value : PyObject) : Z * Aligner :=
  match PyFloat_AsDouble value with
  | None => (-1, self)
  | Some score =>
    let self := set_open_internal_insertion_score score self in
    let self := clear_insertion_score_function self in
    let self := set_algorithm Unknown self in
    (0, self)
  end.

Definition Aligner_set_extend_internal_insertion_score (self : Aligner) (value : PyObject) : Z * Aligner :=
  match PyFloat_AsDouble value with
  | None => (-1, self)
  | Some score =>
    let self := set_extend_internal_insertion_score score self in
    let self := clear_insertion_score_function self in
    let self := set_algorithm Unknown self in
    (0, self)
  end.

Definition Aligner_set_internal_insertion_score (self : Aligner) (value : PyObject) : Z * Aligner :=
  match PyFloat_AsDouble value with
  | None => (-1, self)
  | Some score =>
    let self := set_open_internal_insertion_score score self in
    let self := set_extend_internal_insertion_score score self in
    let self := clear_insertion_score_function self in
    let self := set_algorithm Unknown self in
    (0, self)
  end.

Definition Aligner_set_end_insertion_score (self : Aligner) (value : PyObject) : Z * Aligner :=
  match PyFloat_AsDouble value with
  | None => (-1, self)
  | Some score =>
    let self := set_open_left_insertion_score score self in
    let self := set_extend_left_insertion_score score self in
    let self := set_open_right_insertion_score score self in
    let self := set_extend_right_insertion_score score self in
    let self := clear_insertion_score_function self in
    let self := set_algorithm Unknown self in
    (0, self)
  end.

Definition Aligner_set_open_end_insertion_score (self : Aligner) (value : PyObject) : Z * Aligner :=
  match PyFloat_AsDouble value with
  | None => (-1, self)
  | Some score =>
    let self := set_open_left_insertion_score score self in
    let self := set_open_right_insertion_score score self in
    let self := clear_insertion_score_function self in
    let self := set_algorithm Unknown self in
    (0, self)
  end.

Definition Aligner_set_extend_end_insertion_score (self : Aligner) (value : PyObject) : Z * Aligner :=
  match PyFloat_AsDouble value with
  | None => (-1, self)
  | Some score =>
    let self := set_extend_left_insertion_score score self in
    let self := set_extend_right_insertion_score score self in
    let self := clear_insertion_score_function self in
    let self := set_algorithm Unknown self in
    (0, self)
  end.

Definition Aligner_set_open_left_insertion_score (self : Aligner) (value : PyObject) : Z * Aligner :=
  match PyFloat_AsDouble value with
  | None => (-1, self)
  | Some score =>
    let self := set_open_left_insertion_score score self in
    let self := clear_insertion_score_function self in
    let self := set_algorithm Unknown self in
    (0, self)
  end.

Definition Aligner_set_extend_left_insertion_score (self : Aligner) (value : PyObject) : Z * Aligner :=
  match PyFloat_AsDouble value with
  | None => (-1, self)
  | Some score =>
    let self := set_extend_left_insertion_score score self in
    let self := clear_insertion_score_function self in
    let self := set_algorithm Unknown self in
    (0, self)
  end.

Definition Aligner_set_left_insertion_score (self : Aligner) (value : PyObject) : Z * Aligner :=
  match PyFloat_AsDouble value with
  | None => (-1, self)
  | Some score =>
    let self := set_open_left_insertion_score score self in
    let self := set_extend_left_insertion_score score self in
    let self := clear_insertion_score_function self in
    let self := set_algorithm Unknown self in
    (0, self)
  end.

Definition Aligner_set_open_right_insertion_score (self : Aligner) (value : PyObject) : Z * Aligner :=
  match PyFloat_AsDouble value with
  | None => (-1, self)
  | Some score =>
    let self := set_open_right_insertion_score score self in
    let self := clear_insertion_score_function self in
    let self := set_algorithm Unknown self in
    (0, self)
  end.

Definition Aligner_set_extend_right_insertion_score (self : Aligner) (value : PyObject) : Z * Aligner :=
  match PyFloat_AsDouble value with
  | None => (-1, self)
  | Some score =>
    let self := set_extend_right_insertion_score score self in
    let self := clear_insertion_score_function self in
    let self := set_algorithm Unknown self in
    (0, self)
  end.

Definition Aligner_set_right_insertion_score (self : Aligner) (value : PyObject) : Z * Aligner :=
  match PyFloat_AsDouble value with
  | None => (-1, self)
  | Some score =>
    let self := set_open_right_insertion_score score self in
    let self := set_extend_right_insertion_score score self in
    let self := clear_insertion_score_function self in
    let self := set_algorithm Unknown self in
    (0, self)
  end.

Definition Aligner_set_end_deletion_score (self : Aligner) (value : PyObject) : Z * Aligner :=
  match PyFloat_AsDouble value with
  | None => (-1, self)
  | Some score =>
    let self := set_open_left_deletion_score score self in
    let self := set_extend_left_deletion_score score self in
    let self := set_open_right_deletion_score score self in
    let self := set_extend_right_deletion_score score self in
    let self := clear_deletion_score_function self in
    let self := set_algorithm Unknown self in
    (0, self)
  end.

Definition Aligner_set_open_end_deletion_score (self : Aligner) (value : PyObject) : Z * Aligner :=
  match PyFloat_AsDouble value with
  | None => (-1, self)
  | Some score =>
    let self := set_open_left_deletion_score score self in
    let self := set_open_right_deletion_score score self in
    let self := clear_deletion_score_function self in
    let self := set_algorithm Unknown self in
    (0, self)
  end.

Definition Aligner_set_extend_end_deletion_score (self : Aligner) (value : PyObject) : Z * Aligner :=
  match PyFloat_AsDouble value with
  | None => (-1, self)
  | Some score =>
    let self := set_extend_left_deletion_score score self in
    let self := set_extend_right_deletion_score score self in
    let self := clear_deletion_score_function self in
    let self := set_algorithm Unknown self in
    (0, self)
  end.

Definition Aligner_set_open_internal_deletion_score (self : Aligner) (value : PyObject) : Z * Aligner :=
  match PyFloat_AsDouble value with
  | None => (-1, self)
  | Some score =>
    let self := set_open_internal_deletion_score score self in
    let self := clear_deletion_score_function self in
    let self := set_algorithm Unknown self in
    (0, self)
  end.

Definition Aligner_set_extend_internal_deletion_score (self : Aligner) (value : PyObject) : Z * Aligner :=
  match PyFloat_AsDouble value with
  | None => (-1, self)
  | Some score =>
    let self := set_extend_internal_deletion_score score self in
    let self := clear_deletion_score_function self in
    let self := set_algorithm Unknown self in
    (0, self)
  end.

Definition Aligner_set_internal_deletion_score (self : Aligner) (value : PyObject) : Z * Aligner :=
  match PyFloat_AsDouble value with
  | None => (-1, self)
  | Some score =>
    let self := set_open_internal_deletion_score score self in
    let self := set_extend_internal_deletion_score score self in
    let self := clear_deletion_score_function self in
    let self := set_algorithm Unknown self in
    (0, self)
  end.

Definition Aligner_set_open_left_deletion_score (self : Aligner) (value : PyObject) : Z * Aligner :=
  match PyFloat_AsDouble value with
  | None => (-1, self)
  | Some score =>
    let self := set_open_left_deletion_score score self in
    let self := clear_deletion_score_function self in
    let self := set_algorithm Unknown self in
    (0, self)
  end.

Definition Aligner_set_extend_left_deletion_score (self : Aligner) (value : PyObject) : Z * Aligner :=
  match PyFloat_AsDouble value with
  | None => (-1, self)
  | Some score =>
    let self := set_extend_left_deletion_score score self in
    let self := clear_deletion_score_function self in
    let self := set_algorithm Unknown self in
    (0, self)
  end.

Definition Aligner_set_left_deletion_score (self : Aligner) (value : PyObject) : Z * Aligner :=
  match PyFloat_AsDouble value with
  | None => (-1, self)
  | Some score =>
    let self := set_open_left_deletion_score score self in
    let self := set_extend_left_deletion_score score self in
    let self := clear_deletion_score_function self in
    let self := set_algorithm Unknown self in
    (0, self)
  end.

Definition Aligner_set_open_right_deletion_score (self : Aligner) (value : PyObject) : Z * Aligner :=
  match PyFloat_AsDouble value with
  | None => (-1, self)
  | Some score =>
    let self := set_open_right_deletion_score score self in
    let self := clear_deletion_score_function self in
    let self := set_algorithm Unknown self in
    (0, self)
  end.

Definition Aligner_set_extend_right_deletion_score (self : Aligner) (value : PyObject) : Z * Aligner :=
  match PyFloat_AsDouble value with
  | None => (-1, self)
  | Some score =>
    let self := set_extend_right_deletion_score score self in
    let self := clear_deletion_score_function self in
    let self := set_algorithm Unknown self in
    (0, self)
  end.

Definition Aligner_set_right_deletion_score (self : Aligner) (value : PyObject) : Z * Aligner :=
  match PyFloat_AsDouble value with
  | None => (-1, self)
  | Some score =>
    let self := set_open_right_deletion_score score self in
    let self := set_extend_right_deletion_score score self in
    let self := clear_deletion_score_function self in
    let self := set_algorithm Unknown self in
    (0, self)
  end.

Local Open Scope string_scope.

(** The [setter] column of the attribute table [Aligner_getset] ([None] is
    the [NULL] setter of the read-only attribute). *)
Definition Aligner_getset : list (string * option (Aligner -> PyObject -> Z * Aligner)) :=
  [("mode", Some Aligner_set_mode);
  ("match_score", Some Aligner_set_match_score);
  ("mismatch_score", Some Aligner_set_mismatch_score);
  ("match", Some Aligner_set_match_score);
  ("mismatch", Some Aligner_set_mismatch_score);
  ("substitution_matrix", Some Aligner_set_substitution_matrix);
  ("gap_score", Some Aligner_set_gap_score);
  ("open_gap_score", Some Aligner_set_open_gap_score);
  ("extend_gap_score", Some Aligner_set_extend_gap_score);
  ("internal_gap_score", Some Aligner_set_internal_gap_score);
  ("open_internal_gap_score", Some Aligner_set_open_internal_gap_score);
  ("extend_internal_gap_score", Some Aligner_set_extend_internal_gap_score);
  ("end_gap_score", Some Aligner_set_end_gap_score);
  ("open_end_gap_score", Some Aligner_set_open_end_gap_score);
  ("extend_end_gap_score", Some Aligner_set_extend_end_gap_score);
  ("left_gap_score", Some Aligner_set_left_gap_score);
  ("open_left_gap_score", Some Aligner_set_open_left_gap_score);
  ("extend_left_gap_score", Some Aligner_set_extend_left_gap_score);
  ("right_gap_score", Some Aligner_set_right_gap_score);
  ("open_right_gap_score", Some Aligner_set_open_right_gap_score);
  ("extend_right_gap_score", Some Aligner_set_extend_right_gap_score);
  ("open_insertion_score", Some Aligner_set_open_insertion_score);
  ("extend_insertion_score", Some Aligner_set_extend_insertion_score);
  ("insertion_score", Some Aligner_set_insertion_score);
  ("open_deletion_score", Some Aligner_set_open_deletion_score);
  ("extend_deletion_score", Some Aligner_set_extend_deletion_score);
  ("deletion_score", Some Aligner_set_deletion_score);
  ("end_insertion_score", Some Aligner_set_end_insertion_score);
  ("open_end_insertion_score", Some Aligner_set_open_end_insertion_score);
  ("extend_end_insertion_score", Some Aligner_set_extend_end_insertion_score);
  ("open_internal_insertion_score", Some Aligner_set_open_internal_insertion_score);
  ("extend_internal_insertion_score", Some Aligner_set_extend_internal_insertion_score);
  ("internal_insertion_score", Some Aligner_set_internal_insertion_score);
  ("open_left_insertion_score", Some Aligner_set_open_left_insertion_score);
  ("extend_left_insertion_score", Some Aligner_set_extend_left_insertion_score);
  ("left_insertion_score", Some Aligner_set_left_insertion_score);
  ("open_right_insertion_score", Some Aligner_set_open_right_insertion_score);
  ("extend_right_insertion_score", Some Aligner_set_extend_right_insertion_score);
  ("right_insertion_score", Some Aligner_set_right_insertion_score);
  ("end_deletion_score", Some Aligner_set_end_deletion_score);
  ("open_end_deletion_score", Some Aligner_set_open_end_deletion_score);
  ("extend_end_deletion_score", Some Aligner_set_extend_end_deletion_score);
  ("open_internal_deletion_score", Some Aligner_set_open_internal_deletion_score);
  ("extend_internal_deletion_score", Some Aligner_set_extend_internal_deletion_score);
  ("internal_deletion_score", Some Aligner_set_internal_deletion_score);
  ("open_left_deletion_score", Some Aligner_set_open_left_deletion_score);
  ("extend_left_deletion_score", Some Aligner_set_extend_left_deletion_score);
  ("left_deletion_score", Some Aligner_set_left_deletion_score);
  ("open_right_deletion_score", Some Aligner_set_open_right_deletion_score);
  ("extend_right_deletion_score", Some Aligner_set_extend_right_deletion_score);
  ("right_deletion_score", Some Aligner_set_right_deletion_score);
  ("epsilon", Some Aligner_set_epsilon);
  ("wildcard", Some Aligner_set_wildcard);
  ("algorithm", None)].

Local Close Scope string_scope.

(** [setattr(aligner, name, value)] through the table: the return value
    and the aligner after the call ([-1], unchanged, for an unknown or
    read-only attribute). *)
Definition Aligner_setattr (self : Aligner) (name : string) (value : PyObject)
  : Z * Aligner :=
  match List.find (fun e => String.eqb (fst e) name) Aligner_getset with
  | Some (_, Some set) => set self value
  | _ => (-1, self)
  end.

(** ** Loops *)

(** [for (i = lo; i < hi; i++) body]: the state after the loop.  After the
    loop the counter holds [Nat.max lo hi]. *)
Fixpoint for_loop {S : Type} (n lo : nat) (body : nat -> S -> S) (s : S) : S :=
  match n with
  | O => s
  | Datatypes.S n' => for_loop n' (Datatypes.S lo) body (body lo s)
  end.

Definition for_range {S : Type} (lo hi : nat) (body : nat -> S -> S) (s : S) : S :=
  for_loop (hi - lo) lo body s.

(** The same loop when the body can leave the function with an error
    ([goto exit], [return NULL]). *)
Fixpoint try_loop {S : Type} (n lo : nat) (body : nat -> S -> PyResult S) (s : S)
  : PyResult S :=
  match n with
  | O => Ok s
  | Datatypes.S n' =>
    match body lo s with
    | Ok s' => try_loop n' (Datatypes.S lo) body s'
    | Err e => Err e
    end
  end.

Definition try_range {S : Type} (lo hi : nat) (body : nat -> S -> PyResult S) (s : S)
  : PyResult S :=
  try_loop (hi - lo) lo body s.

(** ** Trace cells *)

(** [struct { unsigned char trace : 5; unsigned char path : 3; }].  A store
    into a bit-field keeps the low bits. *)
Record Trace : Type := Build_Trace {
  trace : Z;
  path : Z
}.

#[global] Instance Trace_inhabited : Inhabited Trace :=
  populate {| trace := 0; path := 0 |}.

(** The member accesses [c.trace] and [c.path], under names that the
    locals [trace] and [path] of the source do not hide. *)
Definition trace_of (c : Trace) : Z := trace c.
Definition path_of (c : Trace) : Z := path c.

(** [M[i][j]] for [Trace** M]. *)
Definition cell (M : list (list Trace)) (i j : nat) : Trace := (M !!! i) !!! j.

(** [M[i][j].trace = t] and [M[i][j].path = p]. *)
Definition store_trace (i j : nat) (t : Z) (M : list (list Trace)) : list (list Trace) :=
  <[i := <[j := {| trace := Z.land t 31; path := path (cell M i j) |}]> (M !!! i)]> M.

Definition store_path (i j : nat) (p : Z) (M : list (list Trace)) : list (list Trace) :=
  <[i := <[j := {| trace := trace (cell M i j); path := Z.land p 7 |}]> (M !!! i)]> M.

(** [M[i][j].trace &= ~ENDPOINT] *)
Definition clear_ENDPOINT (i j : nat) (M : list (list Trace)) : list (list Trace) :=
  store_trace i j (Z.land (trace (cell M i j)) (Z.lnot ENDPOINT)) M.

(** The loops that withdraw ENDPOINT from the cells visited since the last
    maximum, shared by the local-mode trace macros:
<<
    for ( ; im < i; im++, jm = 0)
        for ( ; jm <= nB; jm++) M[im][jm].trace &= ~ENDPOINT;
    for ( ; jm < j; jm++) M[im][jm].trace &= ~ENDPOINT;
    im = i; jm = j;
>>
    The result is [M] with the new [(im, jm)]. *)
Definition withdraw_ENDPOINTs (nB i j : nat) (im jm : nat) (M : list (list Trace))
  : list (list Trace) * nat * nat :=
  let '(M, jm) :=
    for_range im i (fun im '(M, jm) =>
      let M := for_range jm (S nB) (fun jm M => clear_ENDPOINT im jm M) M in
      (M, 0%nat)) (M, jm) in
  let im := Nat.max im i in
  let M := for_range jm j (fun jm M => clear_ENDPOINT im jm M) M in
  (M, i, j).

(** ** Score selection (the [SELECT_SCORE_*] macros) *)

Definition SELECT_SCORE_GLOBAL (score1 score2 score3 : double) : double :=
  let score := score1 in
  let temp := score2 in
  let score := if fgt temp score then temp else score in
  let temp := score3 in
  let score := if fgt temp score then temp else score in
  score.

(** The macro updates the running [score] with the two candidates
    [score1 + gapscore] and [score2 + gapscore]. *)
Definition SELECT_SCORE_WATERMAN_SMITH_BEYER (gapscore score1 score2 : double)
  (score : double) : double :=
  let temp := (score1 + gapscore)%float in
  let score := if fgt temp score then temp else score in
  let temp := (score2 + gapscore)%float in
  let score := if fgt temp score then temp else score in
  score.

(** The local macros return [(score, maximum)]. *)
Definition SELECT_SCORE_GOTOH_LOCAL_ALIGN (score1 score2 score3 score4 : double)
  (maximum : double) : double * double :=
  let score := score1 in
  let temp := score2 in
  let score := if fgt temp score then temp else score in
  let temp := score3 in
  let score := if fgt temp score then temp else score in
  let score := (score + score4)%float in
  if flt score 0 then (0%float, maximum)
  else if fgt score maximum then (score, score)
  else (score, maximum).

Definition SELECT_SCORE_LOCAL3 (score1 score2 score3 : double) (maximum : double)
  : double * double :=
  let score := score1 in
  let temp := score2 in
  let score := if fgt temp score then temp else score in
  let temp := score3 in
  let score := if fgt temp score then temp else score in
  if flt score 0 then (0%float, maximum)
  else if fgt score maximum then (score, score)
  else (score, maximum).

Definition SELECT_SCORE_LOCAL1 (score1 : double) (maximum : double) : double * double :=
  let score := score1 in
  if flt score 0 then (0%float, maximum)
  else if fgt score maximum then (score, score)
  else (score, maximum).

(** ** Trace selection (the [SELECT_TRACE_*] macros)

    Each macro is a function of the variables it reads, to the variables
    it assigns.  [epsilon], [i], [j] and the gap scores are the variables
    of the enclosing function that the macro body mentions. *)

Local Open Scope float_scope.

(** State of the linear-gap passes: [row], [temp], [score] and the trace
    grid [M]. *)
Definition SELECT_TRACE_NEEDLEMAN_WUNSCH (epsilon : double) (i j : nat)
  (hgap vgap align_score : double)
  (st : list double * double * double * list (list Trace))
  : list double * double * double * list (list Trace) :=
  let '(row, temp, score, M) := st in
  let score := temp + align_score in
  let trace := DIAGONAL in
  let temp := row !!! (j - 1)%nat + hgap in
  let '(score, trace) :=
    if fgt temp (score + epsilon) then (temp, HORIZONTAL)
    else if fgt temp (score - epsilon) then (score, Z.lor trace HORIZONTAL)
    else (score, trace) in
  let temp := row !!! j + vgap in
  let '(score, trace) :=
    if fgt temp (score + epsilon) then (temp, VERTICAL)
    else if fgt temp (score - epsilon) then (score, Z.lor trace VERTICAL)
    else (score, trace) in
  let temp := row !!! j in
  let row := <[j := score]> row in
  let M := store_trace i j trace M in
  (row, temp, score, M).

(** State of the Smith-Waterman pass: [row], [temp], [score], [M], and the
    running [maximum] with the cell [(im, jm)] that attained it. *)
Definition sw_state : Type :=
  (list double * double * double * list (list Trace) * double * nat * nat)%type.

Definition SELECT_TRACE_SMITH_WATERMAN_HVD (epsilon gap_extend_A gap_extend_B : double)
  (nB i j : nat) (align_score : double) (st : sw_state) : sw_state :=
  let '(row, temp, score, M, maximum, im, jm) := st in
  let trace := DIAGONAL in
  let score := temp + align_score in
  let temp := row !!! (j - 1)%nat + gap_extend_A in
  let '(score, trace) :=
    if fgt temp (score + epsilon) then (temp, HORIZONTAL)
    else if fgt temp (score - epsilon) then (score, Z.lor trace HORIZONTAL)
    else (score, trace) in
  let temp := row !!! j + gap_extend_B in
  let '(score, trace) :=
    if fgt temp (score + epsilon) then (temp, VERTICAL)
    else if fgt temp (score - epsilon) then (score, Z.lor trace VERTICAL)
    else (score, trace) in
  let '(score, trace, M, im, jm) :=
    if flt score epsilon then (0, STARTPOINT, M, im, jm)
    else if negb (Z.land trace DIAGONAL =? 0)%Z && fgt score (maximum - epsilon) then
      let '(M, im, jm) :=
        if fgt score (maximum + epsilon) then withdraw_ENDPOINTs nB i j im jm M
        else (M, im, jm) in
      (score, Z.lor trace ENDPOINT, M, im, jm)
    else (score, trace, M, im, jm) in
  let M := store_trace i j trace M in
  let maximum := if fgt score maximum then score else maximum in
  let temp := row !!! j in
  let row := <[j := score]> row in
  (row, temp, score, M, maximum, im, jm).

Definition SELECT_TRACE_SMITH_WATERMAN_D (epsilon : double)
  (nB i j : nat) (align_score : double) (st : sw_state) : sw_state :=
  let '(row, temp, score, M, maximum, im, jm) := st in
  let score := temp + align_score in
  let trace := DIAGONAL in
  let '(score, trace, M, im, jm) :=
    if flt score epsilon then (0, trace, M, im, jm)
    else if negb (Z.land trace DIAGONAL =? 0)%Z && fgt score (maximum - epsilon) then
      let '(M, im, jm) :=
        if fgt score (maximum + epsilon) then withdraw_ENDPOINTs nB i j im jm M
        else (M, im, jm) in
      (score, Z.lor trace ENDPOINT, M, im, jm)
    else (score, trace, M, im, jm) in
  let M := store_trace i j trace M in
  let maximum := if fgt score maximum then score else maximum in
  let temp := row !!! j in
  let row := <[j := score]> row in
  (row, temp, score, M, maximum, im, jm).

(** [SELECT_TRACE_GOTOH_GLOBAL_GAP(matrix, score1, score2, score3)]: the
    new [score] and the value stored in [gaps[i][j].matrix]. *)
Definition SELECT_TRACE_GOTOH_GLOBAL_GAP (epsilon : double)
  (score1 score2 score3 : double) : double * Z :=
  let trace := M_MATRIX in
  let score := score1 in
  let temp := score2 in
  let '(score, trace) :=
    if fgt temp (score + epsilon) then (temp, Ix_MATRIX)
    else if fgt temp (score - epsilon) then (score, Z.lor trace Ix_MATRIX)
    else (score, trace) in
  let temp := score3 in
  let '(score, trace) :=
    if fgt temp (score + epsilon) then (temp, Iy_MATRIX)
    else if fgt temp (score - epsilon) then (score, Z.lor trace Iy_MATRIX)
    else (score, trace) in
  (score, Z.land trace 15).

(** [SELECT_TRACE_GOTOH_GLOBAL_ALIGN]: the new [score] and the value stored
    in [M[i][j].trace]. *)
Definition SELECT_TRACE_GOTOH_GLOBAL_ALIGN (epsilon : double)
  (M_temp Ix_temp Iy_temp : double) : double * Z :=
  let trace := M_MATRIX in
  let score := M_temp in
  let temp := Ix_temp in
  let '(score, trace) :=
    if fgt temp (score + epsilon) then (Ix_temp, Ix_MATRIX)
    else if fgt temp (score - epsilon) then (score, Z.lor trace Ix_MATRIX)
    else (score, trace) in
  let temp := Iy_temp in
  let '(score, trace) :=
    if fgt temp (score + epsilon) then (temp, Iy_MATRIX)
    else if fgt temp (score - epsilon) then (score, Z.lor trace Iy_MATRIX)
    else (score, trace) in
  (score, Z.land trace 31).

(** State of the local three-state macros: the trace grid, the running
    [maximum] and its cell. The result carries the new [score] first. *)
Definition local_state : Type := (list (list Trace) * double * nat * nat)%type.

Definition SELECT_TRACE_GOTOH_LOCAL_ALIGN (epsilon : double) (nB i j : nat)
  (M_temp Ix_temp Iy_temp align_score : double) (st : local_state)
  : double * local_state :=
  let '(M, maximum, im, jm) := st in
  let trace := M_MATRIX in
  let score := M_temp in
  let '(score, trace) :=
    if fgt Ix_temp (score + epsilon) then (Ix_temp, Ix_MATRIX)
    else if fgt Ix_temp (score - epsilon) then (score, Z.lor trace Ix_MATRIX)
    else (score, trace) in
  let '(score, trace) :=
    if fgt Iy_temp (score + epsilon) then (Iy_temp, Iy_MATRIX)
    else if fgt Iy_temp (score - epsilon) then (score, Z.lor trace Iy_MATRIX)
    else (score, trace) in
  let score := score + align_score in
  let '(score, trace, M, maximum, im, jm) :=
    if flt score epsilon then (0, STARTPOINT, M, maximum, im, jm)
    else if fgt score (maximum - epsilon) then
      let '(M, maximum, im, jm) :=
        if fgt score (maximum + epsilon) then
          let maximum := score in
          let '(M, im, jm) := withdraw_ENDPOINTs nB i j im jm M in
          (M, maximum, im, jm)
        else (M, maximum, im, jm) in
      (score, Z.lor trace ENDPOINT, M, maximum, im, jm)
    else (score, trace, M, maximum, im, jm) in
  let M := store_trace i j trace M in
  (score, (M, maximum, im, jm)).

Definition SELECT_TRACE_GOTOH_LOCAL_GAP (epsilon : double)
  (score1 score2 score3 : double) : double * Z :=
  let trace := M_MATRIX in
  let score := score1 in
  let temp := score2 in
  let '(score, trace) :=
    if fgt temp (score + epsilon) then (temp, Ix_MATRIX)
    else if fgt temp (score - epsilon) then (score, Z.lor trace Ix_MATRIX)
    else (score, trace) in
  let temp := score3 in
  let '(score, trace) :=
    if fgt temp (score + epsilon) then (temp, Iy_MATRIX)
    else if fgt temp (score - epsilon) then (score, Z.lor trace Iy_MATRIX)
    else (score, trace) in
  let '(score, trace) :=
    if flt score epsilon then (- DBL_MAX, 0%Z) else (score, trace) in
  (score, Z.land trace 15).

(** [SELECT_TRACE_WATERMAN_SMITH_BEYER_GLOBAL_ALIGN(score4)], reading
    [m = M_row[i-1][j-1]], [x = Ix_row[i-1][j-1]], [y = Iy_row[i-1][j-1]]:
    the value stored in [M_row[i][j]] and the one stored in [M[i][j].trace]. *)
Definition SELECT_TRACE_WATERMAN_SMITH_BEYER_GLOBAL_ALIGN (epsilon : double)
  (m x y score4 : double) : double * Z :=
  let trace := M_MATRIX in
  let score := m in
  let temp := x in
  let '(score, trace) :=
    if fgt temp (score + epsilon) then (temp, Ix_MATRIX)
    else if fgt temp (score - epsilon) then (score, Z.lor trace Ix_MATRIX)
    else (score, trace) in
  let temp := y in
  let '(score, trace) :=
    if fgt temp (score + epsilon) then (temp, Iy_MATRIX)
    else if fgt temp (score - epsilon) then (score, Z.lor trace Iy_MATRIX)
    else (score, trace) in
  (score + score4, Z.land trace 31).

(** [SELECT_TRACE_WATERMAN_SMITH_BEYER_GAP(score1, score2)] for the gap
    length [gap] with score [gapscore]: the running [score] and the two
    gap-length arrays [gapM] (filled up to [nm]) and [gapXY] (up to [ng]). *)
Definition wsb_gap_state : Type :=
  (double * list Z * nat * list Z * nat)%type.

Definition SELECT_TRACE_WATERMAN_SMITH_BEYER_GAP (epsilon gapscore : double)
  (gap : Z) (score1 score2 : double) (st : wsb_gap_state) : wsb_gap_state :=
  let '(score, gapM, nm, gapXY, ng) := st in
  let temp := score1 + gapscore in
  let '(score, gapM, nm, ng) :=
    if fgt temp (score - epsilon) then
      let '(score, nm, ng) :=
        if fgt temp (score + epsilon) then (temp, 0%nat, 0%nat)
        else (score, nm, ng) in
      let gapM := <[nm := gap]> gapM in
      let nm := S nm in
      (score, gapM, nm, ng)
    else (score, gapM, nm, ng) in
  let temp := score2 + gapscore in
  let '(score, gapXY, nm, ng) :=
    if fgt temp (score - epsilon) then
      let '(score, nm, ng) :=
        if fgt temp (score + epsilon) then (temp, 0%nat, 0%nat)
        else (score, nm, ng) in
      let gapXY := <[ng := gap]> gapXY in
      let ng := S ng in
      (score, gapXY, nm, ng)
    else (score, gapXY, nm, ng) in
  (score, gapM, nm, gapXY, ng).

(** [SELECT_TRACE_WATERMAN_SMITH_BEYER_ALIGN(score1, score2, score3,
    score4)]: the value stored in [M_row[i][j]] (the new [score]) and the
    state of the trace grid. *)
Definition SELECT_TRACE_WATERMAN_SMITH_BEYER_ALIGN (epsilon : double) (nB i j : nat)
  (score1 score2 score3 score4 : double) (st : local_state)
  : double * local_state :=
  let '(M, maximum, im, jm) := st in
  let trace := M_MATRIX in
  let score := score1 in
  let '(score, trace) :=
    if fgt score2 (score + epsilon) then (score2, Ix_MATRIX)
    else if fgt score2 (score - epsilon) then (score, Z.lor trace Ix_MATRIX)
    else (score, trace) in
  let '(score, trace) :=
    if fgt score3 (score + epsilon) then (score3, Iy_MATRIX)
    else if fgt score3 (score - epsilon) then (score, Z.lor trace Iy_MATRIX)
    else (score, trace) in
  let score := score + score4 in
  let '(score, trace, M, maximum, im, jm) :=
    if flt score epsilon then (0, STARTPOINT, M, maximum, im, jm)
    else if fgt score (maximum - epsilon) then
      let '(M, maximum, im, jm) :=
        if fgt score (maximum + epsilon) then
          let maximum := score in
          let '(M, im, jm) := withdraw_ENDPOINTs nB i j im jm M in
          (M, maximum, im, jm)
        else (M, maximum, im, jm) in
      (score, Z.lor trace ENDPOINT, M, maximum, im, jm)
    else (score, trace, M, maximum, im, jm) in
  let M := store_trace i j trace M in
  (score, (M, maximum, im, jm)).

Local Close Scope float_scope.

(** ** Letter scores *)

(** [COMPARE_SCORE] and [MATRIX_SCORE], as functions of [kA] and [kB]; the
    other names are the locals of the functions that instantiate the
    passes. *)
Definition COMPARE_SCORE (match_ mismatch : double) (wildcard : Z) (kA kB : Z) : double :=
  if (kA =? wildcard) || (kB =? wildcard) then 0%float
  else if kA =? kB then match_ else mismatch.

Definition MATRIX_SCORE (substitution_matrix : Z -> double) (n : Z) (kA kB : Z) : double :=
  substitution_matrix (kA * n + kB).

(** ** Path generator *)

(** The generator object.  The [gaps] union belongs to the Gotoh and
    Waterman-Smith-Beyer generators; the linear-gap generators created
    below leave it [NULL]. *)
Record PathGenerator : Type := Build_PathGenerator {
  pg_M : list (list Trace);
  pg_nA : nat;
  pg_nB : nat;
  pg_iA : nat;
  pg_iB : nat;
  pg_mode : Mode;
  pg_algorithm : Algorithm;
  pg_length : Z;
  pg_strand : ascii
}.

Definition set_pg_M (M : list (list Trace)) (self : PathGenerator) : PathGenerator :=
  {| pg_M := M; pg_nA := pg_nA self; pg_nB := pg_nB self; pg_iA := pg_iA self;
     pg_iB := pg_iB self; pg_mode := pg_mode self; pg_algorithm := pg_algorithm self;
     pg_length := pg_length self; pg_strand := pg_strand self |}.

Definition set_pg_length (length : Z) (self : PathGenerator) : PathGenerator :=
  {| pg_M := pg_M self; pg_nA := pg_nA self; pg_nB := pg_nB self; pg_iA := pg_iA self;
     pg_iB := pg_iB self; pg_mode := pg_mode self; pg_algorithm := pg_algorithm self;
     pg_length := length; pg_strand := pg_strand self |}.

(** [PathGenerator_create_NWSW].  The cells come from [PyMem_Malloc]; the
    model starts them at zero (no function below reads a field of a cell
    before the forward pass has written it). *)
Definition PathGenerator_create_NWSW (nA nB : nat) (mode : Mode) (strand : ascii)
  : PyResult PathGenerator :=
  match (match mode with
         | Global => Some VERTICAL
         | Local => Some STARTPOINT
         | FOGSAA_Mode => None
         end) with
  | None => Err (RuntimeError "mode has unexpected value")
  | Some trace =>
    let M := replicate (S nA) (replicate (S nB) {| trace := 0; path := 0 |}) in
    let M := for_range 0 (S nA) (fun i M => store_trace i 0 trace M) M in
    let '(M, trace) :=
      if Mode_eqb mode Global then (store_trace 0 0 0 M, HORIZONTAL) else (M, trace) in
    let M := for_range 1 (S nB) (fun i M => store_trace 0 i trace M) M in
    let M := store_path 0 0 0 M in
    Ok {| pg_M := M; pg_nA := nA; pg_nB := nB; pg_iA := 0; pg_iB := 0;
          pg_mode := mode; pg_algorithm := NeedlemanWunschSmithWaterman;
          pg_length := 0; pg_strand := strand |}
  end.

(** ** Needleman-Wunsch *)

Local Open Scope float_scope.

(** The [switch (strand)] of the Needleman-Wunsch macros: the four locals
    [left_gap_extend_A], [right_gap_extend_A], [left_gap_extend_B],
    [right_gap_extend_B], or [None] in the [default] case. *)
Definition NEEDLEMANWUNSCH_strand (self : Aligner) (strand : ascii)
  : option (double * double * double * double) :=
  if Ascii.eqb strand "+" then
    let left_gap_extend_A := extend_left_insertion_score self in
    let right_gap_extend_A := extend_right_insertion_score self in
    let left_gap_extend_B := extend_left_deletion_score self in
    let right_gap_extend_B := extend_right_deletion_score self in
    Some (left_gap_extend_A, right_gap_extend_A, left_gap_extend_B, right_gap_extend_B)
  else if Ascii.eqb strand "-" then
    let left_gap_extend_A := extend_right_insertion_score self in
    let right_gap_extend_A := extend_left_insertion_score self in
    let left_gap_extend_B := extend_right_deletion_score self in
    let right_gap_extend_B := extend_left_deletion_score self in
    Some (left_gap_extend_A, right_gap_extend_A, left_gap_extend_B, right_gap_extend_B)
  else None.

(** [NEEDLEMANWUNSCH_SCORE(align_score)].  [sA] and [sB] are the [const
    int*] pointers, read by index. *)
Definition NEEDLEMANWUNSCH_SCORE (align_score : Z -> Z -> double) (self : Aligner)
  (sA : Z -> Z) (nA : nat) (sB : Z -> Z) (nB : nat) (strand : ascii)
  : PyResult double :=
  let gap_extend_A := extend_internal_insertion_score self in
  let gap_extend_B := extend_internal_deletion_score self in
  match NEEDLEMANWUNSCH_strand self strand with
  | None => Err (RuntimeError "strand was neither '+' nor '-'")
  | Some (left_gap_extend_A, right_gap_extend_A, left_gap_extend_B, right_gap_extend_B) =>
    let row := replicate (S nB) 0 in
    let row := <[0%nat := 0]> row in
    let row :=
      for_range 1 (S nB) (fun j row =>
        <[j := double_of_nat j * left_gap_extend_A]> row) row in
    let '(row, temp, score) :=
      for_range 1 nA (fun i '(row, temp, score) =>
        let kA := sA (Z.of_nat i - 1)%Z in
        let temp := row !!! 0%nat in
        let row := <[0%nat := double_of_nat i * left_gap_extend_B]> row in
        let '(row, temp, score) :=
          for_range 1 nB (fun j '(row, temp, score) =>
            let kB := sB (Z.of_nat j - 1)%Z in
            let score :=
              SELECT_SCORE_GLOBAL (temp + align_score kA kB)
                                  (row !!! j + gap_extend_B)
                                  (row !!! (j - 1)%nat + gap_extend_A) in
            let temp := row !!! j in
            let row := <[j := score]> row in
            (row, temp, score)) (row, temp, score) in
        let kB := sB (Z.of_nat nB - 1)%Z in
        let score :=
          SELECT_SCORE_GLOBAL (temp + align_score kA kB)
                              (row !!! nB + right_gap_extend_B)
                              (row !!! (nB - 1)%nat + gap_extend_A) in
        let temp := row !!! nB in
        let row := <[nB := score]> row in
        (row, temp, score)) (row, 0, 0) in
    let kA := sA (Z.of_nat nA - 1)%Z in
    let temp := row !!! 0%nat in
    let row := <[0%nat := double_of_nat nA * right_gap_extend_B]> row in
    let '(row, temp, score) :=
      for_range 1 nB (fun j '(row, temp, score) =>
        let kB := sB (Z.of_nat j - 1)%Z in
        let score :=
          SELECT_SCORE_GLOBAL (temp + align_score kA kB)
                              (row !!! j + gap_extend_B)
                              (row !!! (j - 1)%nat + right_gap_extend_A) in
        let temp := row !!! j in
        let row := <[j := score]> row in
        (row, temp, score)) (row, temp, score) in
    let kB := sB (Z.of_nat nB - 1)%Z in
    let score :=
      SELECT_SCORE_GLOBAL (temp + align_score kA kB)
                          (row !!! nB + right_gap_extend_B)
                          (row !!! (nB - 1)%nat + right_gap_extend_A) in
    Ok score
  end.

(** [NEEDLEMANWUNSCH_ALIGN(align_score)].  After [for (i = 1; i < nA; i++)]
    the counter [i] holds [Nat.max 1 nA], and [j] holds [Nat.max 1 nB]
    after each inner loop; the source uses both. *)
Definition NEEDLEMANWUNSCH_ALIGN (align_score : Z -> Z -> double) (self : Aligner)
  (sA : Z -> Z) (nA : nat) (sB : Z -> Z) (nB : nat) (strand : ascii)
  : PyResult (double * PathGenerator) :=
  let gap_extend_A := extend_internal_insertion_score self in
  let gap_extend_B := extend_internal_deletion_score self in
  let epsilon := epsilon self in
  match NEEDLEMANWUNSCH_strand self strand with
  | None => Err (RuntimeError "strand was neither '+' nor '-'")
  | Some (left_gap_extend_A, right_gap_extend_A, left_gap_extend_B, right_gap_extend_B) =>
    match PathGenerator_create_NWSW nA nB Global strand with
    | Err e => Err e
    | Ok paths =>
      let row := replicate (S nB) 0 in
      let M := pg_M paths in
      let row := <[0%nat := 0]> row in
      let row :=
        for_range 1 (S nB) (fun j row =>
          <[j := double_of_nat j * left_gap_extend_A]> row) row in
      let '(row, temp, score, M) :=
        for_range 1 nA (fun i '(row, temp, score, M) =>
          let temp := row !!! 0%nat in
          let row := <[0%nat := double_of_nat i * left_gap_extend_B]> row in
          let kA := sA (Z.of_nat i - 1)%Z in
          let '(row, temp, score, M) :=
            for_range 1 nB (fun j st =>
              let kB := sB (Z.of_nat j - 1)%Z in
              SELECT_TRACE_NEEDLEMAN_WUNSCH epsilon i j gap_extend_A gap_extend_B
                (align_score kA kB) st) (row, temp, score, M) in
          let j := Nat.max 1 nB in
          let kB := sB (Z.of_nat j - 1)%Z in
          SELECT_TRACE_NEEDLEMAN_WUNSCH epsilon i j gap_extend_A right_gap_extend_B
            (align_score kA kB) (row, temp, score, M)) (row, 0, 0, M) in
      let i := Nat.max 1 nA in
      let temp := row !!! 0%nat in
      let row := <[0%nat := double_of_nat i * left_gap_extend_B]> row in
      let kA := sA (Z.of_nat nA - 1)%Z in
      let '(row, temp, score, M) :=
        for_range 1 nB (fun j st =>
          let kB := sB (Z.of_nat j - 1)%Z in
          SELECT_TRACE_NEEDLEMAN_WUNSCH epsilon i j right_gap_extend_A gap_extend_B
            (align_score kA kB) st) (row, temp, score, M) in
      let j := Nat.max 1 nB in
      let kB := sB (Z.of_nat j - 1)%Z in
      let '(row, temp, score, M) :=
        SELECT_TRACE_NEEDLEMAN_WUNSCH epsilon i j right_gap_extend_A right_gap_extend_B
          (align_score kA kB) (row, temp, score, M) in
      let M := store_path nA nB 0 M in
      Ok (score, set_pg_M M paths)
    end
  end.

Local Close Scope float_scope.

(** The four instances of the two macros. *)
Definition Aligner_needlemanwunsch_score_compare (self : Aligner)
  (sA : Z -> Z) (nA : nat) (sB : Z -> Z) (nB : nat) (strand : ascii) : PyResult double :=
  let match_ := match_ self in
  let mismatch := mismatch self in
  let wildcard := wildcard self in
  NEEDLEMANWUNSCH_SCORE (COMPARE_SCORE match_ mismatch wildcard) self sA nA sB nB strand.

Definition Aligner_needlemanwunsch_score_matrix (self : Aligner)
  (sA : Z -> Z) (nA : nat) (sB : Z -> Z) (nB : nat) (strand : ascii) : PyResult double :=
  match substitution_matrix self with
  | None => Err Propagated
  | Some matrix =>
    let n := nth 0 (shape (view matrix)) 0 in
    let substitution_matrix := dbuf (view matrix) in
    NEEDLEMANWUNSCH_SCORE (MATRIX_SCORE substitution_matrix n) self sA nA sB nB strand
  end.

Definition Aligner_needlemanwunsch_align_compare (self : Aligner)
  (sA : Z -> Z) (nA : nat) (sB : Z -> Z) (nB : nat) (strand : ascii)
  : PyResult (double * PathGenerator) :=
  let match_ := match_ self in
  let mismatch := mismatch self in
  let wildcard := wildcard self in
  NEEDLEMANWUNSCH_ALIGN (COMPARE_SCORE match_ mismatch wildcard) self sA nA sB nB strand.

Definition Aligner_needlemanwunsch_align_matrix (self : Aligner)
  (sA : Z -> Z) (nA : nat) (sB : Z -> Z) (nB : nat) (strand : ascii)
  : PyResult (double * PathGenerator) :=
  match substitution_matrix self with
  | None => Err Propagated
  | Some matrix =>
    let n := nth 0 (shape (view matrix)) 0 in
    let substitution_matrix := dbuf (view matrix) in
    NEEDLEMANWUNSCH_ALIGN (MATRIX_SCORE substitution_matrix n) self sA nA sB nB strand
  end.

(** ** Smith-Waterman *)

Local Open Scope float_scope.

(** [SMITHWATERMAN_SCORE(align_score)]. *)
Definition SMITHWATERMAN_SCORE (align_score : Z -> Z -> double) (self : Aligner)
  (sA : Z -> Z) (nA : nat) (sB : Z -> Z) (nB : nat) : PyResult double :=
  let gap_extend_A := extend_internal_insertion_score self in
  let gap_extend_B := extend_internal_deletion_score self in
  let maximum := 0 in
  let row := replicate (S nB) 0 in
  let row := for_range 0 (S nB) (fun j row => <[j := 0]> row) row in
  let '(row, temp, score, maximum) :=
    for_range 1 nA (fun i '(row, temp, score, maximum) =>
      let kA := sA (Z.of_nat i - 1)%Z in
      let temp := 0 in
      let '(row, temp, score, maximum) :=
        for_range 1 nB (fun j '(row, temp, score, maximum) =>
          let kB := sB (Z.of_nat j - 1)%Z in
          let '(score, maximum) :=
            SELECT_SCORE_LOCAL3 (temp + align_score kA kB)
                                (row !!! j + gap_extend_B)
                                (row !!! (j - 1)%nat + gap_extend_A) maximum in
          let temp := row !!! j in
          let row := <[j := score]> row in
          (row, temp, score, maximum)) (row, temp, score, maximum) in
      let kB := sB (Z.of_nat nB - 1)%Z in
      let '(score, maximum) := SELECT_SCORE_LOCAL1 (temp + align_score kA kB) maximum in
      let temp := row !!! nB in
      let row := <[nB := score]> row in
      (row, temp, score, maximum)) (row, 0, 0, maximum) in
  let kA := sA (Z.of_nat nA - 1)%Z in
  let temp := 0 in
  let '(row, temp, score, maximum) :=
    for_range 1 nB (fun j '(row, temp, score, maximum) =>
      let kB := sB (Z.of_nat j - 1)%Z in
      let '(score, maximum) := SELECT_SCORE_LOCAL1 (temp + align_score kA kB) maximum in
      let temp := row !!! j in
      let row := <[j := score]> row in
      (row, temp, score, maximum)) (row, temp, score, maximum) in
  let kB := sB (Z.of_nat nB - 1)%Z in
  let '(score, maximum) := SELECT_SCORE_LOCAL1 (temp + align_score kA kB) maximum in
  Ok maximum.

(** [M[i][j].path = p] for the whole field. *)
Definition reachable (M : list (list Trace)) (i j : nat) : bool :=
  negb (path_of (cell M i j) =? 0)%Z.

(** The loop of [SMITHWATERMAN_ALIGN] that removes the traces towards
    points with no path from a STARTPOINT, with [path] as the mark of a
    reachable point. *)
Definition remove_unreachable (nA nB : nat) (M : list (list Trace)) : list (list Trace) :=
  let M := for_range 0 (S nB) (fun j M => store_path 0 j 1 M) M in
  for_range 1 (S nA) (fun i M =>
    let M := store_path i 0 1 M in
    for_range 1 (S nB) (fun j M =>
      let trace := trace_of (cell M i j) in
      let trace :=
        if negb (reachable M (i - 1) (j - 1)) then Z.land trace (Z.lnot DIAGONAL)
        else trace in
      let trace :=
        if negb (reachable M i (j - 1)) then Z.land trace (Z.lnot HORIZONTAL)
        else trace in
      let trace :=
        if negb (reachable M (i - 1) j) then Z.land trace (Z.lnot VERTICAL)
        else trace in
      let '(M, trace) :=
        if negb (Z.land trace (Z.lor STARTPOINT
                                 (Z.lor HORIZONTAL (Z.lor VERTICAL DIAGONAL))) =? 0)%Z
        then
          if negb (Z.land trace ENDPOINT =? 0)%Z
          then (store_path i j 0 M, trace)
          else (store_path i j 1 M, trace)
        else (store_path i j 0 M, 0%Z) in
      store_trace i j trace M) M) M.

(** [SMITHWATERMAN_ALIGN(align_score)].  After [for (i = 1; i < nA; i++)]
    the counter [i] holds [Nat.max 1 nA], and [j] holds [Nat.max 1 nB]
    after each inner loop; the trace macros use both. *)
Definition SMITHWATERMAN_ALIGN (align_score : Z -> Z -> double) (self : Aligner)
  (sA : Z -> Z) (nA : nat) (sB : Z -> Z) (nB : nat) (strand : ascii)
  : PyResult (double * PathGenerator) :=
  let im := nA in
  let jm := nB in
  let gap_extend_A := extend_internal_insertion_score self in
  let gap_extend_B := extend_internal_deletion_score self in
  let epsilon := epsilon self in
  let maximum := 0 in
  let score := 0 in
  match PathGenerator_create_NWSW nA nB Local strand with
  | Err e => Err e
  | Ok paths =>
    let row := replicate (S nB) 0 in
    let M := pg_M paths in
    let row := for_range 0 (S nB) (fun j row => <[j := 0]> row) row in
    let '(row, temp, score, M, maximum, im, jm) :=
      for_range 1 nA (fun i '(row, temp, score, M, maximum, im, jm) =>
        let temp := 0 in
        let kA := sA (Z.of_nat i - 1)%Z in
        let st :=
          for_range 1 nB (fun j st =>
            let kB := sB (Z.of_nat j - 1)%Z in
            SELECT_TRACE_SMITH_WATERMAN_HVD epsilon gap_extend_A gap_extend_B nB i j
              (align_score kA kB) st) (row, temp, score, M, maximum, im, jm) in
        let j := Nat.max 1 nB in
        let kB := sB (Z.of_nat nB - 1)%Z in
        SELECT_TRACE_SMITH_WATERMAN_D epsilon nB i j (align_score kA kB) st)
        (row, 0, score, M, maximum, im, jm) in
    let i := Nat.max 1 nA in
    let temp := 0 in
    let kA := sA (Z.of_nat nA - 1)%Z in
    let st :=
      for_range 1 nB (fun j st =>
        let kB := sB (Z.of_nat j - 1)%Z in
        SELECT_TRACE_SMITH_WATERMAN_D epsilon nB i j (align_score kA kB) st)
        (row, temp, score, M, maximum, im, jm) in
    let j := Nat.max 1 nB in
    let kB := sB (Z.of_nat nB - 1)%Z in
    let '(row, temp, score, M, maximum, im, jm) :=
      SELECT_TRACE_SMITH_WATERMAN_D epsilon nB i j (align_score kA kB) st in
    let M := remove_unreachable nA nB M in
    let M := if feqb maximum 0 then store_path 0 0 NONE M else store_path 0 0 0 M in
    Ok (maximum, set_pg_M M paths)
  end.

Local Close Scope float_scope.

(** ** Path counter *)

(** Arithmetic on [Py_ssize_t] wraps around (two's complement). *)
Definition ssize_t (x : Z) : Z :=
  (x + 9223372036854775808) mod 18446744073709551616 - 9223372036854775808.

(** [SAFE_ADD(t, s)]: the new value of [s] ([term] is a scratch variable
    of the enclosing function). *)
Definition SAFE_ADD (t : Z) (s : Z) : Z :=
  if negb (s =? OVERFLOW_ERROR) then
    let term := t in
    if term >? ssize_t (PY_SSIZE_T_MAX - s) then OVERFLOW_ERROR
    else ssize_t (s + term)
  else s.

(** [if (trace & BIT) SAFE_ADD(t, count);] *)
Definition SAFE_ADD_if (trace BIT : Z) (t : Z) (count : Z) : Z :=
  if negb (Z.land trace BIT =? 0) then SAFE_ADD t count else count.

Definition PathGenerator_needlemanwunsch_length (self : PathGenerator) : Z :=
  let nA := pg_nA self in
  let nB := pg_nB self in
  let M := pg_M self in
  let count := MEMORY_ERROR in
  let counts := replicate (S nB) 0 in
  let counts := <[0%nat := 1]> counts in
  let '(counts, count) :=
    for_range 1 (S nB) (fun j '(counts, count) =>
      let trace := trace_of (cell M 0 j) in
      let count := 0 in
      let count := SAFE_ADD_if trace HORIZONTAL (counts !!! (j - 1)%nat) count in
      let counts := <[j := count]> counts in
      (counts, count)) (counts, count) in
  let '(counts, count, temp) :=
    for_range 1 (S nA) (fun i '(counts, count, temp) =>
      let trace := trace_of (cell M i 0) in
      let count := 0 in
      let count := SAFE_ADD_if trace VERTICAL (counts !!! 0%nat) count in
      let temp := counts !!! 0%nat in
      let counts := <[0%nat := count]> counts in
      for_range 1 (S nB) (fun j '(counts, count, temp) =>
        let trace := trace_of (cell M i j) in
        let count := 0 in
        let count := SAFE_ADD_if trace HORIZONTAL (counts !!! (j - 1)%nat) count in
        let count := SAFE_ADD_if trace VERTICAL (counts !!! j) count in
        let count := SAFE_ADD_if trace DIAGONAL temp count in
        let temp := counts !!! j in
        let counts := <[j := count]> counts in
        (counts, count, temp)) (counts, count, temp)) (counts, count, 0) in
  count.

Definition PathGenerator_smithwaterman_length (self : PathGenerator) : Z :=
  let nA := pg_nA self in
  let nB := pg_nB self in
  let M := pg_M self in
  let total := 0 in
  let counts := replicate (S nB) 0 in
  let counts := <[0%nat := 1]> counts in
  let counts := for_range 1 (S nB) (fun j counts => <[j := 1]> counts) counts in
  let '(counts, count, temp, total) :=
    for_range 1 (S nA) (fun i '(counts, count, temp, total) =>
      let temp := counts !!! 0%nat in
      let counts := <[0%nat := 1]> counts in
      for_range 1 (S nB) (fun j '(counts, count, temp, total) =>
        let trace := trace_of (cell M i j) in
        let count := 0 in
        let count := SAFE_ADD_if trace DIAGONAL temp count in
        let total := SAFE_ADD_if (trace_of (cell M i j)) ENDPOINT count total in
        let count := SAFE_ADD_if trace HORIZONTAL (counts !!! (j - 1)%nat) count in
        let count := SAFE_ADD_if trace VERTICAL (counts !!! j) count in
        let temp := counts !!! j in
        let count :=
          if (count =? 0) && negb (Z.land trace STARTPOINT =? 0) then 1 else count in
        let counts := <[j := count]> counts in
        (counts, count, temp, total)) (counts, count, temp, total))
      (counts, MEMORY_ERROR, 0, total) in
  let count := total in
  count.

Definition PathGenerator_fogsaa_length (self : PathGenerator) : Z := 1.

Section Counting.

(** The counters of the Gotoh and Waterman-Smith-Beyer generators read the
    [gaps] union of their generators; [PathGenerator_length] only
    dispatches to them, so they are taken as they are. *)
Variable PathGenerator_gotoh_global_length : PathGenerator -> Z.
Variable PathGenerator_gotoh_local_length : PathGenerator -> Z.
Variable PathGenerator_waterman_smith_beyer_global_length : PathGenerator -> Z.
Variable PathGenerator_waterman_smith_beyer_local_length : PathGenerator -> Z.

(** The [switch (self->algorithm)] of [PathGenerator_length]: the computed
    length, or the error with which the source returns [OTHER_ERROR] at
    once. *)
Definition PathGenerator_length_switch (self : PathGenerator) : PyResult Z :=
  match pg_algorithm self with
  | NeedlemanWunschSmithWaterman =>
    match pg_mode self with
    | Global => Ok (PathGenerator_needlemanwunsch_length self)
    | Local => Ok (PathGenerator_smithwaterman_length self)
    | _ => Err (RuntimeError "mode has unexpected value")
    end
  | Gotoh =>
    match pg_mode self with
    | Global => Ok (PathGenerator_gotoh_global_length self)
    | Local => Ok (PathGenerator_gotoh_local_length self)
    | _ => Err (RuntimeError "mode has unexpected value")
    end
  | WatermanSmithBeyer =>
    match pg_mode self with
    | Global => Ok (PathGenerator_waterman_smith_beyer_global_length self)
    | Local => Ok (PathGenerator_waterman_smith_beyer_local_length self)
    | _ => Err (RuntimeError "mode has unexpected value")
    end
  | FOGSAA =>
    if negb (Mode_eqb (pg_mode self) FOGSAA_Mode)
    then Err (RuntimeError "mode has unexpected value")
    else Ok (PathGenerator_fogsaa_length self)
  | Unknown => Err (RuntimeError "algorithm has unexpected value")
  end.

(** [PathGenerator_length] (the [sq_length] slot): the returned
    [Py_ssize_t], the exception set on return, and the generator after the
    call ([self->length] caches the count). *)
Definition PathGenerator_length (self : PathGenerator)
  : Z * option PyErr * PathGenerator :=
  let length := pg_length self in
  let computed :=
    if length =? 0 then
      match PathGenerator_length_switch self with
      | Err e => Err e
      | Ok length => Ok (length, set_pg_length length self)
      end
    else Ok (length, self) in
  match computed with
  | Err e => (OTHER_ERROR, Some e, self)
  | Ok (length, self) =>
    if length =? OVERFLOW_ERROR then
      (length,
       Some (OverflowError "number of optimal alignments is larger than PY_SSIZE_T_MAX"),
       self)
    else if length =? MEMORY_ERROR then (length, Some MemoryError, self)
    else (length, None, self)
  end.

End Counting.

(** ** Path materialisation *)

(** The first loop of [PathGenerator_create_path]: the number [n] of
    coordinates of the path that starts at [(k, l)].  The loop has no
    bound of its own; [fuel] bounds the steps of the model, and [None] is
    a walk that did not end within it. *)
Fixpoint create_path_count (fuel : nat) (M : list (list Trace)) (k l : nat)
  (direction : Z) (n : nat) : option nat :=
  match fuel with
  | O => None
  | S fuel =>
    let path := path_of (cell M k l) in
    if path =? 0 then Some n
    else
      let '(n, direction) :=
        if negb (path =? direction) then (S n, path) else (n, direction) in
      let '(k, l) :=
        if path =? HORIZONTAL then (k, S l)
        else if path =? VERTICAL then (S k, l)
        else if path =? DIAGONAL then (S k, S l)
        else (k, l) in
      create_path_count fuel M k l direction n
  end.

(** The loop of [case '+']: the coordinates stored in [target_row] and
    [query_row], in order. *)
Fixpoint create_path_plus (fuel : nat) (M : list (list Trace)) (i j : nat)
  (direction : Z) : option (list (Z * Z)) :=
  match fuel with
  | O => None
  | S fuel =>
    let path := path_of (cell M i j) in
    let '(emitted, direction) :=
      if negb (path =? direction)
      then ([(Z.of_nat i, Z.of_nat j)], path) else ([], direction) in
    if path =? HORIZONTAL then
      option_map (app emitted) (create_path_plus fuel M i (S j) direction)
    else if path =? VERTICAL then
      option_map (app emitted) (create_path_plus fuel M (S i) j direction)
    else if path =? DIAGONAL then
      option_map (app emitted) (create_path_plus fuel M (S i) (S j) direction)
    else Some emitted
  end.

(** The loop of [case '-']. *)
Fixpoint create_path_minus (fuel : nat) (M : list (list Trace)) (nB : nat) (i j : nat)
  (direction : Z) : option (list (Z * Z)) :=
  match fuel with
  | O => None
  | S fuel =>
    let path := path_of (cell M i j) in
    let '(emitted, direction) :=
      if negb (path =? direction)
      then ([(Z.of_nat i, Z.of_nat nB - Z.of_nat j)], path) else ([], direction) in
    if path =? HORIZONTAL then
      option_map (app emitted) (create_path_minus fuel M nB i (S j) direction)
    else if path =? VERTICAL then
      option_map (app emitted) (create_path_minus fuel M nB (S i) j direction)
    else if path =? DIAGONAL then
      option_map (app emitted) (create_path_minus fuel M nB (S i) (S j) direction)
    else Some emitted
  end.

(** [PathGenerator_create_path(self, i, j)]: the size [n] of the two tuples
    and the pairs [(target_row[k], query_row[k])] that the loop fills in.
    A strand that is neither ['+'] nor ['-'] leaves the [switch] without
    filling anything and the function returns [PyErr_NoMemory()]. *)
Definition PathGenerator_create_path (fuel : nat) (self : PathGenerator) (i j : nat)
  : option (PyResult (nat * list (Z * Z))) :=
  let M := pg_M self in
  let strand := pg_strand self in
  match create_path_count fuel M i j 0 1 with
  | None => None
  | Some n =>
    if Ascii.eqb strand "+" then
      option_map (fun coordinates => Ok (n, coordinates)) (create_path_plus fuel M i j 0)
    else if Ascii.eqb strand "-" then
      let nB := pg_nB self in
      option_map (fun coordinates => Ok (n, coordinates))
                 (create_path_minus fuel M nB i j 0)
    else Some (Err MemoryError)
  end.

(** ** Strand-dependent edge gaps of the affine passes *)

(** The [switch (strand)] that opens [GOTOH_GLOBAL_SCORE],
    [GOTOH_GLOBAL_ALIGN] and [FOGSAA_ENTER] (the same text in the three):
    the locals [left_gap_open_A], [left_gap_open_B], [left_gap_extend_A],
    [left_gap_extend_B], [right_gap_open_A], [right_gap_open_B],
    [right_gap_extend_A], [right_gap_extend_B], in this order, or [None]
    in the [default] case. *)
Definition edge_gaps : Type :=
  (double * double * double * double * double * double * double * double)%type.

Definition GOTOH_strand (self : Aligner) (strand : ascii) : option edge_gaps :=
  if Ascii.eqb strand "+" then
    let left_gap_open_A := open_left_insertion_score self in
    let left_gap_open_B := open_left_deletion_score self in
    let left_gap_extend_A := extend_left_insertion_score self in
    let left_gap_extend_B := extend_left_deletion_score self in
    let right_gap_open_A := open_right_insertion_score self in
    let right_gap_open_B := open_right_deletion_score self in
    let right_gap_extend_A := extend_right_insertion_score self in
    let right_gap_extend_B := extend_right_deletion_score self in
    Some (left_gap_open_A, left_gap_open_B, left_gap_extend_A, left_gap_extend_B,
          right_gap_open_A, right_gap_open_B, right_gap_extend_A, right_gap_extend_B)
  else if Ascii.eqb strand "-" then
    let left_gap_open_A := open_right_insertion_score self in
    let left_gap_open_B := open_right_deletion_score self in
    let left_gap_extend_A := extend_right_insertion_score self in
    let left_gap_extend_B := extend_right_deletion_score self in
    let right_gap_open_A := open_left_insertion_score self in
    let right_gap_open_B := open_left_deletion_score self in
    let right_gap_extend_A := extend_left_insertion_score self in
    let right_gap_extend_B := extend_left_deletion_score self in
    Some (left_gap_open_A, left_gap_open_B, left_gap_extend_A, left_gap_extend_B,
          right_gap_open_A, right_gap_open_B, right_gap_extend_A, right_gap_extend_B)
  else None.

Definition FOGSAA_ENTER (self : Aligner) (strand : ascii) : option edge_gaps :=
  GOTOH_strand self strand.

(** ** Waterman-Smith-Beyer, global score *)

Local Open Scope float_scope.

(** [_call_deletion_score_function(aligner, i, j, n, &score)]: [Ok score]
    when the C function returns 1, the error when it returns 0. *)
Definition _call_deletion_score_function (aligner : Aligner) (i j n : Z)
  : PyResult double :=
  match deletion_score_function aligner with
  | None =>
    let value :=
      if (i =? 0)%Z then
        open_left_deletion_score aligner
        + double_of_int (j - 1) * extend_left_deletion_score aligner
      else if (i =? n)%Z then
        open_right_deletion_score aligner
        + double_of_int (j - 1) * extend_right_deletion_score aligner
      else
        open_internal_deletion_score aligner
        + double_of_int (j - 1) * extend_internal_deletion_score aligner in
    Ok value
  | Some function =>
    match PyObject_CallFunction function i j with
    | None => Err Propagated
    | Some result =>
      match PyFloat_AsDouble result with
      | None => Err Propagated
      | Some value => Ok value
      end
    end
  end.

Definition _call_insertion_score_function (aligner : Aligner) (i j n : Z)
  : PyResult double :=
  match insertion_score_function aligner with
  | None =>
    let value :=
      if (i =? 0)%Z then
        open_left_insertion_score aligner
        + double_of_int (j - 1) * extend_left_insertion_score aligner
      else if (i =? n)%Z then
        open_right_insertion_score aligner
        + double_of_int (j - 1) * extend_right_insertion_score aligner
      else
        open_internal_insertion_score aligner
        + double_of_int (j - 1) * extend_internal_insertion_score aligner in
    Ok value
  | Some function =>
    match PyObject_CallFunction function i j with
    | None => Err Propagated
    | Some result =>
      match PyFloat_AsDouble result with
      | None => Err Propagated
      | Some value => Ok value
      end
    end
  end.

(** [A[i][j]] and [A[i][j] = v] for [double** A]. *)
Definition get2 (A : list (list double)) (i j : nat) : double := (A !!! i) !!! j.
Definition set2 (i j : nat) (v : double) (A : list (list double)) : list (list double) :=
  <[i := <[j := v]> (A !!! i)]> A.

(** [WATERMANSMITHBEYER_ENTER_SCORE; WATERMANSMITHBEYER_GLOBAL_SCORE(
    align_score, query_gap_start); WATERMANSMITHBEYER_EXIT_SCORE].  The
    macro argument [query_gap_start] is an expression in [j] ([j] or
    [nB-j]), evaluated where it is used: a function of the current [j]. *)
Definition WATERMANSMITHBEYER_GLOBAL_SCORE (align_score : Z -> Z -> double)
  (query_gap_start : nat -> Z) (self : Aligner)
  (sA : Z -> Z) (nA : nat) (sB : Z -> Z) (nB : nat) : PyResult double :=
  let j := 0%nat in
  let M := replicate (S nA) (replicate (S nB) 0) in
  let Ix := replicate (S nA) (replicate (S nB) 0) in
  let Iy := replicate (S nA) (replicate (S nB) 0) in
  let M := set2 0 0 0 M in
  let Ix := set2 0 0 (- DBL_MAX) Ix in
  let Iy := set2 0 0 (- DBL_MAX) Iy in
  match
    try_range 1 (S nA) (fun i '(M, Ix, Iy) =>
      let M := set2 i 0 (- DBL_MAX) M in
      let Iy := set2 i 0 (- DBL_MAX) Iy in
      match _call_deletion_score_function self (query_gap_start j)
                                          (Z.of_nat i) (Z.of_nat nB) with
      | Err e => Err e
      | Ok score => Ok (M, set2 i 0 score Ix, Iy)
      end) (M, Ix, Iy)
  with
  | Err e => Err e
  | Ok (M, Ix, Iy) =>
  match
    try_range 1 (S nB) (fun j '(M, Ix, Iy) =>
      let M := set2 0 j (- DBL_MAX) M in
      let Ix := set2 0 j (- DBL_MAX) Ix in
      match _call_insertion_score_function self 0 (Z.of_nat j) (Z.of_nat nA) with
      | Err e => Err e
      | Ok score => Ok (M, Ix, set2 0 j score Iy)
      end) (M, Ix, Iy)
  with
  | Err e => Err e
  | Ok (M, Ix, Iy) =>
  match
    try_range 1 (S nA) (fun i st =>
      let kA := sA (Z.of_nat i - 1)%Z in
      try_range 1 (S nB) (fun j '(M, Ix, Iy) =>
        let kB := sB (Z.of_nat j - 1)%Z in
        let score :=
          SELECT_SCORE_GLOBAL (get2 M (i - 1) (j - 1)) (get2 Ix (i - 1) (j - 1))
                              (get2 Iy (i - 1) (j - 1)) in
        let M := set2 i j (score + align_score kA kB) M in
        let score := - DBL_MAX in
        match
          try_range 1 (S i) (fun k score =>
            match _call_deletion_score_function self (query_gap_start j)
                                                (Z.of_nat k) (Z.of_nat nB) with
            | Err e => Err e
            | Ok gapscore =>
              Ok (SELECT_SCORE_WATERMAN_SMITH_BEYER gapscore
                    (get2 M (i - k) j) (get2 Iy (i - k) j) score)
            end) score
        with
        | Err e => Err e
        | Ok score =>
        let Ix := set2 i j score Ix in
        let score := - DBL_MAX in
        match
          try_range 1 (S j) (fun k score =>
            match _call_insertion_score_function self (Z.of_nat i)
                                                 (Z.of_nat k) (Z.of_nat nA) with
            | Err e => Err e
            | Ok gapscore =>
              Ok (SELECT_SCORE_WATERMAN_SMITH_BEYER gapscore
                    (get2 M i (j - k)) (get2 Ix i (j - k)) score)
            end) score
        with
        | Err e => Err e
        | Ok score => Ok (M, Ix, set2 i j score Iy)
        end
        end) st) (M, Ix, Iy)
  with
  | Err e => Err e
  | Ok (M, Ix, Iy) =>
    Ok (SELECT_SCORE_GLOBAL (get2 M nA nB) (get2 Ix nA nB) (get2 Iy nA nB))
  end
  end
  end.

Local Close Scope float_scope.

(** The [switch (strand)] of the two instances has no [default]: another
    strand leaves [result] at [NULL] and the function returns
    [PyErr_NoMemory()]. *)
Definition Aligner_watermansmithbeyer_global_score_compare (self : Aligner)
  (sA : Z -> Z) (nA : nat) (sB : Z -> Z) (nB : nat) (strand : ascii) : PyResult double :=
  let match_ := match_ self in
  let mismatch := mismatch self in
  let wildcard := wildcard self in
  if Ascii.eqb strand "+" then
    WATERMANSMITHBEYER_GLOBAL_SCORE (COMPARE_SCORE match_ mismatch wildcard)
      (fun j => Z.of_nat j) self sA nA sB nB
  else if Ascii.eqb strand "-" then
    WATERMANSMITHBEYER_GLOBAL_SCORE (COMPARE_SCORE match_ mismatch wildcard)
      (fun j => Z.of_nat nB - Z.of_nat j) self sA nA sB nB
  else Err MemoryError.

Definition Aligner_watermansmithbeyer_global_score_matrix (self : Aligner)
  (sA : Z -> Z) (nA : nat) (sB : Z -> Z) (nB : nat) (strand : ascii) : PyResult double :=
  match substitution_matrix self with
  | None => Err Propagated
  | Some matrix =>
    let n := nth 0 (shape (view matrix)) 0 in
    let substitution_matrix := dbuf (view matrix) in
    if Ascii.eqb strand "+" then
      WATERMANSMITHBEYER_GLOBAL_SCORE (MATRIX_SCORE substitution_matrix n)
        (fun j => Z.of_nat j) self sA nA sB nB
    else if Ascii.eqb strand "-" then
      WATERMANSMITHBEYER_GLOBAL_SCORE (MATRIX_SCORE substitution_matrix n)
        (fun j => Z.of_nat nB - Z.of_nat j) self sA nA sB nB
    else Err MemoryError
  end.

(** ** Argument conversion *)

Definition Py_CLEANUP_SUPPORTED : Z := 0x20000.

(** [sequence_converter(argument, &view)] for a non-[NULL] argument: the
    view on success (the C function returns [Py_CLEANUP_SUPPORTED]), the
    exception when it returns 0. *)
Definition sequence_converter (argument : PyObject) : PyResult Py_buffer :=
  match argument with
  | PyBufferObject view _ =>
    if negb (ndim view =? 1) then Err (IncorrectRank (ndim view))
    else if len view =? 0 then Err (ValueError "sequence has zero length")
    else if negb (String.eqb (format view) "i") && negb (String.eqb (format view) "l")
    then Err (IncorrectDataType (format view))
    else if negb (itemsize view =? sizeof_int) then Err (UnexpectedItemSize (itemsize view))
    else Ok view
  | _ => Err (TypeError "argument is not a sequence")
  end.

(** [strand_converter]: the character stored through [pointer]. *)
Definition strand_converter (argument : PyObject) : PyResult ascii :=
  match argument with
  | PyUnicode [ch] =>
    if (ch <? 128) && ((ch =? 43) || (ch =? 45))
    then Ok (ascii_of_nat (Z.to_nat ch))
    else Err (ValueError "strand must be '+' or '-'")
  | _ => Err (ValueError "strand must be '+' or '-'")
  end.

(** [_check_indices(view, substitution_matrix)]: [Ok] for [true], the
    exception for [false]. *)
Definition _check_indices (view : Py_buffer) (substitution_matrix : Py_buffer)
  : PyResult unit :=
  let m := nth 0 (shape substitution_matrix) 0 in
  let indices := ibuf view in
  let n := Z.quot (len view) (itemsize view) in
  try_range 0 (Z.to_nat n) (fun i _ =>
    let index := indices (Z.of_nat i) in
    if index <? 0 then Err (ItemNegative (Z.of_nat i) index)
    else if index >=? m then Err (ItemOutOfBound (Z.of_nat i) index m)
    else Ok tt) tt.

(** Writing [indices[i] = index] through the view's pointer. *)
Definition store_index (i : Z) (index : Z) (view : Py_buffer) : Py_buffer :=
  {| ibuf := fun k => if k =? i then index else ibuf view k;
     dbuf := dbuf view; len := len view; itemsize := itemsize view;
     ndim := ndim view; format := format view; shape := shape view |}.

Section Facade.

(** Modelled from the spec: [MISSING_LETTER] is a constant of
    [substitution_matrices/_arraycore.h], which is not among the sources;
    the spec only says that raw letter codes are mapped through an
    alphabet-to-row mapping, so the constant is left open. *)
Variable MISSING_LETTER : Z.

(** [_map_indices(view, mapping, m)]: the view with the items rewritten in
    place up to the point of return, and [Ok] for [true] or the exception
    for [false]. *)
Definition _map_indices (view : Py_buffer) (mapping : Z -> Z) (m : Z)
  : Py_buffer * PyResult unit :=
  let n := Z.quot (len view) (itemsize view) in
  for_range 0 (Z.to_nat n) (fun i '(view, status) =>
    match status with
    | Err e => (view, Err e)
    | Ok _ =>
      let index := ibuf view (Z.of_nat i) in
      if index <? 0 then (view, Err (ItemNegative (Z.of_nat i) index))
      else if index >=? m then (view, Err (ItemOutOfBound (Z.of_nat i) index m))
      else
        let index := mapping index in
        if index =? MISSING_LETTER
        then (view, Err (ValueError "sequence contains letters not in the alphabet"))
        else (store_index (Z.of_nat i) index view, Ok tt)
    end) (view, Ok tt).

(** [_prepare_indices(substitution_matrix, bA, bB)]: the two views after
    the call and the outcome. *)
Definition _prepare_indices (substitution_matrix : Matrix) (bA bB : Py_buffer)
  : Py_buffer * Py_buffer * PyResult unit :=
  match mapping substitution_matrix with
  | Some buffer =>
    let mapping := ibuf buffer in
    let m := Z.quot (len buffer) (itemsize buffer) in
    match _map_indices bA mapping m with
    | (bA, Err e) => (bA, bB, Err e)
    | (bA, Ok _) =>
      match _map_indices bB mapping m with
      | (bB, Err e) => (bA, bB, Err e)
      | (bB, Ok _) => (bA, bB, Ok tt)
      end
    end
  | None =>
    match _check_indices bA (view substitution_matrix) with
    | Err e => (bA, bB, Err e)
    | Ok _ =>
      match _check_indices bB (view substitution_matrix) with
      | Err e => (bA, bB, Err e)
      | Ok _ => (bA, bB, Ok tt)
      end
    end
  end.

(** *** FOGSAA entry *)

(** [PyErr_WarnEx(BiopythonWarning, message, 1)] is decided by the
    interpreter's warning filters: it returns 0 when the warning has been
    issued, -1 when it has been turned into an exception. *)
Variable PyErr_WarnEx : string -> Z.

Definition warning_match : string :=
  "Match score is less than mismatch score. Algorithm may return incorrect results.".
Definition warning_gap : string :=
  "One or more gap scores are greater than mismatch score. Algorithm may return incorrect results.".

(** [FOGSAA_CHECK_SCORES]: the messages passed to [PyErr_WarnEx], and
    whether the function goes on ([true]) or returns [NULL]. *)
Definition FOGSAA_CHECK_SCORES (match_ mismatch : double) (self : Aligner)
  : list string * bool :=
  let '(warnings, go) :=
    if fge mismatch match_ then
      if negb (PyErr_WarnEx warning_match =? 0) then ([warning_match], false)
      else ([warning_match], true)
    else ([], true) in
  if negb go then (warnings, false)
  else if fgt (open_left_deletion_score self) mismatch
       || fgt (open_internal_deletion_score self) mismatch
       || fgt (open_right_deletion_score self) mismatch
       || fgt (open_left_insertion_score self) mismatch
       || fgt (open_internal_insertion_score self) mismatch
       || fgt (open_right_insertion_score self) mismatch
       || fgt (extend_left_deletion_score self) mismatch
       || fgt (extend_internal_deletion_score self) mismatch
       || fgt (extend_right_deletion_score self) mismatch
       || fgt (extend_left_insertion_score self) mismatch
       || fgt (extend_internal_insertion_score self) mismatch
       || fgt (extend_right_insertion_score self) mismatch
  then
    if negb (PyErr_WarnEx warning_gap =? 0) then (warnings ++ [warning_gap], false)
    else (warnings ++ [warning_gap], true)
  else (warnings, true).

(** The branch-and-bound search proper, [FOGSAA_DO(align_score)] followed
    by [FOGSAA_EXIT_SCORE] or [FOGSAA_EXIT_ALIGN], as a function of the
    variables it reads: the letter score, [match] and [mismatch], the edge
    gaps selected by [FOGSAA_ENTER], the aligner and the sequences.  The
    entry functions below only pass control to it. *)
Variable FOGSAA_DO_EXIT_SCORE :
  (Z -> Z -> double) -> double -> double -> edge_gaps -> Aligner ->
  (Z -> Z) -> nat -> (Z -> Z) -> nat -> PyResult double.
Variable FOGSAA_DO_EXIT_ALIGN :
  (Z -> Z -> double) -> double -> double -> edge_gaps -> Aligner ->
  (Z -> Z) -> nat -> (Z -> Z) -> nat -> ascii -> PyResult (double * PathGenerator).

(** The entry functions return the messages passed to [PyErr_WarnEx]
    beside their result. *)
Definition Aligner_fogsaa_score_compare (self : Aligner)
  (sA : Z -> Z) (nA : nat) (sB : Z -> Z) (nB : nat) (strand : ascii)
  : list string * PyResult double :=
  let match_ := match_ self in
  let mismatch := mismatch self in
  let wildcard := wildcard self in
  match FOGSAA_ENTER self strand with
  | None => ([], Err (RuntimeError "strand was neither '+' nor '-'"))
  | Some gaps =>
    let '(warnings, go) := FOGSAA_CHECK_SCORES match_ mismatch self in
    if negb go then (warnings, Err Propagated)
    else (warnings,
          FOGSAA_DO_EXIT_SCORE (COMPARE_SCORE match_ mismatch wildcard)
            match_ mismatch gaps self sA nA sB nB)
  end.

(** The scan of the matrix for its largest and smallest entry:
<<
    for (i = 0; i < n*n; i++) {
        if (substitution_matrix[i] > match) match = substitution_matrix[i];
        else if (substitution_matrix[i] < mismatch) mismatch = substitution_matrix[i];
    }
>> *)
Definition fogsaa_matrix_bounds (substitution_matrix : Z -> double) (n : Z)
  : double * double :=
  let match_ := substitution_matrix 0 in
  let mismatch := substitution_matrix 0 in
  for_range 0 (Z.to_nat (n * n)) (fun i '(match_, mismatch) =>
    if fgt (substitution_matrix (Z.of_nat i)) match_
    then (substitution_matrix (Z.of_nat i), mismatch)
    else if flt (substitution_matrix (Z.of_nat i)) mismatch
    then (match_, substitution_matrix (Z.of_nat i))
    else (match_, mismatch)) (match_, mismatch).

Definition Aligner_fogsaa_score_matrix (self : Aligner)
  (sA : Z -> Z) (nA : nat) (sB : Z -> Z) (nB : nat) (strand : ascii)
  : list string * PyResult double :=
  match substitution_matrix self with
  | None => ([], Err Propagated)
  | Some matrix =>
    let n := nth 0 (shape (view matrix)) 0 in
    let substitution_matrix := dbuf (view matrix) in
    match FOGSAA_ENTER self strand with
    | None => ([], Err (RuntimeError "strand was neither '+' nor '-'"))
    | Some gaps =>
      let '(match_, mismatch) := fogsaa_matrix_bounds substitution_matrix n in
      let '(warnings, go) := FOGSAA_CHECK_SCORES match_ mismatch self in
      if negb go then (warnings, Err Propagated)
      else (warnings,
            FOGSAA_DO_EXIT_SCORE (MATRIX_SCORE substitution_matrix n)
              match_ mismatch gaps self sA nA sB nB)
    end
  end.

Definition Aligner_fogsaa_align_compare (self : Aligner)
  (sA : Z -> Z) (nA : nat) (sB : Z -> Z) (nB : nat) (strand : ascii)
  : list string * PyResult (double * PathGenerator) :=
  let match_ := match_ self in
  let mismatch := mismatch self in
  let wildcard := wildcard self in
  match FOGSAA_ENTER self strand with
  | None => ([], Err (RuntimeError "strand was neither '+' nor '-'"))
  | Some gaps =>
    let '(warnings, go) := FOGSAA_CHECK_SCORES match_ mismatch self in
    if negb go then (warnings, Err Propagated)
    else (warnings,
          FOGSAA_DO_EXIT_ALIGN (COMPARE_SCORE match_ mismatch wildcard)
            match_ mismatch gaps self sA nA sB nB strand)
  end.

Definition Aligner_fogsaa_align_matrix (self : Aligner)
  (sA : Z -> Z) (nA : nat) (sB : Z -> Z) (nB : nat) (strand : ascii)
  : list string * PyResult (double * PathGenerator) :=
  match substitution_matrix self with
  | None => ([], Err Propagated)
  | Some matrix =>
    let n := nth 0 (shape (view matrix)) 0 in
    let substitution_matrix := dbuf (view matrix) in
    match FOGSAA_ENTER self strand with
    | None => ([], Err (RuntimeError "strand was neither '+' nor '-'"))
    | Some gaps =>
      let '(match_, mismatch) := fogsaa_matrix_bounds substitution_matrix n in
      let '(warnings, go) := FOGSAA_CHECK_SCORES match_ mismatch self in
      if negb go then (warnings, Err Propagated)
      else (warnings,
            FOGSAA_DO_EXIT_ALIGN (MATRIX_SCORE substitution_matrix n)
              match_ mismatch gaps self sA nA sB nB strand)
    end
  end.

(** *** The passes that the entry points dispatch to

    The forward passes are macros of the source, instantiated once with
    [COMPARE_SCORE] and once with [MATRIX_SCORE].  Needleman-Wunsch,
    Smith-Waterman and the global Waterman-Smith-Beyer score are written
    out above; the entry points only select among the others, which are
    taken as functions of the variables the macros read. *)
Variable GOTOH_GLOBAL_SCORE :
  (Z -> Z -> double) -> Aligner -> (Z -> Z) -> nat -> (Z -> Z) -> nat -> ascii ->
  PyResult double.
Variable GOTOH_LOCAL_SCORE :
  (Z -> Z -> double) -> Aligner -> (Z -> Z) -> nat -> (Z -> Z) -> nat -> PyResult double.
Variable GOTOH_GLOBAL_ALIGN :
  (Z -> Z -> double) -> Aligner -> (Z -> Z) -> nat -> (Z -> Z) -> nat -> ascii ->
  PyResult (double * PathGenerator).
Variable GOTOH_LOCAL_ALIGN :
  (Z -> Z -> double) -> Aligner -> (Z -> Z) -> nat -> (Z -> Z) -> nat -> ascii ->
  PyResult (double * PathGenerator).
Variable WATERMANSMITHBEYER_LOCAL_SCORE :
  (Z -> Z -> double) -> (nat -> Z) -> Aligner -> (Z -> Z) -> nat -> (Z -> Z) -> nat ->
  PyResult double.
Variable WATERMANSMITHBEYER_GLOBAL_ALIGN :
  (Z -> Z -> double) -> (nat -> Z) -> Aligner -> (Z -> Z) -> nat -> (Z -> Z) -> nat ->
  ascii -> PyResult (double * PathGenerator).
Variable WATERMANSMITHBEYER_LOCAL_ALIGN :
  (Z -> Z -> double) -> (nat -> Z) -> Aligner -> (Z -> Z) -> nat -> (Z -> Z) -> nat ->
  ascii -> PyResult (double * PathGenerator).

Definition Aligner_smithwaterman_score_compare (self : Aligner)
  (sA : Z -> Z) (nA : nat) (sB : Z -> Z) (nB : nat) : PyResult double :=
  let match_ := match_ self in
  let mismatch := mismatch self in
  let wildcard := wildcard self in
  SMITHWATERMAN_SCORE (COMPARE_SCORE match_ mismatch wildcard) self sA nA sB nB.

Definition Aligner_smithwaterman_score_matrix (self : Aligner)
  (sA : Z -> Z) (nA : nat) (sB : Z -> Z) (nB : nat) : PyResult double :=
  match substitution_matrix self with
  | None => Err Propagated
  | Some matrix =>
    let n := nth 0 (shape (view matrix)) 0 in
    let substitution_matrix := dbuf (view matrix) in
    SMITHWATERMAN_SCORE (MATRIX_SCORE substitution_matrix n) self sA nA sB nB
  end.

Definition Aligner_smithwaterman_align_compare (self : Aligner)
  (sA : Z -> Z) (nA : nat) (sB : Z -> Z) (nB : nat) (strand : ascii) : PyResult (double * PathGenerator) :=
  let match_ := match_ self in
  let mismatch := mismatch self in
  let wildcard := wildcard self in
  SMITHWATERMAN_ALIGN (COMPARE_SCORE match_ mismatch wildcard) self sA nA sB nB strand.

Definition Aligner_smithwaterman_align_matrix (self : Aligner)
  (sA : Z -> Z) (nA : nat) (sB : Z -> Z) (nB : nat) (strand : ascii) : PyResult (double * PathGenerator) :=
  match substitution_matrix self with
  | None => Err Propagated
  | Some matrix =>
    let n := nth 0 (shape (view matrix)) 0 in
    let substitution_matrix := dbuf (view matrix) in
    SMITHWATERMAN_ALIGN (MATRIX_SCORE substitution_matrix n) self sA nA sB nB strand
  end.

Definition Aligner_gotoh_global_score_compare (self : Aligner)
  (sA : Z -> Z) (nA : nat) (sB : Z -> Z) (nB : nat) (strand : ascii) : PyResult double :=
  let match_ := match_ self in
  let mismatch := mismatch self in
  let wildcard := wildcard self in
  GOTOH_GLOBAL_SCORE (COMPARE_SCORE match_ mismatch wildcard) self sA nA sB nB strand.

Definition Aligner_gotoh_global_score_matrix (self : Aligner)
  (sA : Z -> Z) (nA : nat) (sB : Z -> Z) (nB : nat) (strand : ascii) : PyResult double :=
  match substitution_matrix self with
  | None => Err Propagated
  | Some matrix =>
    let n := nth 0 (shape (view matrix)) 0 in
    let substitution_matrix := dbuf (view matrix) in
    GOTOH_GLOBAL_SCORE (MATRIX_SCORE substitution_matrix n) self sA nA sB nB strand
  end.

Definition Aligner_gotoh_local_score_compare (self : Aligner)
  (sA : Z -> Z) (nA : nat) (sB : Z -> Z) (nB : nat) : PyResult double :=
  let match_ := match_ self in
  let mismatch := mismatch self in
  let wildcard := wildcard self in
  GOTOH_LOCAL_SCORE (COMPARE_SCORE match_ mismatch wildcard) self sA nA sB nB.

Definition Aligner_gotoh_local_score_matrix (self : Aligner)
  (sA : Z -> Z) (nA : nat) (sB : Z -> Z) (nB : nat) : PyResult double :=
  match substitution_matrix self with
  | None => Err Propagated
  | Some matrix =>
    let n := nth 0 (shape (view matrix)) 0 in
    let substitution_matrix := dbuf (view matrix) in
    GOTOH_LOCAL_SCORE (MATRIX_SCORE substitution_matrix n) self sA nA sB nB
  end.

Definition Aligner_gotoh_global_align_compare (self : Aligner)
  (sA : Z -> Z) (nA : nat) (sB : Z -> Z) (nB : nat) (strand : ascii) : PyResult (double * PathGenerator) :=
  let match_ := match_ self in
  let mismatch := mismatch self in
  let wildcard := wildcard self in
  GOTOH_GLOBAL_ALIGN (COMPARE_SCORE match_ mismatch wildcard) self sA nA sB nB strand.

Definition Aligner_gotoh_global_align_matrix (self : Aligner)
  (sA : Z -> Z) (nA : nat) (sB : Z -> Z) (nB : nat) (strand : ascii) : PyResult (double * PathGenerator) :=
  match substitution_matrix self with
  | None => Err Propagated
  | Some matrix =>
    let n := nth 0 (shape (view matrix)) 0 in
    let substitution_matrix := dbuf (view matrix) in
    GOTOH_GLOBAL_ALIGN (MATRIX_SCORE substitution_matrix n) self sA nA sB nB strand
  end.

Definition Aligner_gotoh_local_align_compare (self : Aligner)
  (sA : Z -> Z) (nA : nat) (sB : Z -> Z) (nB : nat) (strand : ascii) : PyResult (double * PathGenerator) :=
  let match_ := match_ self in
  let mismatch := mismatch self in
  let wildcard := wildcard self in
  GOTOH_LOCAL_ALIGN (COMPARE_SCORE match_ mismatch wildcard) self sA nA sB nB strand.

Definition Aligner_gotoh_local_align_matrix (self : Aligner)
  (sA : Z -> Z) (nA : nat) (sB : Z -> Z) (nB : nat) (strand : ascii) : PyResult (double * PathGenerator) :=
  match substitution_matrix self with
  | None => Err Propagated
  | Some matrix =>
    let n := nth 0 (shape (view matrix)) 0 in
    let substitution_matrix := dbuf (view matrix) in
    GOTOH_LOCAL_ALIGN (MATRIX_SCORE substitution_matrix n) self sA nA sB nB strand
  end.

Definition Aligner_watermansmithbeyer_local_score_compare (self : Aligner)
  (sA : Z -> Z) (nA : nat) (sB : Z -> Z) (nB : nat) (strand : ascii) : PyResult double :=
  let match_ := match_ self in
  let mismatch := mismatch self in
  let wildcard := wildcard self in
  if Ascii.eqb strand "+" then
    WATERMANSMITHBEYER_LOCAL_SCORE (COMPARE_SCORE match_ mismatch wildcard) (fun j => Z.of_nat j) self sA nA sB nB
  else if Ascii.eqb strand "-" then
    WATERMANSMITHBEYER_LOCAL_SCORE (COMPARE_SCORE match_ mismatch wildcard) (fun j => Z.of_nat nB - Z.of_nat j) self sA nA sB nB
  else Err MemoryError.

Definition Aligner_watermansmithbeyer_local_score_matrix (self : Aligner)
  (sA : Z -> Z) (nA : nat) (sB : Z -> Z) (nB : nat) (strand : ascii) : PyResult double :=
  match substitution_matrix self with
  | None => Err Propagated
  | Some matrix =>
    let n := nth 0 (shape (view matrix)) 0 in
    let substitution_matrix := dbuf (view matrix) in
    if Ascii.eqb strand "+" then
      WATERMANSMITHBEYER_LOCAL_SCORE (MATRIX_SCORE substitution_matrix n) (fun j => Z.of_nat j) self sA nA sB nB
    else if Ascii.eqb strand "-" then
      WATERMANSMITHBEYER_LOCAL_SCORE (MATRIX_SCORE substitution_matrix n) (fun j => Z.of_nat nB - Z.of_nat j) self sA nA sB nB
    else Err MemoryError
  end.

Definition Aligner_watermansmithbeyer_global_align_compare (self : Aligner)
  (sA : Z -> Z) (nA : nat) (sB : Z -> Z) (nB : nat) (strand : ascii) : PyResult (double * PathGenerator) :=
  let match_ := match_ self in
  let mismatch := mismatch self in
  let wildcard := wildcard self in
  if Ascii.eqb strand "+" then
    WATERMANSMITHBEYER_GLOBAL_ALIGN (COMPARE_SCORE match_ mismatch wildcard) (fun j => Z.of_nat j) self sA nA sB nB strand
  else if Ascii.eqb strand "-" then
    WATERMANSMITHBEYER_GLOBAL_ALIGN (COMPARE_SCORE match_ mismatch wildcard) (fun j => Z.of_nat nB - Z.of_nat j) self sA nA sB nB strand
  else Err MemoryError.

Definition Aligner_watermansmithbeyer_global_align_matrix (self : Aligner)
  (sA : Z -> Z) (nA : nat) (sB : Z -> Z) (nB : nat) (strand : ascii) : PyResult (double * PathGenerator) :=
  match substitution_matrix self with
  | None => Err Propagated
  | Some matrix =>
    let n := nth 0 (shape (view matrix)) 0 in
    let substitution_matrix := dbuf (view matrix) in
    if Ascii.eqb strand "+" then
      WATERMANSMITHBEYER_GLOBAL_ALIGN (MATRIX_SCORE substitution_matrix n) (fun j => Z.of_nat j) self sA nA sB nB strand
    else if Ascii.eqb strand "-" then
      WATERMANSMITHBEYER_GLOBAL_ALIGN (MATRIX_SCORE substitution_matrix n) (fun j => Z.of_nat nB - Z.of_nat j) self sA nA sB nB strand
    else Err MemoryError
  end.

Definition Aligner_watermansmithbeyer_local_align_compare (self : Aligner)
  (sA : Z -> Z) (nA : nat) (sB : Z -> Z) (nB : nat) (strand : ascii) : PyResult (double * PathGenerator) :=
  let match_ := match_ self in
  let mismatch := mismatch self in
  let wildcard := wildcard self in
  if Ascii.eqb strand "+" then
    WATERMANSMITHBEYER_LOCAL_ALIGN (COMPARE_SCORE match_ mismatch wildcard) (fun j => Z.of_nat j) self sA nA sB nB strand
  else if Ascii.eqb strand "-" then
    WATERMANSMITHBEYER_LOCAL_ALIGN (COMPARE_SCORE match_ mismatch wildcard) (fun j => Z.of_nat nB - Z.of_nat j) self sA nA sB nB strand
  else Err MemoryError.

Definition Aligner_watermansmithbeyer_local_align_matrix (self : Aligner)
  (sA : Z -> Z) (nA : nat) (sB : Z -> Z) (nB : nat) (strand : ascii) : PyResult (double * PathGenerator) :=
  match substitution_matrix self with
  | None => Err Propagated
  | Some matrix =>
    let n := nth 0 (shape (view matrix)) 0 in
    let substitution_matrix := dbuf (view matrix) in
    if Ascii.eqb strand "+" then
      WATERMANSMITHBEYER_LOCAL_ALIGN (MATRIX_SCORE substitution_matrix n) (fun j => Z.of_nat j) self sA nA sB nB strand
    else if Ascii.eqb strand "-" then
      WATERMANSMITHBEYER_LOCAL_ALIGN (MATRIX_SCORE substitution_matrix n) (fun j => Z.of_nat nB - Z.of_nat j) self sA nA sB nB strand
    else Err MemoryError
  end.

(** *** The entry points

    [Aligner_score] and [Aligner_align] take the three arguments of the
    call; they return the messages passed to [PyErr_WarnEx], the result
    and the aligner after the call (the algorithm memo is written by
    [_get_algorithm]).  The [switch (algorithm)] statement of each is a
    definition of its own. *)

(** The [switch (algorithm)] of [Aligner_score]. *)
Definition Aligner_score_switch (algorithm : Algorithm) (mode : Mode)
  (substitution_matrix : option Matrix) (self : Aligner)
  (sA : Z -> Z) (nA : nat) (sB : Z -> Z) (nB : nat) (strand : ascii)
  : list string * PyResult double :=
  match algorithm with
  | NeedlemanWunschSmithWaterman =>
    match mode with
    | Global =>
      if non_null substitution_matrix
      then ([], Aligner_needlemanwunsch_score_matrix self sA nA sB nB strand)
      else ([], Aligner_needlemanwunsch_score_compare self sA nA sB nB strand)
    | Local =>
      if non_null substitution_matrix
      then ([], Aligner_smithwaterman_score_matrix self sA nA sB nB)
      else ([], Aligner_smithwaterman_score_compare self sA nA sB nB)
    | _ => ([], Err (RuntimeError "mode has unexpected value"))
    end
  | Gotoh =>
    match mode with
    | Global =>
      if non_null substitution_matrix
      then ([], Aligner_gotoh_global_score_matrix self sA nA sB nB strand)
      else ([], Aligner_gotoh_global_score_compare self sA nA sB nB strand)
    | Local =>
      if non_null substitution_matrix
      then ([], Aligner_gotoh_local_score_matrix self sA nA sB nB)
      else ([], Aligner_gotoh_local_score_compare self sA nA sB nB)
    | _ => ([], Err (RuntimeError "mode has unexpected value"))
    end
  | WatermanSmithBeyer =>
    match mode with
    | Global =>
      if non_null substitution_matrix
      then ([], Aligner_watermansmithbeyer_global_score_matrix self sA nA sB nB strand)
      else ([], Aligner_watermansmithbeyer_global_score_compare self sA nA sB nB strand)
    | Local =>
      if non_null substitution_matrix
      then ([], Aligner_watermansmithbeyer_local_score_matrix self sA nA sB nB strand)
      else ([], Aligner_watermansmithbeyer_local_score_compare self sA nA sB nB strand)
    | _ => ([], Err (RuntimeError "mode has unexpected value"))
    end
  | FOGSAA =>
    if negb (Mode_eqb mode FOGSAA_Mode)
    then ([], Err (RuntimeError "mode has unexpected value"))
    else if non_null substitution_matrix
    then Aligner_fogsaa_score_matrix self sA nA sB nB strand
    else Aligner_fogsaa_score_compare self sA nA sB nB strand
  | Unknown => ([], Err (RuntimeError "algorithm has unexpected value"))
  end.

Definition Aligner_score (self : Aligner) (sequenceA sequenceB strand : PyObject)
  : list string * PyResult double * Aligner :=
  let mode := mode self in
  let '(algorithm, self) := _get_algorithm self in
  let substitution_matrix := substitution_matrix self in
  match sequence_converter sequenceA with
  | Err e => ([], Err e, self)
  | Ok bA =>
  match sequence_converter sequenceB with
  | Err e => ([], Err e, self)
  | Ok bB =>
  match strand_converter strand with
  | Err e => ([], Err e, self)
  | Ok strand =>
    let '(bA, bB, prepared) :=
      match substitution_matrix with
      | Some matrix => _prepare_indices matrix bA bB
      | None => (bA, bB, Ok tt)
      end in
    match prepared with
    | Err e => ([], Err e, self)
    | Ok _ =>
      let nA := int_of_ssize_t (Z.quot (len bA) (itemsize bA)) in
      let nB := int_of_ssize_t (Z.quot (len bB) (itemsize bB)) in
      if negb (nA =? Z.quot (len bA) (itemsize bA))
         || negb (nB =? Z.quot (len bB) (itemsize bB))
      then ([], Err (ValueError "sequences too long"), self)
      else
        let sA := ibuf bA in
        let sB := ibuf bB in
        let nA := Z.to_nat nA in
        let nB := Z.to_nat nB in
        let '(warnings, result) :=
          Aligner_score_switch algorithm mode substitution_matrix self
            sA nA sB nB strand in
        (warnings, result, self)
    end
  end
  end
  end.

(** The [switch (algorithm)] of [Aligner_align]. *)
Definition Aligner_align_switch (algorithm : Algorithm) (mode : Mode)
  (substitution_matrix : option Matrix) (self : Aligner)
  (sA : Z -> Z) (nA : nat) (sB : Z -> Z) (nB : nat) (strand : ascii)
  : list string * PyResult (double * PathGenerator) :=
  match algorithm with
  | NeedlemanWunschSmithWaterman =>
    match mode with
    | Global =>
      if non_null substitution_matrix
      then ([], Aligner_needlemanwunsch_align_matrix self sA nA sB nB strand)
      else ([], Aligner_needlemanwunsch_align_compare self sA nA sB nB strand)
    | Local =>
      if non_null substitution_matrix
      then ([], Aligner_smithwaterman_align_matrix self sA nA sB nB strand)
      else ([], Aligner_smithwaterman_align_compare self sA nA sB nB strand)
    | _ => ([], Err (RuntimeError "mode has unexpected value"))
    end
  | Gotoh =>
    match mode with
    | Global =>
      if non_null substitution_matrix
      then ([], Aligner_gotoh_global_align_matrix self sA nA sB nB strand)
      else ([], Aligner_gotoh_global_align_compare self sA nA sB nB strand)
    | Local =>
      if non_null substitution_matrix
      then ([], Aligner_gotoh_local_align_matrix self sA nA sB nB strand)
      else ([], Aligner_gotoh_local_align_compare self sA nA sB nB strand)
    | _ => ([], Err (RuntimeError "mode has unexpected value"))
    end
  | WatermanSmithBeyer =>
    match mode with
    | Global =>
      if non_null substitution_matrix
      then ([], Aligner_watermansmithbeyer_global_align_matrix self sA nA sB nB strand)
      else ([], Aligner_watermansmithbeyer_global_align_compare self sA nA sB nB strand)
    | Local =>
      if non_null substitution_matrix
      then ([], Aligner_watermansmithbeyer_local_align_matrix self sA nA sB nB strand)
      else ([], Aligner_watermansmithbeyer_local_align_compare self sA nA sB nB strand)
    | _ => ([], Err (RuntimeError "mode has unexpected value"))
    end
  | FOGSAA =>
    if negb (Mode_eqb mode FOGSAA_Mode)
    then ([], Err (RuntimeError "mode has unexpected value"))
    else if non_null substitution_matrix
    then Aligner_fogsaa_align_matrix self sA nA sB nB strand
    else Aligner_fogsaa_align_compare self sA nA sB nB strand
  | Unknown => ([], Err (RuntimeError "algorithm has unexpected value"))
  end.

Definition Aligner_align (self : Aligner) (sequenceA sequenceB strand : PyObject)
  : list string * PyResult (double * PathGenerator) * Aligner :=
  let mode := mode self in
  let '(algorithm, self) := _get_algorithm self in
  let substitution_matrix := substitution_matrix self in
  match sequence_converter sequenceA with
  | Err e => ([], Err e, self)
  | Ok bA =>
  match sequence_converter sequenceB with
  | Err e => ([], Err e, self)
  | Ok bB =>
  match strand_converter strand with
  | Err e => ([], Err e, self)
  | Ok strand =>
    let '(bA, bB, prepared) :=
      match substitution_matrix with
      | Some matrix => _prepare_indices matrix bA bB
      | None => (bA, bB, Ok tt)
      end in
    match prepared with
    | Err e => ([], Err e, self)
    | Ok _ =>
      let nA := int_of_ssize_t (Z.quot (len bA) (itemsize bA)) in
      let nB := int_of_ssize_t (Z.quot (len bB) (itemsize bB)) in
      if negb (nA =? Z.quot (len bA) (itemsize bA))
         || negb (nB =? Z.quot (len bB) (itemsize bB))
      then ([], Err (ValueError "sequences too long"), self)
      else
        let sA := ibuf bA in
        let sB := ibuf bB in
        let nA := Z.to_nat nA in
        let nB := Z.to_nat nB in
        let '(warnings, result) :=
          Aligner_align_switch algorithm mode substitution_matrix self
            sA nA sB nB strand in
        (warnings, result, self)
    end
  end
  end
  end.

End Facade.

(** ** Notions used in the statements *)

(** *** Sequences of calls on an aligner *)

(** The calls that change an aligner: an attribute assignment through the
    table, and a query of the algorithm ([Aligner_get_algorithm],
    [Aligner_score] and [Aligner_align] all start with [_get_algorithm],
    which is all they write). *)
Inductive call : Type :=
| call_setattr (name : string) (value : PyObject)
| call_get_algorithm.

Definition step (self : Aligner) (c : call) : Aligner :=
  match c with
  | call_setattr name value => snd (Aligner_setattr self name value)
  | call_get_algorithm => snd (_get_algorithm self)
  end.

(** The aligner after [Aligner_init] and the given calls, in order. *)
Definition run (calls : list call) : Aligner := fold_left step calls Aligner_init.

(** *** The selection rule, as the spec words it

    An ordered list of guarded outcomes, and the first one whose guard
    holds. *)
Definition selection_rules (self : Aligner) : list (bool * Algorithm) :=
  [ (Mode_eqb (mode self) FOGSAA_Mode, FOGSAA);
    (non_null (insertion_score_function self) || non_null (deletion_score_function self),
     WatermanSmithBeyer);
    (feqb (open_internal_insertion_score self) (extend_internal_insertion_score self)
     && feqb (open_left_insertion_score self) (extend_left_insertion_score self)
     && feqb (open_right_insertion_score self) (extend_right_insertion_score self)
     && feqb (open_internal_deletion_score self) (extend_internal_deletion_score self)
     && feqb (open_left_deletion_score self) (extend_left_deletion_score self)
     && feqb (open_right_deletion_score self) (extend_right_deletion_score self),
     NeedlemanWunschSmithWaterman);
    (true, Gotoh) ].

Definition first_match (rules : list (bool * Algorithm)) : Algorithm :=
  match List.find fst rules with
  | Some (_, a) => a
  | None => Unknown
  end.

Definition derived_algorithm (self : Aligner) : Algorithm :=
  first_match (selection_rules self).

(** The attributes whose setters leave the algorithm memo alone. *)
Definition keeps_algorithm (name : string) : bool :=
  existsb (String.eqb name)
    ["match_score"; "mismatch_score"; "match"; "mismatch";
     "substitution_matrix"; "wildcard"]%string.

(** *** The twelve gap scalars *)

Definition gap_scalars (self : Aligner) : list double :=
  [ open_internal_insertion_score self; extend_internal_insertion_score self;
    open_left_insertion_score self; extend_left_insertion_score self;
    open_right_insertion_score self; extend_right_insertion_score self;
    open_internal_deletion_score self; extend_internal_deletion_score self;
    open_left_deletion_score self; extend_left_deletion_score self;
    open_right_deletion_score self; extend_right_deletion_score self ].

(** All members compare equal with C's [==]. *)
Definition all_equal (l : list double) : Prop :=
  forall x y, In x l -> In y l -> feqb x y = true.

(** *** Tie handling, as the spec words it

    One candidate [(cand, dir)] meets the current best [(score, trace)]:
    it replaces it when it is greater by more than [epsilon], it is ORed
    in when it is within [epsilon], and it is dropped otherwise. *)
Definition consider (epsilon : double) (dir : Z) (cand : double) (best : double * Z)
  : double * Z :=
  let '(score, trace) := best in
  if fgt cand (score + epsilon)%float then (cand, dir)
  else if fgt cand (score - epsilon)%float then (score, Z.lor trace dir)
  else (score, trace).

(** The clamp of the local macros, applied to the selected [(score,
    trace)]: the pair before ENDPOINT is decided. *)
Definition local_clamp (epsilon : double) (best : double * Z) : double * Z :=
  let '(score, trace) := best in
  if flt score epsilon then (0%float, STARTPOINT) else (score, trace).

(** *** Strand *)

(** The aligner with its [left] and [right] edge-gap scalars exchanged. *)
Definition swap_left_right (self : Aligner) : Aligner :=
  {| mode := mode self;
     match_ := match_ self;
     mismatch := mismatch self;
     epsilon := epsilon self;
     open_internal_insertion_score := open_internal_insertion_score self;
     extend_internal_insertion_score := extend_internal_insertion_score self;
     open_internal_deletion_score := open_internal_deletion_score self;
     extend_internal_deletion_score := extend_internal_deletion_score self;
     open_left_insertion_score := open_right_insertion_score self;
     extend_left_insertion_score := extend_right_insertion_score self;
     open_right_insertion_score := open_left_insertion_score self;
     extend_right_insertion_score := extend_left_insertion_score self;
     open_left_deletion_score := open_right_deletion_score self;
     extend_left_deletion_score := extend_right_deletion_score self;
     open_right_deletion_score := open_left_deletion_score self;
     extend_right_deletion_score := extend_left_deletion_score self;
     insertion_score_function := insertion_score_function self;
     deletion_score_function := deletion_score_function self;
     substitution_matrix := substitution_matrix self;
     algorithm := algorithm self;
     alphabet := alphabet self;
     wildcard := wildcard self |}.

(** *** Values of doubles

    Two doubles have the same value when they are the same datum or are
    both zeros (of either sign): C's [==], extended to relate NaN to
    itself. *)
Definition is_zero (x : spec_float) : bool :=
  match x with
  | S754_zero _ => true
  | _ => false
  end.

Definition same_value (x y : double) : Prop :=
  Prim2SF x = Prim2SF y \/ (is_zero (Prim2SF x) = true /\ is_zero (Prim2SF y) = true).

(** Sequences as pointers. *)
Definition pointer_to (l : list Z) : Z -> Z := fun k => nth (Z.to_nat k) l 0.

(** The gap-list counterpart of [consider] in the Waterman-Smith-Beyer gap
    macro: a candidate gap length is recorded alone (both lists restart)
    when its score passes both tests, appended to its own list when it
    passes the first only.  The state is the running score, the
    candidate's own list with its fill count, and the fill count of the
    other list. *)
Definition consider_gap (epsilon : double) (gap : Z) (cand : double)
  (st : double * list Z * nat * nat) : double * list Z * nat * nat :=
  let '(score, gaps, n, other) := st in
  if fgt cand (score - epsilon)%float then
    if fgt cand (score + epsilon)%float then (cand, <[0%nat := gap]> gaps, 1%nat, 0%nat)
    else (score, <[n := gap]> gaps, S n, other)
  else (score, gaps, n, other).

(** *** Number of paths, without a machine word

    The number of paths from the origin to [(nA, nB)] through the trace
    grid of a global linear-gap alignment, by the recurrence that
    [PathGenerator_needlemanwunsch_length] implements, in unbounded
    integers. *)
Definition add_if (trace BIT : Z) (t : Z) (count : Z) : Z :=
  if negb (Z.land trace BIT =? 0) then count + t else count.

Definition number_of_paths (M : list (list Trace)) (nA nB : nat) : Z :=
  let counts := <[0%nat := 1]> (replicate (S nB) 0) in
  let counts :=
    for_range 1 (S nB) (fun j counts =>
      <[j := add_if (trace_of (cell M 0 j)) HORIZONTAL (counts !!! (j - 1)%nat) 0]> counts)
      counts in
  let '(counts, temp) :=
    for_range 1 (S nA) (fun i '(counts, temp) =>
      let temp := counts !!! 0%nat in
      let counts :=
        <[0%nat := add_if (trace_of (cell M i 0)) VERTICAL (counts !!! 0%nat) 0]> counts in
      for_range 1 (S nB) (fun j '(counts, temp) =>
        let trace := trace_of (cell M i j) in
        let count := add_if trace HORIZONTAL (counts !!! (j - 1)%nat) 0 in
        let count := add_if trace VERTICAL (counts !!! j) count in
        let count := add_if trace DIAGONAL temp count in
        (<[j := count]> counts, counts !!! j)) (counts, temp)) (counts, 0) in
  counts !!! nB.

(** *** Mirrored deletion positions

    The aligner whose deletion gap scores, seen from query position [j],
    are those of [self] at the mirrored position [nB - j]: the left and
    right deletion scalars are exchanged and a deletion function receives
    the mirrored position. *)
Definition mirror_deletion (nB : nat) (self : Aligner) : Aligner :=
  {| mode := mode self;
     match_ := match_ self;
     mismatch := mismatch self;
     epsilon := epsilon self;
     open_internal_insertion_score := open_internal_insertion_score self;
     extend_internal_insertion_score := extend_internal_insertion_score self;
     open_internal_deletion_score := open_internal_deletion_score self;
     extend_internal_deletion_score := extend_internal_deletion_score self;
     open_left_insertion_score := open_left_insertion_score self;
     extend_left_insertion_score := extend_left_insertion_score self;
     open_right_insertion_score := open_right_insertion_score self;
     extend_right_insertion_score := extend_right_insertion_score self;
     open_left_deletion_score := open_right_deletion_score self;
     extend_left_deletion_score := extend_right_deletion_score self;
     open_right_deletion_score := open_left_deletion_score self;
     extend_right_deletion_score := extend_left_deletion_score self;
     insertion_score_function := insertion_score_function self;
     deletion_score_function :=
       match deletion_score_function self with
       | Some (PyCallable id f) =>
         Some (PyCallable id (fun i j => f (Z.of_nat nB - i) j))
       | other => other
       end;
     substitution_matrix := substitution_matrix self;
     algorithm := algorithm self;
     alphabet := alphabet self;
     wildcard := wildcard self |}.

(** The grid is complete for a walk when every direction stored in a
    [path] field stays inside it. *)
Definition paths_inside (M : list (list Trace)) (nA nB : nat) : Prop :=
  forall i j, (i <= nA)%nat -> (j <= nB)%nat ->
    let p := path_of (cell M i j) in
    (p = 0 \/ p = HORIZONTAL \/ p = VERTICAL \/ p = DIAGONAL) /\
    (p = HORIZONTAL -> (j < nB)%nat) /\
    (p = VERTICAL -> (i < nA)%nat) /\
    (p = DIAGONAL -> (i < nA)%nat /\ (j < nB)%nat).

(** A memo is consistent when it is unset or holds what the rule gives. *)
Definition consistent (self : Aligner) : Prop :=
  algorithm self = Unknown \/ algorithm self = derived_algorithm self.

(** After the first candidate and after each later one, the best holds a
    non-empty set of the bits considered so far. *)
Definition bits_within (mask : Z) (trace : Z) : Prop :=
  trace <> 0 /\ Z.land trace (Z.lnot mask) = 0.

(** The aligner whose scores are all zero: every cell of the grid ties. *)
Definition all_zero_scores : Aligner := set_match_ 0%float Aligner_init.

Definition set_pg_strand (strand : ascii) (self : PathGenerator) : PathGenerator :=
  {| pg_M := pg_M self; pg_nA := pg_nA self; pg_nB := pg_nB self; pg_iA := pg_iA self;
     pg_iB := pg_iB self; pg_mode := pg_mode self; pg_algorithm := pg_algorithm self;
     pg_length := pg_length self; pg_strand := strand |}.

(** The same result, for the generator of the other strand. *)
Definition on_strand (strand : ascii) (r : PyResult (double * PathGenerator))
  : PyResult (double * PathGenerator) :=
  match r with
  | Ok (score, paths) => Ok (score, set_pg_strand strand paths)
  | Err e => Err e
  end.

(** The B coordinates of a path, mirrored. *)
Definition mirror_B (nB : nat) (coordinates : list (Z * Z)) : list (Z * Z) :=
  List.map (fun p => (fst p, Z.of_nat nB - snd p)) coordinates.

(** An aligner on which the strand claim can be tested: a deletion score
    function that charges [-n] for a gap of length [n] wherever it is, a
    mismatch score of -100, and insertion scores of -1 at the left end and
    -5 at the right end. *)
Definition strand_test_aligner : Aligner :=
  let deletion := PyCallable 1 (fun _ n => Some (PyFloat (double_of_int (- n)))) in
  let self := snd (Aligner_set_mismatch_score Aligner_init (PyFloat (-100))) in
  let self := snd (Aligner_set_deletion_score self deletion) in
  let self := snd (Aligner_set_left_insertion_score self (PyFloat (-1))) in
  snd (Aligner_set_right_insertion_score self (PyFloat (-5))).


(** A generator on strand '-' over a 2 x 3 grid whose stored walk goes
    diagonally from the origin and then horizontally to the corner. *)
Definition strand_test_paths : PathGenerator :=
  let none := {| trace := 0; path := 0 |} in
  {| pg_M := [[{| trace := 0; path := DIAGONAL |}; none; none];
              [none; {| trace := DIAGONAL; path := HORIZONTAL |};
               {| trace := HORIZONTAL; path := 0 |}]];
     pg_nA := 1; pg_nB := 2; pg_iA := 0; pg_iB := 0;
     pg_mode := Global; pg_algorithm := NeedlemanWunschSmithWaterman;
     pg_length := 0; pg_strand := "-" |}.

(** Whether one of the twelve gap scalars exceeds the mismatch score. *)
Definition gap_above (mismatch : double) (self : Aligner) : bool :=
  existsb (fun gap => fgt gap mismatch) (gap_scalars self).

(** The warnings that the parameters of a FOGSAA call deserve, in the
    order of the two requirements. *)
Definition fogsaa_violations (match_ mismatch : double) (self : Aligner) : list string :=
  (if fge mismatch match_ then [warning_match] else [])
  ++ (if gap_above mismatch self then [warning_gap] else []).

(** The filter that issues every warning, and the filter that turns every
    warning into an exception. *)
Definition warnings_issued : string -> Z := fun _ => 0.
Definition warnings_raised : string -> Z := fun _ => -1.

(** An aligner in the FOGSAA mode whose mismatch score equals its match
    score. *)
Definition fogsaa_test_aligner : Aligner :=
  let self := snd (Aligner_set_mode Aligner_init (PyUnicode (codes "fogsaa"))) in
  snd (Aligner_set_mismatch_score self (PyFloat 1)).

(** *** Sequence codes *)

(** The number of items of a view, [view->len / view->itemsize]. *)
Definition items (view : Py_buffer) : Z := Z.quot (len view) (itemsize view).

(** What the check of one item says: the code [c] at position [i] is
    refused when it is negative or not below [m], and, where codes are
    mapped through an alphabet, when it is mapped to the missing
    letter. *)
Definition code_error (missing : Z) (mapping : option (Z -> Z)) (m : Z) (i c : Z)
  : option PyErr :=
  if c <? 0 then Some (ItemNegative i c)
  else if c >=? m then Some (ItemOutOfBound i c m)
  else match mapping with
       | Some f =>
         if f c =? missing
         then Some (ValueError "sequence contains letters not in the alphabet")
         else None
       | None => None
       end.

(** Every item of the view passes the check. *)
Definition all_valid (check : Z -> Z -> option PyErr) (view : Py_buffer) : Prop :=
  forall i, 0 <= i < items view -> check i (ibuf view i) = None.

(** [e] is what the check says of the first item that it refuses. *)
Definition first_error (check : Z -> Z -> option PyErr) (view : Py_buffer) (e : PyErr)
  : Prop :=
  exists i, 0 <= i < items view /\ check i (ibuf view i) = Some e /\
            forall k, 0 <= k < i -> check k (ibuf view k) = None.

(** The check that a substitution matrix puts on the codes: against the
    length of its alphabet mapping when it has one, against its dimension
    otherwise. *)
Definition matrix_check (missing : Z) (matrix : Matrix) : Z -> Z -> option PyErr :=
  match mapping matrix with
  | Some buffer => code_error missing (Some (ibuf buffer)) (items buffer)
  | None => code_error missing None (nth 0 (shape (view matrix)) 0)
  end.

(** The element count does not fit in an [int]. *)
Definition too_long (view : Py_buffer) : Prop := INT_MAX < items view.

(** The element count fits in an [int]. *)
Definition fits_int (view : Py_buffer) : Prop := INT_MIN <= items view <= INT_MAX.

(** The codes of the two sequences pass the check of the aligner: the
    check of its substitution matrix when it has one, none otherwise. *)
Definition codes_accepted (missing : Z) (self : Aligner) (bA bB : Py_buffer) : Prop :=
  match substitution_matrix self with
  | Some matrix =>
    all_valid (matrix_check missing matrix) bA /\
    all_valid (matrix_check missing matrix) bB
  | None => True
  end.

(** [e] is the error of the first code that the check of the aligner
    refuses, the codes of A coming before those of B. *)
Definition codes_refused (missing : Z) (self : Aligner) (bA bB : Py_buffer) (e : PyErr)
  : Prop :=
  match substitution_matrix self with
  | Some matrix =>
    first_error (matrix_check missing matrix) bA e \/
    (all_valid (matrix_check missing matrix) bA /\
     first_error (matrix_check missing matrix) bB e)
  | None => False
  end.

(** The two views as the forward pass finds them. *)
Definition prepared (missing : Z) (self : Aligner) (bA bB : Py_buffer)
  : Py_buffer * Py_buffer :=
  match substitution_matrix self with
  | Some matrix => fst (_prepare_indices missing matrix bA bB)
  | None => (bA, bB)
  end.

(** The errors that refuse a sequence code. *)
Definition code_refusal (e : PyErr) : Prop :=
  match e with
  | ItemNegative _ _ | ItemOutOfBound _ _ _ => True
  | ValueError message =>
    message = "sequence contains letters not in the alphabet"%string
  | _ => False
  end.

(** *** Objects for the examples *)

(** A one-dimensional buffer of C [int]s holding the given codes. *)
Definition view_of (items : list Z) : Py_buffer :=
  {| ibuf := pointer_to items; dbuf := fun _ => 0%float;
     len := 4 * Z.of_nat (length items); itemsize := 4; ndim := 1;
     format := "i"; shape := [Z.of_nat (length items)] |}.
Definition sequence_of (items : list Z) : PyObject := PyBufferObject (view_of items) None.

(** A buffer of 2^31 C [int]s, one more than [INT_MAX], all of them -1. *)
Definition long_view : Py_buffer :=
  {| ibuf := fun _ => -1; dbuf := fun _ => 0%float;
     len := 4 * 2147483648; itemsize := 4; ndim := 1;
     format := "i"; shape := [2147483648] |}.
Definition long_sequence : PyObject := PyBufferObject long_view None.

(** The strand arguments. *)
Definition plus : PyObject := PyUnicode [43].
Definition minus : PyObject := PyUnicode [45].

(** The 2 x 2 matrix with 1 on the diagonal and -1 off it, as a plain
    buffer of doubles. *)
Definition matrix_2x2 : Py_buffer :=
  {| ibuf := fun _ => 0;
     dbuf := fun k => if (k =? 0) || (k =? 3) then 1%float else (-1)%float;
     len := 32; itemsize := 8; ndim := 2; format := "d"; shape := [2; 2] |}.

(** An alphabet mapping of 128 entries that sends 65 to row 0, 67 to
    row 1 and every other code to -1. *)
Definition alphabet_AC : Py_buffer :=
  {| ibuf := fun c => if c =? 65 then 0 else if c =? 67 then 1 else -1;
     dbuf := fun _ => 0%float;
     len := 512; itemsize := 4; ndim := 1; format := "i"; shape := [128] |}.

(** The default aligner with the matrix set, without and with the
    alphabet mapping. *)
Definition matrix_aligner : Aligner :=
  snd (Aligner_set_substitution_matrix Aligner_init (PyBufferObject matrix_2x2 None)).
Definition alphabet_aligner : Aligner :=
  snd (Aligner_set_substitution_matrix Aligner_init
         (PyBufferObject matrix_2x2 (Some alphabet_AC))).

(** The entry points in an interpreter where the missing letter is -1,
    warnings are issued, and each pass that is not written out above
    fails for lack of memory (the examples never reach one). *)
Definition example_score (self : Aligner) (sequenceA sequenceB strand : PyObject)
  : list string * PyResult double * Aligner :=
  Aligner_score (-1) warnings_issued
    (fun _ _ _ _ _ _ _ _ _ => Err MemoryError)
    (fun _ _ _ _ _ _ _ => Err MemoryError)
    (fun _ _ _ _ _ _ => Err MemoryError)
    (fun _ _ _ _ _ _ _ => Err MemoryError)
    self sequenceA sequenceB strand.

Definition example_align (self : Aligner) (sequenceA sequenceB strand : PyObject)
  : list string * PyResult (double * PathGenerator) * Aligner :=
  Aligner_align (-1) warnings_issued
    (fun _ _ _ _ _ _ _ _ _ _ => Err MemoryError)
    (fun _ _ _ _ _ _ _ => Err MemoryError)
    (fun _ _ _ _ _ _ _ => Err MemoryError)
    (fun _ _ _ _ _ _ _ _ => Err MemoryError)
    (fun _ _ _ _ _ _ _ _ => Err MemoryError)
    self sequenceA sequenceB strand.

(** A code passes the check of a matrix: it is within the length of the
    alphabet mapping and mapped to a letter when the matrix has a mapping,
    and within the dimension of the matrix otherwise. *)
Definition code_passes (missing : Z) (matrix : Matrix) (c : Z) : Prop :=
  match mapping matrix with
  | Some buffer => 0 <= c < items buffer /\ ibuf buffer c <> missing
  | None => 0 <= c < nth 0 (shape (view matrix)) 0
  end.

(** *** The order of doubles

    The place of a double in the order that C's [<] and [>] test: NaN has
    none; the others are ordered first by class and sign, then by
    exponent, then by mantissa, and the two zeros share a place. *)
Definition rank (x : spec_float) : option (Z * Z * Z) :=
  match x with
  | S754_nan => None
  | S754_infinity true => Some (-2, 0, 0)
  | S754_finite true m e => Some (-1, - e, - Z.pos m)
  | S754_zero _ => Some (0, 0, 0)
  | S754_finite false m e => Some (1, e, Z.pos m)
  | S754_infinity false => Some (2, 0, 0)
  end.

Definition lex_lt (a b : Z * Z * Z) : Prop :=
  let '(a1, a2, a3) := a in
  let '(b1, b2, b3) := b in
  a1 < b1 \/ (a1 = b1 /\ (a2 < b2 \/ (a2 = b2 /\ a3 < b3))).

(** [x] is above [y] in that order. *)
Definition above (x y : double) : Prop :=
  match rank (Prim2SF x), rank (Prim2SF y) with
  | Some a, Some b => lex_lt b a
  | _, _ => False
  end.

(** The update of the running score in the score passes,
    [if (temp > score) score = temp]. *)
Definition higher (cand best : double) : double :=
  if fgt cand best then cand else best.

(** The states of the two linear-gap passes hold the same values. *)
Definition same_row (row row' : list double) : Prop := Forall2 same_value row row'.

Definition same_state (st : list double * double * double)
  (st' : list double * double * double * list (list Trace)) : Prop :=
  let '(row, temp, score) := st in
  let '(row', temp', score', _) := st' in
  same_row row row' /\ same_value temp temp' /\ same_value score score'.

(** The default aligner with a mismatch score of -2^-24, closer to zero
    than the default epsilon of 1e-6. *)
Definition near_tie_aligner : Aligner :=
  snd (Aligner_set_mismatch_score Aligner_init (PyFloat (-0x1p-24)%float)).

(** The default aligner with a mismatch score of -1, every deletion score
    and the left insertion scores set to -0.0, and the other insertion
    scores left at +0.0. *)
Definition signed_zero_aligner : Aligner :=
  let self := snd (Aligner_set_mismatch_score Aligner_init (PyFloat (-1)%float)) in
  let self := snd (Aligner_set_deletion_score self (PyFloat (-0)%float)) in
  snd (Aligner_set_left_insertion_score self (PyFloat (-0)%float)).

(** The same aligner with epsilon set to zero. *)
Definition exact_aligner : Aligner :=
  snd (Aligner_set_epsilon near_tie_aligner (PyFloat 0%float)).

(** The default aligner with a mismatch score of -10, a left deletion
    score of -1 and a right deletion score of -3. *)
Definition edge_aligner : Aligner :=
  let self := snd (Aligner_set_mismatch_score Aligner_init (PyFloat (-10)%float)) in
  let self := snd (Aligner_set_left_deletion_score self (PyFloat (-1)%float)) in
  let self := snd (Aligner_set_right_deletion_score self (PyFloat (-3)%float)) in
  snd (Aligner_set_epsilon self (PyFloat 0%float)).

(** The values that the local score pass keeps, and the same values in
    the state of the local align pass. *)
Definition sw_values (st : sw_state) : list double * double * double * double :=
  let '(row, temp, score, _, maximum, _, _) := st in (row, temp, score, maximum).

Definition same_local_state (st st' : list double * double * double * double) : Prop :=
  let '(row, temp, score, maximum) := st in
  let '(row', temp', score', maximum') := st' in
  same_row row row' /\ same_value temp temp' /\ same_value score score' /\
  same_value maximum maximum' /\ fgt 0 maximum = false.

(** ** Reading the attributes

    The [getter] column of [Aligner_getset]. A getter returns the new
    reference, or [NULL] with an exception set. *)

Local Open Scope string_scope.

Definition Aligner_get_mode (self : Aligner) : PyResult PyObject :=
  let message :=
    match mode self with
    | Global => "global"
    | Local => "local"
    | FOGSAA_Mode => "fogsaa"
    end in
  Ok (PyUnicode (codes message)).

Definition Aligner_get_match_score (self : Aligner) : PyResult PyObject :=
  if non_null (substitution_matrix self) then Ok Py_None
  else Ok (PyFloat (match_ self)).

Definition Aligner_get_mismatch_score (self : Aligner) : PyResult PyObject :=
  if non_null (substitution_matrix self) then Ok Py_None
  else Ok (PyFloat (mismatch self)).

(** [self->substitution_matrix.obj] is the object whose buffer was taken
    by [substitution_matrix_converter]. *)
Definition Aligner_get_substitution_matrix (self : Aligner) : PyResult PyObject :=
  match substitution_matrix self with
  | Some object => Ok (PyBufferObject (view object) (mapping object))
  | None => Ok Py_None
  end.

Definition Aligner_get_open_gap_score (self : Aligner) : PyResult PyObject :=
  if non_null (insertion_score_function self) || non_null (deletion_score_function self)
  then Err (ValueError "using a gap score function")
  else
    let score := open_internal_insertion_score self in
    if fneb score (open_left_insertion_score self)
       || fneb score (open_right_insertion_score self)
       || fneb score (open_internal_deletion_score self)
       || fneb score (open_left_deletion_score self)
       || fneb score (open_right_deletion_score self)
    then Err (ValueError "gap scores are different")
    else Ok (PyFloat score).

Definition Aligner_get_extend_gap_score (self : Aligner) : PyResult PyObject :=
  if non_null (insertion_score_function self) || non_null (deletion_score_function self)
  then Err (ValueError "using a gap score function")
  else
    let score := extend_internal_insertion_score self in
    if fneb score (extend_left_insertion_score self)
       || fneb score (extend_right_insertion_score self)
       || fneb score (extend_internal_deletion_score self)
       || fneb score (extend_left_deletion_score self)
       || fneb score (extend_right_deletion_score self)
    then Err (ValueError "gap scores are different")
    else Ok (PyFloat score).

Definition Aligner_get_internal_gap_score (self : Aligner) : PyResult PyObject :=
  if non_null (insertion_score_function self) || non_null (deletion_score_function self)
  then Err (ValueError "using a gap score function")
  else
    let score := open_internal_insertion_score self in
    if fneb score (extend_internal_insertion_score self)
       || fneb score (open_internal_deletion_score self)
       || fneb score (extend_internal_deletion_score self)
    then Err (ValueError "gap scores are different")
    else Ok (PyFloat score).

Definition Aligner_get_open_internal_gap_score (self : Aligner) : PyResult PyObject :=
  if non_null (insertion_score_function self) || non_null (deletion_score_function self)
  then Err (ValueError "using a gap score function")
  else
    let score := open_internal_insertion_score self in
    if fneb score (open_internal_deletion_score self)
    then Err (ValueError "gap scores are different")
    else Ok (PyFloat score).

Definition Aligner_get_extend_internal_gap_score (self : Aligner) : PyResult PyObject :=
  if non_null (insertion_score_function self) || non_null (deletion_score_function self)
  then Err (ValueError "using a gap score function")
  else
    let score := extend_internal_insertion_score self in
    if fneb score (extend_internal_deletion_score self)
    then Err (ValueError "gap scores are different")
    else Ok (PyFloat score).

Definition Aligner_get_end_gap_score (self : Aligner) : PyResult PyObject :=
  if non_null (insertion_score_function self) || non_null (deletion_score_function self)
  then Err (ValueError "using a gap score function")
  else
    let score := open_left_insertion_score self in
    if fneb score (extend_left_insertion_score self)
       || fneb score (open_right_insertion_score self)
       || fneb score (extend_right_insertion_score self)
       || fneb score (open_left_deletion_score self)
       || fneb score (extend_left_deletion_score self)
       || fneb score (open_right_deletion_score self)
       || fneb score (extend_right_deletion_score self)
    then Err (ValueError "gap scores are different")
    else Ok (PyFloat score).

Definition Aligner_get_open_end_gap_score (self : Aligner) : PyResult PyObject :=
  if non_null (insertion_score_function self) || non_null (deletion_score_function self)
  then Err (ValueError "using a gap score function")
  else
    let score := open_left_insertion_score self in
    if fneb score (open_right_insertion_score self)
       || fneb score (open_left_deletion_score self)
       || fneb score (open_right_deletion_score self)
    then Err (ValueError "gap scores are different")
    else Ok (PyFloat score).

Definition Aligner_get_extend_end_gap_score (self : Aligner) : PyResult PyObject :=
  if non_null (insertion_score_function self) || non_null (deletion_score_function self)
  then Err (ValueError "using a gap score function")
  else
    let score := extend_left_insertion_score self in
    if fneb score (extend_right_insertion_score self)
       || fneb score (extend_left_deletion_score self)
       || fneb score (extend_right_deletion_score self)
    then Err (ValueError "gap scores are different")
    else Ok (PyFloat score).

Definition Aligner_get_left_gap_score (self : Aligner) : PyResult PyObject :=
  if non_null (insertion_score_function self) || non_null (deletion_score_function self)
  then Err (ValueError "using a gap score function")
  else
    let score := open_left_insertion_score self in
    if fneb score (extend_left_insertion_score self)
       || fneb score (open_left_deletion_score self)
       || fneb score (extend_left_deletion_score self)
    then Err (ValueError "gap scores are different")
    else Ok (PyFloat score).

Definition Aligner_get_right_gap_score (self : Aligner) : PyResult PyObject :=
  if non_null (insertion_score_function self) || non_null (deletion_score_function self)
  then Err (ValueError "using a gap score function")
  else
    let score := open_right_insertion_score self in
    if fneb score (extend_right_insertion_score self)
       || fneb score (open_right_deletion_score self)
       || fneb score (extend_right_deletion_score self)
    then Err (ValueError "gap scores are different")
    else Ok (PyFloat score).

Definition Aligner_get_open_left_gap_score (self : Aligner) : PyResult PyObject :=
  if non_null (insertion_score_function self) || non_null (deletion_score_function self)
  then Err (ValueError "using a gap score function")
  else
    let score := open_left_insertion_score self in
    if fneb score (open_left_deletion_score self)
    then Err (ValueError "gap scores are different")
    else Ok (PyFloat score).

Definition Aligner_get_extend_left_gap_score (self : Aligner) : PyResult PyObject :=
  if non_null (insertion_score_function self) || non_null (deletion_score_function self)
  then Err (ValueError "using a gap score function")
  else
    let score := extend_left_insertion_score self in
    if fneb score (extend_left_deletion_score self)
    then Err (ValueError "gap scores are different")
    else Ok (PyFloat score).

Definition Aligner_get_open_right_gap_score (self : Aligner) : PyResult PyObject :=
  if non_null (insertion_score_function self) || non_null (deletion_score_function self)
  then Err (ValueError "using a gap score function")
  else
    let score := open_right_insertion_score self in
    if fneb score (open_right_deletion_score self)
    then Err (ValueError "gap scores are different")
    else Ok (PyFloat score).

Definition Aligner_get_extend_right_gap_score (self : Aligner) : PyResult PyObject :=
  if non_null (insertion_score_function self) || non_null (deletion_score_function self)
  then Err (ValueError "using a gap score function")
  else
    let score := extend_right_insertion_score self in
    if fneb score (extend_right_deletion_score self)
    then Err (ValueError "gap scores are different")
    else Ok (PyFloat score).

Definition Aligner_get_open_insertion_score (self : Aligner) : PyResult PyObject :=
  if non_null (insertion_score_function self)
  then Err (ValueError "using a gap score function")
  else
    let score := open_internal_insertion_score self in
    if fneb score (open_left_insertion_score self)
       || fneb score (open_right_insertion_score self)
    then Err (ValueError "gap scores are different")
    else Ok (PyFloat score).

Definition Aligner_get_extend_insertion_score (self : Aligner) : PyResult PyObject :=
  if non_null (insertion_score_function self)
  then Err (ValueError "using a gap score function")
  else
    let score := extend_internal_insertion_score self in
    if fneb score (extend_left_insertion_score self)
       || fneb score (extend_right_insertion_score self)
    then Err (ValueError "gap scores are different")
    else Ok (PyFloat score).

Definition Aligner_get_insertion_score (self : Aligner) : PyResult PyObject :=
  match insertion_score_function self with
  | Some function => Ok function
  | None =>
    let score := open_internal_insertion_score self in
    if fneb score (extend_internal_insertion_score self)
       || fneb score (open_left_insertion_score self)
       || fneb score (extend_left_insertion_score self)
       || fneb score (open_right_insertion_score self)
       || fneb score (extend_right_insertion_score self)
    then Err (ValueError "gap scores are different")
    else Ok (PyFloat score)
  end.

Definition Aligner_get_open_deletion_score (self : Aligner) : PyResult PyObject :=
  if non_null (deletion_score_function self)
  then Err (ValueError "using a gap score function")
  else
    let score := open_internal_deletion_score self in
    if fneb score (open_left_deletion_score self)
       || fneb score (open_right_deletion_score self)
    then Err (ValueError "gap scores are different")
    else Ok (PyFloat score).

Definition Aligner_get_extend_deletion_score (self : Aligner) : PyResult PyObject :=
  if non_null (deletion_score_function self)
  then Err (ValueError "using a gap score function")
  else
    let score := extend_internal_deletion_score self in
    if fneb score (extend_left_deletion_score self)
       || fneb score (extend_right_deletion_score self)
    then Err (ValueError "gap scores are different")
    else Ok (PyFloat score).

Definition Aligner_get_deletion_score (self : Aligner) : PyResult PyObject :=
  match deletion_score_function self with
  | Some function => Ok function
  | None =>
    let score := open_internal_deletion_score self in
    if fneb score (open_left_deletion_score self)
       || fneb score (open_right_deletion_score self)
       || fneb score (extend_internal_deletion_score self)
       || fneb score (extend_left_deletion_score self)
       || fneb score (extend_right_deletion_score self)
    then Err (ValueError "gap scores are different")
    else Ok (PyFloat score)
  end.

Definition Aligner_get_open_internal_insertion_score (self : Aligner) : PyResult PyObject :=
  if non_null (insertion_score_function self)
  then Err (ValueError "using a gap score function")
  else
    Ok (PyFloat (open_internal_insertion_score self)).

Definition Aligner_get_extend_internal_insertion_score (self : Aligner) : PyResult PyObject :=
  if non_null (insertion_score_function self)
  then Err (ValueError "using a gap score function")
  else
    Ok (PyFloat (extend_internal_insertion_score self)).

Definition Aligner_get_internal_insertion_score (self : Aligner) : PyResult PyObject :=
  if non_null (insertion_score_function self)
  then Err (ValueError "using a gap score function")
  else
    let score := open_internal_insertion_score self in
    if fneb score (extend_internal_insertion_score self)
    then Err (ValueError "gap scores are different")
    else Ok (PyFloat score).

Definition Aligner_get_end_insertion_score (self : Aligner) : PyResult PyObject :=
  if non_null (insertion_score_function self)
  then Err (ValueError "using a gap score function")
  else
    let score := open_left_insertion_score self in
    if fneb score (extend_left_insertion_score self)
       || fneb score (open_right_insertion_score self)
       || fneb score (extend_right_insertion_score self)
    then Err (ValueError "gap scores are different")
    else Ok (PyFloat score).

Definition Aligner_get_open_end_insertion_score (self : Aligner) : PyResult PyObject :=
  if non_null (insertion_score_function self)
  then Err (ValueError "using a gap score function")
  else
    let score := open_left_insertion_score self in
    if fneb score (open_right_insertion_score self)
    then Err (ValueError "gap scores are different")
    else Ok (PyFloat score).

Definition Aligner_get_extend_end_insertion_score (self : Aligner) : PyResult PyObject :=
  if non_null (insertion_score_function self)
  then Err (ValueError "using a gap score function")
  else
    let score := extend_left_insertion_score self in
    if fneb score (extend_right_insertion_score self)
    then Err (ValueError "gap scores are different")
    else Ok (PyFloat score).

Definition Aligner_get_open_left_insertion_score (self : Aligner) : PyResult PyObject :=
  if non_null (insertion_score_function self)
  then Err (ValueError "using a gap score function")
  else
    Ok (PyFloat (open_left_insertion_score self)).

Definition Aligner_get_extend_left_insertion_score (self : Aligner) : PyResult PyObject :=
  if non_null (insertion_score_function self)
  then Err (ValueError "using a gap score function")
  else
    Ok (PyFloat (extend_left_insertion_score self)).

Definition Aligner_get_left_insertion_score (self : Aligner) : PyResult PyObject :=
  if non_null (insertion_score_function self)
  then Err (ValueError "using a gap score function")
  else
    let score := open_left_insertion_score self in
    if fneb score (extend_left_insertion_score self)
    then Err (ValueError "gap scores are different")
    else Ok (PyFloat score).

Definition Aligner_get_open_right_insertion_score (self : Aligner) : PyResult PyObject :=
  if non_null (insertion_score_function self)
  then Err (ValueError "using a gap score function")
  else
    Ok (PyFloat (open_right_insertion_score self)).

Definition Aligner_get_extend_right_insertion_score (self : Aligner) : PyResult PyObject :=
  if non_null (insertion_score_function self)
  then Err (ValueError "using a gap score function")
  else
    Ok (PyFloat (extend_right_insertion_score self)).

Definition Aligner_get_right_insertion_score (self : Aligner) : PyResult PyObject :=
  if non_null (insertion_score_function self)
  then Err (ValueError "using a gap score function")
  else
    let score := open_right_insertion_score self in
    if fneb score (extend_right_insertion_score self)
    then Err (ValueError "gap scores are different")
    else Ok (PyFloat score).

Definition Aligner_get_end_deletion_score (self : Aligner) : PyResult PyObject :=
  if non_null (deletion_score_function self)
  then Err (ValueError "using a gap score function")
  else
    let score := open_left_deletion_score self in
    if fneb score (extend_left_deletion_score self)
       || fneb score (open_right_deletion_score self)
       || fneb score (extend_right_deletion_score self)
    then Err (ValueError "gap scores are different")
    else Ok (PyFloat score).

Definition Aligner_get_open_end_deletion_score (self : Aligner) : PyResult PyObject :=
  if non_null (deletion_score_function self)
  then Err (ValueError "using a gap score function")
  else
    let score := open_left_deletion_score self in
    if fneb score (open_right_deletion_score self)
    then Err (ValueError "gap scores are different")
    else Ok (PyFloat score).

Definition Aligner_get_extend_end_deletion_score (self : Aligner) : PyResult PyObject :=
  if non_null (deletion_score_function self)
  then Err (ValueError "using a gap score function")
  else
    let score := extend_left_deletion_score self in
    if fneb score (extend_right_deletion_score self)
    then Err (ValueError "gap scores are different")
    else Ok (PyFloat score).

Definition Aligner_get_open_internal_deletion_score (self : Aligner) : PyResult PyObject :=
  if non_null (deletion_score_function self)
  then Err (ValueError "using a gap score function")
  else
    Ok (PyFloat (open_internal_deletion_score self)).

Definition Aligner_get_extend_internal_deletion_score (self : Aligner) : PyResult PyObject :=
  if non_null (deletion_score_function self)
  then Err (ValueError "using a gap score function")
  else
    Ok (PyFloat (extend_internal_deletion_score self)).

Definition Aligner_get_internal_deletion_score (self : Aligner) : PyResult PyObject :=
  if non_null (deletion_score_function self)
  then Err (ValueError "using a gap score function")
  else
    let score := open_internal_deletion_score self in
    if fneb score (extend_internal_deletion_score self)
    then Err (ValueError "gap scores are different")
    else Ok (PyFloat score).

Definition Aligner_get_open_left_deletion_score (self : Aligner) : PyResult PyObject :=
  if non_null (deletion_score_function self)
  then Err (ValueError "using a gap score function")
  else
    Ok (PyFloat (open_left_deletion_score self)).

Definition Aligner_get_extend_left_deletion_score (self : Aligner) : PyResult PyObject :=
  if non_null (deletion_score_function self)
  then Err (ValueError "using a gap score function")
  else
    Ok (PyFloat (extend_left_deletion_score self)).

Definition Aligner_get_left_deletion_score (self : Aligner) : PyResult PyObject :=
  if non_null (deletion_score_function self)
  then Err (ValueError "using a gap score function")
  else
    let score := open_left_deletion_score self in
    if fneb score (extend_left_deletion_score self)
    then Err (ValueError "gap scores are different")
    else Ok (PyFloat score).

Definition Aligner_get_open_right_deletion_score (self : Aligner) : PyResult PyObject :=
  if non_null (deletion_score_function self)
  then Err (ValueError "using a gap score function")
  else
    Ok (PyFloat (open_right_deletion_score self)).

Definition Aligner_get_extend_right_deletion_score (self : Aligner) : PyResult PyObject :=
  if non_null (deletion_score_function self)
  then Err (ValueError "using a gap score function")
  else
    Ok (PyFloat (extend_right_deletion_score self)).

Definition Aligner_get_right_deletion_score (self : Aligner) : PyResult PyObject :=
  if non_null (deletion_score_function self)
  then Err (ValueError "using a gap score function")
  else
    let score := open_right_deletion_score self in
    if fneb score (extend_right_deletion_score self)
    then Err (ValueError "gap scores are different")
    else Ok (PyFloat score).

Definition Aligner_get_epsilon (self : Aligner) : PyResult PyObject :=
  Ok (PyFloat (epsilon self)).

Definition Aligner_get_wildcard (self : Aligner) : PyResult PyObject :=
  if (wildcard self =? -1)%Z then Ok Py_None
  else Ok (PyUnicode [wildcard self]).

(** [Aligner_get_algorithm] calls [_get_algorithm], which writes the memo:
    the second component is the aligner after the call. With [Unknown] the
    source passes a null pointer to [PyUnicode_FromString]; [_get_algorithm]
    never returns it (the property [algorithm_attribute] below covers this
    branch). *)
Definition Aligner_get_algorithm (self : Aligner) : PyResult PyObject * Aligner :=
  let mode := mode self in
  let '(algorithm, self) := _get_algorithm self in
  let named (s : string) := (Ok (PyUnicode (codes s)), self) in
  match algorithm with
  | NeedlemanWunschSmithWaterman =>
    match mode with
    | Global => named "Needleman-Wunsch"
    | Local => named "Smith-Waterman"
    | _ => (Err (RuntimeError "mode has unexpected value"), self)
    end
  | Gotoh =>
    match mode with
    | Global => named "Gotoh global alignment algorithm"
    | Local => named "Gotoh local alignment algorithm"
    | _ => (Err (RuntimeError "mode has unexpected value"), self)
    end
  | WatermanSmithBeyer =>
    match mode with
    | Global => named "Waterman-Smith-Beyer global alignment algorithm"
    | Local => named "Waterman-Smith-Beyer local alignment algorithm"
    | _ => (Err (RuntimeError "mode has unexpected value"), self)
    end
  | FOGSAA => named "Fast Optimal Global Sequence Alignment Algorithm"
  | Unknown => (Err Propagated, self)
  end.

(** A getter that leaves the aligner as it is. *)
Definition pure_getter (get : Aligner -> PyResult PyObject) (self : Aligner)
  : PyResult PyObject * Aligner :=
  (get self, self).

(** The [getter] column of the attribute table [Aligner_getset]. *)
Definition Aligner_getters : list (string * (Aligner -> PyResult PyObject * Aligner)) :=
  [("mode", pure_getter Aligner_get_mode);
  ("match_score", pure_getter Aligner_get_match_score);
  ("mismatch_score", pure_getter Aligner_get_mismatch_score);
  ("match", pure_getter Aligner_get_match_score);
  ("mismatch", pure_getter Aligner_get_mismatch_score);
  ("substitution_matrix", pure_getter Aligner_get_substitution_matrix);
  ("gap_score", pure_getter Aligner_get_gap_score);
  ("open_gap_score", pure_getter Aligner_get_open_gap_score);
  ("extend_gap_score", pure_getter Aligner_get_extend_gap_score);
  ("internal_gap_score", pure_getter Aligner_get_internal_gap_score);
  ("open_internal_gap_score", pure_getter Aligner_get_open_internal_gap_score);
  ("extend_internal_gap_score", pure_getter Aligner_get_extend_internal_gap_score);
  ("end_gap_score", pure_getter Aligner_get_end_gap_score);
  ("open_end_gap_score", pure_getter Aligner_get_open_end_gap_score);
  ("extend_end_gap_score", pure_getter Aligner_get_extend_end_gap_score);
  ("left_gap_score", pure_getter Aligner_get_left_gap_score);
  ("open_left_gap_score", pure_getter Aligner_get_open_left_gap_score);
  ("extend_left_gap_score", pure_getter Aligner_get_extend_left_gap_score);
  ("right_gap_score", pure_getter Aligner_get_right_gap_score);
  ("open_right_gap_score", pure_getter Aligner_get_open_right_gap_score);
  ("extend_right_gap_score", pure_getter Aligner_get_extend_right_gap_score);
  ("open_insertion_score", pure_getter Aligner_get_open_insertion_score);
  ("extend_insertion_score", pure_getter Aligner_get_extend_insertion_score);
  ("insertion_score", pure_getter Aligner_get_insertion_score);
  ("open_deletion_score", pure_getter Aligner_get_open_deletion_score);
  ("extend_deletion_score", pure_getter Aligner_get_extend_deletion_score);
  ("deletion_score", pure_getter Aligner_get_deletion_score);
  ("end_insertion_score", pure_getter Aligner_get_end_insertion_score);
  ("open_end_insertion_score", pure_getter Aligner_get_open_end_insertion_score);
  ("extend_end_insertion_score", pure_getter Aligner_get_extend_end_insertion_score);
  ("open_internal_insertion_score", pure_getter Aligner_get_open_internal_insertion_score);
  ("extend_internal_insertion_score", pure_getter Aligner_get_extend_internal_insertion_score);
  ("internal_insertion_score", pure_getter Aligner_get_internal_insertion_score);
  ("open_left_insertion_score", pure_getter Aligner_get_open_left_insertion_score);
  ("extend_left_insertion_score", pure_getter Aligner_get_extend_left_insertion_score);
  ("left_insertion_score", pure_getter Aligner_get_left_insertion_score);
  ("open_right_insertion_score", pure_getter Aligner_get_open_right_insertion_score);
  ("extend_right_insertion_score", pure_getter Aligner_get_extend_right_insertion_score);
  ("right_insertion_score", pure_getter Aligner_get_right_insertion_score);
  ("end_deletion_score", pure_getter Aligner_get_end_deletion_score);
  ("open_end_deletion_score", pure_getter Aligner_get_open_end_deletion_score);
  ("extend_end_deletion_score", pure_getter Aligner_get_extend_end_deletion_score);
  ("open_internal_deletion_score", pure_getter Aligner_get_open_internal_deletion_score);
  ("extend_internal_deletion_score", pure_getter Aligner_get_extend_internal_deletion_score);
  ("internal_deletion_score", pure_getter Aligner_get_internal_deletion_score);
  ("open_left_deletion_score", pure_getter Aligner_get_open_left_deletion_score);
  ("extend_left_deletion_score", pure_getter Aligner_get_extend_left_deletion_score);
  ("left_deletion_score", pure_getter Aligner_get_left_deletion_score);
  ("open_right_deletion_score", pure_getter Aligner_get_open_right_deletion_score);
  ("extend_right_deletion_score", pure_getter Aligner_get_extend_right_deletion_score);
  ("right_deletion_score", pure_getter Aligner_get_right_deletion_score);
  ("epsilon", pure_getter Aligner_get_epsilon);
  ("wildcard", pure_getter Aligner_get_wildcard);
  ("algorithm", Aligner_get_algorithm)].

(** [getattr(aligner, name)] through the table: the result and the aligner
    after the call. A name that is not in the table is not served by this
    module ([Propagated] stands for the interpreter's own lookup). *)
Definition Aligner_getattr (self : Aligner) (name : string)
  : PyResult PyObject * Aligner :=
  match List.find (fun e => String.eqb (fst e) name) Aligner_getters with
  | Some (_, get) => get self
  | None => (Err Propagated, self)
  end.

Local Close Scope string_scope.

(** *** Attribute values *)

Local Open Scope string_scope.

(** The values an attribute can hand back as they were given: a number
    that compares equal to itself, a string of code points, or any other
    object. *)
Definition reads_back (value : PyObject) : Prop :=
  match value with
  | PyFloat d => feqb d d = true
  | PyUnicode s => Forall (fun c => (0 <= c)%Z) s
  | _ => True
  end.

(** The attributes whose getter reads one number of the model. *)
Definition one_number (name : string) : bool :=
  existsb (String.eqb name)
    ["match_score"; "mismatch_score"; "match"; "mismatch"; "epsilon";
     "open_internal_insertion_score"; "extend_internal_insertion_score";
     "open_left_insertion_score"; "extend_left_insertion_score";
     "open_right_insertion_score"; "extend_right_insertion_score";
     "open_internal_deletion_score"; "extend_internal_deletion_score";
     "open_left_deletion_score"; "extend_left_deletion_score";
     "open_right_deletion_score"; "extend_right_deletion_score"].

(** The attributes of the table that are not numbers. *)
Definition not_a_number : list string :=
  ["mode"; "substitution_matrix"; "wildcard"; "algorithm"].

(** The attributes of the table that read gap scores. *)
Definition gap_attributes : list string :=
  List.filter
    (fun name =>
       negb (existsb (String.eqb name)
               ["mode"; "match_score"; "mismatch_score"; "match"; "mismatch";
                "substitution_matrix"; "epsilon"; "wildcard"; "algorithm"]))
    (map fst Aligner_getset).

(** The three attributes that can hold a gap-score function. *)
Definition holds_function (name : string) : bool :=
  existsb (String.eqb name) ["gap_score"; "insertion_score"; "deletion_score"].

Local Close Scope string_scope.

(** *** Paths through the grid of a global alignment

    The number of paths that lead from the origin to the cell [(i, j)]
    along the stored traces, in unbounded integers: one path to the
    origin; a cell of the first row is entered from its left neighbour
    (bit [HORIZONTAL]), a cell of the first column from the cell above
    (bit [VERTICAL]), and any other cell from the left, from above and
    from the diagonal neighbour, each when its bit is set. *)
Fixpoint paths_first_row (M : list (list Trace)) (j : nat) : Z :=
  match j with
  | O => 1
  | S j' => add_if (trace_of (cell M 0 j)) HORIZONTAL (paths_first_row M j') 0
  end.

Fixpoint paths_next_row (M : list (list Trace)) (i : nat) (above : nat -> Z) (j : nat) : Z :=
  match j with
  | O => add_if (trace_of (cell M i 0)) VERTICAL (above 0%nat) 0
  | S j' =>
    let trace := trace_of (cell M i j) in
    add_if trace DIAGONAL (above j')
      (add_if trace VERTICAL (above j)
         (add_if trace HORIZONTAL (paths_next_row M i above j') 0))
  end.

Fixpoint paths_to (M : list (list Trace)) (i : nat) : nat -> Z :=
  match i with
  | O => paths_first_row M
  | S i' => paths_next_row M i (paths_to M i')
  end.

(** The array [counts] while row [i] is counted: the counts of the row up
    to column [j], those of the row above from there on. *)
Definition row_state (nB : nat) (new old : nat -> Z) (j : nat) (counts : list Z) : Prop :=
  length counts = S nB /\
  (forall k, (k < j)%nat -> counts !!! k = new k) /\
  (forall k, (j <= k <= nB)%nat -> counts !!! k = old k).

(** *** The grid of a global alignment while it is written

    A grid of [nA + 1] rows and [nB + 1] columns.  The origin holds no
    trace, the rest of the first row [HORIZONTAL] and the rest of the
    first column [VERTICAL]; every other cell before [(i, j)] in row-major
    order holds a non-empty set of the three direction bits; no path is
    marked. *)
Definition grid_shape (nA nB : nat) (M : list (list Trace)) : Prop :=
  length M = S nA /\ forall k, (k <= nA)%nat -> length (M !!! k) = S nB.

Definition grid_written (nA nB : nat) (i j : nat) (M : list (list Trace)) : Prop :=
  length M = S nA /\
  (forall k, (k <= nA)%nat -> length (M !!! k) = S nB) /\
  trace_of (cell M 0 0) = 0 /\
  (forall l, (1 <= l <= nB)%nat -> trace_of (cell M 0 l) = HORIZONTAL) /\
  (forall k, (1 <= k <= nA)%nat -> trace_of (cell M k 0) = VERTICAL) /\
  (forall k l, (1 <= k)%nat -> (1 <= l <= nB)%nat -> (k < i \/ (k = i /\ l < j))%nat ->
               1 <= trace_of (cell M k l) <= 7) /\
  (forall k l, path_of (cell M k l) = 0).

(** The state of the Needleman-Wunsch align pass, and a loop body that
    stores one set of direction bits into the cell [(i, j)]. *)
Definition nw_state : Type := list double * double * double * list (list Trace).

Definition writes_cell (i : nat) (body : nat -> nw_state -> nw_state) : Prop :=
  forall j st, exists t, 1 <= t <= 7 /\ Z.land t 31 = t /\
    snd (body j st) = store_trace i j t (snd st).

(** A grid of two rows and two columns whose inner cell holds the three
    direction bits, as the generator of a global alignment. *)
Definition three_way_grid : PathGenerator :=
  {| pg_M := [[{| trace := 0; path := 0 |}; {| trace := HORIZONTAL; path := 0 |}];
              [{| trace := VERTICAL; path := 0 |};
               {| trace := Z.lor HORIZONTAL (Z.lor VERTICAL DIAGONAL); path := 0 |}]];
     pg_nA := 1; pg_nB := 1; pg_iA := 0; pg_iB := 0;
     pg_mode := Global; pg_algorithm := NeedlemanWunschSmithWaterman;
     pg_length := 0; pg_strand := "+" |}.

(** *** Scores of a local alignment *)

(** A double that is a number (not NaN) and is not below zero. *)
Definition not_below_zero (x : double) : Prop :=
  fgt 0 x = false /\ feqb x x = true.

(** ** The iterator of the global linear-gap generator *)

(** How the pruning loop of [PathGenerator_next_needlemanwunsch] is left:
    by [break] at the cell [(i, j)], or by [return NULL] once [M[0][0].path]
    is [DONE]. *)
Inductive pruned : Type :=
| Pruned (M : list (list Trace)) (i j : nat)
| Exhausted (M : list (list Trace)).

(** The first [while (1)] of [PathGenerator_next_needlemanwunsch], entered
    with [path = M[i][j].path].  The loop has no bound of its own; [fuel]
    bounds the iterations of the model.  [None] is a run that did not end
    within the bound, or one in which [--i] or [--j] would leave the
    grid. *)
Fixpoint next_needlemanwunsch_prune (fuel : nat) (M : list (list Trace)) (i j : nat)
  (path : Z) : option pruned :=
  match fuel with
  | O => None
  | S fuel =>
    let next (i j : nat) :=
      let path := path_of (cell M i j) in
      if path =? 0 then Some (Exhausted (store_path 0 0 DONE M))
      else next_needlemanwunsch_prune fuel M i j path in
    if path =? HORIZONTAL then
      let j := S j in
      let trace := trace_of (cell M i j) in
      if negb (Z.land trace VERTICAL =? 0) then
        match i with
        | S i => Some (Pruned (store_path i j VERTICAL M) i j)
        | O => None
        end
      else if negb (Z.land trace DIAGONAL =? 0) then
        match i, j with
        | S i, S j => Some (Pruned (store_path i j DIAGONAL M) i j)
        | _, _ => None
        end
      else next i j
    else if path =? VERTICAL then
      let i := S i in
      let trace := trace_of (cell M i j) in
      if negb (Z.land trace DIAGONAL =? 0) then
        match i, j with
        | S i, S j => Some (Pruned (store_path i j DIAGONAL M) i j)
        | _, _ => None
        end
      else next i j
    else next (S i) (S j)
  end.

(** The second [while (1)]: the traceback from [(i, j)] to the origin. *)
Fixpoint next_needlemanwunsch_traceback (fuel : nat) (M : list (list Trace)) (i j : nat)
  : option (list (list Trace)) :=
  match fuel with
  | O => None
  | S fuel =>
    let trace := trace_of (cell M i j) in
    if negb (Z.land trace HORIZONTAL =? 0) then
      match j with
      | S j => next_needlemanwunsch_traceback fuel (store_path i j HORIZONTAL M) i j
      | O => None
      end
    else if negb (Z.land trace VERTICAL =? 0) then
      match i with
      | S i => next_needlemanwunsch_traceback fuel (store_path i j VERTICAL M) i j
      | O => None
      end
    else if negb (Z.land trace DIAGONAL =? 0) then
      match i, j with
      | S i, S j => next_needlemanwunsch_traceback fuel (store_path i j DIAGONAL M) i j
      | _, _ => None
      end
    else Some M
  end.

(** [PathGenerator_next_needlemanwunsch]: the returned object ([None] for
    [NULL], which ends the iteration) and the generator after the call.
    Each loop of the function visits at most [nA + nB + 1] cells of a grid
    that the align pass has written; the model gives each loop that many
    steps. *)
Definition PathGenerator_next_needlemanwunsch (self : PathGenerator)
  : option (option (PyResult (nat * list (Z * Z))) * PathGenerator) :=
  let nA := pg_nA self in
  let nB := pg_nB self in
  let M := pg_M self in
  let fuel := S (nA + nB) in
  let path := path_of (cell M 0 0) in
  if path =? DONE then Some (None, self)
  else
    let start :=
      if path =? 0 then Some (Pruned M nA nB)
      else next_needlemanwunsch_prune fuel M 0 0 path in
    match start with
    | None => None
    | Some (Exhausted M) => Some (None, set_pg_M M self)
    | Some (Pruned M i j) =>
      match next_needlemanwunsch_traceback fuel M i j with
      | None => None
      | Some M =>
        let self := set_pg_M M self in
        match PathGenerator_create_path fuel self 0 0 with
        | None => None
        | Some result => Some (Some result, self)
        end
      end
    end.

(** [PathGenerator_reset]: the generator after the call (the function
    returns [None]).  In mode local the position is reset as well, and the
    [case] falls through to that of mode global. *)
Definition PathGenerator_reset (self : PathGenerator) : PathGenerator :=
  match pg_mode self with
  | FOGSAA_Mode => set_pg_M (store_path (pg_nA self) (pg_nB self) 0 (pg_M self)) self
  | mode =>
    let self :=
      match mode with
      | Local =>
        {| pg_M := pg_M self; pg_nA := pg_nA self; pg_nB := pg_nB self;
           pg_iA := 0; pg_iB := 0;
           pg_mode := pg_mode self; pg_algorithm := pg_algorithm self;
           pg_length := pg_length self; pg_strand := pg_strand self |}
      | _ => self
      end in
    let M := pg_M self in
    match pg_algorithm self with
    | NeedlemanWunschSmithWaterman | Gotoh =>
      if negb (path_of (cell M 0 0) =? NONE) then set_pg_M (store_path 0 0 0 M) self
      else self
    | WatermanSmithBeyer => set_pg_M (store_path 0 0 0 M) self
    | _ => self
    end
  end.

(** *** The paths of a grid, in the order of the iterator

    The traces of a grid, by row and column. *)
Definition traces_of (M : list (list Trace)) : nat -> nat -> Z :=
  fun i j => trace_of (cell M i j).

(** A path to the cell [(i, j)] is the list of its steps, the last step
    first.  The paths to a cell are those that enter it horizontally, then
    those that enter it vertically, then those that enter it diagonally,
    each group in the order of the paths to the cell it comes from. *)
Definition step_if (trace BIT : Z) (paths : list (list Z)) : list (list Z) :=
  if negb (Z.land trace BIT =? 0) then map (cons BIT) paths else [].

Fixpoint first_row_paths (T : nat -> nat -> Z) (j : nat) : list (list Z) :=
  match j with
  | O => [[]]
  | S j' => step_if (T 0%nat j) HORIZONTAL (first_row_paths T j')
  end.

Fixpoint next_row_paths (T : nat -> nat -> Z) (i : nat) (above : nat -> list (list Z))
  (j : nat) : list (list Z) :=
  match j with
  | O => step_if (T i 0%nat) VERTICAL (above 0%nat)
  | S j' =>
    let trace := T i j in
    step_if trace HORIZONTAL (next_row_paths T i above j')
    ++ step_if trace VERTICAL (above j)
    ++ step_if trace DIAGONAL (above j')
  end.

Fixpoint all_paths (T : nat -> nat -> Z) (i : nat) : nat -> list (list Z) :=
  match i with
  | O => first_row_paths T
  | S i' => next_row_paths T i (all_paths T i')
  end.

(** The cell that a step into [(i, j)] comes from. *)
Definition step_from (d : Z) (i j : nat) : option (nat * nat) :=
  if d =? HORIZONTAL then match j with S j => Some (i, j) | O => None end
  else if d =? VERTICAL then match i with S i => Some (i, j) | O => None end
  else if d =? DIAGONAL then
    match i, j with S i, S j => Some (i, j) | _, _ => None end
  else None.

(** The path [p] to [(i, j)] is marked in the [path] fields of the grid:
    each cell of the path but the last holds the step that leaves it. *)
Fixpoint marks (M : list (list Trace)) (i j : nat) (p : list Z) : Prop :=
  match p with
  | [] => i = 0%nat /\ j = 0%nat
  | d :: p =>
    match step_from d i j with
    | Some (i', j') => path_of (cell M i' j') = d /\ marks M i' j' p
    | None => False
    end
  end.

(** The path that the traceback of the iterator marks from [(i, j)]: at
    each cell the first of the horizontal, vertical and diagonal step
    whose bit is set. *)
Fixpoint first_path (fuel : nat) (T : nat -> nat -> Z) (i j : nat) : list Z :=
  match fuel with
  | O => []
  | S fuel =>
    let trace := T i j in
    if negb (Z.land trace HORIZONTAL =? 0) then
      match j with
      | S j => HORIZONTAL :: first_path fuel T i j
      | O => []
      end
    else if negb (Z.land trace VERTICAL =? 0) then
      match i with
      | S i => VERTICAL :: first_path fuel T i j
      | O => []
      end
    else if negb (Z.land trace DIAGONAL =? 0) then
      match i, j with
      | S i, S j => DIAGONAL :: first_path fuel T i j
      | _, _ => []
      end
    else []
  end.

(** The first path that enters [(i, j)] by a later step than [d]. *)
Definition alternative (T : nat -> nat -> Z) (d : Z) (i j : nat) : option (list Z) :=
  let trace := T i j in
  let vertical :=
    match i with
    | S i' => Some (VERTICAL :: first_path (i' + j) T i' j)
    | O => None
    end in
  let diagonal :=
    match i, j with
    | S i', S j' => Some (DIAGONAL :: first_path (i' + j') T i' j')
    | _, _ => None
    end in
  if d =? HORIZONTAL then
    if negb (Z.land trace VERTICAL =? 0) then vertical
    else if negb (Z.land trace DIAGONAL =? 0) then diagonal
    else None
  else if d =? VERTICAL then
    if negb (Z.land trace DIAGONAL =? 0) then diagonal else None
  else None.

(** The path after [p] in the order of the iterator: the step nearest to
    the origin that has an alternative is replaced, and the path from
    there to the origin is the first one. *)
Fixpoint next_path (T : nat -> nat -> Z) (i j : nat) (p : list Z) : option (list Z) :=
  match p with
  | [] => None
  | d :: p' =>
    match step_from d i j with
    | None => None
    | Some (i', j') =>
      match next_path T i' j' p' with
      | Some q => Some (d :: q)
      | None => alternative T d i j
      end
    end
  end.

(** A list whose elements follow each other under [next], the last being
    followed by [after]. *)
Fixpoint linked {A : Type} (next : A -> option A) (l : list A) (after : option A) : Prop :=
  match l with
  | [] => True
  | x :: l' => next x = match l' with [] => after | y :: _ => Some y end /\
               linked next l' after
  end.

(** The traces of a written grid. *)
Definition grid_traces (nA nB : nat) (T : nat -> nat -> Z) : Prop :=
  T 0%nat 0%nat = 0 /\
  (forall l, (1 <= l <= nB)%nat -> T 0%nat l = HORIZONTAL) /\
  (forall k, (1 <= k <= nA)%nat -> T k 0%nat = VERTICAL) /\
  (forall k l, (1 <= k <= nA)%nat -> (1 <= l <= nB)%nat -> 1 <= T k l <= 7).

(** The grid [M] has the shape and the traces of the table [T]. *)
Definition grid_agrees (nA nB : nat) (T : nat -> nat -> Z) (M : list (list Trace)) : Prop :=
  grid_shape nA nB M /\ forall a b, trace_of (cell M a b) = T a b.

(** From the cell [(i, j)] the [path] fields lead along the steps [s] to
    a cell whose path is 0. *)
Fixpoint leads (M : list (list Trace)) (i j : nat) (s : list Z) : Prop :=
  match s with
  | [] => path_of (cell M i j) = 0
  | d :: s =>
    path_of (cell M i j) = d /\
    if d =? HORIZONTAL then leads M i (S j) s
    else if d =? VERTICAL then leads M (S i) j s
    else if d =? DIAGONAL then leads M (S i) (S j) s
    else False
  end.

(** A generator of the global linear-gap algorithm over a written grid
    with the traces [T]; the path of the last cell is 0. *)
Definition generator_of (nA nB : nat) (T : nat -> nat -> Z) (self : PathGenerator)
  : Prop :=
  pg_nA self = nA /\ pg_nB self = nB /\
  pg_mode self = Global /\ pg_algorithm self = NeedlemanWunschSmithWaterman /\
  (pg_strand self = "+"%char \/ pg_strand self = "-"%char) /\
  grid_agrees nA nB T (pg_M self) /\
  path_of (cell (pg_M self) nA nB) = 0.

(** The path [p] to the last cell is marked in the generator. *)
Definition marked (nA nB : nat) (T : nat -> nat -> Z) (self : PathGenerator)
  (p : list Z) : Prop :=
  generator_of nA nB T self /\ marks (pg_M self) nA nB p.

(** The generator after [k] calls of [next], and the call after them. *)
Fixpoint after_calls (k : nat) (self : PathGenerator) : option PathGenerator :=
  match k with
  | O => Some self
  | S k =>
    match after_calls k self with
    | Some self =>
      match PathGenerator_next_needlemanwunsch self with
      | Some (_, self) => Some self
      | None => None
      end
    | None => None
    end
  end.

Definition call_after (k : nat) (self : PathGenerator)
  : option (option (PyResult (nat * list (Z * Z))) * PathGenerator) :=
  match after_calls k self with
  | Some self => PathGenerator_next_needlemanwunsch self
  | None => None
  end.

(** The generator after [k] calls of [next], against the list [L] of the
    paths of its grid: nothing is marked before the first call, the path
    number [k] is marked after [k] calls as long as there is one, and the
    generator is marked as done after that. *)
Definition iterating (nA nB : nat) (T : nat -> nat -> Z) (L : list (list Z)) (k : nat)
  (self : PathGenerator) : Prop :=
  generator_of nA nB T self /\
  ((k = 0%nat /\ path_of (cell (pg_M self) 0 0) = 0) \/
   (exists p, (1 <= k)%nat /\ L !! (k - 1)%nat = Some p /\ marks (pg_M self) nA nB p) \/
   ((length L < k)%nat /\ path_of (cell (pg_M self) 0 0) = DONE)).

(** The global alignment of [[0; 0]] with [[0; 0]] under the default
    scores: the score and the generator. *)
Definition example_alignment : double * PathGenerator :=
  match NEEDLEMANWUNSCH_ALIGN (COMPARE_SCORE 1 0 (-1)) Aligner_init
          (fun _ => 0) 2 (fun _ => 0) 2 "+" with
  | Ok r => r
  | Err _ => (0%float, three_way_grid)
  end.

(** The path [p] to [(i, j)] goes along the stored traces: each step has
    its bit set in the trace of the cell it enters, and stays inside the
    grid, down to the origin. *)
Fixpoint follows (T : nat -> nat -> Z) (i j : nat) (p : list Z) : Prop :=
  match p with
  | [] => i = 0%nat /\ j = 0%nat
  | d :: p =>
    (d = HORIZONTAL \/ d = VERTICAL \/ d = DIAGONAL) /\
    Z.land (T i j) d <> 0 /\
    match step_from d i j with
    | Some (i', j') => follows T i' j' p
    | None => False
    end
  end.

(** The cell that the step [d] leads to from [(i, j)]. *)
Definition step_to (d : Z) (i j : nat) : nat * nat :=
  if d =? HORIZONTAL then (i, S j)
  else if d =? VERTICAL then (S i, j)
  else (S i, S j).

(** The corners of the path that goes from [(i, j)] along the steps [s],
    having arrived in the direction [direction]: each cell at which the
    direction changes, and the last cell. *)
Fixpoint corners (i j : nat) (direction : Z) (s : list Z) : list (nat * nat) :=
  match s with
  | [] => [(i, j)]
  | d :: s =>
    let rest := corners (fst (step_to d i j)) (snd (step_to d i j)) d s in
    if d =? direction then rest else (i, j) :: rest
  end.

(** The object that stands for the path [p] to the last cell (its steps
    listed from the last one): the number of its corners, the origin
    included, and their coordinates in A and B, those in B counted from
    the end of B on the reverse strand. *)
Definition alignment_of (strand : ascii) (nB : nat) (p : list Z)
  : nat * list (Z * Z) :=
  let coordinates :=
    map (fun c : nat * nat =>
           (Z.of_nat (fst c),
            if Ascii.eqb strand "-" then Z.of_nat nB - Z.of_nat (snd c)
            else Z.of_nat (snd c)))
        (corners 0 0 0 (rev p)) in
  (length coordinates, coordinates).

(** *** Gap-score functions *)

(** A gap-score function that gives no number: every call raises or
    returns an object that is not a number. *)
Definition never_a_number (function : PyObject) : Prop :=
  forall i j,
    match PyObject_CallFunction function i j with
    | Some result => PyFloat_AsDouble result = None
    | None => True
    end.

(** The default aligner with a deletion-score function that raises. *)
Definition raising_aligner : Aligner :=
  snd (Aligner_set_deletion_score Aligner_init (PyCallable 1 (fun _ _ => None))).

(** *** The priority queue of FOGSAA *)

(** [struct fogsaa_queue_node]. *)
Record fogsaa_queue_node : Type := Build_fogsaa_queue_node {
  pA : Z;
  pB : Z;
  type_upto_next : Z;
  next_type : Z;
  next_lower : double;
  next_upper : double
}.

#[global] Instance fogsaa_queue_node_inhabited : Inhabited fogsaa_queue_node :=
  populate (Build_fogsaa_queue_node 0 0 0 0 0%float 0%float).

(** [struct fogsaa_queue]. [queue_array] is the allocated block, one entry
    per node it has room for, and [[]] for [NULL]; [queue_size] and
    [queue_capacity] are the two [int] fields. *)
Record fogsaa_queue : Type := Build_fogsaa_queue {
  queue_array : list fogsaa_queue_node;
  queue_size : nat;
  queue_capacity : nat
}.

(** The queue of [FOGSAA_ENTER]: [array = NULL], [size = 0],
    [capacity = 0]. *)
Definition fogsaa_queue_init : fogsaa_queue := Build_fogsaa_queue [] 0 0.

(** The value is one a C [int] holds; an [int] computation that leaves
    the range is undefined. *)
Definition fits_in_int (n : nat) : bool := (Z.of_nat n <=? INT_MAX)%Z.

(** The test of [FOGSAA_QUEUE_HEAP_COND] on two nodes: the first has the
    higher upper bound, or the same upper bound and the higher lower
    bound. *)
Definition higher_priority (a b : fogsaa_queue_node) : bool :=
  fgt (next_upper a) (next_upper b) ||
  (feqb (next_upper a) (next_upper b) && fgt (next_lower a) (next_lower b)).

(** [FOGSAA_QUEUE_HEAP_COND(a, b)] on the array of the queue; [None] when
    an index is outside the block. *)
Definition FOGSAA_QUEUE_HEAP_COND (array : list fogsaa_queue_node) (a b : nat)
  : option bool :=
  match array !! a, array !! b with
  | Some x, Some y => Some (higher_priority x y)
  | _, _ => None
  end.

(** [temp = array[i]; array[i] = array[j]; array[j] = temp]. *)
Definition swap_nodes (array : list fogsaa_queue_node) (i j : nat)
  : option (list fogsaa_queue_node) :=
  match array !! i, array !! j with
  | Some temp, Some other => Some (<[j := temp]> (<[i := other]> array))
  | _, _ => None
  end.

(** The [while] loop of [fogsaa_queue_insert]: the new node moves up while
    its parent [(i-1)/2] has no higher priority. [None] is an access
    outside the block, or the bound [fuel] on the iterations used up. *)
Fixpoint fogsaa_queue_insert_loop (fuel : nat) (array : list fogsaa_queue_node)
    (i : nat) : option (list fogsaa_queue_node) :=
  match fuel with
  | O => None
  | S fuel =>
    if (i =? 0)%nat then Some array
    else
      match FOGSAA_QUEUE_HEAP_COND array ((i - 1) / 2)%nat i with
      | None => None
      | Some true => Some array
      | Some false =>
        match swap_nodes array i ((i - 1) / 2)%nat with
        | None => None
        | Some array => fogsaa_queue_insert_loop fuel array ((i - 1) / 2)%nat
        end
      end
  end.

(** [PyMem_Realloc] of the block to [n] nodes, when it succeeds: the nodes
    that were there are kept; what the added room holds is not specified
    in C, and is never read before it is written. *)
Definition reallocated (array : list fogsaa_queue_node) (n : nat)
  : list fogsaa_queue_node := resize n inhabitant array.

(** [fogsaa_queue_insert]. [grown] tells whether [PyMem_Realloc] succeeds.
    The result is the returned [int] and the queue; [None] is undefined
    behaviour: an [int] out of range or an access outside the block. *)
Definition fogsaa_queue_insert (grown : bool) (queue : fogsaa_queue)
    (pA pB type_total next_type : Z) (next_lower next_upper : double)
  : option (Z * fogsaa_queue) :=
  if negb (fits_in_int (queue_size queue + 1)) then None
  else
    let resized :=
      if (queue_capacity queue <=? queue_size queue + 1)%nat then
        if negb (fits_in_int (queue_capacity queue + 1)) then None
        else if grown then
          if fits_in_int ((queue_capacity queue + 1) * 2) then
            Some (Some (Build_fogsaa_queue
                          (reallocated (queue_array queue)
                                       ((queue_capacity queue + 1) * 2))
                          (queue_size queue)
                          ((queue_capacity queue + 1) * 2)))
          else None
        else Some None
      else Some (Some queue) in
    match resized with
    | None => None
    | Some None =>
      Some (0, Build_fogsaa_queue [] (queue_size queue) (queue_capacity queue))
    | Some (Some queue) =>
      let i := queue_size queue in
      if (i <? length (queue_array queue))%nat then
        let array :=
          <[i := Build_fogsaa_queue_node pA pB type_total next_type
                   next_lower next_upper]> (queue_array queue) in
        match fogsaa_queue_insert_loop (S i) array i with
        | None => None
        | Some array =>
          Some (1, Build_fogsaa_queue array (queue_size queue + 1)
                     (queue_capacity queue))
        end
      else None
    end.

(** [inside && !FOGSAA_QUEUE_HEAP_COND(a, b)], the condition evaluated only
    when [inside] holds. *)
Definition inside_and_not_above (inside : bool) (array : list fogsaa_queue_node)
    (a b : nat) : option bool :=
  if inside then option_map negb (FOGSAA_QUEUE_HEAP_COND array a b)
  else Some false.

(** The [while (1)] loop of [fogsaa_queue_pop]: the node at [i] moves down
    to the child chosen by the two tests, until neither child is chosen. *)
Fixpoint fogsaa_queue_pop_loop (fuel : nat) (array : list fogsaa_queue_node)
    (size i : nat) : option (list fogsaa_queue_node) :=
  match fuel with
  | O => None
  | S fuel =>
    if negb (fits_in_int (2 * i + 2)) then None
    else
      let largest_child := i in
      match inside_and_not_above (2 * i + 1 <? size)%nat array i (2 * i + 1) with
      | None => None
      | Some lower =>
        let largest_child := if lower then (2 * i + 1)%nat else largest_child in
        match inside_and_not_above (2 * i + 2 <? size)%nat array
                largest_child (2 * i + 2) with
        | None => None
        | Some upper =>
          let largest_child := if upper then (2 * i + 2)%nat else largest_child in
          if negb (largest_child =? i)%nat then
            match swap_nodes array i largest_child with
            | None => None
            | Some array => fogsaa_queue_pop_loop fuel array size largest_child
            end
          else Some array
        end
      end
  end.

(** [fogsaa_queue_pop]: the returned root and the queue. On an empty queue
    [size] becomes -1 and [array[-1]] is read: undefined, [None]. *)
Definition fogsaa_queue_pop (queue : fogsaa_queue)
  : option (fogsaa_queue_node * fogsaa_queue) :=
  match queue_array queue !! 0%nat with
  | None => None
  | Some root =>
    match queue_size queue with
    | O => None
    | S size =>
      match queue_array queue !! size with
      | None => None
      | Some last =>
        match fogsaa_queue_pop_loop (S size) (<[0%nat := last]> (queue_array queue))
                size 0 with
        | None => None
        | Some array =>
          Some (root, Build_fogsaa_queue array size (queue_capacity queue))
        end
      end
    end
  end.

(** The nodes in the queue: the first [size] entries of the block. *)
Definition queued (queue : fogsaa_queue) : list fogsaa_queue_node :=
  take (queue_size queue) (queue_array queue).

(** The block has [capacity] entries, and every queued node is in it. *)
Definition allocated (queue : fogsaa_queue) : bool :=
  (length (queue_array queue) =? queue_capacity queue)%nat &&
  (queue_size queue <=? queue_capacity queue)%nat.

(** Neither bound of the node is NaN. *)
Definition has_bounds (node : fogsaa_queue_node) : bool :=
  feqb (next_upper node) (next_upper node) &&
  feqb (next_lower node) (next_lower node).

(** No node has a higher priority than its parent: the nodes form a
    max-heap in the array. *)
Definition heap_ordered (nodes : list fogsaa_queue_node) : bool :=
  forallb (fun k => negb (higher_priority (nodes !!! k) (nodes !!! ((k - 1) / 2)%nat)))
          (seq 1 (length nodes - 1)).

(** A queue as the functions keep it. *)
Definition is_queue (queue : fogsaa_queue) : Prop :=
  allocated queue = true /\
  forallb has_bounds (queued queue) = true /\
  heap_ordered (queued queue) = true.

(** Inserting the nodes of a list, one after the other, each allocation
    succeeding. *)
Fixpoint insert_all (nodes : list fogsaa_queue_node) (queue : fogsaa_queue)
  : option fogsaa_queue :=
  match nodes with
  | [] => Some queue
  | node :: nodes =>
    match fogsaa_queue_insert true queue (pA node) (pB node) (type_upto_next node)
            (next_type node) (next_lower node) (next_upper node) with
    | Some (_, queue) => insert_all nodes queue
    | None => None
    end
  end.

(** Popping [n] nodes, as the search does while [queue.size > 0]. *)
Fixpoint pop_all (n : nat) (queue : fogsaa_queue)
  : option (list fogsaa_queue_node) :=
  match n with
  | O => Some []
  | S n =>
    match fogsaa_queue_pop queue with
    | Some (root, queue) =>
      match pop_all n queue with
      | Some roots => Some (root :: roots)
      | None => None
      end
    | None => None
    end
  end.

(** No node of the list has a higher priority than one before it. *)
Fixpoint best_first (nodes : list fogsaa_queue_node) : Prop :=
  match nodes with
  | [] => True
  | node :: nodes =>
    (forall other, In other nodes -> higher_priority other node = false) /\
    best_first nodes
  end.

(** The place of a node with bounds in the order of the priorities: the
    rank of its upper bound, then the rank of its lower bound. *)
Definition place (node : fogsaa_queue_node) : option ((Z * Z * Z) * (Z * Z * Z)) :=
  match rank (Prim2SF (next_upper node)), rank (Prim2SF (next_lower node)) with
  | Some u, Some l => Some (u, l)
  | _, _ => None
  end.

Definition place_lt (p q : (Z * Z * Z) * (Z * Z * Z)) : Prop :=
  lex_lt (fst p) (fst q) \/ (fst p = fst q /\ lex_lt (snd p) (snd q)).

(** [heap_ordered] and [has_bounds] on the first [n] entries of the block,
    entry by entry. *)
Definition heap_below (n : nat) (array : list fogsaa_queue_node) : Prop :=
  forall k, (1 <= k < n)%nat ->
    higher_priority (array !!! k) (array !!! ((k - 1) / 2)%nat) = false.

Definition bounds_below (n : nat) (array : list fogsaa_queue_node) : Prop :=
  forall k, (k < n)%nat -> has_bounds (array !!! k) = true.

(** Three nodes, the second and third with the same upper bound. *)
Definition example_nodes : list fogsaa_queue_node :=
  [ Build_fogsaa_queue_node 1 1 7 4 1%float 3%float;
    Build_fogsaa_queue_node 2 1 3 2 0%float 5%float;
    Build_fogsaa_queue_node 1 2 5 1 2%float 5%float ].

(** *** The children of a FOGSAA node *)

(** The test of [FOGSAA_SORT] on two children: the first has the smaller
    lower bound, or the same lower bound and the smaller upper bound. *)
Definition lower_child (lbound ubound lbound' ubound' : double) : bool :=
  flt lbound lbound' || (feqb lbound lbound' && flt ubound ubound').

(** [t = a[j]; a[j] = a[j + 1]; a[j + 1] = t]. *)
Definition swap_next {A : Type} `{Inhabited A} (a : list A) (j : nat) : list A :=
  <[(j + 1)%nat := a !!! j]> (<[j := a !!! (j + 1)%nat]> a).

(** [FOGSAA_SORT()] on the three arrays of the children. The types pass
    through the [double] [t], which holds every [int] exactly. *)
Definition FOGSAA_SORT (child_lbounds : list double) (child_types : list Z)
    (child_ubounds : list double) : list double * list Z * list double :=
  for_range 0 2 (fun i =>
    for_range 0 (2 - i) (fun j '(child_lbounds, child_types, child_ubounds) =>
      if lower_child (child_lbounds !!! j) (child_ubounds !!! j)
           (child_lbounds !!! (j + 1)%nat) (child_ubounds !!! (j + 1)%nat)
      then (swap_next child_lbounds j, swap_next child_types j,
            swap_next child_ubounds j)
      else (child_lbounds, child_types, child_ubounds)))
    (child_lbounds, child_types, child_ubounds).

(** The children, each with its lower bound, type and upper bound. *)
Definition children (child_lbounds : list double) (child_types : list Z)
    (child_ubounds : list double) : list (double * Z * double) :=
  zip (zip child_lbounds child_types) child_ubounds.

(** The double is not NaN. *)
Definition no_nan (x : double) : bool := feqb x x.

(** Three children, two of them with the same lower bound. *)
Definition example_lbounds : list double := [1%float; 3%float; 3%float].
Definition example_types : list Z := [1; 2; 4].
Definition example_ubounds : list double := [5%float; 4%float; 6%float].

(** * Properties *)

#[local] Arguments fgt : simpl never.
#[local] Arguments flt : simpl never.
#[local] Arguments fge : simpl never.
#[local] Arguments feqb : simpl never.
#[local] Arguments fneb : simpl never.

(** ** Doubles *)

Section Doubles.

Local Open Scope float_scope.

(** C's [==] on the specification side: both zeros, or the same datum
    that is not NaN. *)
Lemma SFeqb_true_iff (a b : spec_float) :
  SFeqb a b = true <->
  (is_zero a = true /\ is_zero b = true) \/ (a = b /\ a <> S754_nan).
Proof.
  unfold SFeqb, SFcompare.
  destruct a as [sa|sa| |sa ma ea], b as [sb|sb| |sb mb eb]; simpl;
    try destruct sa; try destruct sb; simpl;
    try (split; [discriminate | intros [[? ?]|[? ?]]; congruence]);
    try (split; [intros _; auto; right; split; congruence | reflexivity]).
  all: destruct (Z.compare_spec ea eb) as [He|He|He];
    try (split; [discriminate | intros [[? ?]|[E _]]; [discriminate | injection E; lia]]).
  all: subst eb; fold (Pos.compare ma mb);
    destruct (Pos.compare_spec ma mb) as [Hm|Hm|Hm]; simpl;
    try (split; [discriminate | intros [[? ?]|[E _]]; [discriminate | injection E; lia]]).
  all: subst mb; split; [intros _; right; split; congruence | reflexivity].
Qed.

Lemma feqb_sym (x y : double) : feqb x y = feqb y x.
Proof.
  unfold feqb. rewrite !FloatAxioms.eqb_spec.
  destruct (SFeqb (Prim2SF x) (Prim2SF y)) eqn:E1, (SFeqb (Prim2SF y) (Prim2SF x)) eqn:E2;
    try reflexivity.
  - apply SFeqb_true_iff in E1. assert (SFeqb (Prim2SF y) (Prim2SF x) = true) as E.
    { apply SFeqb_true_iff. destruct E1 as [[? ?]|[E ?]]; [left; auto | right].
      split; congruence. }
    congruence.
  - apply SFeqb_true_iff in E2. assert (SFeqb (Prim2SF x) (Prim2SF y) = true) as E.
    { apply SFeqb_true_iff. destruct E2 as [[? ?]|[E ?]]; [left; auto | right].
      split; congruence. }
    congruence.
Qed.

Lemma feqb_trans (x y z : double) :
  feqb x y = true -> feqb y z = true -> feqb x z = true.
Proof.
  unfold feqb. rewrite !FloatAxioms.eqb_spec, !SFeqb_true_iff.
  intros [[Hx Hy]|[Hxy Hx]] [[Hy' Hz]|[Hyz Hy']].
  - left; auto.
  - left. split; [assumption | congruence].
  - left. split; [congruence | assumption].
  - right. split; congruence.
Qed.

End Doubles.

(** ** The algorithm memo *)

(** With the memo at [Unknown], [_get_algorithm] derives the algorithm by
    the rule and stores it. *)
Lemma _get_algorithm_Unknown (self : Aligner) :
  algorithm self = Unknown ->
  _get_algorithm self = (derived_algorithm self, set_algorithm (derived_algorithm self) self).
Proof.
  intros H. unfold _get_algorithm. rewrite H.
  unfold derived_algorithm, first_match, selection_rules. simpl.
  destruct (Mode_eqb (mode self) FOGSAA_Mode); [reflexivity|].
  destruct (non_null (insertion_score_function self)
            || non_null (deletion_score_function self)); [reflexivity|].
  destruct (feqb (open_internal_insertion_score self) (extend_internal_insertion_score self)),
    (feqb (open_internal_deletion_score self) (extend_internal_deletion_score self)),
    (feqb (open_left_insertion_score self) (extend_left_insertion_score self)),
    (feqb (open_right_insertion_score self) (extend_right_insertion_score self)),
    (feqb (open_left_deletion_score self) (extend_left_deletion_score self)),
    (feqb (open_right_deletion_score self) (extend_right_deletion_score self));
    reflexivity.
Qed.

Lemma derived_algorithm_not_Unknown (self : Aligner) : derived_algorithm self <> Unknown.
Proof.
  unfold derived_algorithm, first_match, selection_rules. simpl.
  repeat match goal with
         | |- context [if ?b then _ else _] => destruct b; simpl
         end; discriminate.
Qed.

Lemma _get_algorithm_consistent (self : Aligner) :
  consistent self ->
  fst (_get_algorithm self) = derived_algorithm self /\
  algorithm (snd (_get_algorithm self)) = derived_algorithm self /\
  derived_algorithm (snd (_get_algorithm self)) = derived_algorithm self.
Proof.
  intros [H|H].
  - rewrite (_get_algorithm_Unknown _ H). simpl.
    destruct self; simpl. auto.
  - pose proof (derived_algorithm_not_Unknown self) as Hn.
    unfold _get_algorithm. destruct (algorithm self) eqn:E; simpl;
      rewrite ?E; auto; congruence.
Qed.

Ltac destruct_slots :=
  repeat match goal with
         | |- context [match ?o with Some _ => _ | None => _ end] => destruct o; simpl
         end.

(** What a setter of the table does to the memo: on success it either
    resets it or (for the attributes of [keeps_algorithm]) leaves both
    the memo and the outcome of the rule as they were; in every case the
    memo is reset or, with the outcome of the rule, unchanged. *)
Lemma setter_effect (name : string) (set : Aligner -> PyObject -> Z * Aligner) :
  In (name, Some set) Aligner_getset ->
  forall self value,
    (fst (set self value) = 0 ->
     if keeps_algorithm name
     then algorithm (snd (set self value)) = algorithm self /\
          derived_algorithm (snd (set self value)) = derived_algorithm self
     else algorithm (snd (set self value)) = Unknown) /\
    (algorithm (snd (set self value)) = Unknown \/
     (algorithm (snd (set self value)) = algorithm self /\
      derived_algorithm (snd (set self value)) = derived_algorithm self)).
Proof.
  intros Hin self value. unfold Aligner_getset in Hin. simpl in Hin.
  repeat (destruct Hin as [Heq|Hin];
          [ injection Heq as <- <-; clear;
            match goal with
            | |- context [fst (?f self value)] => unfold f
            end;
            try (generalize (substitution_matrix_converter value); intros converted);
            destruct value as [ |d|s|id f|view mapping| ]; simpl;
            try (destruct s as [|c [|c' s]]; simpl);
            try (destruct converted; simpl);
            repeat match goal with
                   | |- context [PyUnicode_CompareWithASCIIString ?s ?t] =>
                     destruct (PyUnicode_CompareWithASCIIString s t); simpl
                   end;
            destruct self;
            unfold clear_insertion_score_function, clear_deletion_score_function;
            simpl; destruct_slots;
            (split; [intros; try discriminate; auto | auto])
          | ]).
  destruct Hin as [Heq|[]]. discriminate Heq.
Qed.

Lemma step_consistent (self : Aligner) (c : call) :
  consistent self -> consistent (step self c).
Proof.
  intros H. destruct c as [name value|]; simpl.
  - unfold Aligner_setattr.
    destruct (find (fun e => (fst e =? name)%string) Aligner_getset) as [[n [set|]]|] eqn:E;
      simpl; try assumption.
    apply find_some in E. destruct E as [Hin _].
    destruct (setter_effect n set Hin self value) as [_ [Hu|[Ha Hd]]].
    + left. assumption.
    + destruct H as [H|H]; [left | right]; congruence.
  - right. destruct (_get_algorithm_consistent self H) as (_ & -> & ->). reflexivity.
Qed.

Lemma run_consistent (calls : list call) : consistent (run calls).
Proof.
  unfold run. assert (consistent Aligner_init) as H by (left; reflexivity).
  revert H. generalize Aligner_init.
  induction calls as [|c calls IH]; intros self H; simpl.
  - assumption.
  - apply IH. apply step_consistent. assumption.
Qed.

(** C2. In every state an aligner can be in (after its initialisation and
    any sequence of attribute assignments and algorithm queries), the
    algorithm that [_get_algorithm] returns, and leaves in the memo, is the
    first match of the ordered rules: FOGSAA for the FOGSAA mode, else
    WatermanSmithBeyer when a gap-score function is set, else
    NeedlemanWunschSmithWaterman when each of the six open scalars
    compares equal to its extend scalar, else Gotoh. *)
Theorem get_algorithm_first_match (calls : list call) :
  fst (_get_algorithm (run calls)) = derived_algorithm (run calls) /\
  algorithm (snd (_get_algorithm (run calls))) = derived_algorithm (run calls).
Proof.
  destruct (_get_algorithm_consistent (run calls) (run_consistent calls)) as (H1 & H2 & _).
  split; assumption.
Qed.

(** C3, as the source has it.  The claim fails for the match score: after
    a query has stored the algorithm, a successful assignment of the match
    score leaves the memo where it was. *)
Lemma set_match_score_keeps_memo :
  fst (Aligner_set_match_score (run [call_get_algorithm]) (PyFloat 2)) = 0 /\
  algorithm (snd (Aligner_set_match_score (run [call_get_algorithm]) (PyFloat 2)))
  = NeedlemanWunschSmithWaterman /\
  algorithm (snd (Aligner_set_match_score (run [call_get_algorithm]) (PyFloat 2)))
  <> Unknown.
Proof. repeat split; try reflexivity. discriminate. Qed.

(** C3, amended. A successful assignment through the attribute table
    resets the memo to [Unknown], except for the match score, the mismatch
    score (and their synonyms), the substitution matrix and the wildcard,
    whose setters leave the memo as it is; these change nothing the
    selection rule reads.  In both cases the next query of the algorithm
    returns what the rule gives for the new parameters. *)
Theorem setter_memo (name : string) (set : Aligner -> PyObject -> Z * Aligner)
  (calls : list call) (value : PyObject) :
  In (name, Some set) Aligner_getset ->
  fst (set (run calls) value) = 0 ->
  (if keeps_algorithm name
   then algorithm (snd (set (run calls) value)) = algorithm (run calls) /\
        derived_algorithm (snd (set (run calls) value)) = derived_algorithm (run calls)
   else algorithm (snd (set (run calls) value)) = Unknown) /\
  fst (_get_algorithm (snd (set (run calls) value)))
  = derived_algorithm (snd (set (run calls) value)).
Proof.
  intros Hin Hok.
  destruct (setter_effect name set Hin (run calls) value) as [Hs Hc].
  split; [exact (Hs Hok)|].
  apply _get_algorithm_consistent.
  destruct Hc as [Hu|[Ha Hd]].
  - left. assumption.
  - destruct (run_consistent calls) as [H|H]; [left | right]; congruence.
Qed.

Lemma setter_memo_witness :
  In ("gap_score"%string, Some Aligner_set_gap_score) Aligner_getset /\
  fst (Aligner_set_gap_score (run [call_get_algorithm]) (PyFloat (-1))) = 0 /\
  algorithm (snd (Aligner_set_gap_score (run [call_get_algorithm]) (PyFloat (-1))))
  = Unknown.
Proof.
  assert (In ("gap_score"%string, Some Aligner_set_gap_score) Aligner_getset) as Hin
    by (simpl; tauto).
  split; [exact Hin|]. split; [reflexivity|].
  exact (proj1 (setter_memo "gap_score" Aligner_set_gap_score [call_get_algorithm]
                  (PyFloat (-1)) Hin eq_refl)).
Defined.

(** ** Aggregate gap score *)

Lemma all_equal_of_first (s : double) (l : list double) :
  feqb s s = true -> Forall (fun x => feqb s x = true) l -> all_equal (s :: l).
Proof.
  intros Hs Hl. rewrite Forall_forall in Hl.
  assert (forall x, In x (s :: l) -> feqb s x = true) as H.
  { intros x [<-|Hx]; [assumption | apply Hl, list_elem_of_In; assumption]. }
  intros x y Hx Hy. apply feqb_trans with s.
  - rewrite feqb_sym. apply H. assumption.
  - apply H. assumption.
Qed.

Lemma first_of_all_equal (s : double) (l : list double) (x : double) :
  all_equal (s :: l) -> In x l -> feqb s x = true.
Proof. intros H Hx. apply H; [left; reflexivity | right; assumption]. Qed.

(** C4. Without a gap-score function, [gap_score] reads as a value exactly
    when the twelve gap scalars all compare equal, and fails with "gap
    scores are different" otherwise; assigning a number to [gap_score]
    stores that number in all twelve scalars. *)
Theorem gap_score_aggregate (self : Aligner) :
  (insertion_score_function self = None -> deletion_score_function self = None ->
   ((exists v, Aligner_get_gap_score self = Ok v) <-> all_equal (gap_scalars self)) /\
   (all_equal (gap_scalars self) ->
    Aligner_get_gap_score self = Ok (PyFloat (open_internal_insertion_score self))) /\
   (~ all_equal (gap_scalars self) ->
    Aligner_get_gap_score self = Err (ValueError "gap scores are different"))) /\
  (forall value score,
     PyCallable_Check value = false -> PyFloat_AsDouble value = Some score ->
     fst (Aligner_set_gap_score self value) = 0 /\
     Forall (eq score) (gap_scalars (snd (Aligner_set_gap_score self value)))).
Proof.
  split.
  - intros Hi Hd. unfold Aligner_get_gap_score. rewrite Hi, Hd. simpl.
    unfold gap_scalars, fneb.
    set (s := open_internal_insertion_score self).
    repeat match goal with
           | |- context [negb (feqb s ?x)] =>
             let E := fresh "E" in
             destruct (feqb s x) eqn:E; simpl;
             [ | assert (~ all_equal (gap_scalars self)) as Hne
                   by (intros Hall;
                       assert (feqb s x = true) as E'
                         by (apply (first_of_all_equal s _ x Hall); simpl; tauto);
                       congruence);
                 unfold gap_scalars in Hne; fold s in Hne;
                 repeat split; try (intros [v Hv]; discriminate Hv);
                 try (intros; contradiction); reflexivity ]
           end.
    assert (all_equal [s; extend_internal_insertion_score self;
                       open_left_insertion_score self; extend_left_insertion_score self;
                       open_right_insertion_score self; extend_right_insertion_score self;
                       open_internal_deletion_score self;
                       extend_internal_deletion_score self;
                       open_left_deletion_score self; extend_left_deletion_score self;
                       open_right_deletion_score self; extend_right_deletion_score self])
      as Hall.
    { apply all_equal_of_first.
      - apply feqb_trans with (extend_internal_insertion_score self);
          [assumption | rewrite feqb_sym; assumption].
      - repeat constructor; assumption. }
    repeat split; auto.
    + exists (PyFloat s). reflexivity.
    + intros Hn. contradiction.
  - intros value score Hc Hf. unfold Aligner_set_gap_score. rewrite Hc, Hf.
    destruct self; unfold clear_insertion_score_function, clear_deletion_score_function;
      simpl; destruct_slots; split; try reflexivity; repeat constructor.
Qed.

Lemma gap_score_aggregate_witness :
  Aligner_get_gap_score Aligner_init = Ok (PyFloat 0) /\
  Forall (eq 2%float) (gap_scalars (snd (Aligner_set_gap_score Aligner_init (PyFloat 2)))).
Proof.
  pose proof (gap_score_aggregate Aligner_init) as [Hget Hset].
  destruct (Hget eq_refl eq_refl) as (Hiff & Hok & _).
  split.
  - apply Hok. apply Hiff. exists (PyFloat 0). reflexivity.
  - exact (proj2 (Hset (PyFloat 2) 2%float eq_refl eq_refl)).
Defined.

(** ** Tie handling *)

Section Ties.

Variable epsilon : double.

Lemma consider_exceeds (dir : Z) (cand score : double) (trace : Z) :
  fgt cand (score + epsilon) = true ->
  consider epsilon dir cand (score, trace) = (cand, dir).
Proof. intros H. unfold consider. rewrite H. reflexivity. Qed.

Lemma consider_within (dir : Z) (cand score : double) (trace : Z) :
  fgt cand (score + epsilon) = false -> fgt cand (score - epsilon) = true ->
  consider epsilon dir cand (score, trace) = (score, Z.lor trace dir).
Proof. intros H1 H2. unfold consider. rewrite H1, H2. reflexivity. Qed.

Lemma consider_below (dir : Z) (cand score : double) (trace : Z) :
  fgt cand (score + epsilon) = false -> fgt cand (score - epsilon) = false ->
  consider epsilon dir cand (score, trace) = (score, trace).
Proof. intros H1 H2. unfold consider. rewrite H1, H2. reflexivity. Qed.

Lemma lor_eq_r_land (t d : Z) : Z.lor t d = d -> Z.land t d = t.
Proof.
  intros H. apply Z.bits_inj'. intros n Hn.
  apply (f_equal (fun z => Z.testbit z n)) in H.
  rewrite Z.lor_spec in H. rewrite Z.land_spec.
  destruct (Z.testbit t n), (Z.testbit d n); simpl in *; congruence.
Qed.

(** The stored set is exactly the candidate's bit if and only if the
    candidate exceeded the best by more than [epsilon] (the best so far
    holds other bits). *)
Lemma consider_exclusive_iff (dir : Z) (cand score : double) (trace : Z) :
  trace <> 0 -> dir <> 0 -> Z.land trace dir = 0 ->
  snd (consider epsilon dir cand (score, trace)) = dir <->
  fgt cand (score + epsilon) = true.
Proof.
  intros Ht Hd Hdisj. unfold consider.
  destruct (fgt cand (score + epsilon)); simpl.
  - tauto.
  - destruct (fgt cand (score - epsilon)); simpl; split; try discriminate.
    + intros H. apply lor_eq_r_land in H. congruence.
    + intros H. subst trace. rewrite Z.land_diag in Hdisj. contradiction.
Qed.

Lemma consider_bits (mask dir : Z) (cand : double) (best : double * Z) :
  dir <> 0 -> bits_within mask (snd best) ->
  bits_within (Z.lor mask dir) (snd (consider epsilon dir cand best)).
Proof.
  intros Hd [Hn Hm]. destruct best as [score trace]. simpl in *. unfold consider.
  assert (forall t, Z.land t (Z.lnot mask) = 0 ->
                    Z.land t (Z.lnot (Z.lor mask dir)) = 0) as Hmono.
  { intros t H. apply Z.bits_inj'. intros n Hn'.
    apply (f_equal (fun z => Z.testbit z n)) in H.
    rewrite Z.land_spec, Z.lnot_spec, Z.bits_0 in * by assumption.
    rewrite Z.lor_spec.
    destruct (Z.testbit t n), (Z.testbit mask n), (Z.testbit dir n);
      simpl in *; congruence. }
  assert (Z.land dir (Z.lnot (Z.lor mask dir)) = 0) as Hdir.
  { apply Z.bits_inj'. intros n Hn'.
    rewrite Z.land_spec, Z.lnot_spec, Z.bits_0, Z.lor_spec by assumption.
    destruct (Z.testbit mask n), (Z.testbit dir n); reflexivity. }
  destruct (fgt cand (score + epsilon)); simpl; [split; assumption|].
  destruct (fgt cand (score - epsilon)); simpl; [|split; auto].
  split.
  - intros H. apply Z.lor_eq_0_iff in H. tauto.
  - rewrite Z.land_lor_distr_l, (Hmono _ Hm), Hdir. reflexivity.
Qed.

(** The sets built by the macros fit their bit-fields. *)
Lemma chain_trace (d1 d2 d3 : Z) (s1 s2 s3 : double) :
  In (d1, d2, d3) [(DIAGONAL, HORIZONTAL, VERTICAL); (M_MATRIX, Ix_MATRIX, Iy_MATRIX)] ->
  let t := snd (consider epsilon d3 s3 (consider epsilon d2 s2 (s1, d1))) in
  1 <= t <= 7 /\ Z.land t 31 = t /\ Z.land t 15 = t.
Proof.
  intros Hin. unfold consider.
  destruct (fgt s2 (s1 + epsilon)), (fgt s2 (s1 - epsilon)); simpl;
    repeat match goal with
           | |- context [if ?b then _ else _] => destruct b; simpl
           end;
    destruct Hin as [H|[H|[]]]; injection H as <- <- <-; vm_compute; intuition congruence.
Qed.

End Ties.

Ltac case_if :=
  match goal with
  | |- context [if ?b then _ else _] =>
    lazymatch b with
    | context [if _ then _ else _] => fail
    | context [match _ with _ => _ end] => fail
    | _ => destruct b eqn:?
    end
  end.

Ltac case_ifs := repeat (case_if; simpl).



(** ** Path count *)

(** [SAFE_ADD] on two counts: the sum when it fits, the sentinel when it
    does not; no intermediate result leaves the machine word. *)
Lemma SAFE_ADD_counts (t s : Z) :
  0 <= t <= PY_SSIZE_T_MAX -> 0 <= s <= PY_SSIZE_T_MAX ->
  SAFE_ADD t s = if t + s <=? PY_SSIZE_T_MAX then s + t else OVERFLOW_ERROR.
Proof.
  intros Ht Hs. unfold SAFE_ADD, ssize_t, OVERFLOW_ERROR, PY_SSIZE_T_MAX in *.
  destruct (Z.eqb_spec s (-1)); [lia|]. simpl.
  rewrite (Z.mod_small (9223372036854775807 - s + 9223372036854775808)) by lia.
  destruct (Z.gtb_spec t (9223372036854775807 - s + 9223372036854775808
                          - 9223372036854775808));
    destruct (Z.leb_spec (t + s) 9223372036854775807); try lia.
  rewrite Z.mod_small by lia. lia.
Qed.

(** The sentinel is kept by later additions. *)
Lemma SAFE_ADD_sticky (t : Z) : SAFE_ADD t OVERFLOW_ERROR = OVERFLOW_ERROR.
Proof. reflexivity. Qed.

(** A term that is itself the sentinel is added as the number -1. *)
Lemma SAFE_ADD_sentinel_term (s : Z) :
  0 < s <= PY_SSIZE_T_MAX -> SAFE_ADD OVERFLOW_ERROR s = s - 1.
Proof.
  intros Hs. unfold SAFE_ADD, ssize_t, OVERFLOW_ERROR, PY_SSIZE_T_MAX in *.
  destruct (Z.eqb_spec s (-1)); [lia|]. simpl.
  rewrite (Z.mod_small (9223372036854775807 - s + 9223372036854775808)) by lia.
  destruct (Z.gtb_spec (-1) (9223372036854775807 - s + 9223372036854775808
                             - 9223372036854775808)); [lia|].
  rewrite Z.mod_small by lia. lia.
Qed.

(** C6, on the source.  For two sequences of 37 and 20 equal letters and
    all scores zero, the trace grid has 19772988122558702281 paths, more
    than [PY_SSIZE_T_MAX]; the length query returns 8001394856851978759
    and sets no exception. A count that has become the sentinel is added
    into the next row as the number -1. *)
Lemma length_misses_overflow :
  forall gg gl wg wl,
  match Aligner_needlemanwunsch_align_compare all_zero_scores
          (fun _ => 0) 37 (fun _ => 0) 20 "+" with
  | Ok (score, paths) =>
    number_of_paths (pg_M paths) 37 20 = 19772988122558702281 /\
    PY_SSIZE_T_MAX < number_of_paths (pg_M paths) 37 20 /\
    fst (PathGenerator_length gg gl wg wl paths) = (8001394856851978759, None) /\
    SAFE_ADD OVERFLOW_ERROR 5 = 4
  | Err _ => False
  end.
Proof. intros. vm_compute. repeat split; congruence. Qed.

(** ** Strand *)

Lemma for_loop_ext {S : Type} (n lo : nat) (f g : nat -> S -> S) (s : S) :
  (forall i s, (lo <= i < lo + n)%nat -> f i s = g i s) ->
  for_loop n lo f s = for_loop n lo g s.
Proof.
  revert lo s. induction n as [|n IH]; intros lo s H; simpl; [reflexivity|].
  rewrite H by lia. apply IH. intros i s' Hi. apply H. lia.
Qed.

Lemma for_range_ext {S : Type} (lo hi : nat) (f g : nat -> S -> S) (s : S) :
  (forall i s, (lo <= i < hi)%nat -> f i s = g i s) ->
  for_range lo hi f s = for_range lo hi g s.
Proof. intros H. apply for_loop_ext. intros i s' Hi. apply H. lia. Qed.

Lemma try_loop_ext {S : Type} (n lo : nat) (f g : nat -> S -> PyResult S) (s : S) :
  (forall i s, (lo <= i < lo + n)%nat -> f i s = g i s) ->
  try_loop n lo f s = try_loop n lo g s.
Proof.
  revert lo s. induction n as [|n IH]; intros lo s H; simpl; [reflexivity|].
  rewrite H by lia. destruct (g lo s); [|reflexivity].
  apply IH. intros i s' Hi. apply H. lia.
Qed.

Lemma try_range_ext {S : Type} (lo hi : nat) (f g : nat -> S -> PyResult S) (s : S) :
  (forall i s, (lo <= i < hi)%nat -> f i s = g i s) ->
  try_range lo hi f s = try_range lo hi g s.
Proof. intros H. apply try_loop_ext. intros i s' Hi. apply H. lia. Qed.

Lemma NEEDLEMANWUNSCH_strand_minus (self : Aligner) :
  NEEDLEMANWUNSCH_strand self "-" = NEEDLEMANWUNSCH_strand (swap_left_right self) "+".
Proof. destruct self; reflexivity. Qed.

Lemma NEEDLEMANWUNSCH_SCORE_minus (a : Z -> Z -> double) (self : Aligner)
  (sA : Z -> Z) (nA : nat) (sB : Z -> Z) (nB : nat) :
  NEEDLEMANWUNSCH_SCORE a self sA nA sB nB "-"
  = NEEDLEMANWUNSCH_SCORE a (swap_left_right self) sA nA sB nB "+".
Proof.
  unfold NEEDLEMANWUNSCH_SCORE. rewrite NEEDLEMANWUNSCH_strand_minus.
  destruct self; reflexivity.
Qed.

Lemma NEEDLEMANWUNSCH_ALIGN_minus (a : Z -> Z -> double) (self : Aligner)
  (sA : Z -> Z) (nA : nat) (sB : Z -> Z) (nB : nat) :
  NEEDLEMANWUNSCH_ALIGN a self sA nA sB nB "-"
  = on_strand "-" (NEEDLEMANWUNSCH_ALIGN a (swap_left_right self) sA nA sB nB "+").
Proof.
  unfold NEEDLEMANWUNSCH_ALIGN. rewrite NEEDLEMANWUNSCH_strand_minus.
  destruct self; simpl.
  repeat match goal with
         | |- context [match ?x with (_, _) => _ end] =>
           lazymatch x with
           | match _ with (_, _) => _ end => fail
           | _ => destruct x as [? ?]
           end
         end.
  reflexivity.
Qed.

Lemma SMITHWATERMAN_minus (a : Z -> Z -> double) (self : Aligner)
  (sA : Z -> Z) (nA : nat) (sB : Z -> Z) (nB : nat) :
  SMITHWATERMAN_SCORE a (swap_left_right self) sA nA sB nB
  = SMITHWATERMAN_SCORE a self sA nA sB nB /\
  SMITHWATERMAN_ALIGN a self sA nA sB nB "-"
  = on_strand "-" (SMITHWATERMAN_ALIGN a (swap_left_right self) sA nA sB nB "+").
Proof.
  split; [destruct self; reflexivity|].
  unfold SMITHWATERMAN_ALIGN.
  destruct self; simpl.
  repeat match goal with
         | |- context [match ?x with (_, _) => _ end] =>
           lazymatch x with
           | match _ with (_, _) => _ end => fail
           | _ => destruct x as [? ?]
           end
         end.
  reflexivity.
Qed.

Lemma GOTOH_strand_minus (self : Aligner) :
  GOTOH_strand self "-" = GOTOH_strand (swap_left_right self) "+".
Proof. destruct self; reflexivity. Qed.

Lemma _call_deletion_mirror (self : Aligner) (nB j : nat) (k : Z) :
  (0 < nB)%nat -> (j <= nB)%nat ->
  _call_deletion_score_function self (Z.of_nat nB - Z.of_nat j) k (Z.of_nat nB)
  = _call_deletion_score_function (mirror_deletion nB self) (Z.of_nat j) k (Z.of_nat nB).
Proof.
  intros HnB Hj. unfold _call_deletion_score_function.
  destruct self; simpl.
  destruct deletion_score_function0 as [[ | | | | | ]|]; simpl; try reflexivity.
  destruct (Z.eqb_spec (Z.of_nat nB - Z.of_nat j) 0), (Z.eqb_spec (Z.of_nat j) 0),
    (Z.eqb_spec (Z.of_nat nB - Z.of_nat j) (Z.of_nat nB)),
    (Z.eqb_spec (Z.of_nat j) (Z.of_nat nB)); try reflexivity; lia.
Qed.

Lemma _call_insertion_mirror (self : Aligner) (nB : nat) (i k n : Z) :
  _call_insertion_score_function (mirror_deletion nB self) i k n
  = _call_insertion_score_function self i k n.
Proof. destruct self; reflexivity. Qed.

Ltac same_loop tac :=
  match goal with
  | |- match try_range ?lo ?hi ?f ?s with Ok _ => _ | Err _ => _ end
       = match try_range ?lo ?hi ?g ?s with Ok _ => _ | Err _ => _ end =>
    let H := fresh in
    assert (try_range lo hi f s = try_range lo hi g s) as H
      by (apply try_range_ext; tac);
    rewrite H; clear H;
    destruct (try_range lo hi g s); [|reflexivity]
  end.

Lemma WATERMANSMITHBEYER_GLOBAL_SCORE_minus (a : Z -> Z -> double) (self : Aligner)
  (sA : Z -> Z) (nA : nat) (sB : Z -> Z) (nB : nat) :
  (0 < nB)%nat ->
  WATERMANSMITHBEYER_GLOBAL_SCORE a (fun j => Z.of_nat nB - Z.of_nat j) self sA nA sB nB
  = WATERMANSMITHBEYER_GLOBAL_SCORE a (fun j => Z.of_nat j) (mirror_deletion nB self)
      sA nA sB nB.
Proof.
  intros HnB. unfold WATERMANSMITHBEYER_GLOBAL_SCORE.
  same_loop ltac:(intros i [[M Ix] Iy] Hi;
                  rewrite <- (_call_deletion_mirror self nB 0) by lia; reflexivity).
  destruct v as [[M Ix] Iy].
  same_loop ltac:(intros j [[M' Ix'] Iy'] Hj;
                  rewrite _call_insertion_mirror; reflexivity).
  destruct v as [[M' Ix'] Iy'].
  same_loop ltac:(intros i st Hi; apply try_range_ext; intros j [[M1 Ix1] Iy1] Hj;
                  same_loop ltac:(intros k score Hk;
                                  rewrite <- (_call_deletion_mirror self nB j) by lia;
                                  reflexivity);
                  same_loop ltac:(intros k score Hk;
                                  rewrite _call_insertion_mirror; reflexivity);
                  reflexivity).
  destruct v as [[M2 Ix2] Iy2]. reflexivity.
Qed.

Lemma create_path_minus_plus (fuel : nat) (M : list (list Trace)) (nB i j : nat)
  (direction : Z) :
  create_path_minus fuel M nB i j direction
  = option_map (mirror_B nB) (create_path_plus fuel M i j direction).
Proof.
  revert i j direction. induction fuel as [|fuel IH]; intros i j direction; simpl.
  - reflexivity.
  - destruct (negb (path_of (cell M i j) =? direction)); simpl;
      repeat case_if; rewrite ?IH;
      repeat match goal with
             | |- context [create_path_plus ?f ?m ?a ?b ?d] =>
               destruct (create_path_plus f m a b d); simpl
             end; reflexivity.
Qed.

Lemma create_path_plus_total (M : list (list Trace)) (nA nB : nat) :
  paths_inside M nA nB ->
  forall fuel i j direction,
    (i <= nA)%nat -> (j <= nB)%nat -> ((nA - i) + (nB - j) < fuel)%nat ->
    exists coordinates, create_path_plus fuel M i j direction = Some coordinates.
Proof.
  intros Hin. induction fuel as [|fuel IH]; intros i j direction Hi Hj Hf; [lia|].
  simpl. destruct (Hin i j Hi Hj) as (Hp & HH & HV & HD).
  set (p := path_of (cell M i j)) in *.
  destruct (negb (p =? direction)); simpl.
  all: destruct (Z.eqb_spec p HORIZONTAL) as [E|E];
    [specialize (HH E);
     destruct (IH i (S j) p ltac:(lia) ltac:(lia) ltac:(lia)) as [c Hc];
     destruct (IH i (S j) direction ltac:(lia) ltac:(lia) ltac:(lia)) as [c' Hc'];
     rewrite ?Hc, ?Hc'; simpl; eauto|].
  all: destruct (Z.eqb_spec p VERTICAL) as [E'|E'];
    [specialize (HV E');
     destruct (IH (S i) j p ltac:(lia) ltac:(lia) ltac:(lia)) as [c Hc];
     destruct (IH (S i) j direction ltac:(lia) ltac:(lia) ltac:(lia)) as [c' Hc'];
     rewrite ?Hc, ?Hc'; simpl; eauto|].
  all: destruct (Z.eqb_spec p DIAGONAL) as [E''|E''];
    [destruct (HD E'');
     destruct (IH (S i) (S j) p ltac:(lia) ltac:(lia) ltac:(lia)) as [c Hc];
     destruct (IH (S i) (S j) direction ltac:(lia) ltac:(lia) ltac:(lia)) as [c' Hc'];
     rewrite ?Hc, ?Hc'; simpl; eauto|].
  all: eauto.
Qed.

Lemma create_path_count_total (M : list (list Trace)) (nA nB : nat) :
  paths_inside M nA nB ->
  forall fuel i j direction n,
    (i <= nA)%nat -> (j <= nB)%nat -> ((nA - i) + (nB - j) < fuel)%nat ->
    exists n', create_path_count fuel M i j direction n = Some n'.
Proof.
  intros Hin. induction fuel as [|fuel IH]; intros i j direction n Hi Hj Hf; [lia|].
  simpl. destruct (Hin i j Hi Hj) as (Hp & HH & HV & HD).
  set (p := path_of (cell M i j)) in *.
  destruct (Z.eqb_spec p 0) as [E0|E0]; [eauto|].
  destruct (negb (p =? direction)); simpl.
  all: destruct (Z.eqb_spec p HORIZONTAL) as [E|E];
    [specialize (HH E); apply IH; lia|].
  all: destruct (Z.eqb_spec p VERTICAL) as [E'|E'];
    [specialize (HV E'); apply IH; lia|].
  all: destruct (Z.eqb_spec p DIAGONAL) as [E''|E''];
    [destruct (HD E''); apply IH; lia|].
  all: exfalso; destruct Hp as [?|[?|[?|?]]]; contradiction.
Qed.





(** ** The FOGSAA parameter check *)

Section Warnings.

Variable PyErr_WarnEx : string -> Z.

(** The twelve comparisons of the macro, whatever their order. *)
Lemma gap_above_source (mismatch : double) (self : Aligner) :
  fgt (open_left_deletion_score self) mismatch
  || fgt (open_internal_deletion_score self) mismatch
  || fgt (open_right_deletion_score self) mismatch
  || fgt (open_left_insertion_score self) mismatch
  || fgt (open_internal_insertion_score self) mismatch
  || fgt (open_right_insertion_score self) mismatch
  || fgt (extend_left_deletion_score self) mismatch
  || fgt (extend_internal_deletion_score self) mismatch
  || fgt (extend_right_deletion_score self) mismatch
  || fgt (extend_left_insertion_score self) mismatch
  || fgt (extend_internal_insertion_score self) mismatch
  || fgt (extend_right_insertion_score self) mismatch
  = gap_above mismatch self.
Proof.
  unfold gap_above, gap_scalars. cbn [existsb].
  apply Bool.eq_true_iff_eq.
  rewrite !Bool.orb_true_iff. intuition discriminate.
Qed.

Lemma warning_messages_differ : warning_match <> warning_gap.
Proof. discriminate. Qed.

(** When the filter issues each deserved warning, the check lets the call
    go on, having passed exactly the deserved warnings. *)
Lemma FOGSAA_CHECK_SCORES_issued (match_ mismatch : double) (self : Aligner) :
  (forall message, In message (fogsaa_violations match_ mismatch self) ->
                   PyErr_WarnEx message = 0) ->
  FOGSAA_CHECK_SCORES PyErr_WarnEx match_ mismatch self
  = (fogsaa_violations match_ mismatch self, true).
Proof.
  unfold FOGSAA_CHECK_SCORES, fogsaa_violations. rewrite gap_above_source.
  intros Hw.
  destruct (fge mismatch match_); destruct (gap_above mismatch self); simpl in *;
    rewrite ?Hw by auto; reflexivity.
Qed.

(** When the filter raises one of them, the check stops the call, having
    passed a prefix of the deserved warnings that ends in the raised
    one. *)
Lemma FOGSAA_CHECK_SCORES_raised (match_ mismatch : double) (self : Aligner) :
  (exists message, In message (fogsaa_violations match_ mismatch self) /\
                   PyErr_WarnEx message <> 0) ->
  exists before message,
    FOGSAA_CHECK_SCORES PyErr_WarnEx match_ mismatch self = (before ++ [message], false) /\
    PyErr_WarnEx message <> 0 /\
    (forall earlier, In earlier before -> PyErr_WarnEx earlier = 0) /\
    exists after, fogsaa_violations match_ mismatch self = before ++ message :: after.
Proof.
  unfold FOGSAA_CHECK_SCORES, fogsaa_violations. rewrite gap_above_source.
  intros (message & Hin & Hw).
  destruct (fge mismatch match_); destruct (gap_above mismatch self); simpl in *.
  - destruct (Z.eqb_spec (PyErr_WarnEx warning_match) 0) as [H0|H0]; simpl.
    + destruct (Z.eqb_spec (PyErr_WarnEx warning_gap) 0) as [H1|H1]; simpl.
      * destruct Hin as [<-|[<-|[]]]; contradiction.
      * exists [warning_match], warning_gap. repeat split; auto.
        -- intros earlier [<-|[]]. exact H0.
        -- exists []. reflexivity.
    + exists [], warning_match. repeat split; auto.
      * intros earlier [].
      * exists [warning_gap]. reflexivity.
  - destruct Hin as [<-|[]].
    destruct (Z.eqb_spec (PyErr_WarnEx warning_match) 0) as [H0|H0]; [contradiction|].
    simpl. exists [], warning_match. repeat split; auto.
    + intros earlier [].
    + exists []. reflexivity.
  - destruct Hin as [<-|[]].
    destruct (Z.eqb_spec (PyErr_WarnEx warning_gap) 0) as [H0|H0]; [contradiction|].
    simpl. exists [], warning_gap. repeat split; auto.
    + intros earlier [].
    + exists []. reflexivity.
  - destruct Hin.
Qed.

End Warnings.




(** ** The checks on sequence codes *)

(** A loop whose body only tests its index either passes every index or
    leaves at the first one that fails. *)
Lemma try_loop_first_error (body : nat -> PyResult unit) (n : nat) :
  forall lo,
  (try_loop n lo (fun i _ => body i) tt = Ok tt /\
   forall i, (lo <= i < lo + n)%nat -> body i = Ok tt) \/
  (exists i e, (lo <= i < lo + n)%nat /\ body i = Err e /\
               (forall k, (lo <= k < i)%nat -> body k = Ok tt) /\
               try_loop n lo (fun i _ => body i) tt = Err e).
Proof.
  induction n as [|n IH]; intros lo; simpl.
  - left. split; [reflexivity|]. intros i Hi. lia.
  - destruct (body lo) as [[]|e] eqn:Hlo.
    + destruct (IH (S lo)) as [[Hok Hall]|(i & e & Hi & Hbody & Hbefore & Herr)].
      * left. split; [exact Hok|]. intros i Hi.
        destruct (Nat.eq_dec i lo) as [->|Hne]; [exact Hlo|apply Hall; lia].
      * right. exists i, e. repeat split; try lia; auto.
        intros k Hk. destruct (Nat.eq_dec k lo) as [->|Hne]; [exact Hlo|apply Hbefore; lia].
    + right. exists lo, e. repeat split; try lia; auto.
Qed.

(** The indices of a view are the iterations of the loop over it. *)
Lemma items_nat (view : Py_buffer) (i : Z) :
  0 <= i < items view <-> exists k, i = Z.of_nat k /\ (0 <= k < 0 + Z.to_nat (items view))%nat.
Proof.
  split.
  - intros Hi. exists (Z.to_nat i). lia.
  - intros (k & -> & Hk). lia.
Qed.

(** [_check_indices] returns [true] exactly when every code is within
    the dimension of the matrix, and otherwise sets the error of the first
    code that is not. *)
Lemma _check_indices_spec (missing : Z) (view substitution_matrix : Py_buffer) :
  let check := code_error missing None (nth 0 (shape substitution_matrix) 0) in
  (_check_indices view substitution_matrix = Ok tt /\ all_valid check view) \/
  (exists e, _check_indices view substitution_matrix = Err e /\ first_error check view e).
Proof.
  intros check. unfold _check_indices, try_range. rewrite Nat.sub_0_r.
  fold (items view).
  set (body := fun i : nat =>
         let index := ibuf view (Z.of_nat i) in
         if index <? 0 then Err (ItemNegative (Z.of_nat i) index)
         else if index >=? nth 0 (shape substitution_matrix) 0
              then Err (ItemOutOfBound (Z.of_nat i) index (nth 0 (shape substitution_matrix) 0))
              else Ok tt).
  assert (Hbody : forall i,
            (body i = Ok tt <-> check (Z.of_nat i) (ibuf view (Z.of_nat i)) = None) /\
            (forall e, body i = Err e <-> check (Z.of_nat i) (ibuf view (Z.of_nat i)) = Some e)).
  { intros i. unfold body, check, code_error. simpl.
    destruct (ibuf view (Z.of_nat i) <? 0);
      [|destruct (ibuf view (Z.of_nat i) >=? nth 0 (shape substitution_matrix) 0)];
      (split; [split; intros H; (discriminate H || reflexivity)
              |intros e; split; intros H; (discriminate H || (injection H as <-; reflexivity))]). }
  destruct (try_loop_first_error body (Z.to_nat (items view)) 0)
    as [[Hok Hall]|(i & e & Hi & He & Hbefore & Herr)].
  - left. split; [exact Hok|].
    intros i Hi. apply items_nat in Hi. destruct Hi as (k & -> & Hk).
    apply Hbody, Hall, Hk.
  - right. exists e. split; [exact Herr|].
    exists (Z.of_nat i). split; [lia|]. split; [apply Hbody, He|].
    intros k Hk. replace k with (Z.of_nat (Z.to_nat k)) by lia.
    apply Hbody, Hbefore. lia.
Qed.

Section Mapping.

Variable MISSING_LETTER : Z.
Variable mapping : Z -> Z.
Variable m : Z.

(** The body of the loop of [_map_indices]. *)
Abbreviation map_body :=
  (fun (i : nat) '(view, status) =>
     match status with
     | Err e => (view, Err e)
     | Ok _ =>
       let index := ibuf view (Z.of_nat i) in
       if index <? 0 then (view, Err (ItemNegative (Z.of_nat i) index))
       else if index >=? m then (view, Err (ItemOutOfBound (Z.of_nat i) index m))
       else
         let index := mapping index in
         if index =? MISSING_LETTER
         then (view, Err (ValueError "sequence contains letters not in the alphabet"))
         else (store_index (Z.of_nat i) index view, Ok tt)
     end).

(** Once the status is an error the loop leaves the state as it is (the
    source has returned). *)
Lemma map_loop_failed (n : nat) :
  forall lo (view : Py_buffer) (e : PyErr),
  for_loop n lo map_body (view, @Err unit e) = (view, Err e).
Proof.
  induction n as [|n IH]; intros lo view e; simpl; [reflexivity|apply IH].
Qed.

(** The loop of [_map_indices] over a view that still holds the codes of
    [view0] from [lo] on: the size of the view is kept, and the loop
    either maps every code or stops at the first that is refused. *)
Lemma map_loop_spec (view0 : Py_buffer) (n : nat) :
  forall lo (view : Py_buffer),
  (forall k, Z.of_nat lo <= k -> ibuf view k = ibuf view0 k) ->
  let check := code_error MISSING_LETTER (Some mapping) m in
  let r := for_loop n lo map_body (view, Ok tt) in
  len (fst r) = len view /\ itemsize (fst r) = itemsize view /\
  ((snd r = Ok tt /\
    (forall i, (lo <= i < lo + n)%nat ->
               check (Z.of_nat i) (ibuf view0 (Z.of_nat i)) = None) /\
    (forall i, (lo <= i < lo + n)%nat ->
               ibuf (fst r) (Z.of_nat i) = mapping (ibuf view0 (Z.of_nat i))) /\
    (forall k, ~ (Z.of_nat lo <= k < Z.of_nat (lo + n)) -> ibuf (fst r) k = ibuf view k))
   \/
   (exists i e, (lo <= i < lo + n)%nat /\
                check (Z.of_nat i) (ibuf view0 (Z.of_nat i)) = Some e /\
                (forall k, (lo <= k < i)%nat ->
                           check (Z.of_nat k) (ibuf view0 (Z.of_nat k)) = None) /\
                snd r = Err e)).
Proof.
  induction n as [|n IH]; intros lo view Hagree check.
  - simpl. repeat split. left. repeat split; intros; try lia; reflexivity.
  - cbn [for_loop]. cbv beta iota zeta.
    assert (Hc : ibuf view (Z.of_nat lo) = ibuf view0 (Z.of_nat lo)) by (apply Hagree; lia).
    assert (Hcheck : check (Z.of_nat lo) (ibuf view0 (Z.of_nat lo))
                     = code_error MISSING_LETTER (Some mapping) m (Z.of_nat lo)
                         (ibuf view (Z.of_nat lo))) by (rewrite Hc; reflexivity).
    unfold code_error in Hcheck.
    destruct (ibuf view (Z.of_nat lo) <? 0) eqn:Hneg.
    { rewrite map_loop_failed. simpl. repeat split. right.
      exists lo. eexists. repeat split; try lia; exact Hcheck. }
    destruct (ibuf view (Z.of_nat lo) >=? m) eqn:Hbig.
    { rewrite map_loop_failed. simpl. repeat split. right.
      exists lo. eexists. repeat split; try lia; exact Hcheck. }
    destruct (mapping (ibuf view (Z.of_nat lo)) =? MISSING_LETTER) eqn:Hmiss.
    { rewrite map_loop_failed. simpl. repeat split. right.
      exists lo. eexists. repeat split; try lia; exact Hcheck. }
    set (view' := store_index (Z.of_nat lo) (mapping (ibuf view (Z.of_nat lo))) view).
    assert (Hagree' : forall k, Z.of_nat (S lo) <= k -> ibuf view' k = ibuf view0 k).
    { intros k Hk. unfold view', store_index. simpl.
      destruct (Z.eqb_spec k (Z.of_nat lo)); [lia|apply Hagree; lia]. }
    destruct (IH (S lo) view' Hagree') as (Hlen & Hsize & Hcases).
    split; [exact Hlen|]. split; [exact Hsize|].
    destruct Hcases as [(Hok & Hvalid & Hmapped & Hrest)
                       |(i & e & Hi & He & Hbefore & Herr)].
    + left. split; [exact Hok|]. split; [|split].
      * intros i Hi. destruct (Nat.eq_dec i lo) as [->|Hne]; [exact Hcheck|].
        apply Hvalid. lia.
      * intros i Hi. destruct (Nat.eq_dec i lo) as [->|Hne]; [|apply Hmapped; lia].
        rewrite Hrest by lia. unfold view', store_index. simpl.
        rewrite Z.eqb_refl, Hc. reflexivity.
      * intros k Hk. rewrite Hrest by lia. unfold view', store_index. simpl.
        destruct (Z.eqb_spec k (Z.of_nat lo)); [lia|reflexivity].
    + right. exists i, e. split; [lia|]. split; [exact He|]. split; [|exact Herr].
      intros k Hk. destruct (Nat.eq_dec k lo) as [->|Hne]; [exact Hcheck|].
      apply Hbefore. lia.
Qed.

(** [_map_indices] keeps the size of the view; it returns [true] exactly
    when every code is within the length of the mapping and is mapped to
    a letter, having replaced every code by its image, and otherwise sets
    the error of the first code that is not. *)
Lemma _map_indices_spec (view : Py_buffer) :
  let check := code_error MISSING_LETTER (Some mapping) m in
  let r := _map_indices MISSING_LETTER view mapping m in
  len (fst r) = len view /\ itemsize (fst r) = itemsize view /\
  ((snd r = Ok tt /\ all_valid check view /\
    forall i, 0 <= i < items view -> ibuf (fst r) i = mapping (ibuf view i)) \/
   (exists e, snd r = Err e /\ first_error check view e)).
Proof.
  intros check r. subst r. unfold _map_indices, for_range. rewrite Nat.sub_0_r.
  fold (items view).
  destruct (map_loop_spec view (Z.to_nat (items view)) 0 view ltac:(reflexivity))
    as (Hlen & Hsize & Hcases).
  split; [exact Hlen|]. split; [exact Hsize|].
  destruct Hcases as [(Hok & Hvalid & Hmapped & _)|(i & e & Hi & He & Hbefore & Herr)].
  - left. split; [exact Hok|]. split.
    + intros i Hi. apply items_nat in Hi. destruct Hi as (k & -> & Hk).
      apply Hvalid, Hk.
    + intros i Hi. apply items_nat in Hi. destruct Hi as (k & -> & Hk).
      apply Hmapped, Hk.
  - right. exists e. split; [exact Herr|].
    exists (Z.of_nat i). split; [lia|]. split; [exact He|].
    intros k Hk. replace k with (Z.of_nat (Z.to_nat k)) by lia.
    apply Hbefore. lia.
Qed.

End Mapping.

(** The number of items depends on [len] and [itemsize] only. *)
Lemma items_same (view view' : Py_buffer) :
  len view' = len view -> itemsize view' = itemsize view -> items view' = items view.
Proof. unfold items. intros -> ->. reflexivity. Qed.

(** [_prepare_indices] keeps the sizes of the two views; it returns
    [true] exactly when the codes of both pass the check of the matrix,
    and otherwise sets the error of the first code that does not. *)
Lemma _prepare_indices_spec (missing : Z) (matrix : Matrix) (bA bB : Py_buffer) :
  let check := matrix_check missing matrix in
  let r := _prepare_indices missing matrix bA bB in
  items (fst (fst r)) = items bA /\ items (snd (fst r)) = items bB /\
  ((snd r = Ok tt /\ all_valid check bA /\ all_valid check bB) \/
   (exists e, snd r = Err e /\
              (first_error check bA e \/ (all_valid check bA /\ first_error check bB e)))).
Proof.
  unfold matrix_check, _prepare_indices.
  destruct (mapping matrix) as [buffer|]; cbv zeta.
  - fold (items buffer).
    pose proof (_map_indices_spec missing (ibuf buffer) (items buffer) bA) as HA.
    pose proof (_map_indices_spec missing (ibuf buffer) (items buffer) bB) as HB.
    cbv zeta in HA, HB.
    destruct (_map_indices missing bA (ibuf buffer) (items buffer)) as [bA' rA].
    destruct (_map_indices missing bB (ibuf buffer) (items buffer)) as [bB' rB].
    simpl in HA, HB.
    destruct HA as (HlenA & HsizeA & HA). destruct HB as (HlenB & HsizeB & HB).
    destruct HA as [(-> & HvalidA & _)|(e & -> & HerrA)].
    + destruct HB as [(-> & HvalidB & _)|(e & -> & HerrB)]; simpl.
      * split; [apply items_same; assumption|]. split; [apply items_same; assumption|].
        left. auto.
      * split; [apply items_same; assumption|]. split; [apply items_same; assumption|].
        right. exists e. auto.
    + simpl. split; [apply items_same; assumption|]. split; [reflexivity|].
      right. exists e. auto.
  - destruct (_check_indices_spec missing bA (view matrix)) as [[-> HA]|(e & -> & HA)].
    + destruct (_check_indices_spec missing bB (view matrix)) as [[-> HB]|(e & -> & HB)];
        simpl; (split; [reflexivity|]); (split; [reflexivity|]).
      * left. auto.
      * right. exists e. auto.
    + simpl. split; [reflexivity|]. split; [reflexivity|]. right. exists e. auto.
Qed.

(** What the views hold after a successful preparation: the images of
    the codes under the alphabet mapping when the matrix has one, the
    codes themselves otherwise. *)
Lemma _prepare_indices_codes (missing : Z) (matrix : Matrix) (bA bB : Py_buffer) :
  let r := _prepare_indices missing matrix bA bB in
  snd r = Ok tt ->
  match mapping matrix with
  | Some buffer =>
    (forall i, 0 <= i < items bA -> ibuf (fst (fst r)) i = ibuf buffer (ibuf bA i)) /\
    (forall i, 0 <= i < items bB -> ibuf (snd (fst r)) i = ibuf buffer (ibuf bB i))
  | None => fst r = (bA, bB)
  end.
Proof.
  unfold _prepare_indices.
  destruct (mapping matrix) as [buffer|]; cbv zeta.
  - fold (items buffer).
    pose proof (_map_indices_spec missing (ibuf buffer) (items buffer) bA) as HA.
    pose proof (_map_indices_spec missing (ibuf buffer) (items buffer) bB) as HB.
    cbv zeta in HA, HB.
    destruct (_map_indices missing bA (ibuf buffer) (items buffer)) as [bA' rA].
    destruct (_map_indices missing bB (ibuf buffer) (items buffer)) as [bB' rB].
    simpl in HA, HB.
    destruct HA as (_ & _ & [(-> & _ & HA)|(e & -> & _)]); [|discriminate].
    destruct HB as (_ & _ & [(-> & _ & HB)|(e & -> & _)]); [|discriminate].
    simpl. auto.
  - destruct (_check_indices bA (view matrix)); [|discriminate].
    destruct (_check_indices bB (view matrix)); [|discriminate].
    reflexivity.
Qed.

(** The narrowing to [int] keeps exactly the values of [int]. *)
Lemma int_of_ssize_t_fits (x : Z) :
  (int_of_ssize_t x =? x) = true <-> INT_MIN <= x <= INT_MAX.
Proof.
  unfold int_of_ssize_t, INT_MIN, INT_MAX. rewrite Z.eqb_eq.
  pose proof (Z.mod_pos_bound (x + 2147483648) 4294967296 ltac:(lia)) as Hb.
  split.
  - intros H. lia.
  - intros H. rewrite Z.mod_small by lia. lia.
Qed.

(** [_get_algorithm] leaves the matrix and the mode as they are. *)
Lemma _get_algorithm_fields (self : Aligner) :
  substitution_matrix (snd (_get_algorithm self)) = substitution_matrix self /\
  mode (snd (_get_algorithm self)) = mode self.
Proof.
  destruct (algorithm self) eqn:E;
    try (rewrite (_get_algorithm_Unknown self E); destruct self; split; reflexivity);
    unfold _get_algorithm; rewrite E; split; reflexivity.
Qed.

(** ** The entry points up to the dispatch *)

(** The outcome of the preparation of the indices. *)
Lemma prepared_outcome (missing : Z) (self : Aligner) (bA bB : Py_buffer) :
  let outcome :=
    match substitution_matrix self with
    | Some matrix => snd (_prepare_indices missing matrix bA bB)
    | None => Ok tt
    end in
  items (fst (prepared missing self bA bB)) = items bA /\
  items (snd (prepared missing self bA bB)) = items bB /\
  ((outcome = Ok tt /\ codes_accepted missing self bA bB) \/
   (exists e, outcome = Err e /\ codes_refused missing self bA bB e)).
Proof.
  unfold prepared, codes_accepted, codes_refused.
  destruct (substitution_matrix self) as [matrix|]; simpl.
  - destruct (_prepare_indices_spec missing matrix bA bB) as (HA & HB & H).
    split; [exact HA|]. split; [exact HB|].
    destruct H as [(Hok & H)|(e & He & H)]; [left; auto|right; exists e; auto].
  - split; [reflexivity|]. split; [reflexivity|]. left. auto.
Qed.

(** The codes cannot be both accepted and refused. *)
Lemma codes_accepted_not_refused (missing : Z) (self : Aligner) (bA bB : Py_buffer)
  (e : PyErr) :
  codes_accepted missing self bA bB -> codes_refused missing self bA bB e -> False.
Proof.
  unfold codes_accepted, codes_refused.
  destruct (substitution_matrix self) as [matrix|]; [|tauto].
  intros [HA HB] [(i & Hi & He & _)|[_ (i & Hi & He & _)]].
  - rewrite (HA i Hi) in He. discriminate He.
  - rewrite (HB i Hi) in He. discriminate He.
Qed.

(** The first refused code is one. *)
Lemma codes_refused_unique (missing : Z) (self : Aligner) (bA bB : Py_buffer)
  (e e' : PyErr) :
  codes_refused missing self bA bB e -> codes_refused missing self bA bB e' -> e = e'.
Proof.
  pose proof (prepared_outcome missing self bA bB) as (_ & _ & H). cbv zeta in H.
  intros He He'.
  destruct H as [[_ Hacc]|(e0 & Hout & H0)].
  - destruct (codes_accepted_not_refused _ _ _ _ _ Hacc He).
  - assert (Huniq : forall e1, codes_refused missing self bA bB e1 -> e1 = e0).
    { clear He He'. intros e1 H1. unfold codes_refused in *.
      destruct (substitution_matrix self) as [matrix|]; [|destruct H1].
      assert (Hfirst : forall view x y,
                first_error (matrix_check missing matrix) view x ->
                first_error (matrix_check missing matrix) view y -> x = y).
      { intros view x y (i & Hi & Hx & Hbi) (j & Hj & Hy & Hbj).
        destruct (Z.lt_trichotomy i j) as [Hlt|[->|Hgt]].
        - rewrite (Hbj i) in Hx by lia. discriminate Hx.
        - rewrite Hx in Hy. injection Hy as ->. reflexivity.
        - rewrite (Hbi j) in Hy by lia. discriminate Hy. }
      assert (Hnot : forall view x,
                all_valid (matrix_check missing matrix) view ->
                first_error (matrix_check missing matrix) view x -> False).
      { intros view x Hall (i & Hi & Hx & _). rewrite (Hall i Hi) in Hx. discriminate Hx. }
      destruct H1 as [H1|[HA1 H1]], H0 as [H0|[HA0 H0]]; eauto;
        exfalso; eauto. }
    rewrite (Huniq e He), (Huniq e' He'). reflexivity.
Qed.

(** Unfolds an entry point on converted arguments, case by case. *)
Ltac entry_anatomy self missing bA bB HA HB Hs :=
  pose proof (_get_algorithm_fields self) as [Hmatrix _];
  pose proof (prepared_outcome missing self bA bB) as (HitemsA & HitemsB & _);
  unfold prepared in *; cbv zeta in *;
  destruct (_get_algorithm self) as [algorithm self'];
  simpl in Hmatrix |- *; rewrite Hmatrix, HA, HB, Hs;
  destruct (substitution_matrix self) as [matrix|];
  [destruct (_prepare_indices missing matrix bA bB) as [[bA' bB'] [[]|e]]|];
  simpl in *; unfold items in *; rewrite ?HitemsA, ?HitemsB; reflexivity.

(** [Aligner_score] once its arguments are converted: the outcome of the
    preparation of the indices, then the test of the lengths, then the
    dispatch. *)
Lemma Aligner_score_anatomy :
  forall missing warn fogsaa gotoh_global gotoh_local wsb_local
         self A B strand bA bB s,
  sequence_converter A = Ok bA ->
  sequence_converter B = Ok bB ->
  strand_converter strand = Ok s ->
  Aligner_score missing warn fogsaa gotoh_global gotoh_local wsb_local self A B strand
  = let self' := snd (_get_algorithm self) in
    match match substitution_matrix self with
          | Some matrix => snd (_prepare_indices missing matrix bA bB)
          | None => Ok tt
          end with
    | Err e => ([], Err e, self')
    | Ok _ =>
      if negb (int_of_ssize_t (items bA) =? items bA)
         || negb (int_of_ssize_t (items bB) =? items bB)
      then ([], Err (ValueError "sequences too long"), self')
      else
        let '(warnings, result) :=
          Aligner_score_switch warn fogsaa gotoh_global gotoh_local wsb_local
            (fst (_get_algorithm self)) (mode self) (substitution_matrix self) self'
            (ibuf (fst (prepared missing self bA bB)))
            (Z.to_nat (int_of_ssize_t (items bA)))
            (ibuf (snd (prepared missing self bA bB)))
            (Z.to_nat (int_of_ssize_t (items bB))) s in
        (warnings, result, self')
    end.
Proof.
  intros missing warn fogsaa gotoh_global gotoh_local wsb_local
         self A B strand bA bB s HA HB Hs.
  unfold Aligner_score.
  entry_anatomy self missing bA bB HA HB Hs.
Qed.

(** [Aligner_align] likewise. *)
Lemma Aligner_align_anatomy :
  forall missing warn fogsaa gotoh_global gotoh_local wsb_global wsb_local
         self A B strand bA bB s,
  sequence_converter A = Ok bA ->
  sequence_converter B = Ok bB ->
  strand_converter strand = Ok s ->
  Aligner_align missing warn fogsaa gotoh_global gotoh_local wsb_global wsb_local
    self A B strand
  = let self' := snd (_get_algorithm self) in
    match match substitution_matrix self with
          | Some matrix => snd (_prepare_indices missing matrix bA bB)
          | None => Ok tt
          end with
    | Err e => ([], Err e, self')
    | Ok _ =>
      if negb (int_of_ssize_t (items bA) =? items bA)
         || negb (int_of_ssize_t (items bB) =? items bB)
      then ([], Err (ValueError "sequences too long"), self')
      else
        let '(warnings, result) :=
          Aligner_align_switch warn fogsaa gotoh_global gotoh_local wsb_global wsb_local
            (fst (_get_algorithm self)) (mode self) (substitution_matrix self) self'
            (ibuf (fst (prepared missing self bA bB)))
            (Z.to_nat (int_of_ssize_t (items bA)))
            (ibuf (snd (prepared missing self bA bB)))
            (Z.to_nat (int_of_ssize_t (items bB))) s in
        (warnings, result, self')
    end.
Proof.
  intros missing warn fogsaa gotoh_global gotoh_local wsb_global wsb_local
         self A B strand bA bB s HA HB Hs.
  unfold Aligner_align.
  entry_anatomy self missing bA bB HA HB Hs.
Qed.

(** The test [nA != bA.len / bA.itemsize || nB != bB.len / bB.itemsize]. *)
Lemma length_test (bA bB : Py_buffer) :
  (too_long bA \/ too_long bB ->
   negb (int_of_ssize_t (items bA) =? items bA)
   || negb (int_of_ssize_t (items bB) =? items bB) = true) /\
  (fits_int bA -> fits_int bB ->
   negb (int_of_ssize_t (items bA) =? items bA)
   || negb (int_of_ssize_t (items bB) =? items bB) = false /\
   int_of_ssize_t (items bA) = items bA /\ int_of_ssize_t (items bB) = items bB).
Proof.
  unfold too_long, fits_int.
  pose proof (int_of_ssize_t_fits (items bA)) as HA.
  pose proof (int_of_ssize_t_fits (items bB)) as HB.
  split.
  - intros H.
    destruct (int_of_ssize_t (items bA) =? items bA);
      destruct (int_of_ssize_t (items bB) =? items bB); try reflexivity;
      exfalso; unfold INT_MAX in *; destruct H; intuition lia.
  - intros FA FB. apply HA in FA. apply HB in FB. rewrite FA, FB.
    split; [reflexivity|]. split; apply Z.eqb_eq; assumption.
Qed.

(** Splits on the outcome of the preparation of the indices. *)
Ltac entry_outcome missing self bA bB :=
  pose proof (prepared_outcome missing self bA bB) as (_ & _ & Houtcome);
  cbv zeta in Houtcome |- *;
  destruct Houtcome as [[-> Haccepted]|(refusal & -> & Hrefused)].

(** The three ways out of [Aligner_score]: a refused code, a sequence
    too long, and the dispatch. *)
Lemma Aligner_score_outcome :
  forall missing warn fogsaa gotoh_global gotoh_local wsb_local
         self A B strand bA bB s,
  sequence_converter A = Ok bA ->
  sequence_converter B = Ok bB ->
  strand_converter strand = Ok s ->
  let self' := snd (_get_algorithm self) in
  let score :=
    Aligner_score missing warn fogsaa gotoh_global gotoh_local wsb_local
      self A B strand in
  (forall e, codes_refused missing self bA bB e -> score = ([], Err e, self')) /\
  (codes_accepted missing self bA bB -> too_long bA \/ too_long bB ->
   score = ([], Err (ValueError "sequences too long"), self')) /\
  (codes_accepted missing self bA bB -> fits_int bA -> fits_int bB ->
   score = let '(warnings, result) :=
             Aligner_score_switch warn fogsaa gotoh_global gotoh_local wsb_local
               (fst (_get_algorithm self)) (mode self) (substitution_matrix self) self'
               (ibuf (fst (prepared missing self bA bB))) (Z.to_nat (items bA))
               (ibuf (snd (prepared missing self bA bB))) (Z.to_nat (items bB)) s in
           (warnings, result, self')).
Proof.
  intros missing warn fogsaa gotoh_global gotoh_local wsb_local
         self A B strand bA bB s HA HB Hs self' score.
  subst score self'.
  rewrite (Aligner_score_anatomy _ _ _ _ _ _ _ _ _ _ _ _ _ HA HB Hs).
  destruct (length_test bA bB) as [Hlong Hfits].
  entry_outcome missing self bA bB.
  - split; [|split].
    + intros e He. destruct (codes_accepted_not_refused _ _ _ _ _ Haccepted He).
    + intros _ H. rewrite (Hlong H). reflexivity.
    + intros _ FA FB. destruct (Hfits FA FB) as (-> & -> & ->). reflexivity.
  - split; [|split].
    + intros e He. rewrite (codes_refused_unique _ _ _ _ _ _ He Hrefused). reflexivity.
    + intros Hacc. destruct (codes_accepted_not_refused _ _ _ _ _ Hacc Hrefused).
    + intros Hacc. destruct (codes_accepted_not_refused _ _ _ _ _ Hacc Hrefused).
Qed.

(** The same three ways out of [Aligner_align]. *)
Lemma Aligner_align_outcome :
  forall missing warn fogsaa gotoh_global gotoh_local wsb_global wsb_local
         self A B strand bA bB s,
  sequence_converter A = Ok bA ->
  sequence_converter B = Ok bB ->
  strand_converter strand = Ok s ->
  let self' := snd (_get_algorithm self) in
  let alignments :=
    Aligner_align missing warn fogsaa gotoh_global gotoh_local wsb_global wsb_local
      self A B strand in
  (forall e, codes_refused missing self bA bB e -> alignments = ([], Err e, self')) /\
  (codes_accepted missing self bA bB -> too_long bA \/ too_long bB ->
   alignments = ([], Err (ValueError "sequences too long"), self')) /\
  (codes_accepted missing self bA bB -> fits_int bA -> fits_int bB ->
   alignments
   = let '(warnings, result) :=
       Aligner_align_switch warn fogsaa gotoh_global gotoh_local wsb_global wsb_local
         (fst (_get_algorithm self)) (mode self) (substitution_matrix self) self'
         (ibuf (fst (prepared missing self bA bB))) (Z.to_nat (items bA))
         (ibuf (snd (prepared missing self bA bB))) (Z.to_nat (items bB)) s in
     (warnings, result, self')).
Proof.
  intros missing warn fogsaa gotoh_global gotoh_local wsb_global wsb_local
         self A B strand bA bB s HA HB Hs self' alignments.
  subst alignments self'.
  rewrite (Aligner_align_anatomy _ _ _ _ _ _ _ _ _ _ _ _ _ _ HA HB Hs).
  destruct (length_test bA bB) as [Hlong Hfits].
  entry_outcome missing self bA bB.
  - split; [|split].
    + intros e He. destruct (codes_accepted_not_refused _ _ _ _ _ Haccepted He).
    + intros _ H. rewrite (Hlong H). reflexivity.
    + intros _ FA FB. destruct (Hfits FA FB) as (-> & -> & ->). reflexivity.
  - split; [|split].
    + intros e He. rewrite (codes_refused_unique _ _ _ _ _ _ He Hrefused). reflexivity.
    + intros Hacc. destruct (codes_accepted_not_refused _ _ _ _ _ Hacc Hrefused).
    + intros Hacc. destruct (codes_accepted_not_refused _ _ _ _ _ Hacc Hrefused).
Qed.

(** [strand_converter] stores ['+'] or ['-'] only. *)
Lemma strand_converter_ok (strand : PyObject) (s : ascii) :
  strand_converter strand = Ok s -> s = "+"%char \/ s = "-"%char.
Proof.
  unfold strand_converter.
  destruct strand as [|d|l|id f|v mp|]; try discriminate.
  destruct l as [|ch [|? ?]]; try discriminate.
  destruct (ch <? 128); simpl; [|discriminate].
  destruct (Z.eqb_spec ch 43) as [->|_]; simpl.
  - intros H. injection H as <-. left. reflexivity.
  - destruct (Z.eqb_spec ch 45) as [->|_]; simpl; [|discriminate].
    intros H. injection H as <-. right. reflexivity.
Qed.

Ltac open_pairs :=
  repeat match goal with
         | |- context [match ?x with (_, _) => _ end] =>
           lazymatch x with
           | match _ with (_, _) => _ end => fail
           | _ => destruct x as [? ?]
           end
         end.

(** On an accepted strand the Needleman-Wunsch passes as written out
    here (every allocation succeeding) return a result whatever the
    codes are. *)
Lemma NEEDLEMANWUNSCH_total (align_score : Z -> Z -> double) (self : Aligner)
  (sA : Z -> Z) (nA : nat) (sB : Z -> Z) (nB : nat) (strand : ascii) :
  strand = "+"%char \/ strand = "-"%char ->
  (exists score, NEEDLEMANWUNSCH_SCORE align_score self sA nA sB nB strand = Ok score) /\
  (exists score paths,
     NEEDLEMANWUNSCH_ALIGN align_score self sA nA sB nB strand = Ok (score, paths)).
Proof.
  intros [-> | ->]; split;
    unfold NEEDLEMANWUNSCH_SCORE, NEEDLEMANWUNSCH_ALIGN, NEEDLEMANWUNSCH_strand,
      PathGenerator_create_NWSW;
    cbn [Ascii.eqb Bool.eqb Mode_eqb]; cbv zeta; open_pairs; eauto.
Qed.

(** The check of a matrix on one code, and the errors it gives. *)
Lemma matrix_check_passes (missing : Z) (matrix : Matrix) (i c : Z) :
  (matrix_check missing matrix i c = None <-> code_passes missing matrix c) /\
  (forall e, matrix_check missing matrix i c = Some e -> code_refusal e).
Proof.
  unfold matrix_check, code_passes, code_error.
  destruct (mapping matrix) as [buffer|].
  - destruct (Z.ltb_spec c 0); [split; [split; [discriminate|lia]
                                       |intros e H'; injection H' as <-; exact I]|].
    destruct (Z.geb_spec c (items buffer));
      [split; [split; [discriminate|lia]|intros e H'; injection H' as <-; exact I]|].
    destruct (Z.eqb_spec (ibuf buffer c) missing).
    + split; [split; [discriminate|tauto]|intros e' H'; injection H' as <-; reflexivity].
    + split; [split; [intros _; lia|reflexivity]|discriminate].
  - destruct (Z.ltb_spec c 0); [split; [split; [discriminate|lia]
                                       |intros e H'; injection H' as <-; exact I]|].
    destruct (Z.geb_spec c (nth 0 (shape (view matrix)) 0));
      [split; [split; [discriminate|lia]|intros e H'; injection H' as <-; exact I]|].
    split; [split; [intros _; lia|reflexivity]|discriminate].
Qed.







(** ** The order of doubles *)

(** [<] on the specification side is the order of the ranks. *)
Lemma SFltb_rank (x y : spec_float) :
  SFltb x y = true <->
  match rank x, rank y with
  | Some a, Some b => lex_lt a b
  | _, _ => False
  end.
Proof.
  unfold SFltb, SFcompare, rank, lex_lt.
  destruct x as [sx|sx| |sx mx ex], y as [sy|sy| |sy my ey];
    try destruct sx; try destruct sy; simpl;
    try (split; [discriminate|lia]);
    try (split; [discriminate|tauto]);
    try (split; [intros _; lia|reflexivity]).
  - destruct (Z.compare_spec ex ey) as [He|He|He].
    + subst ey. fold (Pos.compare mx my).
      destruct (Pos.compare_spec mx my) as [Hm|Hm|Hm]; simpl;
        (split; [discriminate|lia]) || (split; [intros _; lia|reflexivity]).
    + split; [discriminate|lia].
    + split; [intros _; lia|reflexivity].
  - destruct (Z.compare_spec ex ey) as [He|He|He].
    + subst ey. fold (Pos.compare mx my).
      destruct (Pos.compare_spec mx my) as [Hm|Hm|Hm]; simpl;
        (split; [discriminate|lia]) || (split; [intros _; lia|reflexivity]).
    + split; [intros _; lia|reflexivity].
    + split; [discriminate|lia].
Qed.

(** Two data share a rank exactly when they are one datum or two zeros. *)
Lemma rank_eq (x y : spec_float) :
  rank x = rank y <-> x = y \/ (is_zero x = true /\ is_zero y = true).
Proof.
  split.
  - destruct x as [sx|sx| |sx mx ex], y as [sy|sy| |sy my ey];
      try destruct sx; try destruct sy; simpl; intros H;
      try discriminate H; auto.
    + injection H as He Hm. left. f_equal; lia.
    + injection H as He Hm. left. f_equal; lia.
  - intros [->|[Hx Hy]]; [reflexivity|].
    destruct x, y; try discriminate; reflexivity.
Qed.

(** Adding a zero of either sign keeps the rank. *)
Lemma SF64add_zero (x e : spec_float) :
  is_zero e = true -> rank (SF64add x e) = rank x.
Proof.
  destruct e as [se| | |]; try discriminate. intros _.
  destruct x as [sx|sx| |sx mx ex]; try reflexivity.
  destruct sx, se; reflexivity.
Qed.

Lemma SF64add_zero_l (x e : spec_float) :
  is_zero e = true -> rank (SF64add e x) = rank x.
Proof.
  destruct e as [se| | |]; try discriminate. intros _.
  destruct x as [sx|sx| |sx mx ex]; try reflexivity.
  destruct sx, se; reflexivity.
Qed.

(** The rank of a sum depends on the ranks of its terms only. *)
Lemma SF64add_rank (x x' y y' : spec_float) :
  rank x = rank x' -> rank y = rank y' ->
  rank (SF64add x y) = rank (SF64add x' y').
Proof.
  intros H1 H2. apply rank_eq in H1, H2.
  destruct H1 as [->|[Hx Hx']], H2 as [->|[Hy Hy']].
  - reflexivity.
  - rewrite !SF64add_zero by assumption. reflexivity.
  - rewrite !SF64add_zero_l by assumption. reflexivity.
  - rewrite !SF64add_zero by assumption. apply rank_eq. right. auto.
Qed.

Section Values.

Local Open Scope float_scope.

(** Two doubles have the same value exactly when they share a rank. *)
Lemma same_value_rank (x y : double) :
  same_value x y <-> rank (Prim2SF x) = rank (Prim2SF y).
Proof. unfold same_value. symmetry. apply rank_eq. Qed.

Lemma same_value_refl (x : double) : same_value x x.
Proof. apply same_value_rank. reflexivity. Qed.

Lemma same_value_sym (x y : double) : same_value x y -> same_value y x.
Proof. rewrite !same_value_rank. congruence. Qed.

Lemma same_value_trans (x y z : double) :
  same_value x y -> same_value y z -> same_value x z.
Proof. rewrite !same_value_rank. congruence. Qed.

(** C's [>] is the order of the ranks; it is false when either side is NaN. *)
Lemma fgt_above (x y : double) : fgt x y = true <-> above x y.
Proof.
  unfold fgt, above. rewrite FloatAxioms.ltb_spec, SFltb_rank.
  destruct (rank (Prim2SF y)), (rank (Prim2SF x)); tauto.
Qed.

(** [>] and [+] do not tell apart doubles of the same value. *)
Lemma fgt_same (x x' y y' : double) :
  same_value x x' -> same_value y y' -> fgt x y = fgt x' y'.
Proof.
  rewrite !same_value_rank. intros Hx Hy.
  apply Bool.eq_true_iff_eq. rewrite !fgt_above. unfold above.
  rewrite Hx, Hy. reflexivity.
Qed.

Lemma add_same (x x' y y' : double) :
  same_value x x' -> same_value y y' -> same_value (x + y) (x' + y').
Proof.
  rewrite !same_value_rank, !FloatAxioms.add_spec. apply SF64add_rank.
Qed.

(** With an epsilon of zero, [score + epsilon] has the value of [score]. *)
Lemma add_zero_same (x e : double) : same_value e 0 -> same_value (x + e) x.
Proof.
  rewrite !same_value_rank, !FloatAxioms.add_spec. intros He.
  apply SF64add_zero. apply rank_eq in He.
  destruct He as [He|[He _]]; [rewrite He; reflexivity|exact He].
Qed.

Lemma higher_same (c c' s s' : double) :
  same_value c c' -> same_value s s' -> same_value (higher c s) (higher c' s').
Proof.
  intros Hc Hs. unfold higher. rewrite (fgt_same c c' s s' Hc Hs).
  destruct (fgt c' s'); assumption.
Qed.

(** With an epsilon of zero the tolerant selection of the align passes
    keeps the score that the exact selection of the score passes keeps. *)
Lemma consider_higher (epsilon : double) (dir : Z) (c : double) (best : double * Z) :
  same_value epsilon 0 ->
  same_value (fst (consider epsilon dir c best)) (higher c (fst best)).
Proof.
  intros He. destruct best as [s t]. unfold consider, higher. simpl.
  rewrite (fgt_same c c (s + epsilon) s (same_value_refl c) (add_zero_same s epsilon He)).
  destruct (fgt c s); [apply same_value_refl|].
  destruct (fgt c (s - epsilon)); apply same_value_refl.
Qed.

(** The exact selection does not depend on the order in which the two
    gap candidates are tried, up to the sign of a zero. *)
Lemma higher_comm (d v h : double) :
  same_value (higher h (higher v d)) (higher v (higher h d)).
Proof.
  unfold higher.
  destruct (fgt v d) eqn:Evd; destruct (fgt h d) eqn:Ehd;
    try rewrite Evd; try rewrite Ehd.
  all: repeat match goal with
              | |- context [fgt ?a ?b] =>
                lazymatch goal with
                | H : fgt a b = _ |- _ => rewrite H
                | _ => destruct (fgt a b) eqn:?
                end
              end.
  all: try apply same_value_refl.
  all: apply same_value_rank.
  all: repeat match goal with
              | H : fgt _ _ = true |- _ => apply fgt_above in H
              | H : fgt _ _ = false |- _ =>
                apply Bool.not_true_iff_false in H; rewrite fgt_above in H
              end.
  all: unfold above, lex_lt in *.
  all: destruct (rank (Prim2SF d)) as [[[d1 d2] d3]|];
       destruct (rank (Prim2SF v)) as [[[v1 v2] v3]|];
       destruct (rank (Prim2SF h)) as [[[h1 h2] h3]|]; try tauto.
  all: try (exfalso; lia).
  all: f_equal; f_equal; [f_equal|]; lia.
Qed.

End Values.

(** ** Score pass and align pass of Needleman-Wunsch *)

(** Two loops whose bodies keep a relation between their states. *)
Lemma for_loop_related {S T : Type} (R : S -> T -> Prop)
  (f : nat -> S -> S) (g : nat -> T -> T) (n : nat) :
  (forall i s t, R s t -> R (f i s) (g i t)) ->
  forall lo s t, R s t -> R (for_loop n lo f s) (for_loop n lo g t).
Proof.
  intros Hstep. induction n as [|n IH]; intros lo s t HR; simpl; auto.
Qed.

(** Rows of the same values: reading and writing [row[j]]. *)
Lemma same_row_refl (row : list double) : same_row row row.
Proof. induction row; constructor; auto using same_value_refl. Qed.

Lemma same_row_lookup (row row' : list double) (j : nat) :
  same_row row row' -> same_value (row !!! j) (row' !!! j).
Proof.
  intros H. revert j. induction H as [|x y l k Hxy Hlk IH]; intros j.
  - apply same_value_refl.
  - destruct j as [|j]; [exact Hxy|apply IH].
Qed.

Lemma same_row_insert (row row' : list double) (j : nat) (x y : double) :
  same_row row row' -> same_value x y -> same_row (<[j := x]> row) (<[j := y]> row').
Proof.
  intros H Hxy. revert j. induction H as [|a b l k Hab Hlk IH]; intros j.
  - constructor.
  - destruct j as [|j]; simpl; constructor; auto. apply IH.
Qed.

Section Passes.

Local Open Scope float_scope.

(** The Needleman-Wunsch trace macro is the diagonal candidate met by the
    horizontal and then by the vertical one. *)
Lemma SELECT_TRACE_NEEDLEMAN_WUNSCH_consider (epsilon : double) (i j : nat)
  (hgap vgap a : double) (row : list double) (temp score : double)
  (M : list (list Trace)) :
  SELECT_TRACE_NEEDLEMAN_WUNSCH epsilon i j hgap vgap a (row, temp, score, M)
  = let best :=
      consider epsilon VERTICAL (row !!! j + vgap)
        (consider epsilon HORIZONTAL (row !!! (j - 1)%nat + hgap)
           (temp + a, DIAGONAL)) in
    (<[j := fst best]> row, row !!! j, fst best, store_trace i j (snd best) M).
Proof.
  unfold SELECT_TRACE_NEEDLEMAN_WUNSCH, consider.
  destruct (fgt (row !!! (j - 1)%nat + hgap) (temp + a + epsilon));
    [|destruct (fgt (row !!! (j - 1)%nat + hgap) (temp + a - epsilon))];
  cbv zeta;
  match goal with
  | |- context [fgt ?c (?s + epsilon)] =>
    destruct (fgt c (s + epsilon)); [|destruct (fgt c (s - epsilon))]
  end; reflexivity.
Qed.

(** One cell of the two passes. *)
Lemma cell_same (epsilon : double) (i j : nat) (hgap vgap a : double)
  (st : list double * double * double)
  (st' : list double * double * double * list (list Trace)) :
  same_value epsilon 0 ->
  same_state st st' ->
  same_state
    (let '(row, temp, score) := st in
     let score :=
       SELECT_SCORE_GLOBAL (temp + a) (row !!! j + vgap) (row !!! (j - 1)%nat + hgap) in
     (<[j := score]> row, row !!! j, score))
    (SELECT_TRACE_NEEDLEMAN_WUNSCH epsilon i j hgap vgap a st').
Proof.
  intros He. destruct st as [[row temp] score], st' as [[[row' temp'] score'] M].
  intros (Hrow & Htemp & Hscore).
  rewrite SELECT_TRACE_NEEDLEMAN_WUNSCH_consider. cbv zeta.
  assert (Hbest :
    same_value
      (SELECT_SCORE_GLOBAL (temp + a) (row !!! j + vgap) (row !!! (j - 1)%nat + hgap))
      (fst (consider epsilon VERTICAL (row' !!! j + vgap)
              (consider epsilon HORIZONTAL (row' !!! (j - 1)%nat + hgap)
                 (temp' + a, DIAGONAL))))).
  { change (SELECT_SCORE_GLOBAL (temp + a) (row !!! j + vgap)
              (row !!! (j - 1)%nat + hgap))
      with (higher (row !!! (j - 1)%nat + hgap)
              (higher (row !!! j + vgap) (temp + a))).
    eapply same_value_trans; [apply higher_comm|].
    apply same_value_sym.
    eapply same_value_trans; [apply consider_higher; exact He|].
    apply higher_same.
    - apply add_same; [apply same_value_sym, same_row_lookup, Hrow|apply same_value_refl].
    - eapply same_value_trans; [apply consider_higher; exact He|].
      apply higher_same; simpl.
      + apply add_same; [apply same_value_sym, same_row_lookup, Hrow|apply same_value_refl].
      + apply add_same; [apply same_value_sym, Htemp|apply same_value_refl]. }
  split; [|split].
  - apply same_row_insert; assumption.
  - apply same_row_lookup, Hrow.
  - exact Hbest.
Qed.

(** A row of cells of the two passes, from related states. *)
Lemma row_same (epsilon : double) (i : nat) (hgap vgap : double) (a : nat -> double)
  (n lo : nat) (st : list double * double * double)
  (st' : list double * double * double * list (list Trace)) :
  same_value epsilon 0 ->
  same_state st st' ->
  same_state
    (for_loop n lo
       (fun j '(row, temp, score) =>
          (<[j := SELECT_SCORE_GLOBAL (temp + a j) (row !!! j + vgap)
                    (row !!! (j - 1)%nat + hgap)]> row,
           row !!! j,
           SELECT_SCORE_GLOBAL (temp + a j) (row !!! j + vgap)
             (row !!! (j - 1)%nat + hgap))) st)
    (for_loop n lo
       (fun j st => SELECT_TRACE_NEEDLEMAN_WUNSCH epsilon i j hgap vgap (a j) st) st').
Proof.
  intros He. apply for_loop_related. clear st st'.
  intros j st st' HR.
  pose proof (cell_same epsilon i j hgap vgap (a j) st st' He HR) as H.
  destruct st as [[row temp] score]. exact H.
Qed.

(** Relates the two inner loops of the goal that start from the states of
    [Hstart], and names their final states. *)
Ltac related_rows i hgap vgap a He Hstart H :=
  match goal with
  | |- context [for_loop ?n ?lo ?f ?s] =>
    lazymatch type of s with
    | (_ * _ * _ * _)%type => fail
    | _ => idtac
    end;
    match goal with
    | |- context [for_loop n lo ?g ?t] =>
      lazymatch type of t with
      | (_ * _ * _ * _)%type => idtac
      end;
      assert (H : same_state (for_loop n lo f s) (for_loop n lo g t))
        by exact (row_same _ i hgap vgap a n lo s t He Hstart);
      generalize dependent (for_loop n lo f s);
      generalize dependent (for_loop n lo g t);
      intros s0 s1 H
    end
  end.

(** The two Needleman-Wunsch passes return the same value when epsilon is
    zero and the deletion scores of the two ends are equal. *)
Lemma NEEDLEMANWUNSCH_same (a : Z -> Z -> double) (self : Aligner)
  (sA : Z -> Z) (nA : nat) (sB : Z -> Z) (nB : nat) (strand : ascii) :
  (1 <= nA)%nat -> (1 <= nB)%nat ->
  same_value (epsilon self) 0 ->
  extend_left_deletion_score self = extend_right_deletion_score self ->
  strand = "+"%char \/ strand = "-"%char ->
  exists value value' paths,
    NEEDLEMANWUNSCH_SCORE a self sA nA sB nB strand = Ok value /\
    NEEDLEMANWUNSCH_ALIGN a self sA nA sB nB strand = Ok (value', paths) /\
    same_value value value'.
Proof.
  intros HnA HnB He Hlr Hs.
  unfold NEEDLEMANWUNSCH_SCORE, NEEDLEMANWUNSCH_ALIGN.
  assert (Hstrand : exists lA rA lB,
            NEEDLEMANWUNSCH_strand self strand = Some (lA, rA, lB, lB)).
  { unfold NEEDLEMANWUNSCH_strand. destruct Hs as [-> | ->]; simpl; rewrite Hlr; eauto. }
  destruct Hstrand as (lA & rA & lB & ->).
  unfold PathGenerator_create_NWSW. cbn [Mode_eqb]. cbv zeta.
  rewrite (Nat.max_r 1 nA HnA), (Nat.max_r 1 nB HnB).
  set (row0 := for_range 1 (S nB) _ _).
  set (paths0 := Build_PathGenerator _ _ _ _ _ _ _ _ _).
  set (gA := extend_internal_insertion_score self).
  set (gB := extend_internal_deletion_score self).
  unfold for_range.
  (* the rows before the last *)
  match goal with
  | |- context [for_loop (nA - 1) 1 ?f (row0, 0, 0)] => set (rows := f)
  end.
  match goal with
  | |- context [for_loop (nA - 1) 1 ?g (row0, 0, 0, pg_M paths0)] => set (rows' := g)
  end.
  assert (Hrows : same_state (for_loop (nA - 1) 1 rows (row0, 0, 0))
                             (for_loop (nA - 1) 1 rows' (row0, 0, 0, pg_M paths0))).
  { apply for_loop_related.
    - intros i st st' HR. subst rows rows'. cbv beta.
      destruct st as [[row temp] score], st' as [[[row' temp'] score'] M].
      destruct HR as (Hrow & Htemp & Hscore).
      assert (Hstart : same_state (<[0%nat := double_of_nat i * lB]> row, row !!! 0%nat, score)
                                  (<[0%nat := double_of_nat i * lB]> row', row' !!! 0%nat,
                                   score', M)).
      { split; [|split]; auto using same_row_insert, same_value_refl, same_row_lookup. }
      related_rows i gA gB
        (fun j => a (sA (Z.of_nat i - 1)%Z) (sB (Z.of_nat j - 1)%Z)) He Hstart Hinner.
      destruct s1 as [[row1 temp1] score1], s0 as [[[row1' temp1'] score1'] M1].
      exact (cell_same (epsilon self) i nB gA lB
               (a (sA (Z.of_nat i - 1)%Z) (sB (Z.of_nat nB - 1)%Z))
               (row1, temp1, score1) (row1', temp1', score1', M1) He Hinner).
    - split; [|split]; auto using same_row_refl, same_value_refl. }
  destruct (for_loop (nA - 1) 1 rows (row0, 0, 0)) as [[row temp] score].
  destruct (for_loop (nA - 1) 1 rows' (row0, 0, 0, pg_M paths0))
    as [[[row' temp'] score'] M].
  destruct Hrows as (Hrow & Htemp & Hscore).
  (* the last row *)
  assert (Hstart : same_state (<[0%nat := double_of_nat nA * lB]> row, row !!! 0%nat, score)
                              (<[0%nat := double_of_nat nA * lB]> row', row' !!! 0%nat,
                               score', M)).
  { split; [|split]; auto using same_row_insert, same_value_refl, same_row_lookup. }
  related_rows nA rA gB
    (fun j => a (sA (Z.of_nat nA - 1)%Z) (sB (Z.of_nat j - 1)%Z)) He Hstart Hlast.
  destruct s1 as [[row1 temp1] score1], s0 as [[[row1' temp1'] score1'] M1].
  pose proof (cell_same (epsilon self) nA nB rA lB
                (a (sA (Z.of_nat nA - 1)%Z) (sB (Z.of_nat nB - 1)%Z))
                (row1, temp1, score1) (row1', temp1', score1', M1) He Hlast) as Hcell.
  cbv beta iota zeta in Hcell.
  destruct (SELECT_TRACE_NEEDLEMAN_WUNSCH _ _ _ _ _ _ _) as [[[row2 temp2] score2] M2].
  destruct Hcell as (_ & _ & Hvalue).
  eexists _, _, _. split; [reflexivity|]. split; [reflexivity|]. exact Hvalue.
Qed.


(** *** Smith-Waterman

    What the two trace macros of the local mode leave in [row], [temp],
    [score] and [maximum]. *)
Lemma SELECT_TRACE_SMITH_WATERMAN_HVD_values (epsilon gA gB : double) (nB i j : nat)
  (a : double) (row : list double) (temp score : double) (M : list (list Trace))
  (maximum : double) (im jm : nat) :
  sw_values (SELECT_TRACE_SMITH_WATERMAN_HVD epsilon gA gB nB i j a
               (row, temp, score, M, maximum, im, jm))
  = let best :=
      fst (consider epsilon VERTICAL (row !!! j + gB)
             (consider epsilon HORIZONTAL (row !!! (j - 1)%nat + gA)
                (temp + a, DIAGONAL))) in
    let score := if flt best epsilon then 0 else best in
    (<[j := score]> row, row !!! j, score, higher score maximum).
Proof.
  unfold SELECT_TRACE_SMITH_WATERMAN_HVD, consider, higher, sw_values.
  repeat match goal with
         | |- context [if ?b then _ else _] =>
           lazymatch b with
           | context [if _ then _ else _] => fail
           | _ => destruct b eqn:?
           end
         | |- context [withdraw_ENDPOINTs ?nB ?i ?j ?im ?jm ?M] =>
           destruct (withdraw_ENDPOINTs nB i j im jm M) as [[? ?] ?]
         end; cbn [fst snd] in *; try reflexivity; try congruence.
Qed.

Lemma SELECT_TRACE_SMITH_WATERMAN_D_values (epsilon : double) (nB i j : nat)
  (a : double) (row : list double) (temp score : double) (M : list (list Trace))
  (maximum : double) (im jm : nat) :
  sw_values (SELECT_TRACE_SMITH_WATERMAN_D epsilon nB i j a
               (row, temp, score, M, maximum, im, jm))
  = let best := temp + a in
    let score := if flt best epsilon then 0 else best in
    (<[j := score]> row, row !!! j, score, higher score maximum).
Proof.
  unfold SELECT_TRACE_SMITH_WATERMAN_D, higher, sw_values.
  repeat match goal with
         | |- context [if ?b then _ else _] =>
           lazymatch b with
           | context [if _ then _ else _] => fail
           | _ => destruct b eqn:?
           end
         | |- context [withdraw_ENDPOINTs ?nB ?i ?j ?im ?jm ?M] =>
           destruct (withdraw_ENDPOINTs nB i j im jm M) as [[? ?] ?]
         end; cbn [fst snd] in *; try reflexivity; try congruence.
Qed.

(** The clamp and the running maximum of the local passes, on the same
    values. *)
Lemma local_clamp_same (epsilon best best' maximum maximum' : double) :
  same_value epsilon 0 ->
  same_value best best' ->
  same_value maximum maximum' ->
  fgt 0 maximum = false ->
  let score := if flt best 0 then 0 else best in
  let score' := if flt best' epsilon then 0 else best' in
  same_value score score' /\
  same_value (if flt best 0 then maximum
              else if fgt best maximum then best else maximum)
             (higher score' maximum') /\
  fgt 0 (if flt best 0 then maximum
         else if fgt best maximum then best else maximum) = false.
Proof.
  intros He Hb Hm Hpos. cbv zeta. unfold higher, flt in *.
  change (best' <? epsilon) with (fgt epsilon best').
  change (best <? 0) with (fgt 0 best).
  rewrite (fgt_same epsilon 0 best' best He (same_value_sym _ _ Hb)).
  destruct (fgt 0 best) eqn:Hneg.
  - split; [apply same_value_refl|].
    rewrite <- (fgt_same 0 0 maximum maximum' (same_value_refl 0) Hm), Hpos.
    auto.
  - split; [exact Hb|].
    rewrite <- (fgt_same best best' maximum maximum' Hb Hm).
    destruct (fgt best maximum); auto.
Qed.

(** The two score macros of the local mode. *)
Lemma SELECT_SCORE_LOCAL3_values (s1 s2 s3 maximum : double) :
  SELECT_SCORE_LOCAL3 s1 s2 s3 maximum
  = let best := higher s3 (higher s2 s1) in
    (if flt best 0 then 0 else best,
     if flt best 0 then maximum else if fgt best maximum then best else maximum).
Proof.
  unfold SELECT_SCORE_LOCAL3, higher. cbv zeta.
  destruct (fgt s2 s1); destruct (fgt s3 _); destruct (flt _ 0);
    try reflexivity; destruct (fgt _ maximum); reflexivity.
Qed.

Lemma SELECT_SCORE_LOCAL1_values (s1 maximum : double) :
  SELECT_SCORE_LOCAL1 s1 maximum
  = (if flt s1 0 then 0 else s1,
     if flt s1 0 then maximum else if fgt s1 maximum then s1 else maximum).
Proof.
  unfold SELECT_SCORE_LOCAL1. cbv zeta.
  destruct (flt s1 0); try reflexivity; destruct (fgt s1 maximum); reflexivity.
Qed.

(** One inner cell of the two local passes. *)
Lemma local_cell3_same (epsilon gA gB : double) (nB i j : nat) (a : double)
  (st : list double * double * double * double) (st' : sw_state) :
  same_value epsilon 0 ->
  same_local_state st (sw_values st') ->
  same_local_state
    (let '(row, temp, score, maximum) := st in
     let '(score, maximum) :=
       SELECT_SCORE_LOCAL3 (temp + a) (row !!! j + gB) (row !!! (j - 1)%nat + gA)
         maximum in
     (<[j := score]> row, row !!! j, score, maximum))
    (sw_values (SELECT_TRACE_SMITH_WATERMAN_HVD epsilon gA gB nB i j a st')).
Proof.
  intros He.
  destruct st as [[[row temp] score] maximum],
           st' as [[[[[[row' temp'] score'] M] maximum'] im] jm].
  intros (Hrow & Htemp & Hscore & Hmax & Hpos).
  rewrite SELECT_TRACE_SMITH_WATERMAN_HVD_values, SELECT_SCORE_LOCAL3_values. cbv zeta.
  assert (Hbest :
    same_value
      (higher (row !!! (j - 1)%nat + gA) (higher (row !!! j + gB) (temp + a)))
      (fst (consider epsilon VERTICAL (row' !!! j + gB)
              (consider epsilon HORIZONTAL (row' !!! (j - 1)%nat + gA)
                 (temp' + a, DIAGONAL))))).
  { eapply same_value_trans; [apply higher_comm|].
    apply same_value_sym.
    eapply same_value_trans; [apply consider_higher; exact He|].
    apply higher_same.
    - apply add_same; [apply same_value_sym, same_row_lookup, Hrow|apply same_value_refl].
    - eapply same_value_trans; [apply consider_higher; exact He|].
      apply higher_same; simpl.
      + apply add_same; [apply same_value_sym, same_row_lookup, Hrow|apply same_value_refl].
      + apply add_same; [apply same_value_sym, Htemp|apply same_value_refl]. }
  destruct (local_clamp_same epsilon _ _ maximum maximum' He Hbest Hmax Hpos)
    as (Hs & Hm & Hp).
  split; [apply same_row_insert; assumption|].
  split; [apply same_row_lookup, Hrow|].
  split; [exact Hs|]. split; [exact Hm|exact Hp].
Qed.

(** One cell of the last column or of the last row. *)
Lemma local_cell1_same (epsilon : double) (nB i j : nat) (a : double)
  (st : list double * double * double * double) (st' : sw_state) :
  same_value epsilon 0 ->
  same_local_state st (sw_values st') ->
  same_local_state
    (let '(row, temp, score, maximum) := st in
     let '(score, maximum) := SELECT_SCORE_LOCAL1 (temp + a) maximum in
     (<[j := score]> row, row !!! j, score, maximum))
    (sw_values (SELECT_TRACE_SMITH_WATERMAN_D epsilon nB i j a st')).
Proof.
  intros He.
  destruct st as [[[row temp] score] maximum],
           st' as [[[[[[row' temp'] score'] M] maximum'] im] jm].
  intros (Hrow & Htemp & Hscore & Hmax & Hpos).
  rewrite SELECT_TRACE_SMITH_WATERMAN_D_values, SELECT_SCORE_LOCAL1_values. cbv zeta.
  assert (Hbest : same_value (temp + a) (temp' + a))
    by (apply add_same; [exact Htemp|apply same_value_refl]).
  destruct (local_clamp_same epsilon _ _ maximum maximum' He Hbest Hmax Hpos)
    as (Hs & Hm & Hp).
  split; [apply same_row_insert; assumption|].
  split; [apply same_row_lookup, Hrow|].
  split; [exact Hs|]. split; [exact Hm|exact Hp].
Qed.

(** A row of cells of the two local passes, from related states. *)
Lemma local_row3_same (epsilon gA gB : double) (nB i : nat) (a : nat -> double)
  (n lo : nat) (st : list double * double * double * double) (st' : sw_state) :
  same_value epsilon 0 ->
  same_local_state st (sw_values st') ->
  same_local_state
    (for_loop n lo
       (fun j '(row, temp, score, maximum) =>
          let '(score, maximum) :=
            SELECT_SCORE_LOCAL3 (temp + a j) (row !!! j + gB)
              (row !!! (j - 1)%nat + gA) maximum in
          (<[j := score]> row, row !!! j, score, maximum)) st)
    (sw_values
       (for_loop n lo
          (fun j st => SELECT_TRACE_SMITH_WATERMAN_HVD epsilon gA gB nB i j (a j) st)
          st')).
Proof.
  intros He.
  apply (for_loop_related (fun s t => same_local_state s (sw_values t))).
  clear st st'. intros j st st' HR.
  pose proof (local_cell3_same epsilon gA gB nB i j (a j) st st' He HR) as H.
  destruct st as [[[row temp] score] maximum]. exact H.
Qed.

Lemma local_row1_same (epsilon : double) (nB i : nat) (a : nat -> double)
  (n lo : nat) (st : list double * double * double * double) (st' : sw_state) :
  same_value epsilon 0 ->
  same_local_state st (sw_values st') ->
  same_local_state
    (for_loop n lo
       (fun j '(row, temp, score, maximum) =>
          let '(score, maximum) := SELECT_SCORE_LOCAL1 (temp + a j) maximum in
          (<[j := score]> row, row !!! j, score, maximum)) st)
    (sw_values
       (for_loop n lo
          (fun j st => SELECT_TRACE_SMITH_WATERMAN_D epsilon nB i j (a j) st) st')).
Proof.
  intros He.
  apply (for_loop_related (fun s t => same_local_state s (sw_values t))).
  clear st st'. intros j st st' HR.
  pose proof (local_cell1_same epsilon nB i j (a j) st st' He HR) as H.
  destruct st as [[[row temp] score] maximum]. exact H.
Qed.

(** Names the final states of the two inner loops of the goal. *)
Ltac name_rows s1 t1 :=
  match goal with
  | |- context [for_loop ?n ?lo ?g ?t] =>
    lazymatch g with
    | context [for_loop] => fail
    | context [SELECT_TRACE_SMITH_WATERMAN_HVD] => idtac
    | context [SELECT_TRACE_SMITH_WATERMAN_D] => idtac
    end;
    set (t1 := for_loop n lo g t)
  end;
  match goal with
  | |- context [for_loop ?n ?lo ?f ?s] =>
    lazymatch f with
    | context [for_loop] => fail
    | context [SELECT_SCORE_LOCAL3] => idtac
    | context [SELECT_SCORE_LOCAL1] => idtac
    end;
    set (s1 := for_loop n lo f s)
  end.

(** The two Smith-Waterman passes return the same value when epsilon is
    zero. *)
Lemma SMITHWATERMAN_same (a : Z -> Z -> double) (self : Aligner)
  (sA : Z -> Z) (nA : nat) (sB : Z -> Z) (nB : nat) (strand : ascii) :
  (1 <= nA)%nat -> (1 <= nB)%nat ->
  same_value (epsilon self) 0 ->
  exists value value' paths,
    SMITHWATERMAN_SCORE a self sA nA sB nB = Ok value /\
    SMITHWATERMAN_ALIGN a self sA nA sB nB strand = Ok (value', paths) /\
    same_value value value'.
Proof.
  intros HnA HnB He.
  unfold SMITHWATERMAN_SCORE, SMITHWATERMAN_ALIGN.
  unfold PathGenerator_create_NWSW. cbn [Mode_eqb]. cbv zeta.
  rewrite (Nat.max_r 1 nA HnA), (Nat.max_r 1 nB HnB).
  set (row0 := for_range 0 (S nB) _ _).
  set (paths0 := Build_PathGenerator _ _ _ _ _ _ _ _ _).
  set (gA := extend_internal_insertion_score self).
  set (gB := extend_internal_deletion_score self).
  unfold for_range.
  (* the rows before the last *)
  match goal with
  | |- context [for_loop (nA - 1) 1 ?f (row0, 0, 0, 0)] => set (rows := f)
  end.
  match goal with
  | |- context [for_loop (nA - 1) 1 ?g (row0, 0, 0, pg_M paths0, 0, nA, nB)] =>
    set (rows' := g)
  end.
  assert (Hrows : same_local_state
                    (for_loop (nA - 1) 1 rows (row0, 0, 0, 0))
                    (sw_values (for_loop (nA - 1) 1 rows'
                                  (row0, 0, 0, pg_M paths0, 0, nA, nB)))).
  { apply (for_loop_related (fun s t => same_local_state s (sw_values t))).
    - intros i st st' HR. subst rows rows'. cbv beta.
      destruct st as [[[row temp] score] maximum],
               st' as [[[[[[row' temp'] score'] M] maximum'] im] jm].
      destruct HR as (Hrow & Htemp & Hscore & Hmax & Hpos).
      assert (Hstart : same_local_state (row, 0, score, maximum)
                         (sw_values (row', 0, score', M, maximum', im, jm))).
      { repeat split; auto using same_value_refl. }
      name_rows s1 t1.
      assert (Hinner : same_local_state s1 (sw_values t1))
        by exact (local_row3_same (epsilon self) gA gB nB i
                    (fun j => a (sA (Z.of_nat i - 1)%Z) (sB (Z.of_nat j - 1)%Z))
                    (nB - 1) 1 _ _ He Hstart).
      clearbody s1 t1.
      pose proof (local_cell1_same (epsilon self) nB i nB
                    (a (sA (Z.of_nat i - 1)%Z) (sB (Z.of_nat nB - 1)%Z))
                    s1 t1 He Hinner) as Hcell.
      destruct s1 as [[[row1 temp1] score1] maximum1]. exact Hcell.
    - repeat split; auto using same_row_refl, same_value_refl. }
  destruct (for_loop (nA - 1) 1 rows (row0, 0, 0, 0)) as [[[row temp] score] maximum].
  destruct (for_loop (nA - 1) 1 rows' (row0, 0, 0, pg_M paths0, 0, nA, nB))
    as [[[[[[row' temp'] score'] M] maximum'] im] jm].
  destruct Hrows as (Hrow & Htemp & Hscore & Hmax & Hpos).
  (* the last row *)
  assert (Hstart : same_local_state (row, 0, score, maximum)
                     (sw_values (row', 0, score', M, maximum', im, jm))).
  { repeat split; auto using same_value_refl. }
  name_rows s1 t1.
  assert (Hlast : same_local_state s1 (sw_values t1))
    by exact (local_row1_same (epsilon self) nB nA
                (fun j => a (sA (Z.of_nat nA - 1)%Z) (sB (Z.of_nat j - 1)%Z))
                (nB - 1) 1 _ _ He Hstart).
  clearbody s1 t1.
  pose proof (local_cell1_same (epsilon self) nB nA nB
                (a (sA (Z.of_nat nA - 1)%Z) (sB (Z.of_nat nB - 1)%Z))
                s1 t1 He Hlast) as Hcell.
  destruct s1 as [[[row1 temp1] score1] maximum1].
  cbv beta iota zeta in Hcell.
  destruct (SELECT_SCORE_LOCAL1 _ maximum1) as [score2 maximum2].
  destruct (SELECT_TRACE_SMITH_WATERMAN_D _ _ _ _ _ t1)
    as [[[[[[row3 temp3] score3] M3] maximum3] im3] jm3].
  destruct Hcell as (_ & _ & _ & Hvalue & _).
  eexists _, _, _. split; [reflexivity|]. split; [reflexivity|]. exact Hvalue.
Qed.

End Passes.

(** ** Score and align through the entry points *)

(** [_get_algorithm] writes the memo and nothing else. *)
Lemma _get_algorithm_writes (self : Aligner) :
  snd (_get_algorithm self) = set_algorithm (fst (_get_algorithm self)) self.
Proof.
  destruct (algorithm self) eqn:E;
    try (rewrite (_get_algorithm_Unknown self E); reflexivity);
    unfold _get_algorithm; rewrite E; destruct self; simpl in *; subst; reflexivity.
Qed.

(** The Needleman-Wunsch and Smith-Waterman instances of the two entry
    points, from the same aligner on the same sequences. *)
Lemma needlemanwunsch_instances_same (self : Aligner)
  (sA : Z -> Z) (nA : nat) (sB : Z -> Z) (nB : nat) (strand : ascii) :
  (1 <= nA)%nat -> (1 <= nB)%nat ->
  same_value (epsilon self) 0 ->
  extend_left_deletion_score self = extend_right_deletion_score self ->
  strand = "+"%char \/ strand = "-"%char ->
  (exists value value' paths,
     Aligner_needlemanwunsch_score_compare self sA nA sB nB strand = Ok value /\
     Aligner_needlemanwunsch_align_compare self sA nA sB nB strand = Ok (value', paths) /\
     same_value value value') /\
  (substitution_matrix self <> None ->
   exists value value' paths,
     Aligner_needlemanwunsch_score_matrix self sA nA sB nB strand = Ok value /\
     Aligner_needlemanwunsch_align_matrix self sA nA sB nB strand = Ok (value', paths) /\
     same_value value value').
Proof.
  intros HnA HnB He Hlr Hs. split.
  - unfold Aligner_needlemanwunsch_score_compare, Aligner_needlemanwunsch_align_compare.
    apply NEEDLEMANWUNSCH_same; assumption.
  - unfold Aligner_needlemanwunsch_score_matrix, Aligner_needlemanwunsch_align_matrix.
    destruct (substitution_matrix self) as [matrix|]; [intros _|congruence].
    apply NEEDLEMANWUNSCH_same; assumption.
Qed.

Lemma smithwaterman_instances_same (self : Aligner)
  (sA : Z -> Z) (nA : nat) (sB : Z -> Z) (nB : nat) (strand : ascii) :
  (1 <= nA)%nat -> (1 <= nB)%nat ->
  same_value (epsilon self) 0 ->
  (exists value value' paths,
     Aligner_smithwaterman_score_compare self sA nA sB nB = Ok value /\
     Aligner_smithwaterman_align_compare self sA nA sB nB strand = Ok (value', paths) /\
     same_value value value') /\
  (substitution_matrix self <> None ->
   exists value value' paths,
     Aligner_smithwaterman_score_matrix self sA nA sB nB = Ok value /\
     Aligner_smithwaterman_align_matrix self sA nA sB nB strand = Ok (value', paths) /\
     same_value value value').
Proof.
  intros HnA HnB He. split.
  - unfold Aligner_smithwaterman_score_compare, Aligner_smithwaterman_align_compare.
    apply SMITHWATERMAN_same; assumption.
  - unfold Aligner_smithwaterman_score_matrix, Aligner_smithwaterman_align_matrix.
    destruct (substitution_matrix self) as [matrix|]; [intros _|congruence].
    apply SMITHWATERMAN_same; assumption.
Qed.




(** Where the left and right deletion scores differ the two passes part
    for another reason: before the last row the score pass writes
    [row[0] = nA * right_gap_extend_B], the align pass
    [row[0] = i * left_gap_extend_B].  For one letter against a different
    one the align pass returns -1, the score of deleting the letter of A
    before B starts, and the score pass returns -3. *)
Lemma score_pass_edge :
  same_value (epsilon edge_aligner) 0 /\
  fst (example_score edge_aligner (sequence_of [0]) (sequence_of [1]) plus)
  = ([], Ok (-3)%float) /\
  exists paths,
    snd (fst (example_align edge_aligner (sequence_of [0]) (sequence_of [1]) plus))
    = Ok ((-1)%float, paths).
Proof.
  split; [left; reflexivity|].
  split; [vm_compute; reflexivity|].
  eexists. vm_compute. reflexivity.
Qed.

(** ** Reading and writing the attributes *)

Ltac table_cases H :=
  repeat (destruct H as [H|H]; [symmetry in H; subst|]); [..|destruct H].

Ltac open_aligner self :=
  destruct self as [? ? ? ? ? ? ? ? ? ? ? ? ? ? ? ? [?|] [?|] ? ? ? ?].

(** A name that is not in the table is refused, and nothing is written. *)
Lemma Aligner_setattr_unknown (self : Aligner) (name : string) (value : PyObject) :
  ~ In name (map fst Aligner_getset) -> Aligner_setattr self name value = (-1, self).
Proof.
  intros H. unfold Aligner_setattr.
  destruct (find _ _) as [[n s]|] eqn:E; [|reflexivity].
  exfalso. apply find_some in E. destruct E as [Hin E]. simpl in E.
  apply String.eqb_eq in E. subst n. apply H.
  apply (in_map fst) in Hin. exact Hin.
Qed.

Lemma Aligner_getattr_unknown (self : Aligner) (name : string) :
  ~ In name (map fst Aligner_getters) -> Aligner_getattr self name = (Err Propagated, self).
Proof.
  intros H. unfold Aligner_getattr.
  destruct (find _ _) as [[n s]|] eqn:E; [|reflexivity].
  exfalso. apply find_some in E. destruct E as [Hin E]. simpl in E.
  apply String.eqb_eq in E. subst n. apply H.
  apply (in_map fst) in Hin. exact Hin.
Qed.

(** X1. Every writable attribute reads back what was assigned to it: when
    [setattr(aligner, name, value)] succeeds, for a value that is a number
    other than NaN, a string or any other object, [getattr(aligner, name)]
    returns that value (this covers the aggregate gap attributes, the
    gap-score functions, the mode, the wildcard and the substitution
    matrix). *)
Theorem attribute_round_trip (self : Aligner) (name : string) (value : PyObject) :
  fst (Aligner_setattr self name value) = 0 ->
  reads_back value ->
  fst (Aligner_getattr (snd (Aligner_setattr self name value)) name) = Ok value.
Proof.
  intros Hs Hv.
  destruct (in_dec string_dec name (map fst Aligner_getset)) as [Hin|Hn];
    [|rewrite (Aligner_setattr_unknown _ _ _ Hn) in Hs; discriminate Hs].
  cbn [map fst Aligner_getset] in Hin.
  table_cases Hin.
  all: destruct value as [ |d|s|id f|v m| ]; try discriminate Hs.
  all: try (assert (Hf : fneb d d = false)
             by (unfold fneb; simpl in Hv; rewrite Hv; reflexivity)).
  all: open_aligner self.
  all: cbn in Hs |- *; rewrite ?Hf; cbn; auto.
  all: unfold PyUnicode_CompareWithASCIIString in *.
  all: repeat match goal with
         | H : context [if ?b then _ else _] |- _ =>
           let E := fresh "E" in destruct b eqn:E; try discriminate H
         end.
  all: repeat match goal with
         | H : bool_decide _ = true |- _ => apply bool_decide_eq_true in H; subst
         end.
  all: cbn; try reflexivity.
  all: rewrite ?Pos.eqb_refl; try reflexivity.
  all: destruct s as [|c [|c' s]]; try discriminate Hs; cbn in Hv |- *.
  all: apply Forall_cons in Hv; destruct Hv as [Hc _].
  all: unfold Aligner_get_wildcard; cbn.
  all: destruct (Z.eqb_spec c (-1)); [lia | reflexivity].
Qed.

Lemma attribute_round_trip_witness :
  fst (Aligner_setattr Aligner_init "end_gap_score" (PyFloat (-2)%float)) = 0 /\
  reads_back (PyFloat (-2)%float) /\
  fst (Aligner_getattr
         (snd (Aligner_setattr Aligner_init "end_gap_score" (PyFloat (-2)%float)))
         "end_gap_score") = Ok (PyFloat (-2)%float).
Proof.
  assert (H1 : fst (Aligner_setattr Aligner_init "end_gap_score" (PyFloat (-2)%float)) = 0)
    by reflexivity.
  assert (H2 : reads_back (PyFloat (-2)%float)) by reflexivity.
  split; [exact H1|]. split; [exact H2|].
  exact (attribute_round_trip Aligner_init "end_gap_score" (PyFloat (-2)%float) H1 H2).
Defined.

(** X2. A NaN is accepted by every numeric attribute. An attribute that
    stands for one number then reads NaN back; an attribute that stands
    for several numbers can no longer be read: its getter raises
    ValueError "gap scores are different", because NaN differs from
    itself. *)
Theorem nan_assignment (self : Aligner) (name : string) (d : double) :
  In name (map fst Aligner_getset) ->
  ~ In name not_a_number ->
  feqb d d = false ->
  fst (Aligner_setattr self name (PyFloat d)) = 0 /\
  fst (Aligner_getattr (snd (Aligner_setattr self name (PyFloat d))) name) =
    if one_number name then Ok (PyFloat d)
    else Err (ValueError "gap scores are different").
Proof.
  intros Hin Hn Hd.
  assert (Hf : fneb d d = true) by (unfold fneb; rewrite Hd; reflexivity).
  cbn [map fst Aligner_getset] in Hin.
  table_cases Hin;
    try (exfalso; apply Hn; cbn; tauto);
    clear Hn;
    open_aligner self;
    cbn; rewrite ?Hf; cbn; auto.
Qed.

Lemma nan_assignment_witness :
  fst (Aligner_getattr (snd (Aligner_setattr Aligner_init "gap_score" (PyFloat nan)))
         "gap_score") = Err (ValueError "gap scores are different").
Proof.
  assert (H1 : In "gap_score"%string (map fst Aligner_getset)) by (cbn; tauto).
  assert (H2 : ~ In "gap_score"%string not_a_number)
    by (cbn; intros [H|[H|[H|[H|[]]]]]; discriminate H).
  assert (H3 : feqb nan nan = false) by reflexivity.
  exact (proj2 (nan_assignment Aligner_init "gap_score" nan H1 H2 H3)).
Defined.

(** X3. An assignment to [gap_score] reaches every gap attribute. After a
    number (other than NaN) is assigned, each of the 45 gap attributes
    reads that number. After a function is assigned, [gap_score],
    [insertion_score] and [deletion_score] read that function and every
    other gap attribute raises ValueError "using a gap score function". *)
Theorem gap_score_covers (self : Aligner) (value : PyObject) (name : string) :
  fst (Aligner_setattr self "gap_score" value) = 0 ->
  reads_back value ->
  In name gap_attributes ->
  fst (Aligner_getattr (snd (Aligner_setattr self "gap_score" value)) name) =
    if PyCallable_Check value && negb (holds_function name)
    then Err (ValueError "using a gap score function")
    else Ok value.
Proof.
  intros Hs Hv Hin.
  destruct value as [ |d|s|id f|v m| ]; try discriminate Hs.
  - assert (Hf : fneb d d = false) by (unfold fneb; simpl in Hv; rewrite Hv; reflexivity).
    vm_compute in Hin.
    table_cases Hin; open_aligner self; cbn; rewrite ?Hf; reflexivity.
  - vm_compute in Hin.
    table_cases Hin; open_aligner self; cbn; rewrite ?Pos.eqb_refl; reflexivity.
Qed.

Lemma gap_score_covers_witness :
  fst (Aligner_getattr
         (snd (Aligner_setattr Aligner_init "gap_score" (PyCallable 1 (fun _ _ => None))))
         "open_left_deletion_score") = Err (ValueError "using a gap score function").
Proof.
  assert (H1 : fst (Aligner_setattr Aligner_init "gap_score"
                      (PyCallable 1 (fun _ _ => None))) = 0) by reflexivity.
  assert (H2 : reads_back (PyCallable 1 (fun _ _ => None))) by exact I.
  assert (H3 : In "open_left_deletion_score"%string gap_attributes) by (cbn; tauto).
  exact (gap_score_covers Aligner_init (PyCallable 1 (fun _ _ => None))
           "open_left_deletion_score" H1 H2 H3).
Defined.

(** A failed assignment leaves the aligner as it was, or only resets the memo. *)
Lemma Aligner_setattr_failed (self : Aligner) (name : string) (value : PyObject) :
  fst (Aligner_setattr self name value) = -1 ->
  snd (Aligner_setattr self name value) = self \/
  snd (Aligner_setattr self name value) = set_algorithm Unknown self.
Proof.
  intros Hs.
  destruct (in_dec string_dec name (map fst Aligner_getset)) as [Hin|Hn];
    [|rewrite (Aligner_setattr_unknown _ _ _ Hn); left; reflexivity].
  cbn [map fst Aligner_getset] in Hin.
  table_cases Hin.
  all: try (left; reflexivity).
  all: destruct value as [ |d|s|id f|v m| ]; cbn in Hs |- *; try discriminate Hs; auto.
  all: repeat match goal with
         | H : context [if ?b then _ else _] |- _ =>
           destruct b; try discriminate H
         | H : context [match ?x with _ => _ end] |- _ =>
           destruct x; try discriminate H
         end; cbn; auto.
Qed.

(** Resetting a consistent memo does not change what the algorithm
    attribute reads. *)
Lemma Aligner_get_algorithm_memo (self : Aligner) :
  consistent self ->
  fst (Aligner_get_algorithm (set_algorithm Unknown self)) = fst (Aligner_get_algorithm self).
Proof.
  intros H. unfold Aligner_get_algorithm.
  pose proof (_get_algorithm_consistent self H) as (H1 & _ & _).
  assert (H2 : fst (_get_algorithm (set_algorithm Unknown self)) = derived_algorithm self).
  { rewrite _get_algorithm_Unknown by (destruct self; reflexivity).
    destruct self; reflexivity. }
  assert (Hm : mode (set_algorithm Unknown self) = mode self) by (destruct self; reflexivity).
  rewrite Hm.
  destruct (_get_algorithm self) as [a s], (_get_algorithm (set_algorithm Unknown self)) as [a' s'].
  simpl in H1, H2. subst a a'.
  destruct (derived_algorithm self), (mode self); reflexivity.
Qed.

Lemma Aligner_getattr_memo (self : Aligner) (name : string) :
  consistent self ->
  fst (Aligner_getattr (set_algorithm Unknown self) name) = fst (Aligner_getattr self name).
Proof.
  intros H.
  destruct (in_dec string_dec name (map fst Aligner_getters)) as [Hin|Hn];
    [|rewrite !(Aligner_getattr_unknown _ _ Hn); reflexivity].
  cbn [map fst Aligner_getters] in Hin.
  table_cases Hin.
  all: try (apply (Aligner_get_algorithm_memo self H)).
  all: destruct self; reflexivity.
Qed.

(** X4. A refused assignment changes nothing that can be read: when
    [setattr] fails on an aligner (for an unknown or read-only name or a
    value of the wrong kind), every attribute, the algorithm included,
    reads afterwards what it read before. The aligner is any one built
    from [Aligner_init] by assignments and algorithm queries. *)
Theorem failed_assignment (calls : list call) (name : string) (value : PyObject) :
  fst (Aligner_setattr (run calls) name value) = -1 ->
  forall name',
    fst (Aligner_getattr (snd (Aligner_setattr (run calls) name value)) name') =
    fst (Aligner_getattr (run calls) name').
Proof.
  intros Hs name'.
  destruct (Aligner_setattr_failed _ _ _ Hs) as [-> | ->]; [reflexivity|].
  apply Aligner_getattr_memo, run_consistent.
Qed.

Lemma failed_assignment_witness :
  fst (Aligner_setattr (run []) "mode" PyOther) = -1 /\
  fst (Aligner_getattr (snd (Aligner_setattr (run []) "mode" PyOther)) "algorithm") =
  fst (Aligner_getattr (run []) "algorithm").
Proof.
  split; [reflexivity | apply (failed_assignment [] "mode" PyOther); reflexivity].
Defined.

(** X5. The substitution matrix and the match and mismatch scores exclude
    each other. While a matrix is installed, [substitution_matrix] reads
    that object and [match_score] and [mismatch_score] read None. Assigning
    a match score releases the matrix: [substitution_matrix] reads None,
    [match_score] the new number, and [mismatch_score] the number kept from
    before the matrix was installed; assigning a mismatch score does the
    same with the roles exchanged. *)
Theorem scores_or_matrix (self : Aligner) (value : PyObject) (d : double) :
  fst (Aligner_set_substitution_matrix self value) = 0 ->
  value <> Py_None ->
  let with_matrix := snd (Aligner_set_substitution_matrix self value) in
  let with_match := snd (Aligner_set_match_score with_matrix (PyFloat d)) in
  let with_mismatch := snd (Aligner_set_mismatch_score with_matrix (PyFloat d)) in
  (Aligner_get_substitution_matrix with_matrix = Ok value /\
   Aligner_get_match_score with_matrix = Ok Py_None /\
   Aligner_get_mismatch_score with_matrix = Ok Py_None) /\
  (Aligner_get_substitution_matrix with_match = Ok Py_None /\
   Aligner_get_match_score with_match = Ok (PyFloat d) /\
   Aligner_get_mismatch_score with_match = Ok (PyFloat (mismatch self))) /\
  (Aligner_get_substitution_matrix with_mismatch = Ok Py_None /\
   Aligner_get_match_score with_mismatch = Ok (PyFloat (match_ self)) /\
   Aligner_get_mismatch_score with_mismatch = Ok (PyFloat d)).
Proof.
  intros Hs Hv. unfold Aligner_set_substitution_matrix in *.
  destruct value as [ |x|s|id f|v m| ]; try congruence; try discriminate Hs.
  destruct (substitution_matrix_converter (PyBufferObject v m)) as [mx|e] eqn:E;
    [|discriminate Hs].
  unfold substitution_matrix_converter in E.
  repeat match type of E with
         | context [if ?b then _ else _] => destruct b; try discriminate E
         end.
  injection E as <-.
  destruct self; cbn. repeat split.
Qed.

Lemma scores_or_matrix_witness :
  fst (Aligner_set_substitution_matrix Aligner_init (PyBufferObject matrix_2x2 None)) = 0 /\
  Aligner_get_match_score
    (snd (Aligner_set_substitution_matrix Aligner_init (PyBufferObject matrix_2x2 None)))
  = Ok Py_None.
Proof.
  assert (H1 : fst (Aligner_set_substitution_matrix Aligner_init
                      (PyBufferObject matrix_2x2 None)) = 0) by reflexivity.
  assert (H2 : PyBufferObject matrix_2x2 None <> Py_None) by discriminate.
  split; [exact H1|].
  exact (proj1 (proj2 (proj1
    (scores_or_matrix Aligner_init (PyBufferObject matrix_2x2 None) 0%float H1 H2)))).
Defined.

(** X6. The [algorithm] attribute of an aligner built from [Aligner_init]
    by assignments and algorithm queries never raises: it reads one of the
    seven algorithm names, a global one in mode global, a local one in
    mode local, and the FOGSAA name in mode fogsaa. *)
Theorem algorithm_attribute (calls : list call) :
  exists s : string,
    fst (Aligner_get_algorithm (run calls)) = Ok (PyUnicode (codes s)) /\
    match mode (run calls) with
    | Global =>
      In s ["Needleman-Wunsch"; "Gotoh global alignment algorithm";
            "Waterman-Smith-Beyer global alignment algorithm"]%string
    | Local =>
      In s ["Smith-Waterman"; "Gotoh local alignment algorithm";
            "Waterman-Smith-Beyer local alignment algorithm"]%string
    | FOGSAA_Mode => s = "Fast Optimal Global Sequence Alignment Algorithm"%string
    end.
Proof.
  pose proof (run_consistent calls) as H. generalize dependent (run calls). intros self H.
  pose proof (_get_algorithm_consistent self H) as (H1 & _ & _).
  unfold Aligner_get_algorithm.
  destruct (_get_algorithm self) as [a s']. simpl in H1. subst a.
  unfold derived_algorithm, first_match, selection_rules. cbn [find fst].
  destruct (mode self); cbn [Mode_eqb];
    repeat match goal with
           | |- context [if ?b then _ else _] => destruct b; cbn [fst snd]
           end;
    eexists; (split; [reflexivity | cbn; tauto]).
Qed.

(** ** Counting the paths of a global alignment *)

(** An invariant of a counted loop. *)
Lemma for_loop_invariant {S : Type} (P : nat -> S -> Prop) (body : nat -> S -> S) (n : nat) :
  forall lo s,
  P lo s ->
  (forall k s, (lo <= k < lo + n)%nat -> P k s -> P (Datatypes.S k) (body k s)) ->
  P (lo + n)%nat (for_loop n lo body s).
Proof.
  induction n as [|n IH]; intros lo s H0 Hstep; simpl.
  - rewrite Nat.add_0_r. exact H0.
  - replace (lo + Datatypes.S n)%nat with (Datatypes.S lo + n)%nat by lia.
    apply IH.
    + apply Hstep; [lia|exact H0].
    + intros k s' Hk. apply Hstep. lia.
Qed.

Lemma add_if_nonneg trace BIT t count : 0 <= t -> 0 <= count -> 0 <= add_if trace BIT t count.
Proof. unfold add_if. destruct (negb _); lia. Qed.

Lemma add_if_le trace BIT t count : 0 <= t -> count <= add_if trace BIT t count.
Proof. unfold add_if. destruct (negb _); lia. Qed.

Lemma add_if_bound trace BIT t count : 0 <= t -> add_if trace BIT t count <= count + t.
Proof. unfold add_if. destruct (negb _); lia. Qed.

Lemma paths_first_row_nonneg M j : 0 <= paths_first_row M j.
Proof. induction j; simpl; [lia|apply add_if_nonneg; lia]. Qed.

Lemma paths_next_row_nonneg M i above j :
  (forall k, 0 <= above k) -> 0 <= paths_next_row M i above j.
Proof.
  intros H. induction j; simpl; repeat apply add_if_nonneg; auto; lia.
Qed.

Lemma paths_to_nonneg M i j : 0 <= paths_to M i j.
Proof.
  revert j. induction i; intros j; simpl.
  - apply paths_first_row_nonneg.
  - apply paths_next_row_nonneg. exact IHi.
Qed.

Lemma paths_to_bound M i j : paths_to M i j <= 3 ^ Z.of_nat (i + j).
Proof.
  revert j. induction i as [|i IH]; intros j.
  - induction j as [|j IHj]; simpl; [lia|].
    pose proof (add_if_bound (trace_of (cell M 0 (S j))) HORIZONTAL (paths_first_row M j) 0
                  (paths_first_row_nonneg M j)).
    simpl in IHj.
    assert (3 ^ Z.of_nat j <= 3 ^ Z.of_nat (S j)) by (apply Z.pow_le_mono_r; lia).
    lia.
  - induction j as [|j IHj].
    + simpl paths_to.
      pose proof (add_if_bound (trace_of (cell M (S i) 0)) VERTICAL (paths_to M i 0) 0
                    (paths_to_nonneg M i 0)).
      pose proof (IH 0%nat).
      assert (3 ^ Z.of_nat (i + 0) <= 3 ^ Z.of_nat (S i + 0)) by (apply Z.pow_le_mono_r; lia).
      lia.
    + change (paths_to M (S i) (S j)) with
        (add_if (trace_of (cell M (S i) (S j))) DIAGONAL (paths_to M i j)
           (add_if (trace_of (cell M (S i) (S j))) VERTICAL (paths_to M i (S j))
              (add_if (trace_of (cell M (S i) (S j))) HORIZONTAL (paths_to M (S i) j) 0))).
      set (tr := trace_of (cell M (S i) (S j))).
      pose proof (paths_to_nonneg M i j). pose proof (paths_to_nonneg M i (S j)).
      pose proof (paths_to_nonneg M (S i) j).
      pose proof (add_if_bound tr HORIZONTAL (paths_to M (S i) j) 0 ltac:(lia)).
      pose proof (add_if_bound tr VERTICAL (paths_to M i (S j))
                    (add_if tr HORIZONTAL (paths_to M (S i) j) 0) ltac:(lia)).
      pose proof (add_if_bound tr DIAGONAL (paths_to M i j)
                    (add_if tr VERTICAL (paths_to M i (S j))
                      (add_if tr HORIZONTAL (paths_to M (S i) j) 0)) ltac:(lia)).
      pose proof (IH j). pose proof (IH (S j)).
      assert (E : Z.of_nat (S i + S j) = Z.of_nat (i + S j) + 1) by lia.
      rewrite E, Z.pow_add_r by lia.
      assert (3 ^ Z.of_nat (i + j) <= 3 ^ Z.of_nat (i + S j)) by (apply Z.pow_le_mono_r; lia).
      replace (S i + j)%nat with (i + S j)%nat in IHj by lia.
      lia.
Qed.

(** [SAFE_ADD] is the plain sum as long as the sum fits. *)
Lemma SAFE_ADD_if_exact trace BIT t count :
  0 <= t <= PY_SSIZE_T_MAX -> 0 <= count ->
  add_if trace BIT t count <= PY_SSIZE_T_MAX ->
  SAFE_ADD_if trace BIT t count = add_if trace BIT t count.
Proof.
  unfold SAFE_ADD_if, add_if. intros Ht Hc H.
  destruct (negb _); [|reflexivity].
  rewrite SAFE_ADD_counts by lia.
  destruct (Z.leb_spec (t + count) PY_SSIZE_T_MAX); lia.
Qed.

Section PathCount.

Variable M : list (list Trace).
Variable nA nB : nat.
Hypothesis fits : forall i j, (i <= nA)%nat -> (j <= nB)%nat -> paths_to M i j <= PY_SSIZE_T_MAX.

Lemma row_state_insert new old j counts :
  (j <= nB)%nat ->
  row_state nB new old j counts -> row_state nB new old (S j) (<[j := new j]> counts).
Proof.
  intros Hj (Hlen & Hnew & Hold). split; [|split].
  - rewrite length_insert. exact Hlen.
  - intros k Hk. destruct (Nat.eq_dec k j) as [->|Hne].
    + apply list_lookup_total_insert_eq. lia.
    + rewrite list_lookup_total_insert_ne by lia. apply Hnew. lia.
  - intros k Hk. rewrite list_lookup_total_insert_ne by lia. apply Hold. lia.
Qed.

Lemma first_row_loop :
  let r := for_range 1 (S nB) (fun j '(counts, count) =>
      let trace := trace_of (cell M 0 j) in
      let count := 0 in
      let count := SAFE_ADD_if trace HORIZONTAL (counts !!! (j - 1)%nat) count in
      let counts := <[j := count]> counts in
      (counts, count)) (<[0%nat := 1]> (replicate (S nB) 0), MEMORY_ERROR) in
  row_state nB (paths_to M 0) (fun _ => 0) (S nB) (fst r) /\
  snd r = if (nB =? 0)%nat then MEMORY_ERROR else paths_to M 0 nB.
Proof.
  intros r. subst r. unfold for_range.
  replace (S nB - 1)%nat with nB by lia.
  set (body := fun (j : nat) '(counts, count) => _).
  pose (P := fun (j : nat) (st : list Z * Z) =>
               row_state nB (paths_to M 0) (fun _ => 0) j (fst st) /\
               snd st = if (j =? 1)%nat then MEMORY_ERROR else paths_to M 0 (j - 1)).
  assert (H : P (1 + nB)%nat (for_loop nB 1 body
              (<[0%nat := 1]> (replicate (S nB) 0), MEMORY_ERROR))).
  { apply for_loop_invariant.
    - split; [|reflexivity]. split; [|split]; simpl.
      + rewrite length_replicate. reflexivity.
      + intros k Hk. replace k with 0%nat by lia. reflexivity.
      + intros k Hk. destruct k as [|k]; [lia|]. simpl.
        apply lookup_total_replicate_2. lia.
    - intros k [counts count] Hk [Hrow _]. unfold body. cbv zeta.
      assert (Hprev : counts !!! (k - 1)%nat = paths_to M 0 (k - 1))
        by (apply Hrow; lia).
      assert (Hex : SAFE_ADD_if (trace_of (cell M 0 k)) HORIZONTAL (counts !!! (k - 1)%nat) 0
                    = paths_to M 0 k).
      { rewrite Hprev. destruct k as [|k]; [lia|].
        replace (S k - 1)%nat with k by lia.
        pose proof (fits 0 k ltac:(lia) ltac:(lia)).
        pose proof (fits 0 (S k) ltac:(lia) ltac:(lia)) as Hf. simpl in Hf.
        pose proof (paths_to_nonneg M 0 k).
        rewrite SAFE_ADD_if_exact; [reflexivity|lia|lia|exact Hf]. }
      rewrite Hex. split; simpl.
      + apply row_state_insert; [lia|exact Hrow].
      + destruct k as [|k]; [lia|]. simpl. rewrite ?Nat.sub_0_r. reflexivity. }
  destruct H as [H1 H2]. split; [exact H1|].
  rewrite H2. destruct nB; simpl; [reflexivity|]. rewrite ?Nat.sub_0_r. reflexivity.
Qed.

Lemma row_state_done new old counts :
  row_state nB new old (S nB) counts -> forall old', row_state nB new old' (S nB) counts.
Proof.
  intros (Hlen & Hnew & _) old'. split; [exact Hlen|]. split; [exact Hnew|]. intros k Hk. lia.
Qed.

Lemma row_state_start new old counts :
  row_state nB old (fun _ => 0) (S nB) counts ->
  row_state nB new old 1 (<[0%nat := new 0%nat]> counts).
Proof.
  intros (Hlen & Hnew & _). split; [|split].
  - rewrite length_insert. exact Hlen.
  - intros k Hk. replace k with 0%nat by lia. apply list_lookup_total_insert_eq. lia.
  - intros k Hk. rewrite list_lookup_total_insert_ne by lia. apply Hnew. lia.
Qed.

Lemma next_row_loop (i : nat) (counts : list Z) (count0 temp0 : Z) :
  (1 <= i <= nA)%nat ->
  row_state nB (paths_to M (i - 1)) (fun _ => 0) (S nB) counts ->
  let r :=
    (let trace := trace_of (cell M i 0) in
     let count := 0 in
     let count := SAFE_ADD_if trace VERTICAL (counts !!! 0%nat) count in
     let temp := counts !!! 0%nat in
     let counts := <[0%nat := count]> counts in
     for_range 1 (S nB) (fun j '(counts, count, temp) =>
       let trace := trace_of (cell M i j) in
       let count := 0 in
       let count := SAFE_ADD_if trace HORIZONTAL (counts !!! (j - 1)%nat) count in
       let count := SAFE_ADD_if trace VERTICAL (counts !!! j) count in
       let count := SAFE_ADD_if trace DIAGONAL temp count in
       let temp := counts !!! j in
       let counts := <[j := count]> counts in
       (counts, count, temp)) (counts, count, temp)) in
  row_state nB (paths_to M i) (fun _ => 0) (S nB) (fst (fst r)) /\
  snd (fst r) = paths_to M i nB.
Proof.
  intros Hi Hrow. cbv zeta.
  destruct i as [|i']; [lia|]. replace (S i' - 1)%nat with i' in Hrow by lia.
  set (i := S i') in *.
  assert (H0 : counts !!! 0%nat = paths_to M i' 0) by (apply Hrow; lia).
  assert (Hc0 : SAFE_ADD_if (trace_of (cell M i 0)) VERTICAL (counts !!! 0%nat) 0
                = paths_to M i 0).
  { rewrite H0. pose proof (fits i' 0 ltac:(lia) ltac:(lia)).
    pose proof (fits i 0 ltac:(lia) ltac:(lia)) as Hf. simpl in Hf.
    pose proof (paths_to_nonneg M i' 0).
    rewrite SAFE_ADD_if_exact; [reflexivity|lia|lia|exact Hf]. }
  rewrite Hc0, H0. unfold for_range.
  replace (S nB - 1)%nat with nB by lia.
  set (body := fun (j : nat) '(counts, count, temp) => _).
  pose (P := fun (j : nat) (st : list Z * Z * Z) =>
               row_state nB (paths_to M i) (paths_to M i') j (fst (fst st)) /\
               snd (fst st) = paths_to M i (j - 1) /\
               snd st = paths_to M i' (j - 1)).
  assert (H : P (1 + nB)%nat (for_loop nB 1 body
              (<[0%nat := paths_to M i 0]> counts, paths_to M i 0, paths_to M i' 0))).
  { apply for_loop_invariant.
    - split; [|split; reflexivity]. simpl fst. apply row_state_start. exact Hrow.
    - intros k [[cs c] t] Hk (Hrs & _ & Ht). simpl in Hrs, Ht. unfold body. cbv zeta.
      destruct k as [|k]; [lia|].
      replace (S k - 1)%nat with k in * by lia.
      assert (Hl : cs !!! k = paths_to M i k) by (apply Hrs; lia).
      assert (Hu : cs !!! (S k) = paths_to M i' (S k)) by (apply Hrs; lia).
      pose proof (fits i k ltac:(lia) ltac:(lia)).
      pose proof (fits i' (S k) ltac:(lia) ltac:(lia)).
      pose proof (fits i' k ltac:(lia) ltac:(lia)).
      pose proof (fits i (S k) ltac:(lia) ltac:(lia)) as Hf.
      pose proof (paths_to_nonneg M i k). pose proof (paths_to_nonneg M i' k).
      pose proof (paths_to_nonneg M i' (S k)).
      change (paths_to M i (S k)) with
        (add_if (trace_of (cell M i (S k))) DIAGONAL (paths_to M i' k)
           (add_if (trace_of (cell M i (S k))) VERTICAL (paths_to M i' (S k))
              (add_if (trace_of (cell M i (S k))) HORIZONTAL (paths_to M i k) 0)))
        in Hf.
      set (tr := trace_of (cell M i (S k))) in *.
      assert (A1 : 0 <= add_if tr HORIZONTAL (paths_to M i k) 0) by (apply add_if_nonneg; lia).
      assert (A2 : add_if tr HORIZONTAL (paths_to M i k) 0
                   <= add_if tr VERTICAL (paths_to M i' (S k))
                        (add_if tr HORIZONTAL (paths_to M i k) 0)) by (apply add_if_le; lia).
      assert (A3 : add_if tr VERTICAL (paths_to M i' (S k))
                        (add_if tr HORIZONTAL (paths_to M i k) 0)
                   <= add_if tr DIAGONAL (paths_to M i' k)
                        (add_if tr VERTICAL (paths_to M i' (S k))
                           (add_if tr HORIZONTAL (paths_to M i k) 0))) by (apply add_if_le; lia).
      rewrite Hl, Hu, Ht.
      rewrite (SAFE_ADD_if_exact tr HORIZONTAL) by lia.
      rewrite (SAFE_ADD_if_exact tr VERTICAL) by lia.
      rewrite (SAFE_ADD_if_exact tr DIAGONAL) by lia.
      split; [|split]; simpl fst; simpl snd.
      + apply (row_state_insert (paths_to M i) (paths_to M i') (S k) cs);
          [lia|exact Hrs].
      + replace (S (S k) - 1)%nat with (S k) by lia. reflexivity.
      + replace (S (S k) - 1)%nat with (S k) by lia. reflexivity. }
  destruct H as (H1 & H2 & _). split.
  - apply (row_state_done _ _ _ H1).
  - rewrite H2. replace (1 + nB - 1)%nat with nB by lia. reflexivity.
Qed.

Lemma needlemanwunsch_length_exact (self : PathGenerator) :
  pg_M self = M -> pg_nA self = nA -> pg_nB self = nB ->
  PathGenerator_needlemanwunsch_length self =
    if (nA =? 0)%nat && (nB =? 0)%nat then MEMORY_ERROR else paths_to M nA nB.
Proof.
  intros HM HA HB. unfold PathGenerator_needlemanwunsch_length. rewrite HM, HA, HB.
  cbv zeta.
  pose proof first_row_loop as H1. cbv zeta in H1.
  destruct (for_range 1 (S nB) _ _) as [counts count].
  simpl in H1. destruct H1 as [Hrow Hcount].
  unfold for_range at 1. replace (S nA - 1)%nat with nA by lia.
  set (body := fun (i : nat) '(counts, count, temp) => _).
  pose (P := fun (i : nat) (st : list Z * Z * Z) =>
               row_state nB (paths_to M (i - 1)) (fun _ => 0) (S nB) (fst (fst st)) /\
               snd (fst st) = if (i =? 1)%nat then count else paths_to M (i - 1) nB).
  assert (H : P (1 + nA)%nat (for_loop nA 1 body (counts, count, 0))).
  { apply for_loop_invariant.
    - split; [exact Hrow|reflexivity].
    - intros k [[cs c] t] Hk [Hrs _]. simpl in Hrs. unfold body.
      pose proof (next_row_loop k cs c t ltac:(lia) Hrs) as Hn. cbv zeta in Hn.
      destruct Hn as [Hn1 Hn2]. split.
      + replace (S k - 1)%nat with k by lia. exact Hn1.
      + replace (S k - 1)%nat with k by lia.
        destruct k as [|k]; [lia|]. simpl Nat.eqb. exact Hn2. }
  destruct (for_loop nA 1 body (counts, count, 0)) as [[cs c] t].
  destruct H as [_ H]. simpl in H. rewrite H.
  replace (nA - 0)%nat with nA by lia.
  destruct nA as [|a]; simpl.
  - rewrite Hcount. destruct nB; reflexivity.
  - destruct a; reflexivity.
Qed.



End PathCount.

(** ** The grid of the Needleman-Wunsch align pass *)

(** Reading a cell after a store into the grid. *)
Lemma cell_insert_eq (M : list (list Trace)) (i j : nat) (c : Trace) :
  (i < length M)%nat -> (j < length (M !!! i))%nat ->
  cell (<[i := <[j := c]> (M !!! i)]> M) i j = c.
Proof.
  intros Hi Hj. unfold cell.
  rewrite list_lookup_total_insert_eq by exact Hi.
  apply list_lookup_total_insert_eq. exact Hj.
Qed.

Lemma cell_insert_ne (M : list (list Trace)) (i j i' j' : nat) (c : Trace) :
  (i', j') <> (i, j) ->
  cell (<[i := <[j := c]> (M !!! i)]> M) i' j' = cell M i' j'.
Proof.
  intros Hne. unfold cell.
  destruct (Nat.eq_dec i i') as [<-|Hi].
  - destruct (Nat.lt_ge_cases i (length M)) as [Hlt|Hge].
    + rewrite list_lookup_total_insert_eq by exact Hlt.
      apply list_lookup_total_insert_ne. congruence.
    + rewrite list_insert_ge by exact Hge. reflexivity.
  - rewrite list_lookup_total_insert_ne by exact Hi. reflexivity.
Qed.

Lemma length_grid_insert (M : list (list Trace)) (i j k : nat) (c : Trace) :
  length (<[i := <[j := c]> (M !!! i)]> M) = length M /\
  length ((<[i := <[j := c]> (M !!! i)]> M) !!! k) = length (M !!! k).
Proof.
  split; [apply length_insert|].
  destruct (Nat.eq_dec i k) as [<-|Hi].
  - destruct (Nat.lt_ge_cases i (length M)) as [Hlt|Hge].
    + rewrite list_lookup_total_insert_eq by exact Hlt. apply length_insert.
    + rewrite list_insert_ge by exact Hge. reflexivity.
  - rewrite list_lookup_total_insert_ne by exact Hi. reflexivity.
Qed.

Lemma grid_written_store (nA nB i j : nat) (t : Z) (M : list (list Trace)) :
  (1 <= i <= nA)%nat -> (1 <= j <= nB)%nat -> 1 <= t <= 7 -> Z.land t 31 = t ->
  grid_written nA nB i j M -> grid_written nA nB i (S j) (store_trace i j t M).
Proof.
  intros Hi Hj Ht Ht' (Hlen & Hrows & H00 & Hrow & Hcol & Hin & Hpath).
  unfold store_trace. rewrite Ht'.
  split; [|split; [|split; [|split; [|split; [|split]]]]].
  - rewrite length_insert. exact Hlen.
  - intros k Hk. rewrite (proj2 (length_grid_insert M i j k _)). apply Hrows, Hk.
  - rewrite cell_insert_ne by (intros E; injection E; lia). exact H00.
  - intros l Hl. rewrite cell_insert_ne by (intros E; injection E; lia). apply Hrow, Hl.
  - intros k Hk. rewrite cell_insert_ne by (intros E; injection E; lia). apply Hcol, Hk.
  - intros k l Hk Hl Hw.
    destruct (decide ((k, l) = (i, j))) as [E|E].
    + injection E as -> ->. rewrite cell_insert_eq; [exact Ht| |].
      * rewrite Hlen. lia.
      * rewrite Hrows by lia. lia.
    + rewrite cell_insert_ne by exact E. apply Hin; [exact Hk|exact Hl|].
      destruct Hw as [Hw|[-> Hw]]; [left; exact Hw|].
      right. split; [reflexivity|]. destruct (Nat.eq_dec l j); [subst; congruence|lia].
  - intros k l.
    destruct (decide ((k, l) = (i, j))) as [E|E].
    + injection E as -> ->.
      destruct (Nat.lt_ge_cases i (length M)) as [Hlt|Hge]; [|lia].
      rewrite cell_insert_eq; [apply Hpath|exact Hlt|]. rewrite Hrows by lia. lia.
    + rewrite cell_insert_ne by exact E. apply Hpath.
Qed.

Lemma grid_written_next_row (nA nB i j : nat) (M : list (list Trace)) :
  (nB < j)%nat -> grid_written nA nB i j M -> grid_written nA nB (S i) 1 M.
Proof.
  intros Hj (Hlen & Hrows & H00 & Hrow & Hcol & Hin & Hpath).
  repeat split; auto; apply Hin; auto; lia.
Qed.

(** The trace that the Needleman-Wunsch macro stores. *)
Lemma SELECT_TRACE_NEEDLEMAN_WUNSCH_stores (epsilon : double) (i j : nat)
  (hgap vgap a : double) (st : list double * double * double * list (list Trace)) :
  exists t, 1 <= t <= 7 /\ Z.land t 31 = t /\
    snd (SELECT_TRACE_NEEDLEMAN_WUNSCH epsilon i j hgap vgap a st) = store_trace i j t (snd st).
Proof.
  destruct st as [[[row temp] score] M].
  rewrite SELECT_TRACE_NEEDLEMAN_WUNSCH_consider. cbv zeta.
  eexists. split; [|split; [|reflexivity]];
    apply (chain_trace epsilon DIAGONAL HORIZONTAL VERTICAL); left; reflexivity.
Qed.

Lemma store_trace_shape nA nB i j t M :
  grid_shape nA nB M -> grid_shape nA nB (store_trace i j t M).
Proof.
  intros [Hlen Hrows]. unfold store_trace. split.
  - rewrite length_insert. exact Hlen.
  - intros k Hk. rewrite (proj2 (length_grid_insert M i j k _)). apply Hrows, Hk.
Qed.

Lemma store_path_shape nA nB i j p M :
  grid_shape nA nB M -> grid_shape nA nB (store_path i j p M).
Proof.
  intros [Hlen Hrows]. unfold store_path. split.
  - rewrite length_insert. exact Hlen.
  - intros k Hk. rewrite (proj2 (length_grid_insert M i j k _)). apply Hrows, Hk.
Qed.

Lemma cell_store_trace nA nB i j t M :
  grid_shape nA nB M -> (i <= nA)%nat -> (j <= nB)%nat ->
  cell (store_trace i j t M) i j = {| trace := Z.land t 31; path := path (cell M i j) |}.
Proof.
  intros [Hlen Hrows] Hi Hj. unfold store_trace.
  apply cell_insert_eq; [lia|rewrite Hrows by lia; lia].
Qed.

Lemma cell_store_trace_ne i j t M i' j' :
  (i', j') <> (i, j) -> cell (store_trace i j t M) i' j' = cell M i' j'.
Proof. intros H. unfold store_trace. apply cell_insert_ne, H. Qed.

Lemma cell_store_path nA nB i j p M :
  grid_shape nA nB M -> (i <= nA)%nat -> (j <= nB)%nat ->
  cell (store_path i j p M) i j = {| trace := trace (cell M i j); path := Z.land p 7 |}.
Proof.
  intros [Hlen Hrows] Hi Hj. unfold store_path.
  apply cell_insert_eq; [lia|rewrite Hrows by lia; lia].
Qed.

Lemma cell_store_path_ne i j p M i' j' :
  (i', j') <> (i, j) -> cell (store_path i j p M) i' j' = cell M i' j'.
Proof. intros H. unfold store_path. apply cell_insert_ne, H. Qed.

(** A store of a trace keeps every path field, and the other way round. *)
Lemma path_store_trace i j t M i' j' :
  path_of (cell (store_trace i j t M) i' j') = path_of (cell M i' j').
Proof.
  destruct (decide ((i', j') = (i, j))) as [E|E].
  - injection E as -> ->. unfold store_trace, cell.
    destruct (Nat.lt_ge_cases i (length M)) as [Hi|Hi].
    + rewrite list_lookup_total_insert_eq by exact Hi.
      destruct (Nat.lt_ge_cases j (length (M !!! i))) as [Hj|Hj].
      * rewrite list_lookup_total_insert_eq by exact Hj. reflexivity.
      * rewrite list_insert_ge by exact Hj. reflexivity.
    + rewrite list_insert_ge by exact Hi. reflexivity.
  - rewrite cell_store_trace_ne by exact E. reflexivity.
Qed.

Lemma trace_store_path i j p M i' j' :
  trace_of (cell (store_path i j p M) i' j') = trace_of (cell M i' j').
Proof.
  destruct (decide ((i', j') = (i, j))) as [E|E].
  - injection E as -> ->. unfold store_path, cell.
    destruct (Nat.lt_ge_cases i (length M)) as [Hi|Hi].
    + rewrite list_lookup_total_insert_eq by exact Hi.
      destruct (Nat.lt_ge_cases j (length (M !!! i))) as [Hj|Hj].
      * rewrite list_lookup_total_insert_eq by exact Hj. reflexivity.
      * rewrite list_insert_ge by exact Hj. reflexivity.
    + rewrite list_insert_ge by exact Hi. reflexivity.
  - rewrite cell_store_path_ne by exact E. reflexivity.
Qed.

Lemma cell_replicate nA nB c i j :
  (i <= nA)%nat -> (j <= nB)%nat -> cell (replicate (S nA) (replicate (S nB) c)) i j = c.
Proof.
  intros Hi Hj. unfold cell.
  rewrite lookup_total_replicate_2 by lia. apply lookup_total_replicate_2. lia.
Qed.

(** The grid that [PathGenerator_create_NWSW] hands to the global pass. *)
Lemma PathGenerator_create_NWSW_Global (nA nB : nat) (strand : ascii) :
  exists paths, PathGenerator_create_NWSW nA nB Global strand = Ok paths /\
    pg_nA paths = nA /\ pg_nB paths = nB /\ pg_strand paths = strand /\
    pg_mode paths = Global /\ pg_algorithm paths = NeedlemanWunschSmithWaterman /\
    pg_length paths = 0 /\
    grid_written nA nB 1 1 (pg_M paths).
Proof.
  unfold PathGenerator_create_NWSW. cbn [Mode_eqb].
  eexists. split; [reflexivity|]. cbn [pg_nA pg_nB pg_strand pg_mode pg_algorithm pg_length pg_M].
  repeat (split; [reflexivity|]).
  set (M0 := replicate (S nA) (replicate (S nB) {| trace := 0; path := 0 |})).
  assert (H0 : grid_shape nA nB M0 /\ forall k l, path_of (cell M0 k l) = 0).
  { split; [split|].
    - apply length_replicate.
    - intros k Hk. unfold M0. rewrite lookup_total_replicate_2 by lia. apply length_replicate.
    - intros k l. unfold M0, cell.
      destruct (Nat.lt_ge_cases k (S nA)) as [Hk|Hk].
      + rewrite lookup_total_replicate_2 by lia.
        destruct (Nat.lt_ge_cases l (S nB)) as [Hl|Hl].
        * rewrite lookup_total_replicate_2 by lia. reflexivity.
        * rewrite list_lookup_total_alt, lookup_ge_None_2
            by (rewrite length_replicate; lia). reflexivity.
      + rewrite (list_lookup_total_alt (replicate _ _) k), lookup_ge_None_2
          by (rewrite length_replicate; lia).
        simpl. destruct l; reflexivity. }
  set (M1 := for_range 0 (S nA) (fun i M => store_trace i 0 VERTICAL M) M0).
  assert (H1 : grid_shape nA nB M1 /\ (forall k l, path_of (cell M1 k l) = 0) /\
               forall k, (k <= nA)%nat -> trace_of (cell M1 k 0) = VERTICAL).
  { unfold M1, for_range. rewrite Nat.sub_0_r.
    pose (P := fun (i : nat) (M : list (list Trace)) =>
                 grid_shape nA nB M /\ (forall k l, path_of (cell M k l) = 0) /\
                 forall k, (k < i)%nat -> trace_of (cell M k 0) = VERTICAL).
    assert (H : P (0 + S nA)%nat
                  (for_loop (S nA) 0 (fun i M => store_trace i 0 VERTICAL M) M0)).
    { apply for_loop_invariant.
      - destruct H0 as [Hs Hp]. split; [exact Hs|]. split; [exact Hp|]. intros k Hk. lia.
      - intros i M Hi (Hs & Hp & Hc). split; [|split].
        + apply store_trace_shape, Hs.
        + intros k l. rewrite path_store_trace. apply Hp.
        + intros k Hk. destruct (Nat.eq_dec k i) as [->|Hne].
          * rewrite (cell_store_trace nA nB) by (assumption || lia). reflexivity.
          * rewrite cell_store_trace_ne by congruence. apply Hc. lia. }
    destruct H as (Hs & Hp & Hc). split; [exact Hs|]. split; [exact Hp|].
    intros k Hk. apply Hc. lia. }
  clearbody M1. clear H0 M0. destruct H1 as (Hs1 & Hp1 & Hc1).
  set (M2 := store_trace 0 0 0 M1).
  set (M3 := for_range 1 (S nB) (fun i M => store_trace 0 i HORIZONTAL M) M2).
  assert (H3 : grid_shape nA nB M3 /\ (forall k l, path_of (cell M3 k l) = 0) /\
               trace_of (cell M3 0 0) = 0 /\
               (forall k, (1 <= k <= nA)%nat -> trace_of (cell M3 k 0) = VERTICAL) /\
               (forall l, (1 <= l <= nB)%nat -> trace_of (cell M3 0 l) = HORIZONTAL)).
  { unfold M3, for_range. replace (S nB - 1)%nat with nB by lia.
    pose (P := fun (j : nat) (M : list (list Trace)) =>
                 grid_shape nA nB M /\ (forall k l, path_of (cell M k l) = 0) /\
                 trace_of (cell M 0 0) = 0 /\
                 (forall k, (1 <= k <= nA)%nat -> trace_of (cell M k 0) = VERTICAL) /\
                 (forall l, (1 <= l < j)%nat -> trace_of (cell M 0 l) = HORIZONTAL)).
    assert (H : P (1 + nB)%nat
                  (for_loop nB 1 (fun i M => store_trace 0 i HORIZONTAL M) M2)).
    { apply for_loop_invariant.
      - unfold M2. split; [|split; [|split; [|split]]].
        + apply store_trace_shape, Hs1.
        + intros k l. rewrite path_store_trace. apply Hp1.
        + rewrite (cell_store_trace nA nB) by (assumption || lia). reflexivity.
        + intros k Hk. rewrite cell_store_trace_ne by (intros E; injection E; lia).
          apply Hc1. lia.
        + intros l Hl. lia.
      - intros j M Hj (Hs & Hp & H00 & Hc & Hr). split; [|split; [|split; [|split]]].
        + apply store_trace_shape, Hs.
        + intros k l. rewrite path_store_trace. apply Hp.
        + rewrite cell_store_trace_ne by (intros E; injection E; lia). exact H00.
        + intros k Hk. rewrite cell_store_trace_ne by (intros E; injection E; lia).
          apply Hc, Hk.
        + intros l Hl. destruct (Nat.eq_dec l j) as [->|Hne].
          * rewrite (cell_store_trace nA nB) by (assumption || lia). reflexivity.
          * rewrite cell_store_trace_ne by congruence. apply Hr. lia. }
    destruct H as (Hs & Hp & H00 & Hc & Hr). repeat split; auto; try apply Hs.
    intros l Hl. apply Hr. lia. }
  clearbody M3. destruct H3 as (Hs & Hp & H00 & Hc & Hr).
  destruct (store_path_shape nA nB 0 0 0 M3 Hs) as [Hl' Hr'].
  split; [exact Hl'|]. split; [exact Hr'|].
  split; [rewrite trace_store_path; exact H00|].
  split; [intros l Hl; rewrite trace_store_path; apply Hr, Hl|].
  split; [intros k Hk; rewrite trace_store_path; apply Hc, Hk|].
  split; [intros k l Hk Hl Hw; lia|].
  intros k l. destruct (decide ((k, l) = (0%nat, 0%nat))) as [E|E].
  - injection E as -> ->. rewrite (cell_store_path nA nB) by (assumption || lia). reflexivity.
  - rewrite cell_store_path_ne by exact E. apply Hp.
Qed.

Lemma row_loop_grid (nA nB i : nat) (body : nat -> nw_state -> nw_state) (st : nw_state) :
  writes_cell i body -> (1 <= i <= nA)%nat -> (1 <= nB)%nat ->
  grid_written nA nB i 1 (snd st) ->
  grid_written nA nB i nB (snd (for_range 1 nB body st)).
Proof.
  intros Hbody Hi HnB H. unfold for_range.
  pose (P := fun (j : nat) (st : nw_state) => grid_written nA nB i j (snd st)).
  assert (HP : P (1 + (nB - 1))%nat (for_loop (nB - 1) 1 body st)).
  { apply for_loop_invariant; [exact H|].
    intros j s Hj Hs. unfold P in *.
    destruct (Hbody j s) as (t & Ht & Ht' & ->).
    apply grid_written_store; (lia || assumption). }
  replace (1 + (nB - 1))%nat with nB in HP by lia. exact HP.
Qed.

Lemma NEEDLEMANWUNSCH_ALIGN_grid (align_score : Z -> Z -> double) (self : Aligner)
  (sA : Z -> Z) (nA : nat) (sB : Z -> Z) (nB : nat) (strand : ascii)
  (score : double) (paths : PathGenerator) :
  (1 <= nA)%nat -> (1 <= nB)%nat ->
  NEEDLEMANWUNSCH_ALIGN align_score self sA nA sB nB strand = Ok (score, paths) ->
  pg_nA paths = nA /\ pg_nB paths = nB /\ pg_strand paths = strand /\
  pg_mode paths = Global /\ pg_algorithm paths = NeedlemanWunschSmithWaterman /\
  pg_length paths = 0 /\
  grid_written nA nB (S nA) 1 (pg_M paths).
Proof.
  intros HnA HnB. unfold NEEDLEMANWUNSCH_ALIGN.
  destruct (NEEDLEMANWUNSCH_strand self strand) as [[[[lA rA] lB] rB]|]; [|discriminate].
  destruct (PathGenerator_create_NWSW_Global nA nB strand)
    as (paths0 & -> & HA & HB & Hst & Hmode & Halg & Hlen & Hgrid).
  cbv zeta.
  set (row0 := for_range 1 (S nB) _ _).
  set (outer := for_range 1 nA _ _).
  assert (Houter : grid_written nA nB nA 1 (snd outer)).
  { unfold outer. unfold for_range at 1.
    pose (P := fun (i : nat) (st : nw_state) => grid_written nA nB i 1 (snd st)).
    match goal with
    | |- grid_written _ _ _ _ (snd (for_loop ?n 1 ?body ?s)) =>
      assert (HP : P (1 + n)%nat (for_loop n 1 body s))
    end.
    { apply for_loop_invariant; [exact Hgrid|].
      intros i [[[row temp] sc] M] Hi HM. unfold P in *. simpl in HM.
      cbv beta iota zeta.
      match goal with
      | |- context [for_range 1 nB ?body ?s] =>
        assert (HM' : grid_written nA nB i nB (snd (for_range 1 nB body s)))
          by (apply row_loop_grid; try lia; [|exact HM];
              intros j st; apply SELECT_TRACE_NEEDLEMAN_WUNSCH_stores);
        destruct (for_range 1 nB body s) as [[[row' temp'] sc'] M']
      end.
      simpl in HM'.
      replace (Nat.max 1 nB) with nB by lia.
      match goal with
      | |- context [SELECT_TRACE_NEEDLEMAN_WUNSCH ?e ?i ?j ?h ?v ?a ?s] =>
        destruct (SELECT_TRACE_NEEDLEMAN_WUNSCH_stores e i j h v a s) as (t & Ht & Ht' & ->)
      end.
      simpl snd. apply (grid_written_next_row nA nB i (S nB)); [lia|].
      apply grid_written_store; (lia || assumption). }
    replace (1 + (nA - 1))%nat with nA in HP by lia. exact HP. }
  destruct outer as [[[row temp] sc] M]. simpl in Houter.
  replace (Nat.max 1 nA) with nA by lia.
  match goal with
  | |- context [for_range 1 nB ?body ?s] =>
    assert (HM' : grid_written nA nB nA nB (snd (for_range 1 nB body s)))
      by (apply row_loop_grid; try lia; [|exact Houter];
          intros j st; apply SELECT_TRACE_NEEDLEMAN_WUNSCH_stores);
    destruct (for_range 1 nB body s) as [[[row' temp'] sc'] M']
  end.
  simpl in HM'.
  replace (Nat.max 1 nB) with nB by lia.
  match goal with
  | |- context [SELECT_TRACE_NEEDLEMAN_WUNSCH ?e ?i ?j ?h ?v ?a ?s] =>
    pose proof (SELECT_TRACE_NEEDLEMAN_WUNSCH_stores e i j h v a s) as (t & Ht & Ht' & Hs);
    destruct (SELECT_TRACE_NEEDLEMAN_WUNSCH e i j h v a s) as [[[row'' temp''] sc''] M'']
  end.
  simpl in Hs. subst M''.
  intros Heq. injection Heq as <- <-.
  cbn [pg_nA pg_nB pg_strand pg_mode pg_algorithm pg_length pg_M set_pg_M].
  repeat (split; [assumption|]).
  assert (Hlast : grid_written nA nB (S nA) 1 (store_trace nA nB t M')).
  { apply (grid_written_next_row nA nB nA (S nB)); [lia|].
    apply grid_written_store; (lia || assumption). }
  destruct Hlast as (Hl & Hr & H00 & Hrow1 & Hcol & Hin & Hp).
  destruct (store_path_shape nA nB nA nB 0 _ (conj Hl Hr)) as [Hl' Hr'].
  split; [exact Hl'|]. split; [exact Hr'|].
  split; [rewrite trace_store_path; exact H00|].
  split; [intros l Hl2; rewrite trace_store_path; apply Hrow1, Hl2|].
  split; [intros k Hk; rewrite trace_store_path; apply Hcol, Hk|].
  split; [intros k l Hk Hl2 Hw; rewrite trace_store_path; apply Hin; assumption|].
  intros k l. destruct (decide ((k, l) = (nA, nB))) as [E'|E'].
  - injection E' as -> ->.
    rewrite (cell_store_path nA nB); [reflexivity|split; assumption|lia|lia].
  - rewrite cell_store_path_ne by exact E'. apply Hp.
Qed.

Lemma good_trace_bit (t : Z) :
  1 <= t <= 7 ->
  Z.land t HORIZONTAL <> 0 \/ Z.land t VERTICAL <> 0 \/ Z.land t DIAGONAL <> 0.
Proof.
  intros Ht.
  assert (E : t = 1 \/ t = 2 \/ t = 3 \/ t = 4 \/ t = 5 \/ t = 6 \/ t = 7) by lia.
  destruct E as [->|[->|[->|[->|[->|[->| ->]]]]]]; vm_compute; intuition congruence.
Qed.

Lemma add_if_set trace BIT t count :
  Z.land trace BIT <> 0 -> add_if trace BIT t count = count + t.
Proof.
  intros H. unfold add_if. destruct (Z.eqb_spec (Z.land trace BIT) 0); [contradiction|reflexivity].
Qed.

Lemma paths_to_positive (nA nB : nat) (M : list (list Trace)) :
  grid_written nA nB (S nA) 1 M ->
  forall i j, (i <= nA)%nat -> (j <= nB)%nat -> 1 <= paths_to M i j.
Proof.
  intros (_ & _ & _ & Hrow & Hcol & Hin & _).
  induction i as [|i IH]; intros j Hi Hj.
  - induction j as [|j IHj]; simpl; [lia|].
    rewrite add_if_set by (rewrite Hrow by lia; discriminate).
    specialize (IHj ltac:(lia)). simpl in IHj. lia.
  - induction j as [|j IHj].
    + simpl. rewrite add_if_set by (rewrite Hcol by lia; discriminate).
      specialize (IH 0%nat ltac:(lia) ltac:(lia)). lia.
    + change (paths_to M (S i) (S j)) with
        (add_if (trace_of (cell M (S i) (S j))) DIAGONAL (paths_to M i j)
           (add_if (trace_of (cell M (S i) (S j))) VERTICAL (paths_to M i (S j))
              (add_if (trace_of (cell M (S i) (S j))) HORIZONTAL (paths_to M (S i) j) 0))).
      set (tr := trace_of (cell M (S i) (S j))).
      assert (Ht : 1 <= tr <= 7) by (apply Hin; lia).
      pose proof (IH j ltac:(lia) ltac:(lia)).
      pose proof (IH (S j) ltac:(lia) ltac:(lia)).
      specialize (IHj ltac:(lia)).
      pose proof (add_if_le tr HORIZONTAL (paths_to M (S i) j) 0 ltac:(lia)).
      pose proof (add_if_le tr VERTICAL (paths_to M i (S j))
                    (add_if tr HORIZONTAL (paths_to M (S i) j) 0) ltac:(lia)).
      pose proof (add_if_le tr DIAGONAL (paths_to M i j)
                    (add_if tr VERTICAL (paths_to M i (S j))
                       (add_if tr HORIZONTAL (paths_to M (S i) j) 0)) ltac:(lia)).
      destruct (good_trace_bit tr Ht) as [Hb|[Hb|Hb]].
      * rewrite (add_if_set tr HORIZONTAL) in * by exact Hb. lia.
      * rewrite (add_if_set tr VERTICAL) in * by exact Hb. lia.
      * rewrite (add_if_set tr DIAGONAL) in * by exact Hb. lia.
Qed.

(** X7. [PathGenerator_needlemanwunsch_length] counts the paths of the
    grid: when the number of paths to every cell fits [Py_ssize_t], the
    function returns the number of paths from the origin to the last cell,
    as the recurrence over the stored traces gives it in unbounded
    integers. For the grid of a single cell (both sequences empty) no
    count is made and the function returns [MEMORY_ERROR]. *)
Theorem needlemanwunsch_length_counts (self : PathGenerator) :
  (forall i j, (i <= pg_nA self)%nat -> (j <= pg_nB self)%nat ->
               paths_to (pg_M self) i j <= PY_SSIZE_T_MAX) ->
  PathGenerator_needlemanwunsch_length self =
    if (pg_nA self =? 0)%nat && (pg_nB self =? 0)%nat then MEMORY_ERROR
    else paths_to (pg_M self) (pg_nA self) (pg_nB self).
Proof.
  intros H.
  apply (needlemanwunsch_length_exact (pg_M self) (pg_nA self) (pg_nB self) H);
    reflexivity.
Qed.

Lemma needlemanwunsch_length_counts_witness :
  PathGenerator_needlemanwunsch_length three_way_grid = 3.
Proof.
  assert (H : forall i j, (i <= pg_nA three_way_grid)%nat -> (j <= pg_nB three_way_grid)%nat ->
                          paths_to (pg_M three_way_grid) i j <= PY_SSIZE_T_MAX).
  { intros i j Hi Hj. simpl in Hi, Hj.
    destruct i as [|[|i]], j as [|[|j]]; try lia; vm_compute; discriminate. }
  exact (needlemanwunsch_length_counts three_way_grid H).
Defined.

(** X8. A global alignment with linear gap scores always exists. For two
    sequences of at least one letter and strand ['+'] or ['-'], whatever
    the scores are (NaN included), [NEEDLEMANWUNSCH_ALIGN] returns a
    generator whose grid has at least one path from the origin to the last
    cell; and when the path counts fit [Py_ssize_t], [PathGenerator_length]
    returns their number, sets no exception and caches the number. *)
Theorem needlemanwunsch_has_alignment (align_score : Z -> Z -> double) (self : Aligner)
  (sA : Z -> Z) (nA : nat) (sB : Z -> Z) (nB : nat) (strand : ascii)
  (gotoh_global gotoh_local wsb_global wsb_local : PathGenerator -> Z) :
  (1 <= nA)%nat -> (1 <= nB)%nat -> strand = "+"%char \/ strand = "-"%char ->
  exists score paths,
    NEEDLEMANWUNSCH_ALIGN align_score self sA nA sB nB strand = Ok (score, paths) /\
    1 <= paths_to (pg_M paths) nA nB /\
    ((forall i j, (i <= nA)%nat -> (j <= nB)%nat ->
                  paths_to (pg_M paths) i j <= PY_SSIZE_T_MAX) ->
     PathGenerator_length gotoh_global gotoh_local wsb_global wsb_local paths =
       (paths_to (pg_M paths) nA nB, None,
        set_pg_length (paths_to (pg_M paths) nA nB) paths)).
Proof.
  intros HnA HnB Hstrand.
  destruct (NEEDLEMANWUNSCH_total align_score self sA nA sB nB strand Hstrand)
    as [_ (score & paths & Halign)].
  exists score, paths. split; [exact Halign|].
  destruct (NEEDLEMANWUNSCH_ALIGN_grid _ _ _ _ _ _ _ _ _ HnA HnB Halign)
    as (HA & HB & _ & Hmode & Halg & Hlen & Hgrid).
  pose proof (paths_to_positive nA nB (pg_M paths) Hgrid nA nB ltac:(lia) ltac:(lia)) as Hpos.
  split; [exact Hpos|].
  intros Hfits.
  unfold PathGenerator_length, PathGenerator_length_switch.
  rewrite Hlen, Halg, Hmode. simpl (0 =? 0).
  rewrite (needlemanwunsch_length_exact (pg_M paths) nA nB Hfits paths eq_refl HA HB).
  destruct nA as [|a]; [lia|]. simpl andb. cbv iota beta.
  set (n := paths_to (pg_M paths) (S a) nB) in *.
  unfold OVERFLOW_ERROR, MEMORY_ERROR.
  destruct (Z.eqb_spec n (-1)); [lia|]. destruct (Z.eqb_spec n (-2)); [lia|].
  reflexivity.
Qed.

Lemma needlemanwunsch_has_alignment_witness :
  exists score paths,
    NEEDLEMANWUNSCH_ALIGN (COMPARE_SCORE 1 0 (-1)) Aligner_init (fun _ => 0) 2 (fun _ => 0) 3 "+"
      = Ok (score, paths) /\
    1 <= paths_to (pg_M paths) 2 3.
Proof.
  destruct (needlemanwunsch_has_alignment (COMPARE_SCORE 1 0 (-1)) Aligner_init
              (fun _ => 0) 2 (fun _ => 0) 3 "+"
              (fun _ => 0) (fun _ => 0) (fun _ => 0) (fun _ => 0)
              ltac:(lia) ltac:(lia) ltac:(left; reflexivity))
    as (score & paths & H1 & H2 & _).
  exists score, paths. split; assumption.
Defined.

(** X9. Short sequences cannot overflow the path counter: for a grid with
    [nA + nB <= 39] (and at least one letter), whatever traces it holds,
    [PathGenerator_needlemanwunsch_length] returns the exact number of
    paths, which lies between 0 and [3 ^ (nA + nB)] and so is never one of
    the error codes. *)
Theorem short_sequences_counted (self : PathGenerator) :
  (1 <= pg_nA self + pg_nB self <= 39)%nat ->
  PathGenerator_needlemanwunsch_length self
    = paths_to (pg_M self) (pg_nA self) (pg_nB self) /\
  0 <= PathGenerator_needlemanwunsch_length self <= 3 ^ Z.of_nat (pg_nA self + pg_nB self).
Proof.
  intros Hn.
  assert (Hfits : forall i j, (i <= pg_nA self)%nat -> (j <= pg_nB self)%nat ->
                              paths_to (pg_M self) i j <= PY_SSIZE_T_MAX).
  { intros i j Hi Hj. pose proof (paths_to_bound (pg_M self) i j) as Hb.
    assert (3 ^ Z.of_nat (i + j) <= 3 ^ 39) by (apply Z.pow_le_mono_r; lia).
    assert (3 ^ 39 <= PY_SSIZE_T_MAX) by (vm_compute; discriminate).
    lia. }
  rewrite (needlemanwunsch_length_exact (pg_M self) (pg_nA self) (pg_nB self) Hfits self)
    by reflexivity.
  assert (E : (pg_nA self =? 0)%nat && (pg_nB self =? 0)%nat = false).
  { destruct (pg_nA self), (pg_nB self); simpl in *; try reflexivity. lia. }
  rewrite E. split; [reflexivity|]. split.
  - apply paths_to_nonneg.
  - apply paths_to_bound.
Qed.

Lemma short_sequences_counted_witness :
  PathGenerator_needlemanwunsch_length three_way_grid
    = paths_to (pg_M three_way_grid) 1 1.
Proof.
  exact (proj1 (short_sequences_counted three_way_grid ltac:(simpl; lia))).
Defined.

(** ** Rewriting the codes in place *)

Section Rewriting.

Variable MISSING_LETTER : Z.
Variable mapping : Z -> Z.
Variable m : Z.

(** The loop of [_map_indices] from index [lo] on a view that holds the
    codes of [view0] from [lo] on: where it stops, and what the view holds
    then. *)
Lemma map_loop_rewrites (view0 : Py_buffer) (n : nat) :
  forall lo (view : Py_buffer),
  (forall k, Z.of_nat lo <= k -> ibuf view k = ibuf view0 k) ->
  let r := for_loop n lo
    (fun (i : nat) '(view, status) =>
     match status with
     | Err e => (view, Err e)
     | Ok _ =>
       let index := ibuf view (Z.of_nat i) in
       if index <? 0 then (view, Err (ItemNegative (Z.of_nat i) index))
       else if index >=? m then (view, Err (ItemOutOfBound (Z.of_nat i) index m))
       else
         let index := mapping index in
         if index =? MISSING_LETTER
         then (view, Err (ValueError "sequence contains letters not in the alphabet"))
         else (store_index (Z.of_nat i) index view, Ok tt)
     end) (view, Ok tt) in
  exists stop : nat, (lo <= stop <= lo + n)%nat /\
    (forall k, Z.of_nat lo <= k < Z.of_nat stop -> ibuf (fst r) k = mapping (ibuf view0 k)) /\
    (forall k, ~ (Z.of_nat lo <= k < Z.of_nat stop) -> ibuf (fst r) k = ibuf view k) /\
    match snd r with
    | Ok _ => stop = (lo + n)%nat
    | Err e =>
      (stop < lo + n)%nat /\
      code_error MISSING_LETTER (Some mapping) m (Z.of_nat stop) (ibuf view0 (Z.of_nat stop))
      = Some e
    end.
Proof.
  induction n as [|n IH]; intros lo view Hagree.
  - simpl. exists lo. repeat split; try lia.
  - cbn [for_loop]. cbv beta iota zeta.
    assert (Hc : ibuf view (Z.of_nat lo) = ibuf view0 (Z.of_nat lo)) by (apply Hagree; lia).
    assert (Hcheck : code_error MISSING_LETTER (Some mapping) m (Z.of_nat lo)
                       (ibuf view0 (Z.of_nat lo))
                     = code_error MISSING_LETTER (Some mapping) m (Z.of_nat lo)
                         (ibuf view (Z.of_nat lo))) by (rewrite Hc; reflexivity).
    unfold code_error at 2 in Hcheck.
    destruct (ibuf view (Z.of_nat lo) <? 0) eqn:Hneg.
    { rewrite (map_loop_failed MISSING_LETTER mapping m). simpl.
      exists lo. repeat split; try lia. exact Hcheck. }
    destruct (ibuf view (Z.of_nat lo) >=? m) eqn:Hbig.
    { rewrite (map_loop_failed MISSING_LETTER mapping m). simpl.
      exists lo. repeat split; try lia. exact Hcheck. }
    destruct (mapping (ibuf view (Z.of_nat lo)) =? MISSING_LETTER) eqn:Hmiss.
    { rewrite (map_loop_failed MISSING_LETTER mapping m). simpl.
      exists lo. repeat split; try lia. exact Hcheck. }
    set (view' := store_index (Z.of_nat lo) (mapping (ibuf view (Z.of_nat lo))) view).
    assert (Hagree' : forall k, Z.of_nat (S lo) <= k -> ibuf view' k = ibuf view0 k).
    { intros k Hk. unfold view', store_index. simpl.
      destruct (Z.eqb_spec k (Z.of_nat lo)); [lia|apply Hagree; lia]. }
    destruct (IH (S lo) view' Hagree') as (stop & Hs & Hmapped & Hrest & Hend).
    exists stop. split; [lia|]. split; [|split].
    + intros k Hk. destruct (Z.eq_dec k (Z.of_nat lo)) as [->|Hne].
      * rewrite Hrest by lia. unfold view', store_index. simpl.
        rewrite Z.eqb_refl, Hc. reflexivity.
      * apply Hmapped. lia.
    + intros k Hk. rewrite Hrest by lia. unfold view', store_index. simpl.
      destruct (Z.eqb_spec k (Z.of_nat lo)); [lia|reflexivity].
    + destruct (snd _); [lia|]. split; [lia|apply Hend].
Qed.

End Rewriting.

(** X10. [_map_indices] rewrites the caller's buffer in place, also when
    it fails: the codes before the first refused one have been replaced
    by their images under the mapping, the refused code and everything
    after it are left as they were, and the error is the one of that
    code; on success every code has been replaced. *)
Theorem _map_indices_in_place (MISSING_LETTER : Z) (view : Py_buffer) (mapping : Z -> Z) (m : Z) :
  let r := _map_indices MISSING_LETTER view mapping m in
  exists stop, 0 <= stop <= Z.max 0 (items view) /\
    (forall k, 0 <= k < stop -> ibuf (fst r) k = mapping (ibuf view k)) /\
    (forall k, ~ (0 <= k < stop) -> ibuf (fst r) k = ibuf view k) /\
    match snd r with
    | Ok _ => stop = Z.max 0 (items view)
    | Err e =>
      stop < items view /\
      code_error MISSING_LETTER (Some mapping) m stop (ibuf view stop) = Some e
    end.
Proof.
  cbv zeta. unfold _map_indices, for_range. rewrite Nat.sub_0_r. fold (items view).
  destruct (map_loop_rewrites MISSING_LETTER mapping m view (Z.to_nat (items view)) 0 view
              ltac:(reflexivity)) as (stop & Hs & Hmapped & Hrest & Hend).
  exists (Z.of_nat stop). split; [lia|]. split; [|split].
  - intros k Hk. apply Hmapped. lia.
  - intros k Hk. apply Hrest. lia.
  - destruct (snd _); [lia|]. destruct Hend as [H1 H2]. split; [lia|exact H2].
Qed.

(** ** The score of a local alignment *)

Lemma lex_lt_trans a b c : lex_lt a b -> lex_lt b c -> lex_lt a c.
Proof.
  destruct a as [[a1 a2] a3], b as [[b1 b2] b3], c as [[c1 c2] c3]. unfold lex_lt. lia.
Qed.

Lemma feqb_refl_rank (x : double) :
  feqb x x = true <-> rank (Prim2SF x) <> None.
Proof.
  unfold feqb. rewrite FloatAxioms.eqb_spec, SFeqb_true_iff.
  destruct (Prim2SF x) as [s|s| |s mx ex]; simpl; split; intros H;
    try discriminate; try (destruct s; discriminate); auto.
  all: try (right; split; [reflexivity|discriminate]).
  destruct H as [[H _]|[_ H]]; [discriminate|congruence].
Qed.

(** A value above one that is not below zero is not below zero. *)
Lemma not_below_zero_above (x y : double) :
  not_below_zero y -> fgt x y = true -> not_below_zero x.
Proof.
  intros [Hy Hn] Hxy. apply fgt_above in Hxy. unfold above in Hxy.
  apply feqb_refl_rank in Hn.
  destruct (rank (Prim2SF x)) as [a|] eqn:Ha; [|contradiction].
  destruct (rank (Prim2SF y)) as [b|] eqn:Hb; [|contradiction].
  split.
  - destruct (fgt 0 x) eqn:E; [|reflexivity].
    apply fgt_above in E. unfold above in E. rewrite Ha in E.
    assert (Hc : fgt 0 y = true).
    { apply fgt_above. unfold above. rewrite Hb.
      destruct (rank (Prim2SF 0)); [|contradiction].
      eapply lex_lt_trans; eassumption. }
    congruence.
  - apply feqb_refl_rank. rewrite Ha. discriminate.
Qed.

Lemma not_below_zero_0 : not_below_zero 0.
Proof. split; reflexivity. Qed.

Lemma SELECT_SCORE_LOCAL3_maximum (s1 s2 s3 maximum : double) :
  not_below_zero maximum -> not_below_zero (snd (SELECT_SCORE_LOCAL3 s1 s2 s3 maximum)).
Proof.
  intros H. unfold SELECT_SCORE_LOCAL3. cbv zeta.
  destruct (flt _ 0); [exact H|].
  match goal with |- context [fgt ?s maximum] => destruct (fgt s maximum) eqn:E end;
    [|exact H].
  simpl. eapply not_below_zero_above; eassumption.
Qed.

Lemma SELECT_SCORE_LOCAL1_maximum (s1 maximum : double) :
  not_below_zero maximum -> not_below_zero (snd (SELECT_SCORE_LOCAL1 s1 maximum)).
Proof.
  intros H. unfold SELECT_SCORE_LOCAL1. cbv zeta.
  destruct (flt _ 0); [exact H|].
  destruct (fgt s1 maximum) eqn:E; [|exact H].
  simpl. eapply not_below_zero_above; eassumption.
Qed.

(** X11. The score of a local linear-gap alignment is never negative and
    never NaN: whatever the letter scores and gap scores are (NaN and
    infinities included), [SMITHWATERMAN_SCORE] returns a number that is
    not below zero. *)
Theorem smithwaterman_score_not_negative (align_score : Z -> Z -> double) (self : Aligner)
  (sA : Z -> Z) (nA : nat) (sB : Z -> Z) (nB : nat) :
  exists score, SMITHWATERMAN_SCORE align_score self sA nA sB nB = Ok score /\
                not_below_zero score.
Proof.
  unfold SMITHWATERMAN_SCORE. cbv zeta.
  set (row0 := for_range 0 (S nB) _ _).
  pose (Q := fun (st : list double * double * double * double) => not_below_zero (snd st)).
  assert (Hinner1 : forall kA st, Q st ->
            Q (for_range 1 nB (fun j '(row, temp, score, maximum) =>
                 let kB := sB (Z.of_nat j - 1)%Z in
                 let '(score, maximum) :=
                   SELECT_SCORE_LOCAL1 (temp + align_score kA kB) maximum in
                 let temp := row !!! j in
                 let row := <[j := score]> row in
                 (row, temp, score, maximum)) st)).
  { intros kA st Hst. unfold for_range.
    apply (for_loop_invariant (fun _ => Q)); [exact Hst|].
    intros j [[[row temp] score] maximum] _ HQ. unfold Q in *. simpl in HQ. cbv zeta.
    pose proof (SELECT_SCORE_LOCAL1_maximum (temp + align_score kA (sB (Z.of_nat j - 1))) maximum HQ) as H.
    destruct (SELECT_SCORE_LOCAL1 _ _) as [s mx]. exact H. }
  assert (Hinner3 : forall kA st, Q st ->
            Q (for_range 1 nB (fun j '(row, temp, score, maximum) =>
                 let kB := sB (Z.of_nat j - 1)%Z in
                 let '(score, maximum) :=
                   SELECT_SCORE_LOCAL3 (temp + align_score kA kB)
                     (row !!! j + extend_internal_deletion_score self)
                     (row !!! (j - 1)%nat + extend_internal_insertion_score self) maximum in
                 let temp := row !!! j in
                 let row := <[j := score]> row in
                 (row, temp, score, maximum)) st)).
  { intros kA st Hst. unfold for_range.
    apply (for_loop_invariant (fun _ => Q)); [exact Hst|].
    intros j [[[row temp] score] maximum] _ HQ. unfold Q in *. simpl in HQ. cbv zeta.
    match goal with
    | |- context [SELECT_SCORE_LOCAL3 ?a ?b ?c maximum] =>
      pose proof (SELECT_SCORE_LOCAL3_maximum a b c maximum HQ) as H;
      destruct (SELECT_SCORE_LOCAL3 a b c maximum) as [s mx]
    end. exact H. }
  match goal with
  | |- context [for_range 1 nA ?body ?s] =>
    assert (Houter : Q (for_range 1 nA body s))
  end.
  { unfold for_range at 1.
    apply (for_loop_invariant (fun _ => Q)); [exact not_below_zero_0|].
    intros i [[[row temp] score] maximum] _ HQ. cbv beta iota zeta.
    match goal with
    | |- context [for_range 1 nB ?body ?s] =>
      assert (H3 : Q (for_range 1 nB body s))
        by exact (Hinner3 (sA (Z.of_nat i - 1)) s HQ);
      destruct (for_range 1 nB body s) as [[[row' temp'] score'] maximum']
    end.
    unfold Q in H3. simpl in H3.
    match goal with
    | |- context [SELECT_SCORE_LOCAL1 ?a maximum'] =>
      pose proof (SELECT_SCORE_LOCAL1_maximum a maximum' H3) as H;
      destruct (SELECT_SCORE_LOCAL1 a maximum') as [s mx]
    end. exact H. }
  match goal with
  | |- context [for_range 1 nA ?body ?s] =>
    destruct (for_range 1 nA body s) as [[[row temp] score] maximum]
  end.
  match goal with
  | |- context [for_range 1 nB ?body ?s] =>
    assert (H1 : Q (for_range 1 nB body s))
      by exact (Hinner1 (sA (Z.of_nat nA - 1)) s Houter);
    destruct (for_range 1 nB body s) as [[[row' temp'] score'] maximum']
  end.
  unfold Q in H1. simpl in H1.
  match goal with
  | |- context [SELECT_SCORE_LOCAL1 ?a maximum'] =>
    pose proof (SELECT_SCORE_LOCAL1_maximum a maximum' H1) as H;
    destruct (SELECT_SCORE_LOCAL1 a maximum') as [s mx]
  end.
  eexists. split; [reflexivity|exact H].
Qed.

(** ** The paths of a grid in the order of the iterator *)

Lemma linked_app {A : Type} (next : A -> option A) (l1 l2 : list A) (after : option A) :
  linked next l1 (match l2 with [] => after | y :: _ => Some y end) ->
  linked next l2 after -> linked next (l1 ++ l2) after.
Proof.
  intros H1 H2. induction l1 as [|x l1 IH]; simpl; [exact H2|].
  destruct H1 as [Hx H1]. split; [|apply IH, H1].
  destruct l1 as [|y l1]; simpl; [|exact Hx].
  destruct l2; exact Hx.
Qed.

Lemma linked_lookup {A : Type} (next : A -> option A) (l : list A) (k : nat) (x : A) :
  linked next l None -> l !! k = Some x -> next x = l !! S k.
Proof.
  revert k. induction l as [|y l IH]; intros k Hl Hk; [discriminate|].
  destruct Hl as [Hy Hl]. destruct k as [|k]; simpl in *.
  - injection Hk as ->. rewrite Hy. destruct l; reflexivity.
  - apply IH; assumption.
Qed.

(** A group of paths that enter a cell by the same step. *)
Lemma linked_step {next next' : list Z -> option (list Z)} (d : Z) (l : list (list Z))
  (after : option (list Z)) :
  (forall q, In q l ->
     next' (d :: q) = match next q with Some q' => Some (d :: q') | None => after end) ->
  linked next l None -> linked next' (map (cons d) l) after.
Proof.
  intros Hn. induction l as [|q l IH]; intros Hl; simpl; [exact I|].
  destruct Hl as [Hq Hl]. split.
  - rewrite Hn by (left; reflexivity). rewrite Hq. destruct l; reflexivity.
  - apply IH; [|exact Hl]. intros q' Hq'. apply Hn. right. exact Hq'.
Qed.

Lemma bit_cases (t BIT : Z) :
  (negb (Z.land t BIT =? 0) = true /\ Z.land t BIT <> 0) \/
  (negb (Z.land t BIT =? 0) = false /\ Z.land t BIT = 0).
Proof. destruct (Z.eqb_spec (Z.land t BIT) 0); simpl; auto. Qed.

Section Enumeration.

Variable T : nat -> nat -> Z.
Variable nA nB : nat.
Hypothesis traces : grid_traces nA nB T.

Lemma first_row_paths_first (j : nat) (fuel : nat) :
  (j <= nB)%nat -> (j <= fuel)%nat ->
  exists l, first_row_paths T j = first_path fuel T 0 j :: l.
Proof.
  destruct traces as (H00 & Hrow & _).
  revert fuel. induction j as [|j IH]; intros fuel Hj Hf.
  - exists []. simpl. destruct fuel; [reflexivity|]. simpl. rewrite H00. reflexivity.
  - destruct fuel as [|fuel]; [lia|]. simpl. unfold step_if.
    rewrite Hrow by lia. simpl.
    destruct (IH fuel ltac:(lia) ltac:(lia)) as [l ->]. eexists. reflexivity.
Qed.

Lemma all_paths_first (i j : nat) (fuel : nat) :
  (i <= nA)%nat -> (j <= nB)%nat -> (i + j <= fuel)%nat ->
  exists l, all_paths T i j = first_path fuel T i j :: l.
Proof.
  pose proof traces as (H00 & Hrow & Hcol & Hin).
  revert j fuel. induction i as [|i IH]; intros j fuel Hi Hj Hf.
  - apply first_row_paths_first; lia.
  - revert fuel Hf. induction j as [|j IHj]; intros fuel Hf.
    + destruct fuel as [|fuel]; [lia|]. simpl. unfold step_if.
      rewrite Hcol by lia. simpl.
      destruct (IH 0%nat fuel ltac:(lia) ltac:(lia) ltac:(lia)) as [l ->].
      eexists. reflexivity.
    + destruct fuel as [|fuel]; [lia|].
      change (all_paths T (S i) (S j)) with
        (step_if (T (S i) (S j)) HORIZONTAL (all_paths T (S i) j)
         ++ step_if (T (S i) (S j)) VERTICAL (all_paths T i (S j))
         ++ step_if (T (S i) (S j)) DIAGONAL (all_paths T i j)).
      cbn [first_path]. unfold step_if.
      pose proof (Hin (S i) (S j) ltac:(lia) ltac:(lia)) as Ht.
      set (t := T (S i) (S j)) in *.
      destruct (IHj ltac:(lia) fuel ltac:(lia)) as [lH ->].
      destruct (IH (S j) fuel ltac:(lia) ltac:(lia) ltac:(lia)) as [lV ->].
      destruct (IH j fuel ltac:(lia) ltac:(lia) ltac:(lia)) as [lD ->].
      destruct (bit_cases t HORIZONTAL) as [[-> _]|[-> HH]]; [eexists; reflexivity|].
      destruct (bit_cases t VERTICAL) as [[-> _]|[-> HV]]; [eexists; reflexivity|].
      destruct (bit_cases t DIAGONAL) as [[-> _]|[-> HD]]; [eexists; reflexivity|].
      exfalso. destruct (good_trace_bit t Ht) as [?|[?|?]]; contradiction.
Qed.

Lemma all_paths_linked (i j : nat) :
  (i <= nA)%nat -> (j <= nB)%nat -> linked (next_path T i j) (all_paths T i j) None.
Proof.
  pose proof traces as (H00 & Hrow & Hcol & Hin).
  revert j. induction i as [|i IH]; intros j Hi Hj.
  - induction j as [|j IHj].
    + simpl. auto.
    + simpl. unfold step_if. rewrite Hrow by lia. simpl.
      apply (linked_step (next := next_path T 0 j)); [|apply IHj; lia].
      intros q _. simpl. unfold alternative. rewrite Hrow by lia. reflexivity.
  - induction j as [|j IHj].
    + simpl. unfold step_if. rewrite Hcol by lia. simpl.
      apply (linked_step (next := next_path T i 0)); [|apply IH; lia].
      intros q _. simpl. unfold alternative. rewrite Hcol by lia. reflexivity.
    + change (all_paths T (S i) (S j)) with
        (step_if (T (S i) (S j)) HORIZONTAL (all_paths T (S i) j)
         ++ step_if (T (S i) (S j)) VERTICAL (all_paths T i (S j))
         ++ step_if (T (S i) (S j)) DIAGONAL (all_paths T i j)).
      pose proof (Hin (S i) (S j) ltac:(lia) ltac:(lia)) as Ht.
      destruct (all_paths_first i (S j) (i + S j) ltac:(lia) ltac:(lia) ltac:(lia)) as [lV EV].
      destruct (all_paths_first i j (i + j) ltac:(lia) ltac:(lia) ltac:(lia)) as [lD ED].
      assert (HH : linked (next_path T (S i) (S j))
                     (map (cons HORIZONTAL) (all_paths T (S i) j))
                     (alternative T HORIZONTAL (S i) (S j))).
      { apply (linked_step (next := next_path T (S i) j)); [|apply IHj; lia].
        intros q _. reflexivity. }
      assert (HV : linked (next_path T (S i) (S j))
                     (map (cons VERTICAL) (all_paths T i (S j)))
                     (alternative T VERTICAL (S i) (S j))).
      { apply (linked_step (next := next_path T i (S j))); [|apply IH; lia].
        intros q _. reflexivity. }
      assert (HD : linked (next_path T (S i) (S j))
                     (map (cons DIAGONAL) (all_paths T i j))
                     (alternative T DIAGONAL (S i) (S j))).
      { apply (linked_step (next := next_path T i j)); [|apply IH; lia].
        intros q _. reflexivity. }
      change (alternative T HORIZONTAL (S i) (S j)) with
        (if negb (Z.land (T (S i) (S j)) VERTICAL =? 0)
         then Some (VERTICAL :: first_path (i + S j) T i (S j))
         else if negb (Z.land (T (S i) (S j)) DIAGONAL =? 0)
              then Some (DIAGONAL :: first_path (i + j) T i j) else None) in HH.
      change (alternative T VERTICAL (S i) (S j)) with
        (if negb (Z.land (T (S i) (S j)) DIAGONAL =? 0)
         then Some (DIAGONAL :: first_path (i + j) T i j) else None) in HV.
      change (alternative T DIAGONAL (S i) (S j)) with (@None (list Z)) in HD.
      unfold step_if.
      set (t := T (S i) (S j)) in *.
      rewrite EV, ED in *.
      destruct (bit_cases t HORIZONTAL) as [[EH _]|[EH _]];
        destruct (bit_cases t VERTICAL) as [[EV' _]|[EV' _]];
        destruct (bit_cases t DIAGONAL) as [[ED' _]|[ED' _]];
        rewrite ?EH, ?EV', ?ED' in *; cbv iota in HH, HV |- *;
        (apply linked_app;
         [cbn [map app]; first [exact HH | exact I]
         |apply linked_app; [cbn [map app]; first [exact HV | exact I]
                            |first [exact HD | exact I]]]).
Qed.

End Enumeration.

(** The number of paths is the number that the recurrence gives. *)
Lemma length_step_if (trace BIT : Z) (paths : list (list Z)) (count : Z) :
  count + Z.of_nat (length (step_if trace BIT paths))
  = add_if trace BIT (Z.of_nat (length paths)) count.
Proof.
  unfold step_if, add_if. destruct (negb _); simpl; [|lia].
  rewrite length_map. reflexivity.
Qed.

Lemma length_all_paths (M : list (list Trace)) (i j : nat) :
  Z.of_nat (length (all_paths (traces_of M) i j)) = paths_to M i j.
Proof.
  revert j. induction i as [|i IH]; intros j.
  - induction j as [|j IHj]; [reflexivity|].
    change (paths_to M 0 (S j)) with
      (add_if (trace_of (cell M 0 (S j))) HORIZONTAL (paths_to M 0 j) 0).
    change (all_paths (traces_of M) 0 (S j)) with
      (step_if (traces_of M 0%nat (S j)) HORIZONTAL (all_paths (traces_of M) 0 j)).
    rewrite <- IHj, <- length_step_if. unfold traces_of. lia.
  - induction j as [|j IHj].
    + change (paths_to M (S i) 0) with
        (add_if (trace_of (cell M (S i) 0)) VERTICAL (paths_to M i 0) 0).
      change (all_paths (traces_of M) (S i) 0) with
        (step_if (traces_of M (S i) 0%nat) VERTICAL (all_paths (traces_of M) i 0)).
      rewrite <- IH, <- length_step_if. unfold traces_of. lia.
    + change (paths_to M (S i) (S j)) with
        (add_if (trace_of (cell M (S i) (S j))) DIAGONAL (paths_to M i j)
           (add_if (trace_of (cell M (S i) (S j))) VERTICAL (paths_to M i (S j))
              (add_if (trace_of (cell M (S i) (S j))) HORIZONTAL (paths_to M (S i) j) 0))).
      change (all_paths (traces_of M) (S i) (S j)) with
        (step_if (traces_of M (S i) (S j)) HORIZONTAL (all_paths (traces_of M) (S i) j)
         ++ step_if (traces_of M (S i) (S j)) VERTICAL (all_paths (traces_of M) i (S j))
         ++ step_if (traces_of M (S i) (S j)) DIAGONAL (all_paths (traces_of M) i j)).
      rewrite <- IHj, <- !IH, <- !length_step_if, !length_app.
      unfold traces_of. lia.
Qed.

(** No path is listed twice. *)
Lemma NoDup_step_if (trace BIT : Z) (paths : list (list Z)) :
  NoDup paths -> NoDup (step_if trace BIT paths).
Proof.
  intros H. unfold step_if. destruct (negb _); [|constructor].
  apply NoDup_fmap_2; [|exact H]. intros x y E. injection E. auto.
Qed.

Lemma step_if_head (trace BIT : Z) (paths : list (list Z)) (p : list Z) :
  p ∈ step_if trace BIT paths -> exists q, p = BIT :: q.
Proof.
  unfold step_if. destruct (negb _); [|intros H; inversion H].
  intros H. apply list_elem_of_fmap in H. destruct H as (q & -> & _). eauto.
Qed.

Lemma NoDup_all_paths (T : nat -> nat -> Z) (i j : nat) : NoDup (all_paths T i j).
Proof.
  revert j. induction i as [|i IH]; intros j.
  - induction j as [|j IHj]; simpl.
    + apply NoDup_singleton.
    + apply NoDup_step_if, IHj.
  - induction j as [|j IHj].
    + simpl. apply NoDup_step_if, IH.
    + change (all_paths T (S i) (S j)) with
        (step_if (T (S i) (S j)) HORIZONTAL (all_paths T (S i) j)
         ++ step_if (T (S i) (S j)) VERTICAL (all_paths T i (S j))
         ++ step_if (T (S i) (S j)) DIAGONAL (all_paths T i j)).
      apply NoDup_app. split; [apply NoDup_step_if, IHj|]. split.
      * intros p Hp Hq. apply step_if_head in Hp. destruct Hp as [q ->].
        apply elem_of_app in Hq. destruct Hq as [Hq|Hq];
          apply step_if_head in Hq; destruct Hq as [q' Hq']; discriminate Hq'.
      * apply NoDup_app. split; [apply NoDup_step_if, IH|]. split; [|apply NoDup_step_if, IH].
        intros p Hp Hq. apply step_if_head in Hp. destruct Hp as [q ->].
        apply step_if_head in Hq. destruct Hq as [q' Hq']. discriminate Hq'.
Qed.

(** A step comes from a cell that is nearer to the origin. *)
Lemma step_from_inside (d : Z) (i j i' j' : nat) :
  step_from d i j = Some (i', j') ->
  (d = HORIZONTAL /\ i' = i /\ j = S j') \/
  (d = VERTICAL /\ i = S i' /\ j' = j) \/
  (d = DIAGONAL /\ i = S i' /\ j = S j').
Proof.
  unfold step_from.
  destruct (Z.eqb_spec d HORIZONTAL) as [->|_].
  { destruct j; [discriminate|]. intros H. injection H as <- <-. auto. }
  destruct (Z.eqb_spec d VERTICAL) as [->|_].
  { destruct i; [discriminate|]. intros H. injection H as <- <-. auto. }
  destruct (Z.eqb_spec d DIAGONAL) as [->|_]; [|discriminate].
  destruct i; [discriminate|]. destruct j; [discriminate|].
  intros H. injection H as <- <-. auto 10.
Qed.

Lemma marks_length (M : list (list Trace)) (p : list Z) :
  forall i j, marks M i j p -> (length p <= i + j)%nat.
Proof.
  induction p as [|d p IH]; intros i j H; simpl in *; [lia|].
  destruct (step_from d i j) as [[i' j']|] eqn:E; [|contradiction].
  destruct H as [_ H]. apply IH in H.
  apply step_from_inside in E. lia.
Qed.

(** ** The iterator of the global linear-gap generator *)

Section Iterator.

Variable nA nB : nat.
Variable T : nat -> nat -> Z.
Hypothesis traces : grid_traces nA nB T.

(** Where the bits of a written grid can be set. *)
Lemma trace_bits (i j : nat) :
  (i <= nA)%nat -> (j <= nB)%nat ->
  (Z.land (T i j) HORIZONTAL <> 0 -> exists j', j = S j') /\
  (Z.land (T i j) VERTICAL <> 0 -> exists i', i = S i') /\
  (Z.land (T i j) DIAGONAL <> 0 -> exists i' j', i = S i' /\ j = S j') /\
  ((0 < i + j)%nat ->
   Z.land (T i j) HORIZONTAL <> 0 \/ Z.land (T i j) VERTICAL <> 0 \/
   Z.land (T i j) DIAGONAL <> 0).
Proof.
  intros Hi Hj. destruct traces as (H00 & Hrow & Hcol & Hin).
  destruct i as [|i], j as [|j].
  - rewrite H00. repeat split; intros H; try (exfalso; apply H; reflexivity); lia.
  - rewrite Hrow by lia. repeat split; intros H; eauto;
      try (exfalso; apply H; reflexivity); try (left; discriminate).
  - rewrite Hcol by lia. repeat split; intros H; eauto;
      try (exfalso; apply H; reflexivity); try (right; left; discriminate).
  - repeat split; intros H; eauto. apply good_trace_bit, Hin; lia.
Qed.

(** The first path does not depend on the bound, once it is large
    enough. *)
Lemma first_path_fuel (f g i j : nat) :
  (i <= nA)%nat -> (j <= nB)%nat -> (i + j <= f)%nat -> (i + j <= g)%nat ->
  first_path f T i j = first_path g T i j.
Proof.
  intros Hi Hj Hf Hg.
  destruct (all_paths_first T nA nB traces i j f Hi Hj Hf) as [l E].
  destruct (all_paths_first T nA nB traces i j g Hi Hj Hg) as [l' E'].
  congruence.
Qed.

Lemma store_path_agrees (M : list (list Trace)) (i j : nat) (p : Z) :
  grid_agrees nA nB T M -> grid_agrees nA nB T (store_path i j p M).
Proof.
  intros [Hs Ht]. split; [apply store_path_shape, Hs|].
  intros a b. rewrite trace_store_path. apply Ht.
Qed.

Lemma path_store_path (M : list (list Trace)) (i j : nat) (p : Z) :
  grid_agrees nA nB T M -> (i <= nA)%nat -> (j <= nB)%nat ->
  path_of (cell (store_path i j p M) i j) = Z.land p 7.
Proof.
  intros [Hs _] Hi Hj. rewrite (cell_store_path nA nB) by assumption. reflexivity.
Qed.

(** The traceback marks the first path and leaves the cells from [(i, j)]
    on as they were. *)
Lemma traceback_marks (fuel : nat) :
  forall (M : list (list Trace)) (i j : nat),
  grid_agrees nA nB T M -> (i <= nA)%nat -> (j <= nB)%nat -> (i + j < fuel)%nat ->
  exists M', next_needlemanwunsch_traceback fuel M i j = Some M' /\
    grid_agrees nA nB T M' /\
    marks M' i j (first_path (i + j) T i j) /\
    forall a b, (i + j <= a + b)%nat -> cell M' a b = cell M a b.
Proof.
  induction fuel as [|fuel IH]; intros M i j HM Hi Hj Hf; [lia|].
  cbn [next_needlemanwunsch_traceback]. cbv zeta.
  rewrite (proj2 HM i j).
  destruct (trace_bits i j Hi Hj) as (HH & HV & HD & Hany).
  destruct (bit_cases (T i j) HORIZONTAL) as [[EH NH]|[EH ZH]]; rewrite EH.
  { destruct (HH NH) as [j' ->].
    destruct (IH (store_path i j' HORIZONTAL M) i j'
                (store_path_agrees _ _ _ _ HM) Hi ltac:(lia) ltac:(lia))
      as (M' & -> & HM' & Hmarks & Hframe).
    exists M'. split; [reflexivity|]. split; [exact HM'|]. split.
    - rewrite Nat.add_succ_r. cbn [first_path]. rewrite EH.
      cbn [marks]. unfold step_from. simpl (HORIZONTAL =? HORIZONTAL).
      cbv iota. split; [|exact Hmarks].
      rewrite Hframe by lia. rewrite path_store_path by (assumption || lia). reflexivity.
    - intros a b Hab. rewrite Hframe by lia.
      apply cell_store_path_ne. intros E. injection E as -> ->. lia. }
  destruct (bit_cases (T i j) VERTICAL) as [[EV NV]|[EV ZV]]; rewrite EV.
  { destruct (HV NV) as [i' ->].
    destruct (IH (store_path i' j VERTICAL M) i' j
                (store_path_agrees _ _ _ _ HM) ltac:(lia) Hj ltac:(lia))
      as (M' & -> & HM' & Hmarks & Hframe).
    exists M'. split; [reflexivity|]. split; [exact HM'|]. split.
    - cbn [Nat.add first_path]. rewrite EH, EV.
      cbn [marks]. unfold step_from. simpl (VERTICAL =? HORIZONTAL).
      simpl (VERTICAL =? VERTICAL). cbv iota. split; [|exact Hmarks].
      rewrite Hframe by lia. rewrite path_store_path by (assumption || lia). reflexivity.
    - intros a b Hab. rewrite Hframe by lia.
      apply cell_store_path_ne. intros E. injection E as -> ->. lia. }
  destruct (bit_cases (T i j) DIAGONAL) as [[ED ND]|[ED ZD]]; rewrite ED.
  { destruct (HD ND) as (i' & j' & -> & ->).
    destruct (IH (store_path i' j' DIAGONAL M) i' j'
                (store_path_agrees _ _ _ _ HM) ltac:(lia) ltac:(lia) ltac:(lia))
      as (M' & -> & HM' & Hmarks & Hframe).
    exists M'. split; [reflexivity|]. split; [exact HM'|]. split.
    - cbn [Nat.add first_path]. rewrite EH, EV, ED.
      rewrite (first_path_fuel (i' + S j') (i' + j') i' j') by lia.
      cbn [marks]. unfold step_from. simpl (DIAGONAL =? HORIZONTAL).
      simpl (DIAGONAL =? VERTICAL). simpl (DIAGONAL =? DIAGONAL). cbv iota.
      split; [|exact Hmarks].
      rewrite Hframe by lia. rewrite path_store_path by (assumption || lia). reflexivity.
    - intros a b Hab. rewrite Hframe by lia.
      apply cell_store_path_ne. intros E. injection E as -> ->. lia. }
  assert (i = 0%nat /\ j = 0%nat) as [-> ->].
  { destruct (Nat.eq_dec (i + j)%nat 0%nat) as [E|E]; [lia|].
    destruct (Hany ltac:(lia)) as [?|[?|?]]; contradiction. }
  exists M. split; [reflexivity|]. split; [exact HM|]. split; [simpl; auto|]. reflexivity.
Qed.

(** One iteration of the pruning loop, from the cell [(i', j')] whose
    path is the step [d] into [(i, j)]. *)
Lemma prune_step (fuel : nat) (M : list (list Trace)) (d : Z) (i j i' j' : nat) :
  grid_agrees nA nB T M -> (i <= nA)%nat -> (j <= nB)%nat ->
  step_from d i j = Some (i', j') ->
  match alternative T d i j with
  | None =>
    next_needlemanwunsch_prune (S fuel) M i' j' d =
      (let path := path_of (cell M i j) in
       if path =? 0 then Some (Exhausted (store_path 0 0 DONE M))
       else next_needlemanwunsch_prune fuel M i j path)
  | Some q =>
    exists d1 i1 j1,
      step_from d1 i j = Some (i1, j1) /\ Z.land d1 7 = d1 /\
      q = d1 :: first_path (i1 + j1) T i1 j1 /\
      next_needlemanwunsch_prune (S fuel) M i' j' d
      = Some (Pruned (store_path i1 j1 d1 M) i1 j1)
  end.
Proof.
  intros HM Hi Hj Hstep.
  destruct (trace_bits i j Hi Hj) as (HH & HV & HD & _).
  apply step_from_inside in Hstep.
  destruct Hstep as [(-> & -> & ->)|[(-> & -> & ->)|(-> & -> & ->)]];
    unfold alternative; cbn [next_needlemanwunsch_prune]; cbv zeta;
    rewrite ?(proj2 HM).
  - change (HORIZONTAL =? HORIZONTAL) with true. cbv iota.
    destruct (bit_cases (T i (S j')) VERTICAL) as [[EV NV]|[EV _]]; rewrite EV.
    { destruct (HV NV) as [i0 ->]. exists VERTICAL, i0, (S j'). auto. }
    destruct (bit_cases (T i (S j')) DIAGONAL) as [[ED ND]|[ED _]]; rewrite ED.
    { destruct (HD ND) as (i0 & j0 & -> & E). injection E as <-.
      exists DIAGONAL, i0, j'. auto. }
    reflexivity.
  - change (VERTICAL =? HORIZONTAL) with false.
    change (VERTICAL =? VERTICAL) with true. cbv iota.
    destruct (bit_cases (T (S i') j) DIAGONAL) as [[ED ND]|[ED _]]; rewrite ED.
    { destruct (HD ND) as (i0 & j0 & E & ->). injection E as <-.
      exists DIAGONAL, i', j0. auto. }
    reflexivity.
  - change (DIAGONAL =? HORIZONTAL) with false.
    change (DIAGONAL =? VERTICAL) with false. cbv iota. reflexivity.
Qed.

Lemma step_from_nonzero (d : Z) (i j i' j' : nat) :
  step_from d i j = Some (i', j') -> d <> 0 /\ d <> DONE /\ Z.land d 7 = d.
Proof.
  intros H. apply step_from_inside in H.
  destruct H as [(-> & _)|[(-> & _)|(-> & _)]]; repeat split; discriminate.
Qed.

Section Pruning.

Variable M : list (list Trace).
Hypothesis agrees : grid_agrees nA nB T M.

(** Along a path without an alternative the pruning loop only walks. *)
Lemma prune_continue (p : list Z) :
  forall i j, (i <= nA)%nat -> (j <= nB)%nat ->
  marks M i j p -> next_path T i j p = None -> path_of (cell M i j) <> 0 ->
  forall fuel,
    next_needlemanwunsch_prune (length p + fuel) M 0 0 (path_of (cell M 0 0))
    = next_needlemanwunsch_prune fuel M i j (path_of (cell M i j)).
Proof.
  induction p as [|d p IH]; intros i j Hi Hj Hm Hn Hp fuel.
  - destruct Hm as [-> ->]. reflexivity.
  - cbn [marks next_path] in Hm, Hn.
    destruct (step_from d i j) as [[i' j']|] eqn:Hstep; [|contradiction].
    destruct Hm as [Hd Hm].
    pose proof (step_from_inside _ _ _ _ _ Hstep) as Hin.
    destruct (next_path T i' j' p) eqn:Hn'; [discriminate|].
    pose proof (prune_step fuel M d i j i' j' agrees Hi Hj Hstep) as Hs.
    rewrite Hn in Hs. cbv zeta in Hs.
    destruct (Z.eqb_spec (path_of (cell M i j)) 0) as [E|_]; [contradiction|].
    cbn [length]. rewrite Nat.add_succ_comm.
    rewrite (IH i' j' ltac:(lia) ltac:(lia) Hm Hn'
               ltac:(rewrite Hd; apply (step_from_nonzero _ _ _ _ _ Hstep))).
    rewrite Hd. exact Hs.
Qed.

(** At the end of the last path the loop marks the generator as done. *)
Lemma prune_exhausted (p : list Z) (i j : nat) :
  (i <= nA)%nat -> (j <= nB)%nat -> (0 < i + j)%nat ->
  marks M i j p -> next_path T i j p = None -> path_of (cell M i j) = 0 ->
  forall fuel,
    next_needlemanwunsch_prune (length p + fuel) M 0 0 (path_of (cell M 0 0))
    = Some (Exhausted (store_path 0 0 DONE M)).
Proof.
  intros Hi Hj Hij Hm Hn Hp fuel.
  destruct p as [|d p]; [destruct Hm; lia|].
  cbn [marks next_path] in Hm, Hn.
  destruct (step_from d i j) as [[i' j']|] eqn:Hstep; [|contradiction].
  destruct Hm as [Hd Hm].
  pose proof (step_from_inside _ _ _ _ _ Hstep) as Hin.
  destruct (next_path T i' j' p) eqn:Hn'; [discriminate|].
  pose proof (prune_step fuel M d i j i' j' agrees Hi Hj Hstep) as Hs.
  rewrite Hn in Hs. cbv zeta in Hs. rewrite Hp in Hs. simpl (0 =? 0) in Hs.
  cbn [length]. rewrite Nat.add_succ_comm.
  rewrite (prune_continue p i' j' ltac:(lia) ltac:(lia) Hm Hn'
             ltac:(rewrite Hd; apply (step_from_nonzero _ _ _ _ _ Hstep))).
  rewrite Hd. exact Hs.
Qed.

(** The first alternative along a path: the loop is left there, and the
    traceback from there marks the next path; the cells from [(i, j)] on
    stay as they were. *)
Lemma prune_break (p : list Z) :
  forall i j q, (i <= nA)%nat -> (j <= nB)%nat ->
  marks M i j p -> next_path T i j p = Some q ->
  forall fuel, exists M1 i1 j1,
    next_needlemanwunsch_prune (length p + fuel) M 0 0 (path_of (cell M 0 0))
    = Some (Pruned M1 i1 j1) /\
    (i1 <= nA)%nat /\ (j1 <= nB)%nat /\ (i1 + j1 < i + j)%nat /\
    grid_agrees nA nB T M1 /\
    forall fuel' M2,
      (i1 + j1 < fuel')%nat ->
      next_needlemanwunsch_traceback fuel' M1 i1 j1 = Some M2 ->
      grid_agrees nA nB T M2 /\ marks M2 i j q /\
      forall a b, (i + j <= a + b)%nat -> cell M2 a b = cell M a b.
Proof.
  induction p as [|d p IH]; intros i j q Hi Hj Hm Hn fuel; [discriminate|].
  cbn [marks next_path] in Hm, Hn.
  destruct (step_from d i j) as [[i' j']|] eqn:Hstep; [|contradiction].
  destruct Hm as [Hd Hm].
  pose proof (step_from_inside _ _ _ _ _ Hstep) as Hin.
  destruct (next_path T i' j' p) as [q'|] eqn:Hn'.
  - injection Hn as <-.
    destruct (IH i' j' q' ltac:(lia) ltac:(lia) Hm Hn' (S fuel))
      as (M1 & i1 & j1 & Hrun & Hi1 & Hj1 & Hlt & HM1 & Hafter).
    exists M1, i1, j1. cbn [length]. rewrite Nat.add_succ_comm.
    split; [exact Hrun|]. repeat (split; [assumption || lia|]).
    intros fuel' M2 Hf Htb.
    destruct (Hafter fuel' M2 Hf Htb) as (HM2 & Hmarks & Hframe).
    split; [exact HM2|]. split.
    + cbn [marks]. rewrite Hstep. split; [|exact Hmarks].
      rewrite Hframe by lia. exact Hd.
    + intros a b Hab. apply Hframe. lia.
  - pose proof (prune_step fuel M d i j i' j' agrees Hi Hj Hstep) as Hs.
    rewrite Hn in Hs. destruct Hs as (d1 & i1 & j1 & Hstep1 & Hd1 & -> & Hrun).
    pose proof (step_from_inside _ _ _ _ _ Hstep1) as Hin1.
    exists (store_path i1 j1 d1 M), i1, j1.
    cbn [length]. rewrite Nat.add_succ_comm.
    rewrite (prune_continue p i' j' ltac:(lia) ltac:(lia) Hm Hn'
               ltac:(rewrite Hd; apply (step_from_nonzero _ _ _ _ _ Hstep))).
    rewrite Hd. split; [exact Hrun|].
    split; [lia|]. split; [lia|]. split; [lia|].
    split; [apply store_path_agrees, agrees|].
    intros fuel' M2 Hf Htb.
    destruct (traceback_marks fuel' (store_path i1 j1 d1 M) i1 j1
                (store_path_agrees _ _ _ _ agrees) ltac:(lia) ltac:(lia) Hf)
      as (M2' & Htb' & HM2 & Hmarks & Hframe).
    rewrite Htb in Htb'. injection Htb' as <-.
    split; [exact HM2|]. split.
    + cbn [marks]. rewrite Hstep1. split; [|exact Hmarks].
      rewrite Hframe by lia.
      rewrite path_store_path by (exact agrees || lia). exact Hd1.
    + intros a b Hab. rewrite Hframe by lia.
      apply cell_store_path_ne. intros E. injection E as -> ->. lia.
Qed.

End Pruning.

End Iterator.

(** ** The path object of a marked path *)

Lemma marks_leads (M : list (list Trace)) (p : list Z) :
  forall i j s, marks M i j p -> leads M i j s -> leads M 0 0 (rev p ++ s).
Proof.
  induction p as [|d p IH]; intros i j s Hm Hl.
  - destruct Hm as [-> ->]. exact Hl.
  - cbn [marks] in Hm.
    destruct (step_from d i j) as [[i' j']|] eqn:Hstep; [|contradiction].
    destruct Hm as [Hd Hm]. cbn [rev]. rewrite <- app_assoc. cbn [app].
    apply (IH i' j'); [exact Hm|].
    cbn [leads]. split; [exact Hd|].
    apply step_from_inside in Hstep.
    destruct Hstep as [(-> & -> & ->)|[(-> & -> & ->)|(-> & -> & ->)]]; exact Hl.
Qed.

Lemma leads_count_corners (M : list (list Trace)) (s : list Z) :
  forall fuel i j direction n, leads M i j s -> (length s < fuel)%nat ->
  create_path_count fuel M i j direction n
  = Some (n + length (corners i j direction s) - 1)%nat.
Proof.
  induction s as [|d s IH]; intros fuel i j direction n Hl Hf;
    (destruct fuel as [|fuel]; [simpl in Hf; lia|]); cbn [create_path_count]; cbv zeta.
  - cbn [leads] in Hl. rewrite Hl. simpl. f_equal. lia.
  - cbn [leads length] in Hl, Hf. destruct Hl as [Hd Hl]. rewrite Hd.
    cbn [corners]. cbv zeta. unfold step_to.
    assert (Hcases : d = HORIZONTAL \/ d = VERTICAL \/ d = DIAGONAL).
    { destruct (Z.eqb_spec d HORIZONTAL); [auto|].
      destruct (Z.eqb_spec d VERTICAL); [auto|].
      destruct (Z.eqb_spec d DIAGONAL); [auto|contradiction]. }
    destruct (Z.eqb_spec d direction) as [<-|Hne]; cbn [negb].
    + destruct Hcases as [->|[->| ->]]; simpl; rewrite IH by (assumption || lia); reflexivity.
    + destruct Hcases as [->|[->| ->]]; simpl; rewrite IH by (assumption || lia);
        f_equal; simpl; lia.
Qed.

Lemma leads_plus_corners (M : list (list Trace)) (s : list Z) :
  forall fuel i j direction, leads M i j s -> (length s < fuel)%nat ->
  s <> [] \/ direction <> 0 ->
  create_path_plus fuel M i j direction
  = Some (map (fun c : nat * nat => (Z.of_nat (fst c), Z.of_nat (snd c)))
              (corners i j direction s)).
Proof.
  induction s as [|d s IH]; intros fuel i j direction Hl Hf Hne;
    (destruct fuel as [|fuel]; [simpl in Hf; lia|]); cbn [create_path_plus]; cbv zeta.
  - cbn [leads] in Hl. rewrite Hl.
    destruct Hne as [Hne|Hne]; [contradiction|].
    destruct (Z.eqb_spec 0 direction) as [E|_]; [congruence|]. reflexivity.
  - cbn [leads length] in Hl, Hf. destruct Hl as [Hd Hl]. rewrite Hd.
    cbn [corners]. cbv zeta. unfold step_to.
    assert (Hcases : d = HORIZONTAL \/ d = VERTICAL \/ d = DIAGONAL).
    { destruct (Z.eqb_spec d HORIZONTAL); [auto|].
      destruct (Z.eqb_spec d VERTICAL); [auto|].
      destruct (Z.eqb_spec d DIAGONAL); [auto|contradiction]. }
    destruct (Z.eqb_spec d direction) as [<-|Hnd]; cbn [negb].
    + destruct Hcases as [->|[->| ->]]; simpl;
        rewrite IH by (assumption || lia || (right; discriminate)); reflexivity.
    + destruct Hcases as [->|[->| ->]]; simpl;
        rewrite IH by (assumption || lia || (right; discriminate)); reflexivity.
Qed.

(** On a grid that marks a path to the last cell, whose own path is 0,
    [PathGenerator_create_path] returns the object of the path. *)
Lemma create_path_alignment (self : PathGenerator) (p : list Z) (fuel : nat) :
  marks (pg_M self) (pg_nA self) (pg_nB self) p ->
  path_of (cell (pg_M self) (pg_nA self) (pg_nB self)) = 0 ->
  (pg_nA self + pg_nB self < fuel)%nat ->
  (0 < pg_nA self + pg_nB self)%nat ->
  pg_strand self = "+"%char \/ pg_strand self = "-"%char ->
  PathGenerator_create_path fuel self 0 0
  = Some (Ok (alignment_of (pg_strand self) (pg_nB self) p)).
Proof.
  intros Hm H0 Hf Hpos Hstrand.
  pose proof (marks_length _ _ _ _ Hm) as Hlen.
  assert (Hl : leads (pg_M self) 0 0 (rev p ++ [])) by (apply (marks_leads _ _ _ _ _ Hm); exact H0).
  rewrite app_nil_r in Hl.
  assert (Hlr : (length (rev p) < fuel)%nat) by (rewrite length_rev; lia).
  assert (Hne : rev p <> []).
  { destruct p as [|d p]; [destruct Hm; lia|].
    cbn [rev]. intros E. apply app_eq_nil in E. destruct E; discriminate. }
  unfold PathGenerator_create_path, alignment_of.
  rewrite (leads_count_corners _ _ fuel 0%nat 0%nat 0 1%nat Hl Hlr).
  pose proof (leads_plus_corners _ _ fuel 0%nat 0%nat 0 Hl Hlr (or_introl Hne)) as Hc.
  rewrite length_map.
  replace (1 + length (corners 0 0 0 (rev p)) - 1)%nat
    with (length (corners 0 0 0 (rev p))) by lia.
  destruct Hstrand as [-> | ->]; cbn [Ascii.eqb Bool.eqb]; cbv iota.
  - rewrite Hc. reflexivity.
  - rewrite create_path_minus_plus, Hc. cbn [option_map]. unfold mirror_B.
    rewrite List.map_map. reflexivity.
Qed.

(** ** The paths along the stored traces *)

Lemma in_step_if (trace BIT : Z) (paths : list (list Z)) (p : list Z) :
  In p (step_if trace BIT paths) <->
  Z.land trace BIT <> 0 /\ exists q, p = BIT :: q /\ In q paths.
Proof.
  unfold step_if. destruct (Z.eqb_spec (Z.land trace BIT) 0) as [E|E]; cbn [negb].
  - split; [intros []|intros [H _]; contradiction].
  - rewrite in_map_iff. split.
    + intros (q & <- & Hq). split; [exact E|]. eauto.
    + intros (_ & q & -> & Hq). eauto.
Qed.

Lemma follows_cons (T : nat -> nat -> Z) (i j : nat) (d : Z) (q : list Z) :
  follows T i j (d :: q) <->
  (d = HORIZONTAL /\ Z.land (T i j) HORIZONTAL <> 0 /\
   exists j', j = S j' /\ follows T i j' q) \/
  (d = VERTICAL /\ Z.land (T i j) VERTICAL <> 0 /\
   exists i', i = S i' /\ follows T i' j q) \/
  (d = DIAGONAL /\ Z.land (T i j) DIAGONAL <> 0 /\
   exists i' j', i = S i' /\ j = S j' /\ follows T i' j' q).
Proof.
  cbn [follows]. unfold step_from. split.
  - intros ([->|[->| ->]] & Hbit & Hstep); simpl in Hstep.
    + left. destruct j as [|j']; [contradiction|]. eauto 6.
    + right. left. destruct i as [|i']; [contradiction|]. eauto 6.
    + right. right. destruct i as [|i']; [contradiction|].
      destruct j as [|j']; [contradiction|]. eauto 8.
  - intros [(-> & Hbit & j' & -> & H)|[(-> & Hbit & i' & -> & H)
                                      |(-> & Hbit & i' & j' & -> & -> & H)]];
      (split; [auto|]); (split; [exact Hbit|]); simpl; exact H.
Qed.

(** The paths of [all_paths] are the paths along the stored traces. *)
Lemma all_paths_follows (T : nat -> nat -> Z) (i : nat) :
  forall j p, In p (all_paths T i j) <-> follows T i j p.
Proof.
  induction i as [|i IHi].
  - cbn [all_paths]. induction j as [|j IHj]; intros p.
    + cbn [first_row_paths]. destruct p as [|d q].
      * simpl. tauto.
      * rewrite follows_cons. split.
        { intros [E|[]]. discriminate. }
        { intros [(_ & _ & j' & E & _)|[(_ & _ & i' & E & _)|(_ & _ & i' & j' & E & _)]];
            discriminate. }
    + cbn [first_row_paths]. rewrite in_step_if. destruct p as [|d q].
      * split; [intros (_ & q & E & _); discriminate|intros [_ E]; discriminate].
      * rewrite follows_cons. split.
        { intros (Hbit & q' & E & Hq). injection E as -> <-. left.
          split; [reflexivity|]. split; [exact Hbit|]. exists j. split; [reflexivity|].
          apply IHj, Hq. }
        { intros [(-> & Hbit & j' & E & H)|[(_ & _ & i' & E & _)|(_ & _ & i' & j' & E & _)]];
            try discriminate.
          injection E as <-. split; [exact Hbit|]. exists q. split; [reflexivity|].
          apply IHj, H. }
  - cbn [all_paths]. induction j as [|j IHj]; intros p.
    + cbn [next_row_paths]. rewrite in_step_if. destruct p as [|d q].
      * split; [intros (_ & q & E & _); discriminate|intros [E _]; discriminate].
      * rewrite follows_cons. split.
        { intros (Hbit & q' & E & Hq). injection E as -> <-. right. left.
          split; [reflexivity|]. split; [exact Hbit|]. exists i. split; [reflexivity|].
          apply IHi, Hq. }
        { intros [(_ & _ & j' & E & _)|[(-> & Hbit & i' & E & H)|(_ & _ & i' & j' & _ & E & _)]];
            try discriminate.
          injection E as <-. split; [exact Hbit|]. exists q. split; [reflexivity|].
          apply IHi, H. }
    + cbn [next_row_paths]. cbv zeta. rewrite !in_app_iff, !in_step_if.
      destruct p as [|d q].
      * split; [intros [(_ & q & E & _)|[(_ & q & E & _)|(_ & q & E & _)]]; discriminate
               |intros [_ E]; discriminate].
      * rewrite follows_cons. split.
        { intros [(Hbit & q' & E & Hq)|[(Hbit & q' & E & Hq)|(Hbit & q' & E & Hq)]];
            injection E as -> <-.
          - left. split; [reflexivity|]. split; [exact Hbit|]. exists j.
            split; [reflexivity|]. apply IHj, Hq.
          - right. left. split; [reflexivity|]. split; [exact Hbit|]. exists i.
            split; [reflexivity|]. apply IHi, Hq.
          - right. right. split; [reflexivity|]. split; [exact Hbit|]. exists i, j.
            split; [reflexivity|]. split; [reflexivity|]. apply IHi, Hq. }
        { intros [(-> & Hbit & j' & E & H)|[(-> & Hbit & i' & E & H)
                                           |(-> & Hbit & i' & j' & E1 & E2 & H)]].
          - injection E as <-. left. split; [exact Hbit|]. exists q.
            split; [reflexivity|]. apply IHj, H.
          - injection E as <-. right. left. split; [exact Hbit|]. exists q.
            split; [reflexivity|]. apply IHi, H.
          - injection E1 as <-. injection E2 as <-. right. right. split; [exact Hbit|].
            exists q. split; [reflexivity|]. apply IHi, H. }
Qed.

(** ** The calls of the iterator *)

Lemma marks_origin (M : list (list Trace)) (p : list Z) :
  forall i j, marks M i j p -> (0 < i + j)%nat ->
  path_of (cell M 0 0) <> 0 /\ path_of (cell M 0 0) <> DONE /\
  path_of (cell M 0 0) <> NONE.
Proof.
  induction p as [|d p IH]; intros i j Hm Hij.
  - destruct Hm. lia.
  - cbn [marks] in Hm.
    destruct (step_from d i j) as [[i' j']|] eqn:Hstep; [|contradiction].
    destruct Hm as [Hd Hm].
    destruct (Nat.eq_dec (i' + j')%nat 0%nat) as [E|E].
    + assert (i' = 0%nat) by lia. assert (j' = 0%nat) by lia. subst.
      apply step_from_inside in Hstep.
      destruct Hstep as [(-> & _)|[(-> & _)|(-> & _)]]; repeat split; discriminate.
    + apply (IH i' j' Hm). lia.
Qed.

Section Calls.

Variable nA nB : nat.
Variable T : nat -> nat -> Z.
Hypothesis traces : grid_traces nA nB T.
Hypothesis not_empty : (0 < nA + nB)%nat.

(** A store into the grid of a generator, away from the last cell. *)
Lemma generator_of_store (self : PathGenerator) (M' : list (list Trace)) :
  generator_of nA nB T self -> grid_agrees nA nB T M' ->
  cell M' nA nB = cell (pg_M self) nA nB ->
  generator_of nA nB T (set_pg_M M' self).
Proof.
  intros (HA & HB & Hmode & Halg & Hstrand & HM & Hend) HM' Hcell.
  unfold generator_of. cbn [pg_M pg_nA pg_nB pg_mode pg_algorithm pg_strand set_pg_M].
  rewrite Hcell. auto 10.
Qed.

(** The first call, on a grid whose origin holds no path. *)
Lemma next_first (self : PathGenerator) :
  generator_of nA nB T self -> path_of (cell (pg_M self) 0 0) = 0 ->
  exists self',
    PathGenerator_next_needlemanwunsch self
    = Some (Some (Ok (alignment_of (pg_strand self) nB (first_path (nA + nB) T nA nB))),
            self') /\
    marked nA nB T self' (first_path (nA + nB) T nA nB) /\
    pg_strand self' = pg_strand self.
Proof.
  intros Hg H00. pose proof Hg as (HA & HB & _ & _ & Hstrand & HM & Hend).
  unfold PathGenerator_next_needlemanwunsch. rewrite HA, HB, H00. cbv zeta.
  change (0 =? DONE) with false. change (0 =? 0) with true. cbv iota.
  destruct (traceback_marks nA nB T traces (S (nA + nB)) (pg_M self) nA nB HM
              ltac:(lia) ltac:(lia) ltac:(lia)) as (M' & -> & HM' & Hmarks & Hframe).
  pose proof (generator_of_store self M' Hg HM' (Hframe nA nB ltac:(lia))) as Hg'.
  rewrite (create_path_alignment (set_pg_M M' self) (first_path (nA + nB) T nA nB)
             (S (nA + nB))).
  - cbn [pg_M pg_nA pg_nB pg_strand set_pg_M]. rewrite HB.
    eexists. split; [reflexivity|]. split; [split; [exact Hg'|exact Hmarks]|reflexivity].
  - cbn [pg_M pg_nA pg_nB set_pg_M]. rewrite HA, HB. exact Hmarks.
  - cbn [pg_M pg_nA pg_nB set_pg_M]. rewrite HA, HB, Hframe by lia. exact Hend.
  - cbn [pg_M pg_nA pg_nB set_pg_M]. lia.
  - cbn [pg_M pg_nA pg_nB set_pg_M]. lia.
  - exact Hstrand.
Qed.

(** A call on a generator that has been marked as done. *)
Lemma next_done (self : PathGenerator) :
  path_of (cell (pg_M self) 0 0) = DONE ->
  PathGenerator_next_needlemanwunsch self = Some (None, self).
Proof.
  intros H. unfold PathGenerator_next_needlemanwunsch. rewrite H. reflexivity.
Qed.

(** A call on a generator in which a path is marked. *)
Lemma next_marked (self : PathGenerator) (p : list Z) :
  marked nA nB T self p ->
  match next_path T nA nB p with
  | Some q =>
    exists self',
      PathGenerator_next_needlemanwunsch self
      = Some (Some (Ok (alignment_of (pg_strand self) nB q)), self') /\
      marked nA nB T self' q /\
      pg_strand self' = pg_strand self
  | None =>
    exists self',
      PathGenerator_next_needlemanwunsch self = Some (None, self') /\
      generator_of nA nB T self' /\
      path_of (cell (pg_M self') 0 0) = DONE /\
      pg_strand self' = pg_strand self
  end.
Proof.
  intros [Hg Hmarks]. pose proof Hg as (HA & HB & _ & _ & Hstrand & HM & Hend).
  destruct (marks_origin _ _ _ _ Hmarks not_empty) as (N0 & ND & _).
  pose proof (marks_length _ _ _ _ Hmarks) as Hlen.
  unfold PathGenerator_next_needlemanwunsch. rewrite HA, HB. cbv zeta.
  destruct (Z.eqb_spec (path_of (cell (pg_M self) 0 0)) DONE) as [E|_]; [contradiction|].
  destruct (Z.eqb_spec (path_of (cell (pg_M self) 0 0)) 0) as [E|_]; [contradiction|].
  destruct (next_path T nA nB p) as [q|] eqn:Hn.
  - destruct (prune_break nA nB T traces (pg_M self) HM p nA nB q ltac:(lia) ltac:(lia)
                Hmarks Hn (S (nA + nB) - length p))
      as (M1 & i1 & j1 & Hrun & Hi1 & Hj1 & Hlt & HM1 & Hafter).
    replace (length p + (S (nA + nB) - length p))%nat with (S (nA + nB)) in Hrun by lia.
    rewrite Hrun.
    destruct (traceback_marks nA nB T traces (S (nA + nB)) M1 i1 j1 HM1 Hi1 Hj1 ltac:(lia))
      as (M2 & Htb & _).
    rewrite Htb.
    destruct (Hafter (S (nA + nB)) M2 ltac:(lia) Htb) as (HM2 & Hmarks2 & Hframe).
    pose proof (generator_of_store self M2 Hg HM2 (Hframe nA nB ltac:(lia))) as Hg'.
    rewrite (create_path_alignment (set_pg_M M2 self) q (S (nA + nB))).
    + cbn [pg_M pg_nA pg_nB pg_strand set_pg_M]. rewrite HB.
      eexists. split; [reflexivity|]. split; [split; [exact Hg'|exact Hmarks2]|reflexivity].
    + cbn [pg_M pg_nA pg_nB set_pg_M]. rewrite HA, HB. exact Hmarks2.
    + cbn [pg_M pg_nA pg_nB set_pg_M]. rewrite HA, HB, Hframe by lia. exact Hend.
    + cbn [pg_M pg_nA pg_nB set_pg_M]. lia.
    + cbn [pg_M pg_nA pg_nB set_pg_M]. lia.
    + exact Hstrand.
  - pose proof (prune_exhausted nA nB T traces (pg_M self) HM p nA nB ltac:(lia) ltac:(lia)
                  not_empty Hmarks Hn Hend (S (nA + nB) - length p)) as Hrun.
    replace (length p + (S (nA + nB) - length p))%nat with (S (nA + nB)) in Hrun by lia.
    rewrite Hrun.
    eexists. split; [reflexivity|]. split; [|split; [|reflexivity]].
    + apply generator_of_store; [exact Hg|apply store_path_agrees, HM|].
      apply cell_store_path_ne. intros E. injection E. lia.
    + cbn [pg_M set_pg_M].
      rewrite (path_store_path nA nB T) by (assumption || lia). reflexivity.
Qed.

(** After [PathGenerator_reset] the origin holds no path again. *)
Lemma reset_generator (self : PathGenerator) :
  generator_of nA nB T self -> path_of (cell (pg_M self) 0 0) <> NONE ->
  generator_of nA nB T (PathGenerator_reset self) /\
  path_of (cell (pg_M (PathGenerator_reset self)) 0 0) = 0 /\
  pg_strand (PathGenerator_reset self) = pg_strand self.
Proof.
  intros Hg Hn. pose proof Hg as (HA & HB & Hmode & Halg & Hstrand & HM & Hend).
  unfold PathGenerator_reset. rewrite Hmode, Halg.
  destruct (Z.eqb_spec (path_of (cell (pg_M self) 0 0)) NONE) as [E|_]; [contradiction|].
  cbn [negb]. split; [|split; [|reflexivity]].
  - apply generator_of_store; [exact Hg|apply store_path_agrees, HM|].
    apply cell_store_path_ne. intros E. injection E. lia.
  - cbn [pg_M set_pg_M].
    rewrite (path_store_path nA nB T) by (assumption || lia). reflexivity.
Qed.

End Calls.

Section Iteration.

Variable nA nB : nat.
Variable T : nat -> nat -> Z.
Hypothesis traces : grid_traces nA nB T.
Hypothesis not_empty : (0 < nA + nB)%nat.

(** One more call. *)
Lemma next_iterating (k : nat) (self : PathGenerator) :
  iterating nA nB T (all_paths T nA nB) k self ->
  exists result self',
    PathGenerator_next_needlemanwunsch self = Some (result, self') /\
    match all_paths T nA nB !! k with
    | Some p => result = Some (Ok (alignment_of (pg_strand self) nB p)) /\
                marks (pg_M self') nA nB p
    | None => result = None
    end /\
    iterating nA nB T (all_paths T nA nB) (S k) self' /\
    pg_strand self' = pg_strand self.
Proof.
  intros [Hg [(-> & H00)|[(p & Hk & Hp & Hmk)|[Hk Hdone]]]].
  - destruct (next_first nA nB T traces not_empty self Hg H00)
      as (self' & Hnext & [Hg' Hmk] & Hs).
    destruct (all_paths_first T nA nB traces nA nB (nA + nB) ltac:(lia) ltac:(lia) ltac:(lia))
      as [l E].
    eexists _, self'. split; [exact Hnext|]. rewrite E. cbn [lookup list_lookup].
    split; [split; [reflexivity|exact Hmk]|]. split; [|exact Hs].
    split; [exact Hg'|]. right. left. eexists. split; [lia|]. split; [|exact Hmk]. reflexivity.
  - pose proof (next_marked nA nB T traces not_empty self p (conj Hg Hmk)) as Hnext.
    pose proof (linked_lookup _ _ _ _
                  (all_paths_linked T nA nB traces nA nB ltac:(lia) ltac:(lia)) Hp) as Hlink.
    replace (S (k - 1)) with k in Hlink by lia.
    rewrite Hlink in Hnext.
    destruct (all_paths T nA nB !! k) as [q|] eqn:Hq.
    + destruct Hnext as (self' & Hnext & [Hg' Hmk'] & Hs).
      eexists _, self'. split; [exact Hnext|].
      split; [split; [reflexivity|exact Hmk']|]. split; [|exact Hs].
      split; [exact Hg'|]. right. left. exists q. split; [lia|]. split; [|exact Hmk'].
      replace (S k - 1)%nat with k by lia. exact Hq.
    + destruct Hnext as (self' & Hnext & Hg' & Hdone & Hs).
      exists None, self'. split; [exact Hnext|]. split; [reflexivity|]. split; [|exact Hs].
      split; [exact Hg'|]. right. right. split; [|exact Hdone].
      apply lookup_ge_None in Hq. lia.
  - exists None, self. split; [apply next_done, Hdone|].
    rewrite (lookup_ge_None_2 _ k) by lia. split; [reflexivity|]. split; [|reflexivity].
    split; [exact Hg|]. right. right. split; [lia|exact Hdone].
Qed.

Lemma after_calls_iterating (self : PathGenerator) (k : nat) :
  iterating nA nB T (all_paths T nA nB) 0 self ->
  exists self', after_calls k self = Some self' /\
                iterating nA nB T (all_paths T nA nB) k self' /\
                pg_strand self' = pg_strand self.
Proof.
  intros H0. induction k as [|k IH].
  - exists self. split; [reflexivity|]. split; [exact H0|reflexivity].
  - destruct IH as (s & Hs & HI & Hst). cbn [after_calls]. rewrite Hs.
    destruct (next_iterating k s HI) as (result & s' & -> & _ & HI' & Hst').
    exists s'. split; [reflexivity|]. split; [exact HI'|congruence].
Qed.

(** The call number [k + 1] on a generator that starts the iteration. *)
Lemma call_after_iterating (self : PathGenerator) (k : nat) :
  iterating nA nB T (all_paths T nA nB) 0 self ->
  exists result after,
    call_after k self = Some (result, after) /\
    match all_paths T nA nB !! k with
    | Some p => result = Some (Ok (alignment_of (pg_strand self) nB p)) /\
                marks (pg_M after) nA nB p
    | None => result = None
    end.
Proof.
  intros H0.
  destruct (after_calls_iterating self k H0) as (s & Hs & HI & Hst).
  destruct (next_iterating k s HI) as (result & s' & Hnext & Hres & _).
  exists result, s'. unfold call_after. rewrite Hs. split; [exact Hnext|].
  rewrite <- Hst. exact Hres.
Qed.

(** A reset at any point of the iteration starts it again. *)
Lemma reset_iterating (self : PathGenerator) (k : nat) :
  iterating nA nB T (all_paths T nA nB) k self ->
  iterating nA nB T (all_paths T nA nB) 0 (PathGenerator_reset self) /\
  pg_strand (PathGenerator_reset self) = pg_strand self.
Proof.
  intros [Hg Hk].
  assert (Hn : path_of (cell (pg_M self) 0 0) <> NONE).
  { destruct Hk as [(_ & H00)|[(p & _ & _ & Hmk)|[_ Hdone]]].
    - rewrite H00. discriminate.
    - apply (marks_origin _ _ _ _ Hmk not_empty).
    - rewrite Hdone. discriminate. }
  destruct (reset_generator nA nB T not_empty self Hg Hn) as (Hg' & H00 & Hs).
  split; [|exact Hs]. split; [exact Hg'|]. left. split; [reflexivity|exact H00].
Qed.

End Iteration.

(** The traces that the align pass has written. *)
Lemma grid_written_traces (nA nB : nat) (M : list (list Trace)) :
  grid_written nA nB (S nA) 1 M ->
  grid_traces nA nB (traces_of M) /\ grid_agrees nA nB (traces_of M) M /\
  forall a b, path_of (cell M a b) = 0.
Proof.
  intros (Hlen & Hrows & H00 & Hrow & Hcol & Hin & Hpath).
  split; [|split; [|exact Hpath]].
  - unfold grid_traces, traces_of. repeat split; auto; apply Hin; lia.
  - split; [split; assumption|]. intros a b. reflexivity.
Qed.

Lemma NEEDLEMANWUNSCH_ALIGN_strand (align_score : Z -> Z -> double) (self : Aligner)
  (sA : Z -> Z) (nA : nat) (sB : Z -> Z) (nB : nat) (strand : ascii)
  (r : double * PathGenerator) :
  NEEDLEMANWUNSCH_ALIGN align_score self sA nA sB nB strand = Ok r ->
  strand = "+"%char \/ strand = "-"%char.
Proof.
  unfold NEEDLEMANWUNSCH_ALIGN, NEEDLEMANWUNSCH_strand.
  destruct (Ascii.eqb_spec strand "+") as [->|_]; [auto|].
  destruct (Ascii.eqb_spec strand "-") as [->|_]; [auto|discriminate].
Qed.

(** The generator that the align pass returns starts the iteration. *)
Lemma NEEDLEMANWUNSCH_ALIGN_iterating (align_score : Z -> Z -> double) (self : Aligner)
  (sA : Z -> Z) (nA : nat) (sB : Z -> Z) (nB : nat) (strand : ascii)
  (score : double) (paths : PathGenerator) :
  (1 <= nA)%nat -> (1 <= nB)%nat ->
  NEEDLEMANWUNSCH_ALIGN align_score self sA nA sB nB strand = Ok (score, paths) ->
  grid_traces nA nB (traces_of (pg_M paths)) /\
  iterating nA nB (traces_of (pg_M paths)) (all_paths (traces_of (pg_M paths)) nA nB) 0 paths.
Proof.
  intros HnA HnB Halign.
  destruct (NEEDLEMANWUNSCH_ALIGN_grid _ _ _ _ _ _ _ _ _ HnA HnB Halign)
    as (HA & HB & Hst & Hmode & Halg & _ & Hgrid).
  destruct (grid_written_traces nA nB (pg_M paths) Hgrid) as (Htraces & Hagrees & Hpath).
  pose proof (NEEDLEMANWUNSCH_ALIGN_strand _ _ _ _ _ _ _ _ Halign) as Hstrand.
  rewrite <- Hst in Hstrand.
  split; [exact Htraces|]. split.
  - unfold generator_of. auto 10.
  - left. split; [reflexivity|apply Hpath].
Qed.

(** X12. The iterator of a global linear-gap alignment yields every
    traceback path of the grid once.  For two sequences of at least one
    letter, let [L] be [all_paths] of the grid that
    [NEEDLEMANWUNSCH_ALIGN] returns.  [L] holds exactly the paths from the
    origin to the last cell along the stored trace bits, each once, and
    as many as the recurrence of the path counter gives.  For every [k]
    below the length of [L], the call number [k + 1] of
    [PathGenerator_next_needlemanwunsch] returns the object of the path
    [L !! k] (the number of its corners and their coordinates, those in B
    mirrored on the reverse strand) and leaves that path marked in the
    grid; every later call returns [NULL].  No call leaves the grid or
    runs beyond [nA + nB + 1] steps in a loop. *)
Theorem needlemanwunsch_iterator (align_score : Z -> Z -> double) (self : Aligner)
  (sA : Z -> Z) (nA : nat) (sB : Z -> Z) (nB : nat) (strand : ascii)
  (score : double) (paths : PathGenerator) :
  (1 <= nA)%nat -> (1 <= nB)%nat ->
  NEEDLEMANWUNSCH_ALIGN align_score self sA nA sB nB strand = Ok (score, paths) ->
  let L := all_paths (traces_of (pg_M paths)) nA nB in
  (forall p, In p L <-> follows (traces_of (pg_M paths)) nA nB p) /\
  Z.of_nat (length L) = paths_to (pg_M paths) nA nB /\
  NoDup L /\
  forall k, exists result after,
    call_after k paths = Some (result, after) /\
    match L !! k with
    | Some p => result = Some (Ok (alignment_of strand nB p)) /\
                marks (pg_M after) nA nB p
    | None => result = None
    end.
Proof.
  intros HnA HnB Halign L.
  split; [apply all_paths_follows|].
  split; [apply length_all_paths|]. split; [apply NoDup_all_paths|].
  destruct (NEEDLEMANWUNSCH_ALIGN_iterating _ _ _ _ _ _ _ _ _ HnA HnB Halign) as [Htraces H0].
  destruct (NEEDLEMANWUNSCH_ALIGN_grid _ _ _ _ _ _ _ _ _ HnA HnB Halign)
    as (_ & _ & Hst & _).
  intros k. rewrite <- Hst.
  apply (call_after_iterating nA nB _ Htraces ltac:(lia) paths k H0).
Qed.

Lemma needlemanwunsch_iterator_witness :
  exists after,
    call_after 0 (snd example_alignment)
    = Some (Some (Ok (2%nat, [(0, 0); (2, 2)])), after).
Proof.
  assert (H : NEEDLEMANWUNSCH_ALIGN (COMPARE_SCORE 1 0 (-1)) Aligner_init
                (fun _ => 0) 2 (fun _ => 0) 2 "+"
              = Ok (fst example_alignment, snd example_alignment))
    by (vm_compute; reflexivity).
  destruct (proj2 (proj2 (proj2
             (needlemanwunsch_iterator _ _ _ 2 _ 2 _ _ _ ltac:(lia) ltac:(lia) H))) 0%nat)
    as (result & after & Hcall & Hres).
  exists after. rewrite Hcall. f_equal. f_equal.
  cbv zeta in Hres.
  match type of Hres with
  | match ?l with _ => _ end =>
    let v := eval vm_compute in l in change l with v in Hres
  end.
  destruct Hres as [-> _]. vm_compute. reflexivity.
Defined.

(** X13. [PathGenerator_reset] starts the iteration again: after any
    number of calls of [next] on the generator of a global linear-gap
    alignment (whether or not it is exhausted), a reset followed by calls
    of [next] returns the objects of the same paths in the same order,
    and [NULL] after the last. *)
Theorem reset_restarts (align_score : Z -> Z -> double) (self : Aligner)
  (sA : Z -> Z) (nA : nat) (sB : Z -> Z) (nB : nat) (strand : ascii)
  (score : double) (paths : PathGenerator) (n : nat) :
  (1 <= nA)%nat -> (1 <= nB)%nat ->
  NEEDLEMANWUNSCH_ALIGN align_score self sA nA sB nB strand = Ok (score, paths) ->
  exists used,
    after_calls n paths = Some used /\
    forall k, exists result after after',
      call_after k (PathGenerator_reset used) = Some (result, after) /\
      call_after k paths = Some (result, after') /\
      match all_paths (traces_of (pg_M paths)) nA nB !! k with
      | Some p => result = Some (Ok (alignment_of strand nB p)) /\
                  marks (pg_M after) nA nB p
      | None => result = None
      end.
Proof.
  intros HnA HnB Halign.
  destruct (NEEDLEMANWUNSCH_ALIGN_iterating _ _ _ _ _ _ _ _ _ HnA HnB Halign) as [Htraces H0].
  destruct (NEEDLEMANWUNSCH_ALIGN_grid _ _ _ _ _ _ _ _ _ HnA HnB Halign)
    as (_ & _ & Hst & _).
  destruct (after_calls_iterating nA nB _ Htraces ltac:(lia) paths n H0)
    as (used & Hused & HI & Hsu).
  exists used. split; [exact Hused|]. intros k.
  destruct (reset_iterating nA nB _ ltac:(lia) used n HI) as [HR Hsr].
  destruct (call_after_iterating nA nB _ Htraces ltac:(lia) _ k HR)
    as (result & after & Hcall & Hres).
  destruct (call_after_iterating nA nB _ Htraces ltac:(lia) _ k H0)
    as (result' & after' & Hcall' & Hres').
  rewrite Hsr, Hsu, Hst in Hres. rewrite Hst in Hres'.
  exists result, after, after'. split; [exact Hcall|]. split; [|exact Hres].
  rewrite Hcall'. f_equal. f_equal.
  destruct (all_paths (traces_of (pg_M paths)) nA nB !! k).
  - destruct Hres as [-> _]. destruct Hres' as [-> _]. reflexivity.
  - congruence.
Qed.

Lemma reset_restarts_witness :
  exists used, after_calls 1 (snd example_alignment) = Some used.
Proof.
  assert (H : NEEDLEMANWUNSCH_ALIGN (COMPARE_SCORE 1 0 (-1)) Aligner_init
                (fun _ => 0) 2 (fun _ => 0) 2 "+"
              = Ok (fst example_alignment, snd example_alignment))
    by (vm_compute; reflexivity).
  destruct (reset_restarts _ _ _ 2 _ 2 _ _ _ 1 ltac:(lia) ltac:(lia) H) as (used & Hused & _).
  exists used. exact Hused.
Defined.

(** ** The length of a generator *)


(** ** Gap-score functions that fail *)

Lemma try_loop_error {S : Type} (P : PyErr -> Prop) (body : nat -> S -> PyResult S) (n : nat) :
  (forall i s e, body i s = Err e -> P e) ->
  forall lo s e, try_loop n lo body s = Err e -> P e.
Proof.
  intros Hbody. induction n as [|n IH]; intros lo s e; simpl; [discriminate|].
  destruct (body lo s) as [s'|e'] eqn:E.
  - apply IH.
  - intros H. injection H as <-. eapply Hbody, E.
Qed.

Lemma _call_deletion_score_function_fails (self : Aligner) (function : PyObject) (i j n : Z) :
  deletion_score_function self = Some function -> never_a_number function ->
  _call_deletion_score_function self i j n = Err Propagated.
Proof.
  intros Hf Hn. unfold _call_deletion_score_function. rewrite Hf.
  specialize (Hn i j). destruct (PyObject_CallFunction function i j); [|reflexivity].
  rewrite Hn. reflexivity.
Qed.

Lemma _call_insertion_score_function_fails (self : Aligner) (function : PyObject) (i j n : Z) :
  insertion_score_function self = Some function -> never_a_number function ->
  _call_insertion_score_function self i j n = Err Propagated.
Proof.
  intros Hf Hn. unfold _call_insertion_score_function. rewrite Hf.
  specialize (Hn i j). destruct (PyObject_CallFunction function i j); [|reflexivity].
  rewrite Hn. reflexivity.
Qed.

Lemma _call_deletion_score_function_error (self : Aligner) (i j n : Z) (e : PyErr) :
  _call_deletion_score_function self i j n = Err e -> e = Propagated.
Proof.
  unfold _call_deletion_score_function.
  destruct (deletion_score_function self); [|discriminate].
  destruct (PyObject_CallFunction _ _ _); [|congruence].
  destruct (PyFloat_AsDouble _); [discriminate|congruence].
Qed.

(** X15. A gap-score function that gives no number makes the global
    Waterman-Smith-Beyer score fail: when the deletion or the insertion
    score function raises, or returns an object that is not a number, on
    every call, the pass returns no score for any two sequences of at least
    one letter, and the exception of the call is passed on. *)
Theorem failing_gap_function (align_score : Z -> Z -> double) (query_gap_start : nat -> Z)
  (self : Aligner) (sA : Z -> Z) (nA : nat) (sB : Z -> Z) (nB : nat) (function : PyObject) :
  (1 <= nA)%nat -> (1 <= nB)%nat ->
  never_a_number function ->
  deletion_score_function self = Some function \/
  insertion_score_function self = Some function ->
  WATERMANSMITHBEYER_GLOBAL_SCORE align_score query_gap_start self sA nA sB nB
  = Err Propagated.
Proof.
  intros HnA HnB Hn Hf. unfold WATERMANSMITHBEYER_GLOBAL_SCORE. cbv zeta.
  match goal with
  | |- context [try_range 1 (S nA) ?body ?s] =>
    destruct (try_range 1 (S nA) body s) as [[[M Ix] Iy]|e] eqn:E1
  end.
  - destruct Hf as [Hf|Hf].
    + exfalso. unfold try_range in E1. replace (S nA - 1)%nat with nA in E1 by lia.
      destruct nA as [|n]; [lia|]. cbn [try_loop] in E1.
      rewrite (_call_deletion_score_function_fails self function) in E1 by assumption.
      discriminate E1.
    + unfold try_range at 1. replace (S nB - 1)%nat with nB by lia.
      destruct nB as [|n]; [lia|]. cbn [try_loop].
      rewrite (_call_insertion_score_function_fails self function) by assumption.
      reflexivity.
  - f_equal. unfold try_range in E1.
    apply (try_loop_error (fun e => e = Propagated)) in E1; [exact E1|].
    intros i [[M Ix] Iy] e'.
    destruct (_call_deletion_score_function self _ _ _) eqn:Ed; [discriminate|].
    intros H. injection H as <-. eapply _call_deletion_score_function_error, Ed.
Qed.

Lemma failing_gap_function_witness :
  WATERMANSMITHBEYER_GLOBAL_SCORE (COMPARE_SCORE 1 0 (-1)) (fun j => Z.of_nat j)
    raising_aligner (fun _ => 0) 1 (fun _ => 0) 1 = Err Propagated.
Proof.
  assert (H : never_a_number (PyCallable 1 (fun _ _ => None))) by (intros i j; exact I).
  exact (failing_gap_function (COMPARE_SCORE 1 0 (-1)) (fun j => Z.of_nat j)
           raising_aligner (fun _ => 0) 1 (fun _ => 0) 1 (PyCallable 1 (fun _ _ => None))
           ltac:(lia) ltac:(lia) H ltac:(left; reflexivity)).
Defined.

(** ** The priority queue of FOGSAA *)

Local Open Scope nat_scope.
(** Among doubles that are not NaN, [>] and [==] are those of the ranks. *)
Lemma feqb_rank (x y : double) :
  feqb x x = true -> feqb y y = true ->
  exists a b, rank (Prim2SF x) = Some a /\ rank (Prim2SF y) = Some b /\
    (fgt x y = true <-> lex_lt b a) /\ (fgt y x = true <-> lex_lt a b) /\
    (feqb x y = true <-> a = b) /\ (feqb y x = true <-> a = b).
Proof.
  intros Hx Hy. apply feqb_refl_rank in Hx, Hy.
  destruct (rank (Prim2SF x)) as [a|] eqn:Ha; [|congruence].
  destruct (rank (Prim2SF y)) as [b|] eqn:Hb; [|congruence].
  exists a, b. split; [reflexivity|]. split; [reflexivity|].
  rewrite !fgt_above. unfold above. rewrite Ha, Hb.
  split; [tauto|]. split; [tauto|].
  assert (E : forall u v p q, rank (Prim2SF u) = Some p -> rank (Prim2SF v) = Some q ->
            (feqb u v = true <-> p = q)).
  { intros u v p q Hu Hv. unfold feqb. rewrite FloatAxioms.eqb_spec, SFeqb_true_iff.
    split.
    - intros [[Zu Zv]|[E _]].
      + assert (R : rank (Prim2SF u) = rank (Prim2SF v)) by (apply rank_eq; auto).
        congruence.
      + congruence.
    - intros ->. assert (R : rank (Prim2SF u) = rank (Prim2SF v)) by congruence.
      apply rank_eq in R. destruct R as [R|R]; [|left; exact R].
      right. split; [exact R|]. intros N. rewrite N in Hu. discriminate. }
  split; [apply E; assumption|].
  rewrite (E y x b a Hb Ha). split; congruence.
Qed.

Lemma lex_lt_cases (a b : Z * Z * Z) : lex_lt a b \/ a = b \/ lex_lt b a.
Proof.
  destruct a as [[a1 a2] a3], b as [[b1 b2] b3]. unfold lex_lt.
  destruct (Z.lt_total a1 b1) as [?|[?|?]]; [lia| |lia].
  destruct (Z.lt_total a2 b2) as [?|[?|?]]; [lia| |lia].
  destruct (Z.lt_total a3 b3) as [?|[?|?]]; [lia| |lia].
  right. left. congruence.
Qed.

Lemma lex_lt_irrefl (a : Z * Z * Z) : ~ lex_lt a a.
Proof. destruct a as [[a1 a2] a3]. unfold lex_lt. lia. Qed.

Lemma higher_priority_place (a b : fogsaa_queue_node) :
  has_bounds a = true -> has_bounds b = true ->
  exists p q, place a = Some p /\ place b = Some q /\
    (higher_priority a b = true <-> place_lt q p).
Proof.
  intros Ha Hb. unfold has_bounds in Ha, Hb.
  apply andb_true_iff in Ha, Hb. destruct Ha as [Hua Hla], Hb as [Hub Hlb].
  destruct (feqb_rank _ _ Hua Hub) as (u & v & Eu & Ev & Hgt & _ & Heq & _).
  destruct (feqb_rank _ _ Hla Hlb) as (l & m & El & Em & Hgt' & _ & _ & _).
  exists (u, l), (v, m). unfold place. rewrite Eu, Ev, El, Em.
  split; [reflexivity|]. split; [reflexivity|].
  unfold higher_priority, place_lt. simpl.
  rewrite orb_true_iff, andb_true_iff, Hgt, Heq, Hgt'.
  split; intros [H|[H1 H2]]; auto.
Qed.

Lemma place_lt_trans p q r : place_lt p q -> place_lt q r -> place_lt p r.
Proof.
  destruct p as [p1 p2], q as [q1 q2], r as [r1 r2]. unfold place_lt. simpl.
  intros [H|[-> H]] [H'|[-> H']].
  - left. eapply lex_lt_trans; eassumption.
  - left. assumption.
  - left. assumption.
  - right. split; [reflexivity|]. eapply lex_lt_trans; eassumption.
Qed.

Lemma place_lt_irrefl p : ~ place_lt p p.
Proof.
  destruct p as [p1 p2]. unfold place_lt. simpl.
  intros [H|[_ H]]; eapply lex_lt_irrefl; eassumption.
Qed.

Lemma place_lt_cases p q : place_lt p q \/ p = q \/ place_lt q p.
Proof.
  destruct p as [p1 p2], q as [q1 q2]. unfold place_lt. simpl.
  destruct (lex_lt_cases p1 q1) as [?|[->|?]]; auto.
  destruct (lex_lt_cases p2 q2) as [?|[->|?]]; auto.
Qed.

(** Of two nodes with bounds, not both have the higher priority. *)
Lemma higher_priority_asym (a b : fogsaa_queue_node) :
  has_bounds a = true -> has_bounds b = true ->
  higher_priority a b = true -> higher_priority b a = false.
Proof.
  intros Ha Hb H.
  destruct (higher_priority_place a b Ha Hb) as (p & q & Ep & Eq & Hab).
  destruct (higher_priority_place b a Hb Ha) as (q' & p' & Eq' & Ep' & Hba).
  assert (p' = p) by congruence. assert (q' = q) by congruence. subst.
  apply not_true_iff_false. rewrite Hba. rewrite Hab in H.
  intros H'. eapply place_lt_irrefl, place_lt_trans; eassumption.
Qed.

(** Having no lower priority is transitive among nodes with bounds. *)
Lemma higher_priority_trans (a b c : fogsaa_queue_node) :
  has_bounds a = true -> has_bounds b = true -> has_bounds c = true ->
  higher_priority b a = false -> higher_priority c b = false ->
  higher_priority c a = false.
Proof.
  intros Ha Hb Hc Hba Hcb.
  destruct (higher_priority_place b a Hb Ha) as (q & p & Eq & Ep & H1).
  destruct (higher_priority_place c b Hc Hb) as (r & q' & Er & Eq' & H2).
  destruct (higher_priority_place c a Hc Ha) as (r' & p' & Er' & Ep' & H3).
  assert (p' = p) by congruence. assert (q' = q) by congruence.
  assert (r' = r) by congruence. subst.
  apply not_true_iff_false in Hba, Hcb. apply not_true_iff_false.
  rewrite H1 in Hba. rewrite H2 in Hcb. rewrite H3. intros H.
  destruct (place_lt_cases p q) as [L|[->|L]]; [tauto| |].
  - tauto.
  - apply Hcb. eapply place_lt_trans; eassumption.
Qed.

Lemma higher_priority_irrefl (a : fogsaa_queue_node) :
  has_bounds a = true -> higher_priority a a = false.
Proof.
  intros Ha. destruct (higher_priority a a) eqn:E; [|reflexivity].
  rewrite <- E. apply higher_priority_asym; assumption.
Qed.

Lemma parent_lt (k : nat) : (1 <= k)%nat -> ((k - 1) / 2 < k)%nat.
Proof.
  intros Hk. pose proof (Nat.div_mod_eq (k - 1) 2).
  pose proof (Nat.mod_upper_bound (k - 1) 2). lia.
Qed.

Lemma parent_cases (k i : nat) :
  (1 <= k)%nat ->
  ((k - 1) / 2)%nat = i <-> k = (2 * i + 1)%nat \/ k = (2 * i + 2)%nat.
Proof.
  intros Hk. pose proof (Nat.div_mod_eq (k - 1) 2).
  pose proof (Nat.mod_upper_bound (k - 1) 2). lia.
Qed.

Lemma FOGSAA_QUEUE_HEAP_COND_inside (array : list fogsaa_queue_node) (a b : nat) :
  (a < length array)%nat -> (b < length array)%nat ->
  FOGSAA_QUEUE_HEAP_COND array a b =
  Some (higher_priority (array !!! a) (array !!! b)).
Proof.
  intros Ha Hb. unfold FOGSAA_QUEUE_HEAP_COND.
  rewrite !list_lookup_lookup_total_lt by assumption. reflexivity.
Qed.

Lemma swap_nodes_inside (array : list fogsaa_queue_node) (i j : nat) :
  (i < length array)%nat -> (j < length array)%nat ->
  swap_nodes array i j = Some (<[j := array !!! i]> (<[i := array !!! j]> array)).
Proof.
  intros Hi Hj. unfold swap_nodes.
  rewrite !list_lookup_lookup_total_lt by assumption. reflexivity.
Qed.

Lemma swapped_lookup (array : list fogsaa_queue_node) (i j k : nat) :
  (i < length array)%nat -> (j < length array)%nat ->
  <[j := array !!! i]> (<[i := array !!! j]> array) !!! k =
  if Nat.eq_dec k j then array !!! i
  else if Nat.eq_dec k i then array !!! j else array !!! k.
Proof.
  intros Hi Hj. destruct (Nat.eq_dec k j) as [->|Hkj].
  - apply list_lookup_total_insert_eq. rewrite length_insert. assumption.
  - rewrite list_lookup_total_insert_ne by congruence.
    destruct (Nat.eq_dec k i) as [->|Hki].
    + apply list_lookup_total_insert_eq. assumption.
    + apply list_lookup_total_insert_ne. congruence.
Qed.

Lemma swapped_take (array : list fogsaa_queue_node) (n i j : nat) :
  (n <= length array)%nat -> (i < n)%nat -> (j < n)%nat ->
  take n (<[j := array !!! i]> (<[i := array !!! j]> array)) ≡ₚ take n array.
Proof.
  intros Hn Hi Hj. rewrite !take_insert_lt by assumption.
  apply Permutation_insert_swap; rewrite lookup_take_lt by assumption;
    apply list_lookup_lookup_total_lt; lia.
Qed.

Lemma swapped_bounds (array : list fogsaa_queue_node) (n i j : nat) :
  (n <= length array)%nat -> (i < n)%nat -> (j < n)%nat ->
  bounds_below n array ->
  bounds_below n (<[j := array !!! i]> (<[i := array !!! j]> array)).
Proof.
  intros Hn Hi Hj H k Hk. rewrite swapped_lookup by lia.
  destruct (Nat.eq_dec k j); [apply H; assumption|].
  destruct (Nat.eq_dec k i); apply H; assumption.
Qed.

(** The loop of [fogsaa_queue_insert] ends, inside the block, and leaves a
    heap: [i] is the only node that may have a higher priority than its
    parent, and the parent of [i] has no lower priority than the children
    of [i]. *)
Lemma fogsaa_queue_insert_loop_heap (fuel n : nat) :
  forall (array : list fogsaa_queue_node) (i : nat),
  (n <= length array)%nat -> (i < n)%nat -> (i < fuel)%nat ->
  bounds_below n array ->
  (forall k, (1 <= k < n)%nat -> k <> i ->
     higher_priority (array !!! k) (array !!! ((k - 1) / 2)%nat) = false) ->
  (forall k, (1 <= i)%nat -> (1 <= k < n)%nat -> ((k - 1) / 2)%nat = i ->
     higher_priority (array !!! k) (array !!! ((i - 1) / 2)%nat) = false) ->
  exists array',
    fogsaa_queue_insert_loop fuel array i = Some array' /\
    length array' = length array /\
    heap_below n array' /\
    take n array' ≡ₚ take n array.
Proof.
  induction fuel as [|fuel IH]; intros array i Hn Hi Hfuel Hb H1 H2; [lia|].
  cbn [fogsaa_queue_insert_loop].
  destruct (Nat.eqb_spec i 0) as [->|Hi0].
  { exists array. repeat split; auto.
    intros k Hk. apply H1; lia. }
  pose proof (parent_lt i ltac:(lia)) as Hp.
  set (p := ((i - 1) / 2)%nat) in *.
  rewrite FOGSAA_QUEUE_HEAP_COND_inside by lia.
  destruct (higher_priority (array !!! p) (array !!! i)) eqn:Hcond.
  { exists array. repeat split; auto.
    intros k Hk. destruct (Nat.eq_dec k i) as [->|Hki]; [|apply H1; assumption].
    fold p. apply higher_priority_asym; auto; apply Hb; lia. }
  rewrite swap_nodes_inside by lia.
  set (array' := <[p := array !!! i]> (<[i := array !!! p]> array)).
  assert (Hlen : length array' = length array)
    by (unfold array'; rewrite !length_insert; reflexivity).
  assert (Hat : forall k, array' !!! k =
            if Nat.eq_dec k p then array !!! i
            else if Nat.eq_dec k i then array !!! p else array !!! k)
    by (intros k; apply swapped_lookup; lia).
  destruct (IH array' p) as (array'' & Hrun & Hlen' & Hheap & Hperm).
  - lia.
  - lia.
  - lia.
  - apply swapped_bounds; auto; lia.
  - intros k Hk Hkp. rewrite !Hat.
    destruct (Nat.eq_dec k p) as [|_]; [contradiction|].
    destruct (Nat.eq_dec k i) as [->|Hki].
    + fold p. destruct (Nat.eq_dec p p) as [_|]; [|contradiction]. exact Hcond.
    + destruct (Nat.eq_dec ((k - 1) / 2)%nat p) as [Ekp|Nkp].
      * (* a sibling of [i] *)
        apply (higher_priority_trans _ (array !!! p)); try (apply Hb; lia).
        -- exact Hcond.
        -- rewrite <- Ekp. apply H1; auto.
      * destruct (Nat.eq_dec ((k - 1) / 2)%nat i) as [Eki|Nki].
        -- (* a child of [i] *)
           apply H2; auto; lia.
        -- apply H1; auto.
  - intros k Hp1 Hk Ekp. rewrite !Hat.
    pose proof (parent_lt p Hp1) as Hpp.
    pose proof (parent_lt k ltac:(lia)) as Hkk.
    destruct (Nat.eq_dec ((p - 1) / 2)%nat p) as [|_]; [lia|].
    destruct (Nat.eq_dec ((p - 1) / 2)%nat i) as [|_]; [lia|].
    destruct (Nat.eq_dec k p) as [|_]; [lia|].
    destruct (Nat.eq_dec k i) as [->|Hki].
    + apply H1; lia.
    + apply (higher_priority_trans _ (array !!! p)); try (apply Hb; lia).
      * apply H1; lia.
      * rewrite <- Ekp. apply H1; auto.
  - exists array''. repeat split; auto.
    + congruence.
    + rewrite Hperm. apply swapped_take; lia.
Qed.

Lemma fits_in_int_le (m n : nat) :
  (m <= n)%nat -> fits_in_int n = true -> fits_in_int m = true.
Proof. unfold fits_in_int. rewrite !Z.leb_le. lia. Qed.

(** One step down of [fogsaa_queue_pop]: after the node at [i] and its
    child [c] of the highest priority change places, [c] is the only node
    whose children may have a higher priority than it. *)
Lemma fogsaa_queue_pop_step (n : nat) (array : list fogsaa_queue_node) (i c : nat) :
  (n <= length array)%nat -> (c < n)%nat -> ((c - 1) / 2)%nat = i -> (1 <= c)%nat ->
  (forall k, (1 <= k < n)%nat -> ((k - 1) / 2)%nat <> i ->
     higher_priority (array !!! k) (array !!! ((k - 1) / 2)%nat) = false) ->
  (forall k, (1 <= i)%nat -> (1 <= k < n)%nat -> ((k - 1) / 2)%nat = i ->
     higher_priority (array !!! k) (array !!! ((i - 1) / 2)%nat) = false) ->
  higher_priority (array !!! i) (array !!! c) = false ->
  (forall k, (1 <= k < n)%nat -> ((k - 1) / 2)%nat = i -> k <> c ->
     higher_priority (array !!! k) (array !!! c) = false) ->
  let array' := <[c := array !!! i]> (<[i := array !!! c]> array) in
  (forall k, (1 <= k < n)%nat -> ((k - 1) / 2)%nat <> c ->
     higher_priority (array' !!! k) (array' !!! ((k - 1) / 2)%nat) = false) /\
  (forall k, (1 <= c)%nat -> (1 <= k < n)%nat -> ((k - 1) / 2)%nat = c ->
     higher_priority (array' !!! k) (array' !!! ((c - 1) / 2)%nat) = false).
Proof.
  intros Hn Hc Hci Hc1 D1 D2 Htop Hsib array'.
  pose proof (parent_lt c Hc1) as Hic. rewrite Hci in Hic.
  assert (Hat : forall k, array' !!! k =
            if Nat.eq_dec k c then array !!! i
            else if Nat.eq_dec k i then array !!! c else array !!! k)
    by (intros k; apply swapped_lookup; lia).
  split.
  - intros k Hk Hkc. rewrite !Hat.
    pose proof (parent_lt k ltac:(lia)) as Hkk.
    destruct (Nat.eq_dec ((k - 1) / 2)%nat c) as [|_]; [contradiction|].
    destruct (Nat.eq_dec k c) as [->|Nkc].
    + rewrite Hci. destruct (Nat.eq_dec i i) as [_|]; [|contradiction]. exact Htop.
    + destruct (Nat.eq_dec k i) as [->|Nki].
      * destruct (Nat.eq_dec ((i - 1) / 2)%nat i) as [|_]; [lia|].
        apply D2; auto; lia.
      * destruct (Nat.eq_dec ((k - 1) / 2)%nat i) as [Eki|Nkpi].
        -- apply Hsib; auto.
        -- apply D1; auto.
  - intros k _ Hk Ekc. rewrite !Hat. rewrite Hci.
    pose proof (parent_lt k ltac:(lia)) as Hkk.
    destruct (Nat.eq_dec i c) as [|_]; [lia|].
    destruct (Nat.eq_dec i i) as [_|]; [|contradiction].
    destruct (Nat.eq_dec k c) as [|_]; [lia|].
    destruct (Nat.eq_dec k i) as [|_]; [lia|].
    rewrite <- Ekc. apply D1; auto. lia.
Qed.

(** The loop of [fogsaa_queue_pop] ends, inside the block, and leaves a
    heap: [i] is the only node whose children may have a higher priority
    than it, and the parent of [i] has no lower priority than they. *)
Lemma fogsaa_queue_pop_loop_heap (fuel n : nat) :
  fits_in_int (2 * n + 2) = true ->
  forall (array : list fogsaa_queue_node) (i : nat),
  (n <= length array)%nat -> (i < n \/ i = 0)%nat -> (n < fuel + i)%nat ->
  bounds_below n array ->
  (forall k, (1 <= k < n)%nat -> ((k - 1) / 2)%nat <> i ->
     higher_priority (array !!! k) (array !!! ((k - 1) / 2)%nat) = false) ->
  (forall k, (1 <= i)%nat -> (1 <= k < n)%nat -> ((k - 1) / 2)%nat = i ->
     higher_priority (array !!! k) (array !!! ((i - 1) / 2)%nat) = false) ->
  exists array',
    fogsaa_queue_pop_loop fuel array n i = Some array' /\
    length array' = length array /\
    heap_below n array' /\
    take n array' ≡ₚ take n array.
Proof.
  intros Hint.
  induction fuel as [|fuel IH]; intros array i Hn Hi Hfuel Hb D1 D2; [lia|].
  cbn [fogsaa_queue_pop_loop].
  rewrite (fits_in_int_le (2 * i + 2) (2 * n + 2)) by (assumption || lia).
  cbn [negb].
  (* what the two tests give *)
  assert (Hmove : forall c, (c < n)%nat -> ((c - 1) / 2)%nat = i -> (1 <= c)%nat ->
            higher_priority (array !!! i) (array !!! c) = false ->
            (forall k, (1 <= k < n)%nat -> ((k - 1) / 2)%nat = i -> k <> c ->
               higher_priority (array !!! k) (array !!! c) = false) ->
            exists array',
              match swap_nodes array i c with
              | Some array => fogsaa_queue_pop_loop fuel array n c
              | None => None
              end = Some array' /\
              length array' = length array /\
              heap_below n array' /\
              take n array' ≡ₚ take n array).
  { intros c Hc Hci Hc1 Htop Hsib.
    pose proof (parent_lt c Hc1) as Hic. rewrite Hci in Hic.
    rewrite swap_nodes_inside by lia.
    destruct (fogsaa_queue_pop_step n array i c Hn Hc Hci Hc1 D1 D2 Htop Hsib)
      as [D1' D2'].
    destruct (IH (<[c := array !!! i]> (<[i := array !!! c]> array)) c)
      as (array'' & Hrun & Hlen' & Hheap & Hperm).
    - rewrite !length_insert. assumption.
    - lia.
    - lia.
    - apply swapped_bounds; auto; lia.
    - exact D1'.
    - exact D2'.
    - exists array''. repeat split; auto.
      + rewrite Hlen', !length_insert. reflexivity.
      + rewrite Hperm. apply swapped_take; lia. }
  assert (Hstay : (forall k, (1 <= k < n)%nat -> ((k - 1) / 2)%nat = i ->
                     higher_priority (array !!! k) (array !!! i) = false) ->
            exists array', Some array = Some array' /\
              length array' = length array /\
              heap_below n array' /\
              take n array' ≡ₚ take n array).
  { intros Hch. exists array. repeat split; auto.
    intros k Hk. destruct (Nat.eq_dec ((k - 1) / 2)%nat i) as [E|N].
    - rewrite E. apply Hch; auto.
    - apply D1; auto. }
  unfold inside_and_not_above.
  destruct (Nat.ltb_spec (2 * i + 1) n) as [Hl|Hl].
  - rewrite FOGSAA_QUEUE_HEAP_COND_inside by lia. cbn [option_map].
    destruct (higher_priority (array !!! i) (array !!! (2 * i + 1)%nat)) eqn:Hil;
      cbn [negb].
    + (* the left child has a lower priority *)
      destruct (Nat.ltb_spec (2 * i + 2) n) as [Hr|Hr].
      * rewrite FOGSAA_QUEUE_HEAP_COND_inside by lia. cbn [option_map].
        destruct (higher_priority (array !!! i) (array !!! (2 * i + 2)%nat)) eqn:Hir;
          cbn [negb].
        -- rewrite Nat.eqb_refl. cbn [negb]. apply Hstay.
           intros k Hk Hki. apply parent_cases in Hki; [|lia].
           destruct Hki as [->| ->];
             apply higher_priority_asym; auto; apply Hb; lia.
        -- destruct (Nat.eqb_spec (2 * i + 2) i) as [|_]; [lia|]. cbn [negb].
           apply Hmove; auto.
           ++ apply parent_cases; lia.
           ++ lia.
           ++ intros k Hk Hki Hkc. apply parent_cases in Hki; [|lia].
              destruct Hki as [->| ->]; [|contradiction].
              apply (higher_priority_trans _ (array !!! i)); try (apply Hb; lia).
              ** exact Hir.
              ** apply higher_priority_asym; auto; apply Hb; lia.
      * rewrite Nat.eqb_refl. cbn [negb]. apply Hstay.
        intros k Hk Hki. apply parent_cases in Hki; [|lia].
        destruct Hki as [->| ->]; [|lia].
        apply higher_priority_asym; auto; apply Hb; lia.
    + (* the left child is chosen *)
      destruct (Nat.ltb_spec (2 * i + 2) n) as [Hr|Hr].
      * rewrite FOGSAA_QUEUE_HEAP_COND_inside by lia. cbn [option_map].
        destruct (higher_priority (array !!! (2 * i + 1)%nat)
                    (array !!! (2 * i + 2)%nat)) eqn:Hlr; cbn [negb].
        -- destruct (Nat.eqb_spec (2 * i + 1) i) as [|_]; [lia|]. cbn [negb].
           apply Hmove; auto.
           ++ apply parent_cases; lia.
           ++ lia.
           ++ intros k Hk Hki Hkc. apply parent_cases in Hki; [|lia].
              destruct Hki as [->| ->]; [contradiction|].
              apply higher_priority_asym; auto; apply Hb; lia.
        -- destruct (Nat.eqb_spec (2 * i + 2) i) as [|_]; [lia|]. cbn [negb].
           apply Hmove; auto.
           ++ apply parent_cases; lia.
           ++ lia.
           ++ apply (higher_priority_trans _ (array !!! (2 * i + 1)%nat));
                try (apply Hb; lia); assumption.
           ++ intros k Hk Hki Hkc. apply parent_cases in Hki; [|lia].
              destruct Hki as [->| ->]; [|contradiction]. exact Hlr.
      * destruct (Nat.eqb_spec (2 * i + 1) i) as [|_]; [lia|]. cbn [negb].
        apply Hmove; auto.
        -- apply parent_cases; lia.
        -- lia.
        -- intros k Hk Hki Hkc. apply parent_cases in Hki; [|lia].
           destruct Hki as [->| ->]; [contradiction|lia].
  - destruct (Nat.ltb_spec (2 * i + 2) n) as [Hr|Hr]; [lia|].
    rewrite Nat.eqb_refl. cbn [negb]. apply Hstay.
    intros k Hk Hki. apply parent_cases in Hki; lia.
Qed.

Lemma heap_ordered_below (n : nat) (array : list fogsaa_queue_node) :
  (n <= length array)%nat ->
  heap_ordered (take n array) = true <-> heap_below n array.
Proof.
  intros Hn. unfold heap_ordered, heap_below.
  rewrite forallb_forall, length_take_le by assumption.
  split.
  - intros H k Hk. pose proof (parent_lt k ltac:(lia)).
    specialize (H k). rewrite in_seq in H.
    apply negb_true_iff in H; [|lia].
    rewrite !lookup_total_take_lt in H by lia. exact H.
  - intros H k Hk. apply in_seq in Hk. pose proof (parent_lt k ltac:(lia)).
    apply negb_true_iff. rewrite !lookup_total_take_lt by lia. apply H. lia.
Qed.

Lemma has_bounds_below (n : nat) (array : list fogsaa_queue_node) :
  (n <= length array)%nat ->
  forallb has_bounds (take n array) = true <-> bounds_below n array.
Proof.
  intros Hn. unfold bounds_below. rewrite forallb_forall. split.
  - intros H k Hk. apply H. apply list_elem_of_In, elem_of_take.
    exists k. split; [|assumption]. apply list_lookup_lookup_total_lt. lia.
  - intros H x Hx. apply list_elem_of_In, elem_of_take in Hx.
    destruct Hx as (k & Hk & Hkn). apply list_lookup_total_correct in Hk.
    subst x. apply H. assumption.
Qed.

Lemma forallb_Permutation {A : Type} (f : A -> bool) (l k : list A) :
  l ≡ₚ k -> forallb f l = true -> forallb f k = true.
Proof.
  intros Hp. rewrite !forallb_forall. intros H x Hx. apply H.
  eapply Permutation_in; [symmetry; exact Hp|exact Hx].
Qed.

(** In a heap no node has a higher priority than the root. *)
Lemma heap_below_root (n : nat) (array : list fogsaa_queue_node) :
  bounds_below n array -> heap_below n array ->
  forall k, (k < n)%nat -> higher_priority (array !!! k) (array !!! 0%nat) = false.
Proof.
  intros Hb Hh k. induction k as [k IH] using lt_wf_ind. intros Hk.
  destruct (Nat.eq_dec k 0) as [->|Hk0].
  - apply higher_priority_irrefl. apply Hb. assumption.
  - pose proof (parent_lt k ltac:(lia)) as Hp.
    apply (higher_priority_trans _ (array !!! ((k - 1) / 2)%nat));
      try (apply Hb; lia).
    + apply IH; lia.
    + apply Hh. lia.
Qed.

Lemma is_queue_below (queue : fogsaa_queue) :
  is_queue queue <->
  length (queue_array queue) = queue_capacity queue /\
  (queue_size queue <= queue_capacity queue)%nat /\
  bounds_below (queue_size queue) (queue_array queue) /\
  heap_below (queue_size queue) (queue_array queue).
Proof.
  unfold is_queue, allocated, queued.
  rewrite andb_true_iff, Nat.eqb_eq, Nat.leb_le.
  split.
  - intros [[Hl Hs] [Hb Hh]].
    rewrite has_bounds_below in Hb by lia. rewrite heap_ordered_below in Hh by lia.
    auto.
  - intros (Hl & Hs & Hb & Hh).
    rewrite has_bounds_below by lia. rewrite heap_ordered_below by lia. auto.
Qed.

(** [fogsaa_queue_insert] on a queue, the allocation succeeding. *)
Lemma fogsaa_queue_insert_queue (queue : fogsaa_queue)
    (a b type_total type_next : Z) (lower upper : double) :
  is_queue queue ->
  has_bounds (Build_fogsaa_queue_node a b type_total type_next lower upper) = true ->
  fits_in_int (2 * queue_size queue + 4) = true ->
  exists queue',
    fogsaa_queue_insert true queue a b type_total type_next lower upper
      = Some (1%Z, queue') /\
    is_queue queue' /\
    queue_size queue' = S (queue_size queue) /\
    queued queue' ≡ₚ
      Build_fogsaa_queue_node a b type_total type_next lower upper :: queued queue.
Proof.
  intros Hq Hnode Hint. apply is_queue_below in Hq.
  destruct queue as [array size capacity]. cbn [queue_array queue_size queue_capacity] in *.
  destruct Hq as (Hl & Hs & Hb & Hh).
  set (node := Build_fogsaa_queue_node a b type_total type_next lower upper) in *.
  unfold fogsaa_queue_insert. cbn [queue_array queue_size queue_capacity].
  rewrite (fits_in_int_le (size + 1) (2 * size + 4)) by (assumption || lia).
  cbn [negb].
  (* the block after the allocation *)
  assert (Hroom : exists array1 capacity1,
            (if (capacity <=? size + 1)%nat
             then if negb (fits_in_int (capacity + 1)) then None
                  else if fits_in_int ((capacity + 1) * 2)
                       then Some (Some (Build_fogsaa_queue
                                          (reallocated array ((capacity + 1) * 2))
                                          size ((capacity + 1) * 2)))
                       else None
             else Some (Some (Build_fogsaa_queue array size capacity)))
            = Some (Some (Build_fogsaa_queue array1 size capacity1)) /\
            length array1 = capacity1 /\ (size < capacity1)%nat /\
            take size array1 = take size array).
  { destruct (Nat.leb_spec capacity (size + 1)) as [Hg|Hg].
    - rewrite (fits_in_int_le (capacity + 1) (2 * size + 4)) by (assumption || lia).
      rewrite (fits_in_int_le ((capacity + 1) * 2) (2 * size + 4)) by (assumption || lia).
      cbn [negb]. eexists _, _. split; [reflexivity|].
      unfold reallocated. rewrite length_resize. split; [reflexivity|].
      split; [lia|].
      rewrite take_resize_le by lia. apply resize_le. lia.
    - exists array, capacity. repeat split; auto. lia. }
  destruct Hroom as (array1 & capacity1 & -> & Hl1 & Hs1 & Htake).
  cbn [queue_array queue_size queue_capacity]. cbv zeta. fold node.
  destruct (Nat.ltb_spec size (length array1)) as [_|]; [|lia].
  assert (Hsame : forall k, (k < size)%nat -> array1 !!! k = array !!! k).
  { intros k Hk. rewrite <- (lookup_total_take_lt array1 size k) by assumption.
    rewrite Htake. apply lookup_total_take_lt. assumption. }
  set (array2 := <[size := node]> array1).
  assert (Hat : forall k, (k < size)%nat -> array2 !!! k = array !!! k).
  { intros k Hk. unfold array2. rewrite list_lookup_total_insert_ne by lia.
    apply Hsame. assumption. }
  destruct (fogsaa_queue_insert_loop_heap (S size) (S size) array2 size)
    as (array' & Hrun & Hlen & Hheap & Hperm).
  - unfold array2. rewrite length_insert. lia.
  - lia.
  - lia.
  - intros k Hk. destruct (Nat.eq_dec k size) as [->|Hne].
    + unfold array2. rewrite list_lookup_total_insert_eq by lia. exact Hnode.
    + rewrite Hat by lia. apply Hb. lia.
  - intros k Hk Hne. pose proof (parent_lt k ltac:(lia)).
    rewrite !Hat by lia. apply Hh. lia.
  - intros k _ Hk Hpar. apply parent_cases in Hpar; lia.
  - rewrite Hrun. eexists. split; [reflexivity|].
    split; [|split; [cbn; lia|]].
    + apply is_queue_below. cbn [queue_array queue_size queue_capacity].
      replace (size + 1)%nat with (S size) by lia.
      assert (Hlen2 : length array' = capacity1)
        by (rewrite Hlen; unfold array2; rewrite length_insert; exact Hl1).
      repeat split; [assumption|lia| |assumption].
      apply has_bounds_below; [lia|].
      eapply forallb_Permutation; [symmetry; exact Hperm|].
      apply has_bounds_below; [unfold array2; rewrite length_insert; lia|].
      intros k Hk. destruct (Nat.eq_dec k size) as [->|Hne].
      * unfold array2. rewrite list_lookup_total_insert_eq by lia. exact Hnode.
      * rewrite Hat by lia. apply Hb. lia.
    + unfold queued. cbn [queue_array queue_size].
      replace (size + 1)%nat with (S size) by lia.
      rewrite Hperm.
      rewrite (take_S_r array2 size node)
        by (unfold array2; apply list_lookup_insert_eq; lia).
      unfold array2. rewrite take_insert_ge by lia.
      rewrite Htake. symmetry. apply Permutation_cons_append.
Qed.

(** [fogsaa_queue_pop] on a queue that is not empty. *)
Lemma fogsaa_queue_pop_queue (queue : fogsaa_queue) :
  is_queue queue -> (1 <= queue_size queue)%nat ->
  fits_in_int (2 * queue_size queue) = true ->
  exists root queue',
    fogsaa_queue_pop queue = Some (root, queue') /\
    is_queue queue' /\
    queue_size queue = S (queue_size queue') /\
    queued queue ≡ₚ root :: queued queue' /\
    forall node, In node (queued queue) -> higher_priority node root = false.
Proof.
  intros Hq Hsize Hint. apply is_queue_below in Hq.
  destruct queue as [array size capacity]. cbn [queue_array queue_size queue_capacity] in *.
  destruct Hq as (Hl & Hs & Hb & Hh).
  destruct size as [|n]; [lia|]. clear Hsize.
  unfold fogsaa_queue_pop. cbn [queue_array queue_size queue_capacity].
  rewrite (list_lookup_lookup_total_lt array 0) by lia.
  rewrite (list_lookup_lookup_total_lt array n) by lia.
  set (array1 := <[0%nat := array !!! n]> array).
  destruct (fogsaa_queue_pop_loop_heap (S n) n) with (array := array1) (i := 0%nat)
    as (array' & Hrun & Hlen & Hheap & Hperm).
  - eapply fits_in_int_le; [|exact Hint]. lia.
  - unfold array1. rewrite length_insert. lia.
  - lia.
  - lia.
  - intros k Hk. unfold array1. destruct (Nat.eq_dec k 0) as [->|Hne].
    + rewrite list_lookup_total_insert_eq by lia. apply Hb. lia.
    + rewrite list_lookup_total_insert_ne by lia. apply Hb. lia.
  - intros k Hk Hpar. pose proof (parent_lt k ltac:(lia)).
    unfold array1. rewrite !list_lookup_total_insert_ne by lia. apply Hh. lia.
  - intros k Hk. lia.
  - rewrite Hrun. eexists _, _. split; [reflexivity|].
    assert (Hlen1 : length array' = capacity)
      by (rewrite Hlen; unfold array1; rewrite length_insert; exact Hl).
    assert (Hall : take (S n) array ≡ₚ array !!! 0%nat :: take n array').
    { rewrite Hperm. unfold array1.
      destruct array as [|h rest]; [simpl in Hl; lia|].
      change ((h :: rest) !!! 0%nat) with h.
      destruct n as [|m]; [reflexivity|].
      cbn [take]. change (<[0%nat := (h :: rest) !!! S m]> (h :: rest))
        with ((rest !!! m) :: rest).
      cbn [take]. constructor.
      rewrite (take_S_r rest m (rest !!! m))
        by (apply list_lookup_lookup_total_lt; simpl in Hl; lia).
      symmetry. apply Permutation_cons_append. }
    split; [|split; [reflexivity|split; [exact Hall|]]].
    + apply is_queue_below. cbn [queue_array queue_size queue_capacity].
      repeat split; [assumption|lia| |assumption].
      apply has_bounds_below; [lia|].
      assert (Hbs : forallb has_bounds (take (S n) array) = true)
        by (apply has_bounds_below; [lia|assumption]).
      apply (forallb_Permutation _ _ _ Hall) in Hbs.
      cbn [forallb] in Hbs. apply andb_true_iff in Hbs. tauto.
    + intros node Hin. unfold queued in Hin. cbn [queue_array queue_size] in Hin.
      apply list_elem_of_In, elem_of_take in Hin.
      destruct Hin as (k & Hk & Hkn). apply list_lookup_total_correct in Hk.
      subst node. apply (heap_below_root (S n)); assumption.
Qed.

Lemma insert_all_queue (nodes : list fogsaa_queue_node) :
  forall queue : fogsaa_queue,
  is_queue queue -> forallb has_bounds nodes = true ->
  fits_in_int (2 * (queue_size queue + length nodes) + 2) = true ->
  exists queue',
    insert_all nodes queue = Some queue' /\
    is_queue queue' /\
    queue_size queue' = (queue_size queue + length nodes)%nat /\
    queued queue' ≡ₚ nodes ++ queued queue.
Proof.
  induction nodes as [|node nodes IH]; intros queue Hq Hb Hint.
  - exists queue. cbn [insert_all length app].
    split; [reflexivity|]. split; [assumption|]. split; [lia|reflexivity].
  - cbn [forallb] in Hb. apply andb_true_iff in Hb. destruct Hb as [Hnode Hb].
    cbn [length] in Hint. cbn [insert_all].
    destruct node as [a b t nt lower upper].
    cbn [pA pB type_upto_next next_type next_lower next_upper].
    destruct (fogsaa_queue_insert_queue queue a b t nt lower upper Hq Hnode)
      as (queue1 & -> & Hq1 & Hs1 & Hp1).
    { eapply fits_in_int_le; [|exact Hint]. lia. }
    destruct (IH queue1 Hq1 Hb) as (queue' & Hrun & Hq' & Hs' & Hp').
    { eapply fits_in_int_le; [|exact Hint]. lia. }
    exists queue'. split; [exact Hrun|]. split; [exact Hq'|].
    split; [cbn [length]; lia|].
    rewrite Hp', Hp1. cbn [app]. symmetry. apply Permutation_middle.
Qed.

Lemma pop_all_queue (n : nat) :
  forall queue : fogsaa_queue,
  is_queue queue -> queue_size queue = n -> fits_in_int (2 * n) = true ->
  exists roots,
    pop_all n queue = Some roots /\ roots ≡ₚ queued queue /\ best_first roots.
Proof.
  induction n as [|n IH]; intros queue Hq Hs Hint.
  - exists []. cbn [pop_all best_first]. repeat split; auto.
    unfold queued. rewrite Hs. reflexivity.
  - cbn [pop_all].
    destruct (fogsaa_queue_pop_queue queue Hq) as (root & queue1 & -> & Hq1 & Hs1 & Hp1 & Hmax).
    { lia. }
    { rewrite Hs. exact Hint. }
    destruct (IH queue1 Hq1) as (roots & -> & Hp & Hbest).
    { lia. }
    { eapply fits_in_int_le; [|exact Hint]. lia. }
    exists (root :: roots). split; [reflexivity|].
    split; [rewrite Hp1, Hp; reflexivity|].
    cbn [best_first]. split; [|exact Hbest].
    intros other Hin. apply Hmax.
    eapply Permutation_in; [symmetry; exact Hp1|].
    right. eapply Permutation_in; [exact Hp|exact Hin].
Qed.

Lemma is_queue_init : is_queue fogsaa_queue_init.
Proof. repeat split. Qed.


(** X16. [fogsaa_queue_insert] keeps the queue a heap. On a queue whose
    nodes form a max-heap in the block and have bounds that are not NaN,
    inserting a node with such bounds, the allocation succeeding, returns 1
    without leaving the block; the queue is again such a heap, one node
    longer, and holds the nodes it held and the new one. When the block
    has to grow and the allocation fails it returns 0 and the block is
    gone. *)
Theorem fogsaa_queue_insert_heap (queue : fogsaa_queue)
    (a b type_total type_next : Z) (lower upper : double) :
  is_queue queue ->
  has_bounds (Build_fogsaa_queue_node a b type_total type_next lower upper) = true ->
  fits_in_int (2 * queue_size queue + 4) = true ->
  (exists queue',
     fogsaa_queue_insert true queue a b type_total type_next lower upper
       = Some (1%Z, queue') /\
     is_queue queue' /\
     queue_size queue' = S (queue_size queue) /\
     queued queue' ≡ₚ
       Build_fogsaa_queue_node a b type_total type_next lower upper :: queued queue) /\
  ((queue_capacity queue <= queue_size queue + 1)%nat ->
   fogsaa_queue_insert false queue a b type_total type_next lower upper
     = Some (0%Z, Build_fogsaa_queue [] (queue_size queue) (queue_capacity queue))).
Proof.
  intros Hq Hnode Hint. split.
  - apply fogsaa_queue_insert_queue; assumption.
  - intros Hgrow. unfold fogsaa_queue_insert.
    apply is_queue_below in Hq. destruct Hq as (_ & Hs & _).
    rewrite (fits_in_int_le (queue_size queue + 1) (2 * queue_size queue + 4))
      by (assumption || lia).
    cbn [negb].
    destruct (Nat.leb_spec (queue_capacity queue) (queue_size queue + 1)) as [_|]; [|lia].
    rewrite (fits_in_int_le (queue_capacity queue + 1) (2 * queue_size queue + 4))
      by (assumption || lia).
    reflexivity.
Qed.

Lemma fogsaa_queue_insert_heap_witness :
  (exists queue',
     fogsaa_queue_insert true fogsaa_queue_init 1 1 7 4 1%float 3%float
       = Some (1%Z, queue') /\
     is_queue queue' /\
     queue_size queue' = 1%nat /\
     queued queue' ≡ₚ
       Build_fogsaa_queue_node 1 1 7 4 1%float 3%float :: queued fogsaa_queue_init) /\
  ((queue_capacity fogsaa_queue_init <= queue_size fogsaa_queue_init + 1)%nat ->
   fogsaa_queue_insert false fogsaa_queue_init 1 1 7 4 1%float 3%float
     = Some (0%Z, Build_fogsaa_queue [] 0 0)).
Proof.
  exact (fogsaa_queue_insert_heap fogsaa_queue_init 1 1 7 4 1%float 3%float
           ltac:(repeat split) ltac:(reflexivity) ltac:(reflexivity)).
Defined.

(** X17. [fogsaa_queue_pop] returns a node of the highest priority. On a
    queue of at least one node whose nodes form a max-heap and have bounds
    that are not NaN, it returns a node of the queue without leaving the
    block; no node of the queue has a higher priority than it (a higher
    upper bound, or the same upper bound and a higher lower bound); the
    other nodes stay in the queue, which is again such a heap. *)
Theorem fogsaa_queue_pop_highest (queue : fogsaa_queue) :
  is_queue queue -> (1 <= queue_size queue)%nat ->
  fits_in_int (2 * queue_size queue) = true ->
  exists root queue',
    fogsaa_queue_pop queue = Some (root, queue') /\
    is_queue queue' /\
    queue_size queue = S (queue_size queue') /\
    queued queue ≡ₚ root :: queued queue' /\
    forall node, In node (queued queue) -> higher_priority node root = false.
Proof. apply fogsaa_queue_pop_queue. Qed.

Lemma fogsaa_queue_pop_highest_witness :
  exists root queue',
    fogsaa_queue_pop (Build_fogsaa_queue (rev example_nodes) 3 3)
      = Some (root, queue') /\
    is_queue queue' /\
    3%nat = S (queue_size queue') /\
    queued (Build_fogsaa_queue (rev example_nodes) 3 3) ≡ₚ root :: queued queue' /\
    forall node, In node (queued (Build_fogsaa_queue (rev example_nodes) 3 3)) ->
      higher_priority node root = false.
Proof.
  exact (fogsaa_queue_pop_highest (Build_fogsaa_queue (rev example_nodes) 3 3)
           ltac:(repeat split) ltac:(simpl; lia) ltac:(reflexivity)).
Defined.

(** X18. The queue gives the nodes back best first. Nodes whose bounds are
    not NaN, inserted one after the other into the empty queue with which
    the search starts (no block, capacity 0), and then popped as many
    times, come out as the same nodes, each one once, in an order in which
    no node has a higher priority than one that came out before it; no
    call leaves the block. *)
Theorem fogsaa_queue_best_first (nodes : list fogsaa_queue_node) :
  forallb has_bounds nodes = true ->
  fits_in_int (2 * length nodes + 2) = true ->
  exists queue roots,
    insert_all nodes fogsaa_queue_init = Some queue /\
    pop_all (length nodes) queue = Some roots /\
    roots ≡ₚ nodes /\ best_first roots.
Proof.
  intros Hb Hint.
  destruct (insert_all_queue nodes fogsaa_queue_init is_queue_init Hb)
    as (queue & Hrun & Hq & Hs & Hp).
  { exact Hint. }
  cbn in Hs.
  destruct (pop_all_queue (length nodes) queue Hq Hs) as (roots & Hpop & Hp' & Hbest).
  { eapply fits_in_int_le; [|exact Hint]. lia. }
  exists queue, roots. repeat split; auto.
  rewrite Hp', Hp. cbn [queued fogsaa_queue_init queue_size queue_array take].
  rewrite app_nil_r. reflexivity.
Qed.

Lemma fogsaa_queue_best_first_witness :
  exists queue roots,
    insert_all example_nodes fogsaa_queue_init = Some queue /\
    pop_all (length example_nodes) queue = Some roots /\
    roots ≡ₚ example_nodes /\ best_first roots.
Proof.
  exact (fogsaa_queue_best_first example_nodes ltac:(reflexivity) ltac:(reflexivity)).
Defined.

Local Close Scope nat_scope.

Local Open Scope Z_scope.

(** ** The bounds of the substitution matrix *)

Lemma fgt_trans (a b c : double) :
  fgt a b = true -> fgt b c = true -> fgt a c = true.
Proof.
  rewrite !fgt_above. unfold above.
  destruct (rank (Prim2SF a)), (rank (Prim2SF b)), (rank (Prim2SF c)); try tauto.
  intros H1 H2. eapply lex_lt_trans; eassumption.
Qed.

Lemma fgt_irrefl (a : double) : fgt a a = false.
Proof.
  destruct (fgt a a) eqn:E; [|reflexivity].
  apply fgt_above in E. unfold above in E.
  destruct (rank (Prim2SF a)); [|contradiction].
  exfalso. eapply lex_lt_irrefl, E.
Qed.

Lemma flt_fgt (a b : double) : flt a b = fgt b a.
Proof. reflexivity. Qed.

(** X19. The scan of the substitution matrix finds its extremes. For a
    matrix of at least one row, the [match] and [mismatch] that the FOGSAA
    entry points compute are entries of the matrix, no entry compares
    above [match] and none below [mismatch], and [mismatch] does not
    compare above [match]: in a matrix without NaN they are its largest
    and its smallest entry. When the first entry is NaN both stay that
    NaN, whatever the other entries are. *)
Theorem fogsaa_matrix_bounds_extremes (substitution_matrix : Z -> double) (n : Z) :
  1 <= n ->
  let '(match_, mismatch) := fogsaa_matrix_bounds substitution_matrix n in
  (exists i, 0 <= i < n * n /\ match_ = substitution_matrix i) /\
  (exists j, 0 <= j < n * n /\ mismatch = substitution_matrix j) /\
  (forall i, 0 <= i < n * n ->
     fgt (substitution_matrix i) match_ = false /\
     flt (substitution_matrix i) mismatch = false) /\
  fgt mismatch match_ = false /\
  (feqb (substitution_matrix 0) (substitution_matrix 0) = false ->
   match_ = substitution_matrix 0 /\ mismatch = substitution_matrix 0).
Proof.
  intros Hn. unfold fogsaa_matrix_bounds, for_range. rewrite Nat.sub_0_r.
  set (m := substitution_matrix).
  set (body := fun (i : nat) '(match_, mismatch) =>
                 if fgt (m (Z.of_nat i)) match_ then (m (Z.of_nat i), mismatch)
                 else if flt (m (Z.of_nat i)) mismatch then (match_, m (Z.of_nat i))
                 else (match_, mismatch)).
  pose (P := fun (k : nat) (s : double * double) =>
    let '(ma, mi) := s in
    (exists i, 0 <= i < n * n /\ ma = m i) /\
    (exists j, 0 <= j < n * n /\ mi = m j) /\
    (forall i, 0 <= i < Z.of_nat k ->
       fgt (m i) ma = false /\ flt (m i) mi = false) /\
    fgt mi ma = false /\
    (feqb (m 0) (m 0) = false -> ma = m 0 /\ mi = m 0)).
  assert (H : P (0 + Z.to_nat (n * n))%nat
                (for_loop (Z.to_nat (n * n)) 0 body (m 0, m 0))).
  { apply for_loop_invariant.
    - unfold P. repeat split; try (exists 0; split; [nia|reflexivity]).
      + lia.
      + lia.
      + apply fgt_irrefl.
    - intros k [ma mi] Hk (Hma & Hmi & Hall & Hord & Hnan). unfold P, body.
      set (x := m (Z.of_nat k)).
      assert (Hx : exists i, 0 <= i < n * n /\ x = m i)
        by (exists (Z.of_nat k); split; [lia|reflexivity]).
      assert (Hxx : feqb (m 0) (m 0) = false -> fgt x ma = false /\ flt x mi = false).
      { intros N. destruct (Hnan N) as [-> ->]. unfold flt, fgt, feqb in *.
        rewrite !FloatAxioms.ltb_spec. rewrite FloatAxioms.eqb_spec in N.
        destruct (Prim2SF (m 0)) as [s|s| |s mx ex]; try destruct s;
          try discriminate N; try (destruct (Prim2SF x); split; reflexivity).
        all: exfalso; revert N; unfold SFeqb, SFcompare;
          rewrite Z.compare_refl, ?Pos.compare_cont_refl, ?Pos.compare_refl;
          simpl; try discriminate.
        all: fold (Pos.compare mx mx); rewrite Pos.compare_refl; discriminate. }
      destruct (fgt x ma) eqn:E1; [|destruct (flt x mi) eqn:E2].
      + split; [exact Hx|]. split; [exact Hmi|]. split; [|split].
        * intros i Hi. destruct (Z.eq_dec i (Z.of_nat k)) as [->|Hne].
          -- fold x. split; [apply fgt_irrefl|].
             rewrite flt_fgt. destruct (fgt mi x) eqn:E; [|reflexivity].
             rewrite (fgt_trans mi x ma E E1) in Hord. discriminate.
          -- destruct (Hall i ltac:(lia)) as [H1 H2]. split; [|exact H2].
             destruct (fgt (m i) x) eqn:E; [|reflexivity].
             rewrite (fgt_trans (m i) x ma E E1) in H1. discriminate.
        * destruct (fgt mi x) eqn:E; [|reflexivity].
          rewrite (fgt_trans mi x ma E E1) in Hord. discriminate.
        * intros N. destruct (Hxx N). congruence.
      + split; [exact Hma|]. split; [exact Hx|]. split; [|split].
        * intros i Hi. destruct (Z.eq_dec i (Z.of_nat k)) as [->|Hne].
          -- fold x. split; [exact E1|]. rewrite flt_fgt. apply fgt_irrefl.
          -- destruct (Hall i ltac:(lia)) as [H1 H2]. split; [exact H1|].
             rewrite flt_fgt in *. destruct (fgt x (m i)) eqn:E; [|reflexivity].
             rewrite (fgt_trans mi x (m i) E2 E) in H2. discriminate.
        * exact E1.
        * intros N. destruct (Hxx N). congruence.
      + split; [exact Hma|]. split; [exact Hmi|]. split; [|split; assumption].
        intros i Hi. destruct (Z.eq_dec i (Z.of_nat k)) as [->|Hne].
        * fold x. split; assumption.
        * apply Hall. lia. }
  destruct (for_loop (Z.to_nat (n * n)) 0 body (m 0, m 0)) as [ma mi].
  destruct H as (Hma & Hmi & Hall & Hord & Hnan).
  split; [exact Hma|]. split; [exact Hmi|].
  split; [intros i Hi; apply Hall; lia|]. split; assumption.
Qed.

Lemma fogsaa_matrix_bounds_extremes_witness :
  let '(match_, mismatch) := fogsaa_matrix_bounds (dbuf matrix_2x2) 2 in
  (exists i, 0 <= i < 2 * 2 /\ match_ = dbuf matrix_2x2 i) /\
  (exists j, 0 <= j < 2 * 2 /\ mismatch = dbuf matrix_2x2 j) /\
  (forall i, 0 <= i < 2 * 2 ->
     fgt (dbuf matrix_2x2 i) match_ = false /\
     flt (dbuf matrix_2x2 i) mismatch = false) /\
  fgt mismatch match_ = false /\
  (feqb (dbuf matrix_2x2 0) (dbuf matrix_2x2 0) = false ->
   match_ = dbuf matrix_2x2 0 /\ mismatch = dbuf matrix_2x2 0).
Proof.
  exact (fogsaa_matrix_bounds_extremes (dbuf matrix_2x2) 2 ltac:(lia)).
Defined.

Local Close Scope Z_scope.

(** ** The children of a FOGSAA node *)

Local Open Scope nat_scope.

Lemma lower_child_priority (l u l' u' : double) :
  lower_child l u l' u' =
  higher_priority (Build_fogsaa_queue_node 0 0 0 0 u' l')
                  (Build_fogsaa_queue_node 0 0 0 0 u l).
Proof.
  unfold lower_child, higher_priority. cbn [next_upper next_lower].
  rewrite (feqb_sym l' l). reflexivity.
Qed.

Lemma lower_child_asym (l u l' u' : double) :
  no_nan l = true -> no_nan u = true -> no_nan l' = true -> no_nan u' = true ->
  lower_child l u l' u' = true -> lower_child l' u' l u = false.
Proof.
  unfold no_nan. intros Hl Hu Hl' Hu'. rewrite !lower_child_priority.
  apply higher_priority_asym; unfold has_bounds; cbn [next_upper next_lower];
    apply andb_true_iff; auto.
Qed.

Lemma lower_child_trans (l1 u1 l2 u2 l3 u3 : double) :
  no_nan l1 = true -> no_nan u1 = true -> no_nan l2 = true -> no_nan u2 = true ->
  no_nan l3 = true -> no_nan u3 = true ->
  lower_child l1 u1 l2 u2 = false -> lower_child l2 u2 l3 u3 = false ->
  lower_child l1 u1 l3 u3 = false.
Proof.
  unfold no_nan. intros H1 H1' H2 H2' H3 H3'. rewrite !lower_child_priority.
  intros Ha Hb.
  eapply (higher_priority_trans _ (Build_fogsaa_queue_node 0 0 0 0 u2 l2));
    try (unfold has_bounds; cbn [next_upper next_lower]; apply andb_true_iff; auto);
    assumption.
Qed.

Lemma three_Permutation {A : Type} (a b c : A) :
  [b; a; c] ≡ₚ [a; b; c] /\ [a; c; b] ≡ₚ [a; b; c] /\ [b; c; a] ≡ₚ [a; b; c] /\
  [c; a; b] ≡ₚ [a; b; c] /\ [c; b; a] ≡ₚ [a; b; c].
Proof.
  assert (H1 : [b; a; c] ≡ₚ [a; b; c]) by apply perm_swap.
  assert (H2 : [a; c; b] ≡ₚ [a; b; c]) by apply perm_skip, perm_swap.
  repeat split; auto.
  - etransitivity; [apply perm_skip, perm_swap|exact H1].
  - etransitivity; [apply perm_swap|exact H2].
  - etransitivity; [apply perm_swap|].
    etransitivity; [apply perm_skip, perm_swap|]. apply perm_swap.
Qed.

(** X20. [FOGSAA_SORT] puts the best child first. On three children whose
    bounds are not NaN it leaves the same three children, each with its
    own type and bounds, in an order in which no child has a smaller
    lower bound than a later one, nor the same lower bound and a smaller
    upper bound. *)
Theorem FOGSAA_SORT_sorted (child_lbounds : list double) (child_types : list Z)
    (child_ubounds : list double) :
  length child_lbounds = 3 -> length child_types = 3 -> length child_ubounds = 3 ->
  forallb no_nan child_lbounds = true -> forallb no_nan child_ubounds = true ->
  let '(lbounds, types, ubounds) :=
    FOGSAA_SORT child_lbounds child_types child_ubounds in
  children lbounds types ubounds ≡ₚ children child_lbounds child_types child_ubounds /\
  forall j k, j < k < 3 ->
    lower_child (lbounds !!! j) (ubounds !!! j) (lbounds !!! k) (ubounds !!! k) = false.
Proof.
  intros Hl Ht Hu Hnl Hnu.
  destruct child_lbounds as [|l0 [|l1 [|l2 [|]]]]; try discriminate Hl.
  destruct child_types as [|t0 [|t1 [|t2 [|]]]]; try discriminate Ht.
  destruct child_ubounds as [|u0 [|u1 [|u2 [|]]]]; try discriminate Hu.
  cbn [forallb] in Hnl, Hnu. rewrite !andb_true_iff in Hnl, Hnu.
  destruct Hnl as (Nl0 & Nl1 & Nl2 & _), Hnu as (Nu0 & Nu1 & Nu2 & _).
  destruct (three_Permutation (l0, t0, u0) (l1, t1, u1) (l2, t2, u2))
    as (P1 & P2 & P3 & P4 & P5).
  assert (Hpairs : forall (P : nat -> nat -> Prop),
            P 0 1 -> P 1 2 -> P 0 2 -> forall j k, j < k < 3 -> P j k).
  { intros P H01 H12 H02 j k Hjk.
    assert (C : (j = 0 /\ k = 1) \/ (j = 1 /\ k = 2) \/ (j = 0 /\ k = 2)) by lia.
    destruct C as [[-> ->]|[[-> ->]|[-> ->]]]; assumption. }
  unfold FOGSAA_SORT, for_range, children. cbn [Nat.sub for_loop].
  unfold swap_next. cbn.
  destruct (lower_child l0 u0 l1 u1) eqn:E01; cbn;
    [destruct (lower_child l0 u0 l2 u2) eqn:E02
    |destruct (lower_child l1 u1 l2 u2) eqn:E12]; cbn.
  - destruct (lower_child l1 u1 l2 u2) eqn:E12; cbn.
    + split; [exact P5|].
      apply (Hpairs (fun j k => lower_child _ _ _ _ = false)); cbn;
        eauto 6 using lower_child_asym, lower_child_trans.
    + split; [exact P3|].
      apply (Hpairs (fun j k => lower_child _ _ _ _ = false)); cbn;
        eauto 6 using lower_child_asym, lower_child_trans.
  - destruct (lower_child l1 u1 l0 u0) eqn:E10; cbn.
    + rewrite (lower_child_asym l0 u0 l1 u1) in E10 by assumption. discriminate.
    + split; [exact P1|].
      apply (Hpairs (fun j k => lower_child _ _ _ _ = false)); cbn;
        eauto 6 using lower_child_asym, lower_child_trans.
  - destruct (lower_child l0 u0 l2 u2) eqn:E02; cbn.
    + split; [exact P4|].
      apply (Hpairs (fun j k => lower_child _ _ _ _ = false)); cbn;
        eauto 6 using lower_child_asym, lower_child_trans.
    + split; [exact P2|].
      apply (Hpairs (fun j k => lower_child _ _ _ _ = false)); cbn;
        eauto 6 using lower_child_asym, lower_child_trans.
  - rewrite E01. cbn. split; [reflexivity|].
    apply (Hpairs (fun j k => lower_child _ _ _ _ = false)); cbn;
      eauto 6 using lower_child_asym, lower_child_trans.
Qed.

Lemma FOGSAA_SORT_sorted_witness :
  let '(lbounds, types, ubounds) :=
    FOGSAA_SORT example_lbounds example_types example_ubounds in
  children lbounds types ubounds ≡ₚ
    children example_lbounds example_types example_ubounds /\
  forall j k, j < k < 3 ->
    lower_child (lbounds !!! j) (ubounds !!! j) (lbounds !!! k) (ubounds !!! k) = false.
Proof.
  exact (FOGSAA_SORT_sorted example_lbounds example_types example_ubounds
           ltac:(reflexivity) ltac:(reflexivity) ltac:(reflexivity)
           ltac:(reflexivity) ltac:(reflexivity)).
Defined.

Local Close Scope nat_scope.
